(** * Book Quest: structure detection, chapter analysis and plan editing

    A shallow embedding of the PDF pipeline of the repository
    ([lib/pdf/detectStructure.ts], [lib/pdf/analyzeBook.ts]) and of
    [editCoursePlan] of the course agent, with the properties the
    specification states about them; further, of [lib/pdf/extractText.ts],
    of the question and plan functions of the course agent, of the handlers
    of the agent route and of the upload route, and of the onboarding
    agent, with properties read off the code.

    Conventions of the embedding.
    - JavaScript strings are [string]s of ASCII characters; the regular
      expressions the code writes out ([\s+], [[^a-z0-9\s]], the keyword
      alternation of the edit flow) are modelled by the functions below on
      that alphabet.
    - Page numbers and counts are [Z].  This includes the page numbers the
      language model answers with ([pageNumber] of a sampled boundary,
      [startPage] and [endPage] of a discovered chapter): their schema,
      [z.number()], admits fractions, the embedding covers the whole
      numbers the prompts ask for.  A reading time returned by the model is
      any number ([Q]).
    - Where the code divides and multiplies before it rounds (the reading
      minutes of a discovered chapter), the arithmetic is that of the
      doubles of IEEE 754, as [SpecFloat] defines it.
    - An [async] function is a computation in the monad [M]: it may throw,
      and every [generateObject] call is appended to a request log.  (The
      calls of the question and plan functions and of the onboarding agent
      are the exception: they go through [generateUnlogged].)
    - Everything outside the repository (the PDF parser, the language model,
      the regular-expression compiler, the state documents, the environment
      variables) is a field of [Env]; what the later parts need beside it
      is a field of [CourseModels], [CourseFiles], [UploadStore] or
      [Onboarding.Env], or an argument (the text content of a page). *)

From Stdlib Require Import ZArith QArith Qround Qminmax String Ascii List Lia Bool
  DecimalString Permutation Sorted ZifyNat SpecFloat.
From stdpp Require Import base list strings.
Import ListNotations.

Local Open Scope string_scope.
Local Open Scope list_scope.
Local Open Scope Z_scope.

(* ------------------------------------------------------------------ *)
(** ** JavaScript strings and arrays *)

Module Js.

Definition codeIn (lo hi : nat) (c : ascii) : bool :=
  (lo <=? nat_of_ascii c)%nat && (nat_of_ascii c <=? hi)%nat.

(** [\s] on ASCII: tab, line feed, vertical tab, form feed, carriage
    return and space. *)
Definition isSpace (c : ascii) : bool :=
  codeIn 9 13 c || (nat_of_ascii c =? 32)%nat.

Definition isLowerAlnum (c : ascii) : bool :=
  codeIn 97 122 c || codeIn 48 57 c.

Definition lowerChar (c : ascii) : ascii :=
  if codeIn 65 90 c then ascii_of_nat (nat_of_ascii c + 32) else c.

Fixpoint mapChars (f : ascii -> ascii) (s : string) : string :=
  match s with
  | EmptyString => EmptyString
  | String c r => String (f c) (mapChars f r)
  end.

Fixpoint filterChars (p : ascii -> bool) (s : string) : string :=
  match s with
  | EmptyString => EmptyString
  | String c r => if p c then String c (filterChars p r) else filterChars p r
  end.

(** [s.toLowerCase()] *)
Definition toLowerCase (s : string) : string := mapChars lowerChar s.

(** [s.replace(/[^a-z0-9\s]/g, empty)]: the characters other than lower-case
    letters, digits and white space are removed. *)
Definition stripNonAlnum (s : string) : string :=
  filterChars (fun c => isLowerAlnum c || isSpace c) s.

Fixpoint trimStart (s : string) : string :=
  match s with
  | EmptyString => EmptyString
  | String c r => if isSpace c then trimStart r else s
  end.

(** [trimEnd] keeps a character when it is not a space or when something
    that is kept follows it. *)
Fixpoint trimEnd (s : string) : string :=
  match s with
  | EmptyString => EmptyString
  | String c r =>
      match trimEnd r with
      | EmptyString => if isSpace c then EmptyString else String c EmptyString
      | r' => String c r'
      end
  end.

(** [s.trim()] *)
Definition trim (s : string) : string := trimEnd (trimStart s).

(** [s.length] *)
Definition strlen (s : string) : Z := Z.of_nat (String.length s).

(** [hay.includes(needle)] *)
Fixpoint includes (hay needle : string) : bool :=
  String.prefix needle hay
  || match hay with
     | EmptyString => false
     | String _ r => includes r needle
     end.

(** [s.slice(0, n)] for a literal [n >= 0]. *)
Definition sliceTo (n : Z) (s : string) : string :=
  String.substring 0 (Z.to_nat n) s.

(** [s.split(/\s+/)]: the pieces between maximal runs of white space.
    [cur] is the piece being read, [inSep] tells that the last character
    read was white space. *)
Fixpoint splitWsFrom (cur : string) (inSep : bool) (s : string) : list string :=
  match s with
  | EmptyString => [cur]
  | String c r =>
      if isSpace c
      then (if inSep then splitWsFrom cur true r
            else cur :: splitWsFrom EmptyString true r)
      else splitWsFrom (cur +:+ String c EmptyString) false r
  end.

Definition splitWs (s : string) : list string := splitWsFrom EmptyString false s.

(** [arr.join(sep)] *)
Definition join (sep : string) (l : list string) : string := String.concat sep l.

(** [arr.length] *)
Definition len {A} (l : list A) : Z := Z.of_nat (length l).

(** [arr.slice(start, end)], with JavaScript's treatment of negative and
    out-of-range bounds. *)
Definition clampIndex (n i : Z) : Z :=
  if i <? 0 then Z.max (n + i) 0 else Z.min i n.

Definition slice {A} (start stop : Z) (l : list A) : list A :=
  let k := clampIndex (len l) start in
  let e := clampIndex (len l) stop in
  take (Z.to_nat (e - k)) (drop (Z.to_nat k) l).

(** [arr.slice(start)] *)
Definition sliceFrom {A} (start : Z) (l : list A) : list A :=
  slice start (len l) l.

(** Decimal rendering of a number in a template literal. *)
Definition show (z : Z) : string := NilZero.string_of_int (Z.to_int z).

(** [Math.round] on an exact quotient: nearest integer, ties upwards. *)
Definition round (q : Q) : Z := Qfloor (q + (1 # 2)).

(** The numbers of JavaScript are the doubles of IEEE 754 (binary64):
    53 bits of precision, exponents below 1024.  Where the code divides
    and multiplies before it rounds, every operation rounds its exact
    result to the nearest double, ties to even. *)
Definition prec : Z := 53.
Definition emax : Z := 1024.

(** A whole number as a double: itself up to [2^53], the nearest double
    beyond. *)
Definition ofZ (z : Z) : spec_float := binary_normalize prec emax z 0 false.

Definition fadd (x y : spec_float) : spec_float := SFadd prec emax x y.
Definition fsub (x y : spec_float) : spec_float := SFsub prec emax x y.
Definition fmul (x y : spec_float) : spec_float := SFmul prec emax x y.
Definition fdiv (x y : spec_float) : spec_float := SFdiv prec emax x y.

(** [Math.round] on a double: [floor(x + 1/2)], computed exactly.  A
    double with a non-negative exponent is a whole number already.  On an
    infinity and on [NaN], which [Math.round] returns as they are, the
    result here is 0: the embedding has no whole number for them. *)
Definition mathRound (x : spec_float) : Z :=
  match x with
  | S754_finite s m e =>
      let n := if s then Z.neg m else Z.pos m in
      if 0 <=? e then n * 2 ^ e
      else (2 * n + 2 ^ (- e)) / 2 ^ (- e + 1)
  | _ => 0
  end.

(** A stable sort by an integer key: [arr.sort((a, b) => key(a) - key(b))]. *)
Section Sort.
Context {A : Type} (key : A -> Z).

Fixpoint insertBy (x : A) (l : list A) : list A :=
  match l with
  | [] => [x]
  | y :: r => if key x <=? key y then x :: y :: r else y :: insertBy x r
  end.

Definition sortBy (l : list A) : list A := foldr insertBy [] l.
End Sort.

End Js.

(* ------------------------------------------------------------------ *)
(** ** Data model *)

(** [ChapterBoundary]: a 0-based inclusive page range. *)
Module ChapterBoundary.
Record t := mk { title : string; startPage : Z; endPage : Z }.
End ChapterBoundary.

Inductive DetectionMethod := pdf_links | title_match | llm_detection | fixed_chunks.

Module BookStructure.
Record t := mk {
  title : string;
  author : option string;
  chapters : list ChapterBoundary.t;
  detectionMethod : DetectionMethod
}.
End BookStructure.

(** The fields [analyzeChapter] returns
    ([Omit<ChapterAnalysis, "chapterNumber" | "title" | "startPage" | "endPage">]). *)
Module AnalysisFields.
Record t := mk {
  summary : string;
  keyConcepts : list string;
  learningObjectives : list string;
  prerequisites : list string;
  estimatedReadingMinutes : Q
}.
End AnalysisFields.

Module ChapterAnalysis.
Record t := mk {
  chapterNumber : Z;
  title : string;
  startPage : Z;
  endPage : Z;
  summary : string;
  keyConcepts : list string;
  learningObjectives : list string;
  prerequisites : list string;
  estimatedReadingMinutes : Q
}.
End ChapterAnalysis.

Module BookAnalysis.
Record t := mk {
  title : string;
  author : option string;
  totalPages : Z;
  chapters : list ChapterAnalysis.t;
  detectionMethod : DetectionMethod
}.
End BookAnalysis.

Module PlanUnit.
Record t := mk {
  unitNumber : Z;
  title : string;
  summary : string;
  objectives : list string;
  sourceChapters : list Z;
  estimatedMinutes : Q
}.
End PlanUnit.

Module CoursePlan.
Record t := mk {
  title : string;
  description : string;
  estimatedHours : Q;
  units : list PlanUnit.t
}.
End CoursePlan.

(** *** What the language model returns, one record per schema *)

Module TocObject.
Record t := mk { bookTitle : string; author : option string; chapterTitles : list string }.
End TocObject.

(** A boundary the model found on the sampled pages.  [pageNumber] is
    [z.number().describe("1-based page number")]: a whole number here. *)
Module SampledBoundary.
Record t := mk { title : string; pageNumber : Z }.
End SampledBoundary.

Module SamplingObject.
Record t := mk { pattern : string; boundaries : list SampledBoundary.t }.
End SamplingObject.

Module MetadataObject.
Record t := mk { title : string; author : option string }.
End MetadataObject.

(** A chapter the model found in the uncovered pages.  [startPage] and
    [endPage] are [z.number().describe("0-indexed start page")] and the
    like: whole numbers here. *)
Module DiscoveredChapter.
Record t := mk {
  title : string;
  summary : string;
  keyConcepts : list string;
  learningObjectives : list string;
  startPage : Z;
  endPage : Z
}.
End DiscoveredChapter.

Module EditedPlan.
Record t := mk {
  title : string;
  description : string;
  estimatedHours : Q;
  units : list PlanUnit.t;
  explanation : string
}.
End EditedPlan.

(** *** The PDF document as [unpdf] presents it *)

(** [annot.dest]: absent, a named destination, or an array whose first
    element is a number or something else (a page reference object). *)
Inductive Dest :=
| DestAbsent
| DestNamed (name : string)
| DestArray (first : option Z).

Module Annotation.
Record t := mk {
  subtype : string;
  dest : Dest;
  contentsObj_str : option string;
  title : option string
}.
End Annotation.

Definition Buffer := list Byte.byte.

(* ------------------------------------------------------------------ *)
(** ** Effects: exceptions and the log of generation requests *)

Inductive Result (A : Type) : Type :=
| Ok (a : A)
| Throw (e : string).
Arguments Ok {A} a.
Arguments Throw {A} e.

Module PdfPage.
Record t := mk { getAnnotations : Result (list Annotation.t) }.
End PdfPage.

Module PdfDocument.
Record t := mk { numPages : Z; getPage : Z -> Result PdfPage.t }.
End PdfDocument.

(** The documents of the learner an edit reads. *)
Module StateDocs.
Record t := mk { profile : string; preferences : string }.
End StateDocs.

(** One constructor per [generateObject] call site, carrying what the call
    site interpolates into its prompts. *)
Inductive Request :=
| ReqToc (tocText : string)
| ReqSampling (totalPages : Z) (sampledText : string)
| ReqMetadata (firstPages : string)
| ReqChapter (chapterNumber : Z) (title contextBlock truncatedText : string)
| ReqDiscovery (totalPages lastDetectedPage : Z) (uncoveredText : string)
| ReqMerge (docs : StateDocs.t) (userInstruction : string)
    (currentPlan : CoursePlan.t) (discovered : list DiscoveredChapter.t)
| ReqEdit (docs : StateDocs.t) (userInstruction : string)
    (currentPlan : CoursePlan.t) (bookSummary : string).

Definition M (A : Type) : Type := list Request -> Result A * list Request.

Definition ret {A} (a : A) : M A := fun log => (Ok a, log).

Definition throw {A} (e : string) : M A := fun log => (Throw e, log).

Definition bind {A B} (m : M A) (k : A -> M B) : M B :=
  fun log =>
    match m log with
    | (Ok a, log') => k a log'
    | (Throw e, log') => (Throw e, log')
    end.

(** [try { m } catch { h }] *)
Definition tryCatch {A} (m : M A) (h : M A) : M A :=
  fun log =>
    match m log with
    | (Ok a, log') => (Ok a, log')
    | (Throw _, log') => h log'
    end.

(** An awaited call of a collaborator that is not a generation call. *)
Definition await {A} (r : Result A) : M A := fun log => (r, log).

(** [await generateObject(...)]: the request is logged, the answer (or the
    error) is the oracle's. *)
Definition generateObject {A} (oracle : Request -> Result A) (req : Request) : M A :=
  fun log => (oracle req, log ++ [req]).

Notation "x <- m ;; k" := (bind m (fun x => k))
  (at level 100, m at next level, right associativity).

(** Everything outside the repository. *)
Record Env := mkEnv {
  (** [Boolean(process.env.OPENAI_API_KEY || process.env.ANTHROPIC_API_KEY)] *)
  hasApiKey : bool;
  getDocumentProxy : Buffer -> Result PdfDocument.t;
  (** [new RegExp(pattern, "i")]: [None] when the constructor throws,
      otherwise the function from a page to [match[0]], if any. *)
  newRegExp : string -> option (string -> option string);
  genToc : Request -> Result TocObject.t;
  genSampling : Request -> Result SamplingObject.t;
  genMetadata : Request -> Result MetadataObject.t;
  genChapter : Request -> Result AnalysisFields.t;
  genDiscovery : Request -> Result (list DiscoveredChapter.t);
  genPlan : Request -> Result EditedPlan.t;
  loadUserStateDocs : string -> Result StateDocs.t;
  (** The instant at which the analysis of the chapter at an index
      settles, relative to the others of its batch. *)
  completionTime : nat -> nat
}.

(* ------------------------------------------------------------------ *)
(** ** [lib/pdf/detectStructure.ts] *)

Module Link.
Record t := mk { text : string; destPage : Z }.
End Link.

Module TitleResult.
Record t := mk {
  chapters : list ChapterBoundary.t;
  title : string;
  author : option string
}.
End TitleResult.

(** A line feed and a double quote, as one-character strings. *)
Definition nl : string := String "010" EmptyString.
Definition dquote : string := String "034" EmptyString.

(** A string is truthy when it is not empty. *)
Definition truthy (x : string) : bool := negb (String.eqb x EmptyString).

(** [x || fallback] on strings. *)
Definition orElse (x fallback : string) : string :=
  if truthy x then x else fallback.

(** The shape all three detecting tiers give their result: each chapter
    ends one page before the next one starts, the last one at [lastEnd]
    ([i < n - 1 ? next.start - 1 : lastEnd]). *)
Fixpoint fillEndPages (lastEnd : Z) (starts : list (string * Z)) : list ChapterBoundary.t :=
  match starts with
  | [] => []
  | (title, start) :: rest =>
      ChapterBoundary.mk title start
        (match rest with
         | [] => lastEnd
         | (_, next) :: _ => next - 1
         end)
      :: fillEndPages lastEnd rest
  end.

Section DetectStructure.
Context (env : Env).

(** *** Tier 1: link annotations *)

(** The body of the loop over the annotations of a page: the link it
    pushes, if any. *)
Definition linkOfAnnotation (annot : Annotation.t) : option Link.t :=
  if String.eqb (Annotation.subtype annot) "Link" then
    match Annotation.dest annot with
    | DestArray (Some destPage) =>
        let text :=
          match Annotation.contentsObj_str annot with
          | Some s => s
          | None => match Annotation.title annot with
                    | Some s => s
                    | None => EmptyString
                    end
          end in
        if truthy (Js.trim text) && (0 <=? destPage)
        then Some (Link.mk (Js.trim text) destPage)
        else None
    | _ => None
    end
  else None.

Definition pageLinks (pdf : PdfDocument.t) (i : Z) : M (list Link.t) :=
  page <- await (PdfDocument.getPage pdf i) ;;
  annotations <- await (PdfPage.getAnnotations page) ;;
  ret (omap linkOfAnnotation annotations).

Fixpoint collectLinks (pdf : PdfDocument.t) (nums : list Z) (links : list Link.t)
  : M (list Link.t) :=
  match nums with
  | [] => ret links
  | i :: rest => found <- pageLinks pdf i ;; collectLinks pdf rest (links ++ found)
  end.

(** [1, ..., n] *)
Definition pageNumbers (n : Z) : list Z := map Z.of_nat (seq 1 (Z.to_nat n)).

(** Keep the first link of each destination page. *)
Fixpoint dedupByDest (seen : list Z) (links : list Link.t) : list Link.t :=
  match links with
  | [] => []
  | link :: rest =>
      if existsb (Z.eqb (Link.destPage link)) seen
      then dedupByDest seen rest
      else link :: dedupByDest (Link.destPage link :: seen) rest
  end.

Definition detectFromPdfLinks (buffer : Buffer) : M (option (list ChapterBoundary.t)) :=
  tryCatch
    (pdf <- await (getDocumentProxy env buffer) ;;
     let tocPages := Z.min 15 (PdfDocument.numPages pdf) in
     links <- collectLinks pdf (pageNumbers tocPages) [] ;;
     if Js.len links <? 3 then ret None
     else
       let sorted := Js.sortBy Link.destPage links in
       let unique := dedupByDest [] sorted in
       if Js.len unique <? 3 then ret None
       else
         let totalPages := PdfDocument.numPages pdf in
         ret (Some (fillEndPages (totalPages - 1)
                      (map (fun link => (Link.text link, Link.destPage link)) unique))))
    (ret None).

(** *** Tier 2: titles of the table of contents, matched against pages *)

Definition pageBreak : string := nl +:+ "---PAGE BREAK---" +:+ nl.

(** The normalisation of a title and of a page: lower case, then
    [stripNonAlnum]. *)
Definition normalize (s : string) : string := Js.stripNonAlnum (Js.toLowerCase s).

(** The inner loop over the pages, from page [p] on: the first page whose
    normalised text contains the normalised title. *)
Fixpoint findTitlePage (normalizedTitle : string) (p : Z) (pages : list string)
  : option Z :=
  match pages with
  | [] => None
  | page :: rest =>
      if Js.includes (normalize page) normalizedTitle
         && (5 <? Js.strlen normalizedTitle)
      then Some p
      else findTitlePage normalizedTitle (p + 1) rest
  end.

(** The outer loop over the titles. *)
Fixpoint scanTitles (titles pages : list string) (chapters : list ChapterBoundary.t)
  : list ChapterBoundary.t :=
  match titles with
  | [] => chapters
  | title :: rest =>
      match findTitlePage (normalize title) 0 pages with
      | Some p => scanTitles rest pages (chapters ++ [ChapterBoundary.mk title p p])
      | None => scanTitles rest pages chapters
      end
  end.

Definition detectFromTitleMatching (pages : list string) (hasApiKey : bool)
  : M (option TitleResult.t) :=
  if negb hasApiKey then ret None
  else
    let tocText := Js.join pageBreak (Js.slice 0 (Z.min 15 (Js.len pages)) pages) in
    if Js.strlen (Js.trim tocText) <? 100 then ret None
    else
      tryCatch
        (toc <- generateObject (genToc env) (ReqToc tocText) ;;
         if Js.len (TocObject.chapterTitles toc) <? 2 then ret None
         else
           let chapters := scanTitles (TocObject.chapterTitles toc) pages [] in
           if Js.len chapters <? 2 then ret None
           else
             let sorted := Js.sortBy ChapterBoundary.startPage chapters in
             ret (Some (TitleResult.mk
                          (fillEndPages (Js.len pages - 1)
                             (map (fun c => (ChapterBoundary.title c,
                                             ChapterBoundary.startPage c)) sorted))
                          (orElse (TocObject.bookTitle toc) "Untitled")
                          (TocObject.author toc))))
        (ret None).

(** *** Tier 3: boundaries found by the model on sampled pages *)

(** [for (let i = 0; i < len; i += step)], with [fuel] iterations at most. *)
Fixpoint sampleIndicesFrom (fuel : nat) (i step len : Z) : list Z :=
  match fuel with
  | O => []
  | S fuel' =>
      if i <? len then i :: sampleIndicesFrom fuel' (i + step) step len else []
  end.

Definition pageAt (pages : list string) (i : Z) : string :=
  default EmptyString (pages !! Z.to_nat i).

Definition sampledText (pages : list string) : string :=
  let step := Z.max 1 (Js.len pages / 30) in
  let sampleIndices := sampleIndicesFrom (length pages) 0 step (Js.len pages) in
  Js.join (nl +:+ nl)
    (map (fun i => "--- PAGE " +:+ Js.show (i + 1) +:+ " ---" +:+ nl
                   +:+ Js.sliceTo 500 (pageAt pages i))
       sampleIndices).

(** The scan of all pages with the compiled pattern, from page [p] on. *)
Fixpoint scanPattern (regex : string -> option string) (p : Z) (pages : list string)
  : list (string * Z) :=
  match pages with
  | [] => []
  | page :: rest =>
      match regex page with
      | Some match0 => (Js.sliceTo 100 (Js.trim match0), p) :: scanPattern regex (p + 1) rest
      | None => scanPattern regex (p + 1) rest
      end
  end.

(** The sampled boundaries as chapters: 1-based page numbers become
    0-based start pages, and [sorted[i + 1].pageNumber - 2] is the next
    start page minus one. *)
Definition sampledChapters (boundaries : list SampledBoundary.t) (pages : list string)
  : list ChapterBoundary.t :=
  let sorted := Js.sortBy SampledBoundary.pageNumber boundaries in
  fillEndPages (Js.len pages - 1)
    (map (fun b => (SampledBoundary.title b, SampledBoundary.pageNumber b - 1)) sorted).

Definition detectFromLlmSampling (pages : list string) (hasApiKey : bool)
  : M (option (list ChapterBoundary.t)) :=
  if negb hasApiKey then ret None
  else if Js.len pages <? 10 then ret None
  else
    tryCatch
      (result <- generateObject (genSampling env)
                   (ReqSampling (Js.len pages) (sampledText pages)) ;;
       if Js.len (SamplingObject.boundaries result) <? 2 then ret None
       else
         match newRegExp env (SamplingObject.pattern result) with
         | Some regex =>
             let found := scanPattern regex 0 pages in
             if 2 <=? Js.len found
             then ret (Some (fillEndPages (Js.len pages - 1) found))
             else ret (Some (sampledChapters (SamplingObject.boundaries result) pages))
         | None =>
             ret (Some (sampledChapters (SamplingObject.boundaries result) pages))
         end)
      (ret None).

(** *** Tier 4: fixed chunks *)

(** [for (let i = 0; i < pages.length; i += chunkSize)], with [fuel]
    iterations at most. *)
Fixpoint fixedChunksFrom (fuel : nat) (i len : Z) (chapters : list ChapterBoundary.t)
  : list ChapterBoundary.t :=
  match fuel with
  | O => chapters
  | S fuel' =>
      if i <? len then
        let num := Js.len chapters + 1 in
        fixedChunksFrom fuel' (i + 30) len
          (chapters ++ [ChapterBoundary.mk ("Section " +:+ Js.show num) i
                          (Z.min (i + 30 - 1) (len - 1))])
      else chapters
  end.

Definition fixedChunks (pages : list string) : list ChapterBoundary.t :=
  fixedChunksFrom (length pages) 0 (Js.len pages) [].

(** *** Title and author *)

Definition untitledBook : MetadataObject.t := MetadataObject.mk "Untitled Book" None.

Definition extractBookMetadata (pages : list string) (hasApiKey : bool)
  : M MetadataObject.t :=
  if negb hasApiKey then ret untitledBook
  else
    let firstPages := Js.join pageBreak (Js.slice 0 5 pages) in
    tryCatch
      (object <- generateObject (genMetadata env) (ReqMetadata firstPages) ;;
       ret (MetadataObject.mk (orElse (MetadataObject.title object) "Untitled Book")
              (MetadataObject.author object)))
      (ret untitledBook).

(** *** The entry point *)

Definition withMetadata (pages : list string) (hasApiKey : bool)
    (chapters : list ChapterBoundary.t) (method : DetectionMethod)
  : M BookStructure.t :=
  meta <- extractBookMetadata pages hasApiKey ;;
  ret (BookStructure.mk (MetadataObject.title meta) (MetadataObject.author meta)
         chapters method).

(** The tiers in order; each [let] names the rest of the function from
    the tier's comment on. *)
Definition detectBookStructure (buffer : Buffer) (pages : list string)
  : M BookStructure.t :=
  let hasApiKey := hasApiKey env in
  let tier4 := withMetadata pages hasApiKey (fixedChunks pages) fixed_chunks in
  let tier3 :=
    llmChapters <- detectFromLlmSampling pages hasApiKey ;;
    match llmChapters with
    | Some chapters =>
        if 2 <=? Js.len chapters
        then withMetadata pages hasApiKey chapters llm_detection
        else tier4
    | None => tier4
    end in
  let tier2 :=
    titleResult <- detectFromTitleMatching pages hasApiKey ;;
    match titleResult with
    | Some r =>
        if 2 <=? Js.len (TitleResult.chapters r)
        then ret (BookStructure.mk (TitleResult.title r) (TitleResult.author r)
                    (TitleResult.chapters r) title_match)
        else tier3
    | None => tier3
    end in
  linkChapters <- detectFromPdfLinks buffer ;;
  match linkChapters with
  | Some chapters =>
      if 3 <=? Js.len chapters
      then withMetadata pages hasApiKey chapters pdf_links
      else tier2
  | None => tier2
  end.

End DetectStructure.

(* ------------------------------------------------------------------ *)
(** ** [lib/pdf/analyzeBook.ts] *)

(** A promise created in a batch: the arguments [analyzeChapter] was
    called with and the way the promise settles. *)
Module Task.
Record t := mk {
  index : nat;
  chapter : ChapterBoundary.t;
  chapterText : string;
  previousContext : option string;
  outcome : Result AnalysisFields.t
}.
End Task.

(** Calling an [async] function without awaiting it: what it does up to its
    first suspension happens now, its result or error stays in the promise. *)
Definition spawn {A} (m : M A) : M (Result A) :=
  fun log => let (r, log') := m log in (Ok r, log').

Section AnalyzeBook.
Context (env : Env).

(** [`Content from "${title}".`] *)
Definition templatedSummary (title : string) : string :=
  "Content from " +:+ dquote +:+ title +:+ dquote +:+ ".".

(** [Math.max(5, Math.round(chapterText.split(/\s+/).length / 250))] *)
Definition fallbackMinutes (chapterText : string) : Z :=
  Z.max 5 (Js.round (inject_Z (Js.len (Js.splitWs chapterText)) / inject_Z 250)).

Definition fallbackFields (title chapterText : string) : AnalysisFields.t :=
  AnalysisFields.mk (templatedSummary title) [] [] []
    (inject_Z (fallbackMinutes chapterText)).

(** [q > 0] *)
Definition positive (q : Q) : bool := negb (Qle_bool q 0).

(** The chapter text within the budget of 80,000 characters. *)
Definition truncatedText (chapterText : string) : string :=
  let maxChars := 80000 in
  if maxChars <? Js.strlen chapterText
  then Js.sliceTo maxChars chapterText +:+ nl +:+ "[...truncated]"
  else chapterText.

(** [previousChapterContext ? `...` : empty]: [null] and the empty string
    are both falsy. *)
Definition contextBlock (previousChapterContext : option string) : string :=
  match previousChapterContext with
  | Some context =>
      if truthy context
      then nl +:+ "The previous chapter covered these key concepts: "
           +:+ context +:+ nl
      else EmptyString
  | None => EmptyString
  end.

Definition chapterRequest (chapterNumber : Z) (title chapterText : string)
    (previousChapterContext : option string) : Request :=
  ReqChapter chapterNumber title (contextBlock previousChapterContext)
    (truncatedText chapterText).

Definition analyzeChapter (chapterNumber : Z) (title chapterText : string)
    (previousChapterContext : option string) : M AnalysisFields.t :=
  if negb (hasApiKey env) then ret (fallbackFields title chapterText)
  else
    tryCatch
      (object <- generateObject (genChapter env)
                   (chapterRequest chapterNumber title chapterText
                      previousChapterContext) ;;
       ret (AnalysisFields.mk
              (orElse (AnalysisFields.summary object) (templatedSummary title))
              (AnalysisFields.keyConcepts object)
              (AnalysisFields.learningObjectives object)
              (AnalysisFields.prerequisites object)
              (if positive (AnalysisFields.estimatedReadingMinutes object)
               then AnalysisFields.estimatedReadingMinutes object
               else inject_Z (fallbackMinutes chapterText))))
      (ret (fallbackFields title chapterText)).

Definition concurrencyLimit : nat := 5.

(** [results[i - 1]] guarded by [i > 0]; a hole of the array reads as
    [undefined]. *)
Definition previousContextOf (results : list (option ChapterAnalysis.t)) (i : nat)
  : option string :=
  if (0 <? i)%nat then
    match results !! (i - 1)%nat with
    | Some (Some previous) => Some (Js.join ", " (ChapterAnalysis.keyConcepts previous))
    | _ => None
    end
  else None.

(** The body of the inner loop: everything up to [batchPromises.push]. *)
Definition createTask (chapters : list ChapterBoundary.t) (pages : list string)
    (results : list (option ChapterAnalysis.t)) (i : nat) : M Task.t :=
  match chapters !! i with
  | None => throw "TypeError: cannot read properties of undefined"
  | Some chapter =>
      let chapterText :=
        Js.join (nl +:+ nl)
          (Js.slice (ChapterBoundary.startPage chapter)
             (ChapterBoundary.endPage chapter + 1) pages) in
      let previousContext := previousContextOf results i in
      outcome <- spawn (analyzeChapter (Z.of_nat i + 1) (ChapterBoundary.title chapter)
                          chapterText previousContext) ;;
      ret (Task.mk i chapter chapterText previousContext outcome)
  end.

(** The inner loop runs without suspension: every task of the batch
    reads the same [results]. *)
Fixpoint createTasks (chapters : list ChapterBoundary.t) (pages : list string)
    (results : list (option ChapterAnalysis.t)) (indices : list nat)
  : M (list Task.t) :=
  match indices with
  | [] => ret []
  | i :: rest =>
      task <- createTask chapters pages results i ;;
      tasks <- createTasks chapters pages results rest ;;
      ret (task :: tasks)
  end.

(** The [then] callback of a task: [results[i] = { chapterNumber: i + 1, ... }]. *)
Definition resultOf (task : Task.t) (analysis : AnalysisFields.t) : ChapterAnalysis.t :=
  ChapterAnalysis.mk
    (Z.of_nat (Task.index task) + 1)
    (ChapterBoundary.title (Task.chapter task))
    (ChapterBoundary.startPage (Task.chapter task))
    (ChapterBoundary.endPage (Task.chapter task))
    (AnalysisFields.summary analysis)
    (AnalysisFields.keyConcepts analysis)
    (AnalysisFields.learningObjectives analysis)
    (AnalysisFields.prerequisites analysis)
    (AnalysisFields.estimatedReadingMinutes analysis).

(** [await Promise.all(batchPromises)]: the promises settle in the given
    order; a fulfilled one writes its slot, the first rejected one makes
    the [await] throw. *)
Fixpoint settle (tasks : list Task.t) (results : list (option ChapterAnalysis.t))
  : Result (list (option ChapterAnalysis.t)) :=
  match tasks with
  | [] => Ok results
  | task :: rest =>
      match Task.outcome task with
      | Ok analysis =>
          settle rest (<[Task.index task := Some (resultOf task analysis)]> results)
      | Throw e => Throw e
      end
  end.

(** The tasks of a batch in the order in which they settle. *)
Definition inCompletionOrder (tasks : list Task.t) : list Task.t :=
  Js.sortBy (fun task => Z.of_nat (completionTime env (Task.index task))) tasks.

Definition runBatch (chapters : list ChapterBoundary.t) (pages : list string)
    (batchStart : nat) (results : list (option ChapterAnalysis.t))
  : M (list (option ChapterAnalysis.t) * list Task.t) :=
  let batchEnd := Nat.min (batchStart + concurrencyLimit) (length chapters) in
  tasks <- createTasks chapters pages results
             (seq batchStart (batchEnd - batchStart)) ;;
  results' <- await (settle (inCompletionOrder tasks) results) ;;
  ret (results', tasks).

(** The outer loop, with [fuel] iterations at most.  Beside the array
    it returns the tasks it created, in creation order. *)
Fixpoint runBatches (fuel : nat) (chapters : list ChapterBoundary.t)
    (pages : list string) (batchStart : nat)
    (results : list (option ChapterAnalysis.t)) (trace : list Task.t)
  : M (list (option ChapterAnalysis.t) * list Task.t) :=
  match fuel with
  | O => ret (results, trace)
  | S fuel' =>
      if (batchStart <? length chapters)%nat then
        batch <- runBatch chapters pages batchStart results ;;
        runBatches fuel' chapters pages (batchStart + concurrencyLimit)
          (fst batch) (trace ++ snd batch)
      else ret (results, trace)
  end.

(** [new Array(n)] *)
Definition newArray {A} (n : nat) : list (option A) := replicate n None.

Definition analyzeChaptersTraced (structure : BookStructure.t) (pages : list string)
  : M (list (option ChapterAnalysis.t) * list Task.t) :=
  let chapters := BookStructure.chapters structure in
  runBatches (length chapters) chapters pages 0 (newArray (length chapters)) [].

Definition analyzeChaptersWithContext (structure : BookStructure.t) (pages : list string)
  : M (list (option ChapterAnalysis.t)) :=
  traced <- analyzeChaptersTraced structure pages ;;
  ret (fst traced).

End AnalyzeBook.

(* ------------------------------------------------------------------ *)
(** ** [editCoursePlan] of the course agent *)

Module EditPlanResult.
Record t := mk {
  updatedPlan : CoursePlan.t;
  updatedBookAnalysis : option BookAnalysis.t;
  explanation : string
}.
End EditPlanResult.

Module ConversationMessage.
Record t := mk { role : string; content : string }.
End ConversationMessage.

Module EditOpts.
Record t := mk {
  currentPlan : CoursePlan.t;
  userInstruction : string;
  bookAnalysis : BookAnalysis.t;
  messages : list ConversationMessage.t;
  userId : string;
  extractedPages : option (list string)
}.
End EditOpts.

Definition methodName (m : DetectionMethod) : string :=
  match m with
  | pdf_links => "pdf-links"
  | title_match => "title-match"
  | llm_detection => "llm-detection"
  | fixed_chunks => "fixed-chunks"
  end.

Definition compactBookSummary (analysis : BookAnalysis.t) : string :=
  let chapterLines :=
    map (fun ch =>
           "Ch" +:+ Js.show (ChapterAnalysis.chapterNumber ch) +:+ " " +:+ dquote
           +:+ ChapterAnalysis.title ch +:+ dquote
           +:+ " (pp." +:+ Js.show (ChapterAnalysis.startPage ch + 1)
           +:+ "-" +:+ Js.show (ChapterAnalysis.endPage ch + 1) +:+ "): "
           +:+ ChapterAnalysis.summary ch
           +:+ " | Concepts: " +:+ Js.join ", " (ChapterAnalysis.keyConcepts ch))
      (BookAnalysis.chapters analysis) in
  Js.join nl
    (("Book: " +:+ dquote +:+ BookAnalysis.title analysis +:+ dquote
      +:+ match BookAnalysis.author analysis with
          | Some a => if truthy a then " by " +:+ a else EmptyString
          | None => EmptyString
          end)
     :: ("Pages: " +:+ Js.show (BookAnalysis.totalPages analysis)
         +:+ " | Chapters: " +:+ Js.show (Js.len (BookAnalysis.chapters analysis))
         +:+ " | Detection: " +:+ methodName (BookAnalysis.detectionMethod analysis))
     :: EmptyString
     :: chapterLines).

(** [/miss|last chapter|missing|forgot|left out|not included|cut off|incomplete/i]:
    one of the alternatives occurs in the instruction, whatever the case. *)
Definition missingContentWords : list string :=
  ["miss"; "last chapter"; "missing"; "forgot"; "left out"; "not included";
   "cut off"; "incomplete"].

Definition looksLikeMissingContent (userInstruction : string) : bool :=
  existsb (Js.includes (Js.toLowerCase userInstruction)) missingContentWords.

(** [Math.round(((ch.endPage - ch.startPage + 1) / totalPages) * 120)], in
    doubles: the quotient is rounded to the nearest double, and so is the
    product, before [Math.round] sees it (41 of 80 pages give
    61.49999999999999, hence 61 minutes and not 62).  A division by
    [totalPages = 0], which JavaScript answers with an infinity or [NaN],
    is outside the model. *)
Definition proportionalMinutes (startPage endPage totalPages : Z) : Z :=
  Js.mathRound
    (Js.fmul
       (Js.fdiv (Js.fadd (Js.fsub (Js.ofZ endPage) (Js.ofZ startPage)) (Js.ofZ 1))
          (Js.ofZ totalPages))
       (Js.ofZ 120)).

(** [discovery.chapters.map((ch, i) => ...)], from index [i] on; [known] is
    [bookAnalysis.chapters.length]. *)
Fixpoint discoveredAnalyses (known totalPages : Z) (i : Z) (found : list DiscoveredChapter.t)
  : list ChapterAnalysis.t :=
  match found with
  | [] => []
  | ch :: rest =>
      ChapterAnalysis.mk (known + i + 1)
        (DiscoveredChapter.title ch)
        (DiscoveredChapter.startPage ch)
        (DiscoveredChapter.endPage ch)
        (DiscoveredChapter.summary ch)
        (DiscoveredChapter.keyConcepts ch)
        (DiscoveredChapter.learningObjectives ch)
        []
        (inject_Z (proportionalMinutes (DiscoveredChapter.startPage ch)
                     (DiscoveredChapter.endPage ch) totalPages))
      :: discoveredAnalyses known totalPages (i + 1) rest
  end.

Definition planOf (edited : EditedPlan.t) : CoursePlan.t :=
  CoursePlan.mk (EditedPlan.title edited) (EditedPlan.description edited)
    (EditedPlan.estimatedHours edited) (EditedPlan.units edited).

Definition noApiKeyExplanation : string :=
  "No API key configured — unable to edit the plan automatically.".

Section EditCoursePlan.
Context (env : Env).

(** The standard edit: a single [generateObject] call. *)
Definition standardEdit (docs : StateDocs.t) (opts : EditOpts.t) : M EditPlanResult.t :=
  editedPlan <- generateObject (genPlan env)
                  (ReqEdit docs (EditOpts.userInstruction opts)
                     (EditOpts.currentPlan opts)
                     (compactBookSummary (EditOpts.bookAnalysis opts))) ;;
  ret (EditPlanResult.mk (planOf editedPlan) None (EditedPlan.explanation editedPlan)).

(** The text of the pages after the last detected one, capped at 12,000
    characters. *)
Definition uncoveredText (pages : list string) (lastDetectedPage : Z) : string :=
  Js.sliceTo 12000 (Js.join (nl +:+ "---PAGE BREAK---" +:+ nl)
                      (Js.sliceFrom (lastDetectedPage + 1) pages)).

(** [bookAnalysis] with the discovered chapters appended. *)
Definition withDiscovered (bookAnalysis : BookAnalysis.t) (totalPages : Z)
    (discovery : list DiscoveredChapter.t) : BookAnalysis.t :=
  BookAnalysis.mk (BookAnalysis.title bookAnalysis) (BookAnalysis.author bookAnalysis)
    (BookAnalysis.totalPages bookAnalysis)
    (BookAnalysis.chapters bookAnalysis
     ++ discoveredAnalyses (Js.len (BookAnalysis.chapters bookAnalysis))
          totalPages 0 discovery)
    (BookAnalysis.detectionMethod bookAnalysis).

(** The two-step flow: discovery on the uncovered pages, then the merge. *)
Definition discoveryEdit (docs : StateDocs.t) (opts : EditOpts.t)
    (pages : list string) (lastDetectedPage totalPages : Z) : M EditPlanResult.t :=
  discovery <- generateObject (genDiscovery env)
                 (ReqDiscovery totalPages lastDetectedPage
                    (uncoveredText pages lastDetectedPage)) ;;
  let updatedBookAnalysis :=
    withDiscovered (EditOpts.bookAnalysis opts) totalPages discovery in
  editedPlan <- generateObject (genPlan env)
                  (ReqMerge docs (EditOpts.userInstruction opts)
                     (EditOpts.currentPlan opts) discovery) ;;
  ret (EditPlanResult.mk (planOf editedPlan) (Some updatedBookAnalysis)
         (EditedPlan.explanation editedPlan)).

(** The two nested conditions under which the two-step flow is entered:
    the instruction reports missing content, there are raw pages
    ([extractedPages?.length]), and the last chapter ends before the last
    page.  The result is the pages, [lastDetectedPage] and [totalPages]. *)
Definition discoveryTarget (opts : EditOpts.t) : option (list string * Z * Z) :=
  match EditOpts.extractedPages opts with
  | Some (page :: morePages) =>
      if looksLikeMissingContent (EditOpts.userInstruction opts) then
        let bookAnalysis := EditOpts.bookAnalysis opts in
        let lastDetectedPage :=
          match last (BookAnalysis.chapters bookAnalysis) with
          | Some lastChapter => ChapterAnalysis.endPage lastChapter
          | None => 0
          end in
        let totalPages := BookAnalysis.totalPages bookAnalysis in
        if lastDetectedPage <? totalPages - 1
        then Some (page :: morePages, lastDetectedPage, totalPages)
        else None
      else None
  | _ => None
  end.

Definition editCoursePlan (opts : EditOpts.t) : M EditPlanResult.t :=
  if negb (hasApiKey env)
  then ret (EditPlanResult.mk (EditOpts.currentPlan opts) None noApiKeyExplanation)
  else
    docs <- await (loadUserStateDocs env (EditOpts.userId opts)) ;;
    match discoveryTarget opts with
    | Some (pages, lastDetectedPage, totalPages) =>
        discoveryEdit docs opts pages lastDetectedPage totalPages
    | None => standardEdit docs opts
    end.

End EditCoursePlan.

(* ------------------------------------------------------------------ *)
(** ** The vocabulary of the properties *)

(** A computation that returns, whatever the log it starts from. *)
Definition Returns {A} (m : M A) : Prop :=
  forall log, exists a log', m log = (Ok a, log').

(** Whatever a computation returns satisfies [P]. *)
Definition Ensures {A} (m : M A) (P : A -> Prop) : Prop :=
  forall log a log', m log = (Ok a, log') -> P a.

(** [ceil(a / b)] for a positive [b]. *)
Definition ceilDiv (a b : Z) : Z := (a + b - 1) / b.

(** The document has no annotation of subtype [Link] on any page. *)
Definition noLinkAnnotations (pdf : PdfDocument.t) : Prop :=
  forall i page annotations,
    PdfDocument.getPage pdf i = Ok page ->
    PdfPage.getAnnotations page = Ok annotations ->
    Forall (fun annot => Annotation.subtype annot <> "Link") annotations.

(** *** Chapter boundaries *)

Definition rangeOk (c : ChapterBoundary.t) : Prop :=
  ChapterBoundary.startPage c <= ChapterBoundary.endPage c.

Definition startsBefore (a b : ChapterBoundary.t) : Prop :=
  ChapterBoundary.startPage a <= ChapterBoundary.startPage b.

Definition endsBefore (a b : ChapterBoundary.t) : Prop :=
  ChapterBoundary.endPage a < ChapterBoundary.startPage b.

(** Sorted ascending by [startPage], pairwise non-overlapping, and
    [endPage >= startPage] for every chapter. *)
Definition WellFormed (chapters : list ChapterBoundary.t) : Prop :=
  StronglySorted startsBefore chapters
  /\ ForallOrdPairs endsBefore chapters
  /\ Forall rangeOk chapters.

(** Sorted ascending by [startPage]. *)
Definition SortedByStart (chapters : list ChapterBoundary.t) : Prop :=
  StronglySorted startsBefore chapters.

Definition sortedIfSome (r : option (list ChapterBoundary.t)) : Prop :=
  forall chapters, r = Some chapters -> SortedByStart chapters.

(** The order a sort by [key] establishes. *)
Definition keyLe {A} (key : A -> Z) (a b : A) : Prop := key a <= key b.

(** *** The tasks of the orchestrator *)

Definition fulfilled (task : Task.t) : Prop :=
  exists analysis, Task.outcome task = Ok analysis.

(** What a task of the batch created from [results] looks like. *)
Definition createdFrom (chapters : list ChapterBoundary.t)
    (results : list (option ChapterAnalysis.t)) (task : Task.t) : Prop :=
  fulfilled task
  /\ Task.previousContext task = previousContextOf results (Task.index task)
  /\ chapters !! Task.index task = Some (Task.chapter task).

(** Slot [i] holds an analysis numbered [i + 1]. *)
Definition numbered (results : list (option ChapterAnalysis.t)) (i : nat) : Prop :=
  exists analysis,
    results !! i = Some (Some analysis)
    /\ ChapterAnalysis.chapterNumber analysis = Z.of_nat i + 1.

(** The previous-chapter context a task was created with, in terms of
    the array the orchestrator returns: none for chapter 0 and for a
    chapter that is not the first of its batch; for the first chapter of
    a later batch, the key concepts in the slot before it. *)
Definition contextRule (results : list (option ChapterAnalysis.t)) (task : Task.t)
  : Prop :=
  let i := Task.index task in
  ((i = 0 \/ i mod concurrencyLimit <> 0)%nat -> Task.previousContext task = None)
  /\ ((0 < i)%nat -> (i mod concurrencyLimit = 0)%nat ->
      exists previous,
        results !! (i - 1)%nat = Some (Some previous)
        /\ Task.previousContext task
           = Some (Js.join ", " (ChapterAnalysis.keyConcepts previous))).

(** *** Reading minutes as the specification words them *)

(** The reading of the specification's formula [max(5, wordCount / 250)]
    with an exact quotient, and with a truncating one. *)
Definition statedMinutesExact (wordCount : Z) : Q :=
  Qmax (inject_Z 5) (inject_Z wordCount / inject_Z 250).

Definition statedMinutesTruncated (wordCount : Z) : Z :=
  Z.max 5 (wordCount / 250).

(* ------------------------------------------------------------------ *)
(** ** Sample inputs *)

(** *** Three pages, no API key *)

(** A document of [pageCount] pages without annotations. *)
Definition blankPdf (pageCount : Z) : PdfDocument.t :=
  PdfDocument.mk pageCount (fun _ => Ok (PdfPage.mk (Ok []))).

(** No API key is configured and the PDF has three pages without
    annotations. *)
Definition noKeyEnv : Env :=
  mkEnv false
    (fun _ => Ok (blankPdf 3))
    (fun _ => None)
    (fun _ => Throw "no API key")
    (fun _ => Throw "no API key")
    (fun _ => Throw "no API key")
    (fun _ => Throw "no API key")
    (fun _ => Throw "no API key")
    (fun _ => Throw "no API key")
    (fun _ => Throw "no state directory")
    (fun i => i).

(** Three pages, one of them with text. *)
Definition loremPages : list string :=
  ["Lorem ipsum dolor sit amet, consectetur adipiscing elit."; EmptyString; EmptyString].

(** *** A book whose contents page names its chapters *)

Definition algebraPages : list string :=
  ["Algebra Basics. Contents. Chapter 1: Linear Equations, page 2. "
   +:+ "Chapter 2: Quadratic Equations, page 3.";
   "Linear Equations. A linear equation in one unknown has the form a x + b = 0.";
   "Quadratic Equations. A quadratic equation has the form a x^2 + b x + c = 0."].

Definition algebraToc : TocObject.t :=
  TocObject.mk "Algebra Basics" None ["Linear Equations"; "Quadratic Equations"].

(** An API key is configured, the PDF has no annotations, and the model
    reads the two chapter titles off the contents page. *)
Definition algebraEnv : Env :=
  mkEnv true
    (fun _ => Ok (blankPdf 3))
    (fun _ => None)
    (fun _ => Ok algebraToc)
    (fun _ => Throw "not reached")
    (fun _ => Throw "not reached")
    (fun _ => Throw "not reached")
    (fun _ => Throw "not reached")
    (fun _ => Throw "not reached")
    (fun _ => Throw "not reached")
    (fun i => i).

(** *** Links and sampled boundaries *)

Definition linkTo (label : string) (page : Z) : Annotation.t :=
  Annotation.mk "Link" (DestArray (Some page)) (Some label) None.

(** A ten-page document whose first page links to pages 2, 5 and 40. *)
Definition strayLinkPdf : PdfDocument.t :=
  PdfDocument.mk 10
    (fun i => Ok (PdfPage.mk
                    (Ok (if i =? 1
                         then [linkTo "One" 2; linkTo "Two" 5; linkTo "Three" 40]
                         else [])))).

(** *** Texts of a given number of words *)

(** A text of [n + 1] words separated by single spaces. *)
Fixpoint wordsText (n : nat) : string :=
  match n with
  | O => "word"
  | S n' => "word " +:+ wordsText n'
  end.

(** *** Twelve chapters, analyzed by a model *)

(** An API key is configured; the model names one key concept per chapter,
    after the chapter's number; within a batch the later chapters complete
    first. *)
Definition conceptEnv : Env :=
  mkEnv true
    (fun _ => Ok (blankPdf 12))
    (fun _ => None)
    (fun _ => Throw "not reached")
    (fun _ => Throw "not reached")
    (fun _ => Throw "not reached")
    (fun req =>
       match req with
       | ReqChapter chapterNumber _ _ _ =>
           Ok (AnalysisFields.mk "Summary" ["topic " +:+ Js.show chapterNumber] [] []
                 (inject_Z 12))
       | _ => Throw "unexpected request"
       end)
    (fun _ => Throw "not reached")
    (fun _ => Throw "not reached")
    (fun _ => Throw "not reached")
    (fun i => (100 - i)%nat).

Definition twelveChapters : BookStructure.t :=
  BookStructure.mk "Twelve" None
    (map (fun i => ChapterBoundary.mk ("Chapter " +:+ Js.show (Z.of_nat i + 1))
                     (Z.of_nat i) (Z.of_nat i))
       (seq 0 12))
    fixed_chunks.

Definition twelvePages : list string := replicate 12 "Some text of the page.".

(** *** A 120-page book whose chapters stop at page 99 *)

Definition samplePlan : CoursePlan.t :=
  CoursePlan.mk "Course: Algebra" "A course on the book." (inject_Z 3)
    [PlanUnit.mk 1 "Unit 1" "Linear equations" ["solve linear equations"] [1] (inject_Z 90);
     PlanUnit.mk 2 "Unit 2" "Quadratic equations" ["solve quadratics"] [2] (inject_Z 90)].

Definition analysis120 : BookAnalysis.t :=
  BookAnalysis.mk "Algebra" None 120
    [ChapterAnalysis.mk 1 "Linear Equations" 0 49 "Lines." ["slope"] [] [] (inject_Z 50);
     ChapterAnalysis.mk 2 "Quadratic Equations" 50 99 "Parabolas." ["roots"] [] []
       (inject_Z 50)]
    title_match.

Definition pages120 : list string := replicate 120 "Text of a page.".

Definition opts120 : EditOpts.t :=
  EditOpts.mk samplePlan "The last chapter is missing" analysis120 [] "learner-1"
    (Some pages120).

Definition sampleDocs : StateDocs.t := StateDocs.mk "Profile." "Preferences.".

Definition mergedPlan : EditedPlan.t :=
  EditedPlan.mk "Course: Algebra" "A course on the book." (inject_Z 4)
    (CoursePlan.units samplePlan
     ++ [PlanUnit.mk 3 "Unit 3" "Appendix" ["use the tables"] [3] (inject_Z 60)])
    "Added a unit for the appendix.".

(** An API key is configured and the state documents load; [discovery] is
    what the discovery call does, [plan] what the merge and edit calls do. *)
Definition editEnv (discovery : Result (list DiscoveredChapter.t))
    (plan : Result EditedPlan.t) : Env :=
  mkEnv true
    (fun _ => Ok (blankPdf 120))
    (fun _ => None)
    (fun _ => Throw "not reached")
    (fun _ => Throw "not reached")
    (fun _ => Throw "not reached")
    (fun _ => Throw "not reached")
    (fun _ => discovery)
    (fun _ => plan)
    (fun _ => Ok sampleDocs)
    (fun i => i).

Definition appendix : DiscoveredChapter.t :=
  DiscoveredChapter.mk "Appendix" "Tables." ["tables"] ["use the tables"] 100 119.

(** *** A 600-page book whose chapters stop at page 579 *)

Definition analysis600 : BookAnalysis.t :=
  BookAnalysis.mk "Analysis" None 600
    [ChapterAnalysis.mk 1 "Sequences" 0 299 "Limits of sequences." ["limit"] [] []
       (inject_Z 300);
     ChapterAnalysis.mk 2 "Series" 300 579 "Convergence of series." ["sum"] [] []
       (inject_Z 280)]
    pdf_links.

Definition opts600 : EditOpts.t :=
  EditOpts.mk samplePlan "You forgot the index at the end" analysis600 [] "learner-1"
    (Some (replicate 600 "Text of a page.")).

Definition indexChapter : DiscoveredChapter.t :=
  DiscoveredChapter.mk "Index" "Alphabetical index." [] [] 598 599.

(* ------------------------------------------------------------------ *)
(** ** Further vocabulary: structure detection *)

(** The tier by which [detectBookStructure] came to its result, with the
    calls it made on the way. *)
Inductive DetectedBy (env : Env) (buffer : Buffer) (pages : list string)
    (log : list Request) : BookStructure.t -> list Request -> Prop :=
| by_links chapters log1 meta log' :
    detectFromPdfLinks env buffer log = (Ok (Some chapters), log1) ->
    3 <= Js.len chapters ->
    extractBookMetadata env pages (hasApiKey env) log1 = (Ok meta, log') ->
    DetectedBy env buffer pages log
      (BookStructure.mk (MetadataObject.title meta) (MetadataObject.author meta)
         chapters pdf_links) log'
| by_titles links log1 r log' :
    detectFromPdfLinks env buffer log = (Ok links, log1) ->
    detectFromTitleMatching env pages (hasApiKey env) log1 = (Ok (Some r), log') ->
    2 <= Js.len (TitleResult.chapters r) ->
    DetectedBy env buffer pages log
      (BookStructure.mk (TitleResult.title r) (TitleResult.author r)
         (TitleResult.chapters r) title_match) log'
| by_sampling links log1 titles log2 chapters log3 meta log' :
    detectFromPdfLinks env buffer log = (Ok links, log1) ->
    detectFromTitleMatching env pages (hasApiKey env) log1 = (Ok titles, log2) ->
    detectFromLlmSampling env pages (hasApiKey env) log2 = (Ok (Some chapters), log3) ->
    2 <= Js.len chapters ->
    extractBookMetadata env pages (hasApiKey env) log3 = (Ok meta, log') ->
    DetectedBy env buffer pages log
      (BookStructure.mk (MetadataObject.title meta) (MetadataObject.author meta)
         chapters llm_detection) log'
| by_chunks links log1 titles log2 sampled log3 meta log' :
    detectFromPdfLinks env buffer log = (Ok links, log1) ->
    detectFromTitleMatching env pages (hasApiKey env) log1 = (Ok titles, log2) ->
    detectFromLlmSampling env pages (hasApiKey env) log2 = (Ok sampled, log3) ->
    extractBookMetadata env pages (hasApiKey env) log3 = (Ok meta, log') ->
    DetectedBy env buffer pages log
      (BookStructure.mk (MetadataObject.title meta) (MetadataObject.author meta)
         (fixedChunks pages) fixed_chunks) log'.

(** The [k]-th fixed chunk (from 0) of a book of [n] pages. *)
Definition fixedChunk (n k : Z) : ChapterBoundary.t :=
  ChapterBoundary.mk ("Section " +:+ Js.show (k + 1)) (30 * k) (Z.min (30 * k + 29) (n - 1)).

(** Start pages strictly increasing. *)
Definition IncreasingStarts (chapters : list ChapterBoundary.t) : Prop :=
  StronglySorted
    (fun a b => ChapterBoundary.startPage a < ChapterBoundary.startPage b) chapters.

(** Each chapter but the last ends one page before the next one starts. *)
Definition Adjacent (chapters : list ChapterBoundary.t) : Prop :=
  forall i a b,
    chapters !! i = Some a -> chapters !! S i = Some b ->
    ChapterBoundary.endPage a = ChapterBoundary.startPage b - 1.

(** A ten-page document whose first page links to pages 2, 5 and 8. *)
Definition linkedPdf : PdfDocument.t :=
  PdfDocument.mk 10
    (fun i => Ok (PdfPage.mk
                    (Ok (if i =? 1
                         then [linkTo "Two" 5; linkTo "One" 2; linkTo "Three" 8;
                               linkTo "One again" 2]
                         else [])))).

(** No API key; the PDF is [linkedPdf]. *)
Definition linkedEnv : Env :=
  mkEnv false
    (fun _ => Ok linkedPdf)
    (fun _ => None)
    (fun _ => Throw "no API key")
    (fun _ => Throw "no API key")
    (fun _ => Throw "no API key")
    (fun _ => Throw "no API key")
    (fun _ => Throw "no API key")
    (fun _ => Throw "no API key")
    (fun _ => Throw "no state directory")
    (fun i => i).

(** Page [k] (from 0) is the first page whose normalised text contains
    the normalised [title]. *)
Definition firstPageWith (pages : list string) (title : string) (k : nat) : Prop :=
  (exists page,
      pages !! k = Some page
      /\ Js.includes (normalize page) (normalize title) = true)
  /\ forall j earlier,
       (j < k)%nat -> pages !! j = Some earlier ->
       Js.includes (normalize earlier) (normalize title) = false.

(** The pages the compiled pattern matches. *)
Definition matchingPages (regex : string -> option string) (pages : list string)
  : list string :=
  List.filter (fun page => match regex page with Some _ => true | None => false end)
    pages.

(** *** A book whose chapters open with a heading *)

(** Ten pages; pages 0 and 5 open with a chapter heading. *)
Definition headingPages : list string :=
  ["Chapter 1. Sets"; "Text of a page."; "Text of a page."; "Text of a page.";
   "Text of a page."; "Chapter 2. Maps"; "Text of a page."; "Text of a page.";
   "Text of a page."; "Text of a page."].

(** [new RegExp("^Chapter", "i")] as a function from a page to [match[0]]. *)
Definition startsWithChapter (page : string) : option string :=
  if String.prefix "chapter" (Js.toLowerCase page) then Some (Js.sliceTo 7 page) else None.

(** An API key is configured, the PDF has no annotations, the
    table-of-contents call fails, and the sampling call answers with the
    pattern [^Chapter] and two boundaries. *)
Definition headingEnv : Env :=
  mkEnv true
    (fun _ => Ok (blankPdf 10))
    (fun pattern => if String.eqb pattern "^Chapter" then Some startsWithChapter else None)
    (fun _ => Throw "model unavailable")
    (fun _ => Ok (SamplingObject.mk "^Chapter"
                    [SampledBoundary.mk "Chapter 1" 1; SampledBoundary.mk "Chapter 2" 6]))
    (fun _ => Throw "model unavailable")
    (fun _ => Throw "not reached")
    (fun _ => Throw "not reached")
    (fun _ => Throw "not reached")
    (fun _ => Throw "not reached")
    (fun i => i).

(* ------------------------------------------------------------------ *)
(** ** [analyzeBook], the entry point of [lib/pdf/analyzeBook.ts] *)

(** What [analyzeBook] resolves to.  [chapters] is the array the
    orchestrator filled slot by slot. *)
Module AnalyzedBook.
Record t := mk {
  title : string;
  author : option string;
  totalPages : Z;
  chapters : list (option ChapterAnalysis.t);
  detectionMethod : DetectionMethod
}.
End AnalyzedBook.

Definition analyzeBook (env : Env) (buffer : Buffer) (pages : list string)
  : M AnalyzedBook.t :=
  structure <- detectBookStructure env buffer pages ;;
  chapters <- analyzeChaptersWithContext env structure pages ;;
  ret (AnalyzedBook.mk (BookStructure.title structure) (BookStructure.author structure)
         (Js.len pages) chapters (BookStructure.detectionMethod structure)).

(** *** Further vocabulary: the analyses *)

(** [pages.slice(chapter.startPage, chapter.endPage + 1).join("\n\n")] *)
Definition chapterTextOf (pages : list string) (chapter : ChapterBoundary.t) : string :=
  Js.join (nl +:+ nl)
    (Js.slice (ChapterBoundary.startPage chapter) (ChapterBoundary.endPage chapter + 1)
       pages).

(** The generation requests the creation of a task sends. *)
Definition taskRequests (env : Env) (task : Task.t) : list Request :=
  if hasApiKey env
  then [chapterRequest (Z.of_nat (Task.index task) + 1)
          (ChapterBoundary.title (Task.chapter task)) (Task.chapterText task)
          (Task.previousContext task)]
  else [].

(** [fields] is what [analyzeChapter] returns for the arguments of
    [task], from any log, sending [taskRequests]. *)
Definition analyzes (env : Env) (task : Task.t) (fields : AnalysisFields.t) : Prop :=
  forall log,
    analyzeChapter env (Z.of_nat (Task.index task) + 1)
      (ChapterBoundary.title (Task.chapter task)) (Task.chapterText task)
      (Task.previousContext task) log
    = (Ok fields, log ++ taskRequests env task).

(** What the creation of a task in a batch that starts from [results]
    leaves behind. *)
Definition created (env : Env) (chapters : list ChapterBoundary.t) (pages : list string)
    (results : list (option ChapterAnalysis.t)) (task : Task.t) : Prop :=
  chapters !! Task.index task = Some (Task.chapter task)
  /\ Task.chapterText task = chapterTextOf pages (Task.chapter task)
  /\ Task.previousContext task = previousContextOf results (Task.index task)
  /\ exists fields,
       Task.outcome task = Ok fields
       /\ analyzes env task fields
       /\ AnalysisFields.summary fields <> EmptyString
       /\ (0 < AnalysisFields.estimatedReadingMinutes fields)%Q.

(** [task] is the analysis of the chapter at its index, of the text of
    that chapter's pages, and its result is in the slot of that index. *)
Definition slotOf (env : Env) (chapters : list ChapterBoundary.t) (pages : list string)
    (results : list (option ChapterAnalysis.t)) (task : Task.t) : Prop :=
  chapters !! Task.index task = Some (Task.chapter task)
  /\ Task.chapterText task = chapterTextOf pages (Task.chapter task)
  /\ exists fields,
       Task.outcome task = Ok fields
       /\ analyzes env task fields
       /\ AnalysisFields.summary fields <> EmptyString
       /\ (0 < AnalysisFields.estimatedReadingMinutes fields)%Q
       /\ results !! Task.index task = Some (Some (resultOf task fields)).

(** The chapter at index [i] is analyzed with [context]: [analysis] is what
    [analyzeChapter], called with the chapter's number, title and text and
    with [context], returns (from any log, sending with an API key the one
    request that carries the context block), put together with the number
    and the boundary of the chapter. *)
Definition analyzedWith (env : Env) (pages : list string) (i : nat)
    (chapter : ChapterBoundary.t) (context : option string)
    (analysis : ChapterAnalysis.t) : Prop :=
  exists fields,
    (forall log,
        analyzeChapter env (Z.of_nat i + 1) (ChapterBoundary.title chapter)
          (chapterTextOf pages chapter) context log
        = (Ok fields,
           log ++ (if hasApiKey env
                   then [ReqChapter (Z.of_nat i + 1) (ChapterBoundary.title chapter)
                           (contextBlock context)
                           (truncatedText (chapterTextOf pages chapter))]
                   else [])))
    /\ analysis
       = ChapterAnalysis.mk (Z.of_nat i + 1) (ChapterBoundary.title chapter)
           (ChapterBoundary.startPage chapter) (ChapterBoundary.endPage chapter)
           (AnalysisFields.summary fields) (AnalysisFields.keyConcepts fields)
           (AnalysisFields.learningObjectives fields)
           (AnalysisFields.prerequisites fields)
           (AnalysisFields.estimatedReadingMinutes fields).

(** [env] with another order of completion. *)
Definition withCompletionTime (env : Env) (time : nat -> nat) : Env :=
  mkEnv (hasApiKey env) (getDocumentProxy env) (newRegExp env) (genToc env)
    (genSampling env) (genMetadata env) (genChapter env) (genDiscovery env)
    (genPlan env) (loadUserStateDocs env) time.

(* ------------------------------------------------------------------ *)
(** ** The course agent: the next question and the plan *)

(** [s.toUpperCase()] on ASCII *)
Definition upperChar (c : ascii) : ascii :=
  if Js.codeIn 97 122 c then ascii_of_nat (nat_of_ascii c - 32) else c.

Definition toUpperCase (s : string) : string := Js.mapChars upperChar s.

(** [arr[i]] for an integer [i]: [None] is [undefined]. *)
Definition arrayGet {A} (l : list A) (i : Z) : option A :=
  if i <? 0 then None else l !! Z.to_nat i.

(** What the agent answers when asked for the next question.  The
    question is read out of an array by index; [None] is [undefined]. *)
Module NextQuestionPayload.
Record t := mk {
  question : option string;
  readyToGenerate : bool;
  knownGaps : list string;
  requestingUpload : bool
}.
End NextQuestionPayload.

(** What the model returns when asked for the next question. *)
Module QuestionObject.
Record t := mk {
  question : string;
  readyToGenerate : bool;
  knownGaps : list string;
  requestingUpload : bool
}.
End QuestionObject.

(** [await generateObject(...)] at a call site that is left out of the
    log: the log keeps the requests of the PDF pipeline and of the edit
    only. *)
Definition generateUnlogged {A} (answer : Result A) : M A := fun log => (answer, log).

(** The two generation calls of this part of the agent, as functions of
    what their prompts interpolate: the user (for the persona document,
    which [StateDocs] does not carry), the documents, the summary of the
    book if there is one, and the transcript. *)
Record CourseModels := mkCourseModels {
  genQuestion : string -> StateDocs.t -> option string -> string -> Result QuestionObject.t;
  genCoursePlan : StateDocs.t -> string -> string -> Result CoursePlan.t
}.

(** [m.content.trim().length > 0] *)
Definition hasContent (m : ConversationMessage.t) : bool :=
  0 <? Js.strlen (Js.trim (ConversationMessage.content m)).

Definition transcriptString (messages : list ConversationMessage.t) : string :=
  Js.join nl
    (map (fun m => toUpperCase (ConversationMessage.role m) +:+ ": "
                   +:+ Js.trim (ConversationMessage.content m))
       (List.filter hasContent messages)).

(** [m.role === "user"] *)
Definition isUser (m : ConversationMessage.t) : bool :=
  String.eqb (ConversationMessage.role m) "user".

Definition preUploadSteps : list string :=
  ["Hey! I'm ready to help you build a personalized course. What subject or topic are you looking to study, and what's motivating you to learn it?";
   "That's great context! Now, share your materials with me — drop a PDF of your textbook or study material right here in the chat, and I'll read through it."].

Definition postUploadSteps : list string :=
  ["I've finished reading your book! Based on what I see, this covers a lot of ground. Are there specific chapters or topics you want to focus on, or areas you'd like to skip?";
   "Got it! How deep do you want to go — a high-level overview of the whole book, or a deep dive into specific sections? And roughly how many hours per week can you dedicate to this course?";
   "This is really helpful. Any topics you already feel confident about that we can move through quickly? Or areas where you know you'll need extra practice?"].

Definition readyQuestion : string :=
  "I think I have a solid understanding of what you need. Ready for me to generate your course plan?".

Definition fallbackNextQuestion (messages : list ConversationMessage.t) (hasBook : bool)
  : NextQuestionPayload.t :=
  let userAnswers := List.filter isUser messages in
  let count := Js.len userAnswers in
  if negb hasBook then
    let idx := Z.min count (Js.len preUploadSteps - 1) in
    NextQuestionPayload.mk (arrayGet preUploadSteps idx) false
      ["Waiting for PDF upload"] (1 <=? count)
  else
    let idx := Z.min (count - 2) (Js.len postUploadSteps - 1) in
    let ready := 5 <=? count in
    NextQuestionPayload.mk
      (if ready then Some readyQuestion else arrayGet postUploadSteps (Z.max 0 idx))
      ready
      (if ready then [] else ["Your learning priorities and depth preferences"])
      false.

(** [title: `Course: ...`, ...]: one unit per chapter. *)
Definition fallbackCoursePlan (bookAnalysis : BookAnalysis.t) : CoursePlan.t :=
  CoursePlan.mk
    ("Course: " +:+ BookAnalysis.title bookAnalysis)
    ("A personalized course based on " +:+ dquote +:+ BookAnalysis.title bookAnalysis
     +:+ dquote +:+ ".")
    (inject_Z
       (Js.round
          (fold_left (fun sum ch => sum + ChapterAnalysis.estimatedReadingMinutes ch)%Q
             (BookAnalysis.chapters bookAnalysis) (inject_Z 0)
           / inject_Z 60)))
    (map (fun ch =>
            PlanUnit.mk (ChapterAnalysis.chapterNumber ch) (ChapterAnalysis.title ch)
              (ChapterAnalysis.summary ch) (ChapterAnalysis.learningObjectives ch)
              [ChapterAnalysis.chapterNumber ch]
              (ChapterAnalysis.estimatedReadingMinutes ch))
       (BookAnalysis.chapters bookAnalysis)).

Section CourseAgent.
Context (env : Env) (models : CourseModels).

Definition generateNextCourseQuestion (messages : list ConversationMessage.t)
    (bookAnalysis : option BookAnalysis.t) (userId : string)
  : M NextQuestionPayload.t :=
  let hasBook := match bookAnalysis with Some _ => true | None => false end in
  if negb (hasApiKey env) then ret (fallbackNextQuestion messages hasBook)
  else
    docs <- await (loadUserStateDocs env userId) ;;
    let bookContext := option_map compactBookSummary bookAnalysis in
    let transcript := orElse (transcriptString messages) "(empty)" in
    tryCatch
      (response <- generateUnlogged (genQuestion models userId docs bookContext transcript) ;;
       ret (NextQuestionPayload.mk
              (if truthy (QuestionObject.question response)
               then Some (QuestionObject.question response)
               else NextQuestionPayload.question
                      (fallbackNextQuestion messages hasBook))
              (QuestionObject.readyToGenerate response)
              (List.filter (fun g => 0 <? Js.strlen (Js.trim g))
                 (QuestionObject.knownGaps response))
              (QuestionObject.requestingUpload response)))
      (ret (fallbackNextQuestion messages hasBook)).

Definition generateCoursePlan (messages : list ConversationMessage.t)
    (bookAnalysis : BookAnalysis.t) (userId : string) : M CoursePlan.t :=
  docs <- await (loadUserStateDocs env userId) ;;
  if negb (hasApiKey env) then ret (fallbackCoursePlan bookAnalysis)
  else generateUnlogged (genCoursePlan models docs (compactBookSummary bookAnalysis)
                          (transcriptString messages)).

End CourseAgent.

(** *** Further vocabulary: the course agent *)

(** The analysis at index [i] has the number [i + 1]. *)
Definition ConsecutivelyNumbered (chapters : list ChapterAnalysis.t) : Prop :=
  forall i ch,
    chapters !! i = Some ch -> ChapterAnalysis.chapterNumber ch = Z.of_nat i + 1.

(** The end of the last detected chapter, as the edit reads it. *)
Definition lastDetectedPageOf (bookAnalysis : BookAnalysis.t) : Z :=
  match last (BookAnalysis.chapters bookAnalysis) with
  | Some lastChapter => ChapterAnalysis.endPage lastChapter
  | None => 0
  end.


(* ------------------------------------------------------------------ *)
(** ** The route of the course agent: streaming the question *)

(** [message.match(/\S+\s*/g)]: the matches from left to right, each a
    maximal run of characters that are not white space followed by a
    maximal run of white space.  [cur] is the match being read, with a
    flag telling that its white space has begun; [None] before the first
    match. *)
Fixpoint matchTokens (cur : option (string * bool)) (s : string) : list string :=
  match s with
  | EmptyString =>
      match cur with
      | Some (token, _) => [token]
      | None => []
      end
  | String c r =>
      if Js.isSpace c then
        match cur with
        | Some (token, _) => matchTokens (Some (token +:+ String c EmptyString, true)) r
        | None => matchTokens None r
        end
      else
        match cur with
        | Some (token, true) => token :: matchTokens (Some (String c EmptyString, false)) r
        | Some (token, false) =>
            matchTokens (Some (token +:+ String c EmptyString, false)) r
        | None => matchTokens (Some (String c EmptyString, false)) r
        end
  end.

Definition chunkMessageForStream (message : string) : list string :=
  let tokens := matchTokens None message in
  if 0 <? Js.len tokens then tokens else [message].

(* ------------------------------------------------------------------ *)
(** ** [lib/pdf/extractText.ts] *)

Module PdfExtraction.
Record t := mk { totalPages : Z; pages : list string }.
End PdfExtraction.

(** [s.replace(/\s+/g, " ")]: every maximal run of white space becomes one
    space.  [inSpace] tells that the last character read was white
    space. *)
Fixpoint collapseWs (inSpace : bool) (s : string) : string :=
  match s with
  | EmptyString => EmptyString
  | String c r =>
      if Js.isSpace c
      then (if inSpace then collapseWs true r else String " " (collapseWs true r))
      else String c (collapseWs false r)
  end.

(** The text of a page, from the items of its text content; an item
    without [str] is [None]. *)
Definition pageText (items : list (option string)) : string :=
  Js.trim (collapseWs false (Js.join " " (map (default EmptyString) items))).

Section ExtractText.
Context (env : Env).

(** [page.getTextContent()] for the page [i] of a document: its items. *)
Context (getTextContent : PdfDocument.t -> Z -> Result (list (option string))).

Fixpoint extractPages (pdf : PdfDocument.t) (nums : list Z) (pages : list string)
  : M (list string) :=
  match nums with
  | [] => ret pages
  | i :: rest =>
      page <- await (PdfDocument.getPage pdf i) ;;
      textContent <- await (getTextContent pdf i) ;;
      extractPages pdf rest (pages ++ [pageText textContent])
  end.

Definition extractPdfText (buffer : Buffer) : M PdfExtraction.t :=
  pdf <- await (getDocumentProxy env buffer) ;;
  pages <- extractPages pdf (pageNumbers (PdfDocument.numPages pdf)) [] ;;
  ret (PdfExtraction.mk (PdfDocument.numPages pdf) pages).

End ExtractText.

(** *** Further vocabulary: tidy text *)

(** Every white-space character of [s] is a space that does not follow
    white space; with [afterSpace] the text does not begin with one. *)
Fixpoint spacedOnce (afterSpace : bool) (s : string) : bool :=
  match s with
  | EmptyString => true
  | String c r =>
      if Js.isSpace c
      then negb afterSpace && Ascii.eqb c " " && spacedOnce true r
      else spacedOnce false r
  end.

Fixpoint endsInSpace (s : string) : bool :=
  match s with
  | EmptyString => false
  | String c EmptyString => Js.isSpace c
  | String _ r => endsInSpace r
  end.

(** No white space at either end, and between words one space only. *)
Definition tidy (s : string) : Prop :=
  spacedOnce true s = true /\ endsInSpace s = false.

(** A document of two pages, and the items of their text. *)
Definition twoPageItems (pdf : PdfDocument.t) (i : Z) : Result (list (option string)) :=
  if i =? 1 then Ok [Some "  Chapter"; None; Some "1 "]
  else Ok [Some "Sets and"; Some (nl +:+ "maps")].

(* ------------------------------------------------------------------ *)
(** ** The onboarding agent *)

Module Onboarding.

(** [lib/state/onboarding.ts]: the values of the four preferences. *)
Definition TUTOR_CHARACTERS : list string :=
  ["supportive-coach"; "strict-professor"; "calm-mentor"; "energetic-guide"].
Definition CORRECTION_STYLES : list string := ["direct"; "socratic"; "mixed"].
Definition EXPLANATION_DEPTHS : list string := ["concise"; "deep"].
Definition CHALLENGE_LEVELS : list string := ["easy"; "balanced"; "stretch"].

(** [OnboardingAnswers], and with the same fields what the model returns
    for the extraction. *)
Module Answers.
Record t := mk {
  displayName : string;
  educationLevel : string;
  educationBackground : string;
  primaryGoal : string;
  weeklyHours : Q;
  knownTopics : list string;
  interests : list string;
  explanationDepth : string;
  challengeLevel : string;
  tutorCharacter : string;
  correctionStyle : string;
  personaPreferenceNotes : list string
}.
End Answers.

(** The next question; [None] is [undefined]. *)
Module NextQuestion.
Record t := mk {
  question : option string;
  readyToFinalize : bool;
  knownGaps : list string
}.
End NextQuestion.

(** What the model returns when asked for the next question. *)
Module QuestionObject.
Record t := mk {
  question : string;
  readyToFinalize : bool;
  knownGaps : list string
}.
End QuestionObject.

Module Finalized.
Record t := mk { answers : Answers.t; docs : list string }.
End Finalized.

(** Everything outside the agent: the key ([process.env.OPENAI_API_KEY]
    alone), the two generation calls as functions of the transcript in
    their prompts, and the writing of the documents. *)
Record Env := mkEnv {
  hasOpenAiKey : bool;
  genQuestion : string -> Result QuestionObject.t;
  genExtraction : string -> Result Answers.t;
  applyOnboardingAnswers : string -> Answers.t -> Result (list string)
}.

Definition CR : ascii := ascii_of_nat 13.
Definition LF : ascii := ascii_of_nat 10.

(** [s.replace(/\r?\n/g, " ")] *)
Fixpoint replaceLineBreaks (s : string) : string :=
  match s with
  | EmptyString => EmptyString
  | String c r =>
      if Ascii.eqb c LF then String " " (replaceLineBreaks r)
      else
        match r with
        | String d r' =>
            if Ascii.eqb c CR && Ascii.eqb d LF
            then String " " (replaceLineBreaks r')
            else String c (replaceLineBreaks r)
        | EmptyString => String c EmptyString
        end
  end.

Definition normalizeMessages (messages : list ConversationMessage.t)
  : list ConversationMessage.t :=
  map (fun message =>
         ConversationMessage.mk (ConversationMessage.role message)
           (replaceLineBreaks (Js.trim (ConversationMessage.content message))))
    (List.filter hasContent messages).

Definition transcriptString (messages : list ConversationMessage.t) : string :=
  Js.join nl
    (map (fun message => toUpperCase (ConversationMessage.role message) +:+ ": "
                         +:+ ConversationMessage.content message)
       (normalizeMessages messages)).

Definition steps : list string :=
  ["Hey there! I'm your Book Quest tutor — excited to meet you! What's your name, and what do you do? Tell me a bit about yourself (and if you're currently studying something, I'd love to hear about that too).";
   "Awesome, thanks for sharing that! So what's the main thing you're hoping to learn or get better at? And roughly how many hours a week do you think you can set aside for studying?";
   "Got it! Are there any topics you already feel pretty solid on? And what are some of your hobbies or interests? I like to work those into examples to make things click better.";
   "This is really helpful! Now, when you get something wrong, would you rather I just tell you the answer and explain why, or would you prefer I give you a nudge so you can figure it out yourself? Also, what kind of vibe works best for you — someone who's super encouraging, more no-nonsense and direct, calm and patient, or high-energy and fast-paced?";
   "Almost done! When I'm explaining something, do you like it short and to the point, or do you prefer me to really walk you through it step by step? And for practice questions, should they feel comfortable, just right, or should I push you a bit?"].

Definition readyQuestion : string :=
  "I think I've got a great picture of how to work with you! Is there anything else you'd like me to know, or are you ready to get started?".

Definition fallbackNextQuestion (messages : list ConversationMessage.t) : NextQuestion.t :=
  let userAnswers := List.filter isUser messages in
  let nextIndex := Z.min (Js.len userAnswers) (Js.len steps - 1) in
  let ready := Js.len steps <=? Js.len userAnswers in
  NextQuestion.mk
    (if ready then Some readyQuestion else arrayGet steps nextIndex)
    ready
    (if ready then [] else ["Your background and learning preferences"]).

(** The value is a string by the schema of the call. *)
Definition normalizeEnum (value : string) (allowed : list string) (fallback : string)
  : string :=
  let normalized := Js.toLowerCase (Js.trim value) in
  match List.find (fun item => String.eqb item normalized) allowed with
  | Some found => found
  | None => fallback
  end.

Definition ensureString (value : string) (fallback : string) : string :=
  if negb (truthy (Js.trim value)) then fallback else Js.trim value.

(** The same with a fallback that may be [undefined]. *)
Definition ensureStringOr (value : string) (fallback : option string) : option string :=
  if negb (truthy (Js.trim value)) then fallback else Some (Js.trim value).

Definition ensureStringList (value : list string) (fallback : list string) : list string :=
  let normalized := List.filter truthy (map Js.trim value) in
  if 0 <? Js.len normalized then normalized else fallback.

Definition defaultGoal : string := "Build stronger fundamentals through self-paced study.".

Definition fallbackExtraction (messages : list ConversationMessage.t) : Answers.t :=
  let userText :=
    Js.join " " (map ConversationMessage.content (List.filter isUser messages)) in
  Answers.mk "Learner" "Unknown" (orElse (Js.sliceTo 400 userText) "Not shared yet")
    defaultGoal (inject_Z 5) [] [] "deep" "balanced" "supportive-coach" "mixed" [].

(** [parsed.weeklyHours >= 1 && parsed.weeklyHours <= 80
     ? Math.round(parsed.weeklyHours) : 5]; the number is finite by the
    type of the model. *)
Definition checkedHours (weeklyHours : Q) : Q :=
  if Qle_bool (inject_Z 1) weeklyHours && Qle_bool weeklyHours (inject_Z 80)
  then inject_Z (Js.round weeklyHours)
  else inject_Z 5.

(** The answers made of what the model extracted. *)
Definition checkedAnswers (parsed : Answers.t) : Answers.t :=
  Answers.mk
    (ensureString (Answers.displayName parsed) "Learner")
    (ensureString (Answers.educationLevel parsed) "Unknown")
    (ensureString (Answers.educationBackground parsed) "Not shared yet")
    (ensureString (Answers.primaryGoal parsed) defaultGoal)
    (checkedHours (Answers.weeklyHours parsed))
    (ensureStringList (Answers.knownTopics parsed) [])
    (ensureStringList (Answers.interests parsed) [])
    (normalizeEnum (Answers.explanationDepth parsed) EXPLANATION_DEPTHS "deep")
    (normalizeEnum (Answers.challengeLevel parsed) CHALLENGE_LEVELS "balanced")
    (normalizeEnum (Answers.tutorCharacter parsed) TUTOR_CHARACTERS "supportive-coach")
    (normalizeEnum (Answers.correctionStyle parsed) CORRECTION_STYLES "mixed")
    (ensureStringList (Answers.personaPreferenceNotes parsed) []).

Section Agent.
Context (env : Env).

Definition generateNextOnboardingQuestion (messages : list ConversationMessage.t)
  : M NextQuestion.t :=
  let cleanMessages := normalizeMessages messages in
  if negb (hasOpenAiKey env) then ret (fallbackNextQuestion cleanMessages)
  else
    tryCatch
      (response <- generateUnlogged
                     (genQuestion env
                        (orElse (transcriptString cleanMessages) "(empty)")) ;;
       ret (NextQuestion.mk
              (ensureStringOr (QuestionObject.question response)
                 (NextQuestion.question (fallbackNextQuestion cleanMessages)))
              (QuestionObject.readyToFinalize response)
              (ensureStringList (QuestionObject.knownGaps response) [])))
      (ret (fallbackNextQuestion cleanMessages)).

(** The first half of [finalizeOnboardingFromConversation]: the answers. *)
Definition extractAnswers (messages : list ConversationMessage.t) : M Answers.t :=
  let cleanMessages := normalizeMessages messages in
  if negb (hasOpenAiKey env) then ret (fallbackExtraction cleanMessages)
  else
    tryCatch
      (parsed <- generateUnlogged
                   (genExtraction env
                      (orElse (transcriptString cleanMessages) "(empty)")) ;;
       ret (checkedAnswers parsed))
      (ret (fallbackExtraction cleanMessages)).

Definition finalizeOnboardingFromConversation (userId : string)
    (messages : list ConversationMessage.t) : M Finalized.t :=
  extracted <- extractAnswers messages ;;
  docs <- await (applyOnboardingAnswers env userId extracted) ;;
  ret (Finalized.mk extracted docs).

End Agent.

(** *** Vocabulary *)

Definition startsInSpace (s : string) : bool :=
  match s with
  | EmptyString => false
  | String c _ => Js.isSpace c
  end.

(** Not empty, and no white space at either end. *)
Definition trimmedText (s : string) : Prop :=
  s <> EmptyString /\ startsInSpace s = false /\ endsInSpace s = false.

Fixpoint hasLineFeed (s : string) : bool :=
  match s with
  | EmptyString => false
  | String c r => Ascii.eqb c LF || hasLineFeed r
  end.

(** A message as [normalizeMessages] leaves it: its content is not empty,
    has no white space at either end and no line feed. *)
Definition cleanMessage (message : ConversationMessage.t) : Prop :=
  trimmedText (ConversationMessage.content message)
  /\ hasLineFeed (ConversationMessage.content message) = false.

(** Answers the rest of the application can rely on. *)
Definition validAnswers (a : Answers.t) : Prop :=
  Answers.displayName a <> EmptyString
  /\ Answers.educationLevel a <> EmptyString
  /\ Answers.educationBackground a <> EmptyString
  /\ Answers.primaryGoal a <> EmptyString
  /\ (exists hours, Answers.weeklyHours a = inject_Z hours /\ 1 <= hours <= 80)
  /\ Forall trimmedText (Answers.knownTopics a)
  /\ Forall trimmedText (Answers.interests a)
  /\ Forall trimmedText (Answers.personaPreferenceNotes a)
  /\ Answers.explanationDepth a ∈ EXPLANATION_DEPTHS
  /\ Answers.challengeLevel a ∈ CHALLENGE_LEVELS
  /\ Answers.tutorCharacter a ∈ TUTOR_CHARACTERS
  /\ Answers.correctionStyle a ∈ CORRECTION_STYLES.

End Onboarding.

(* ------------------------------------------------------------------ *)
(** ** The route of the course agent: [POST] *)

(** The body of the request, as the handler reads it.  [userId],
    [courseId] and [editInstruction] are [None] when they are not
    strings; [stream] is [body.stream === true]; [messages] are the
    entries of [body.messages] that are objects with a string for role and
    for content (the others do not pass [isValidMessage] whatever they
    are). *)
Module AgentRequestBody.
Record t := mk {
  mode : option string;
  stream : bool;
  userId : option string;
  messages : list ConversationMessage.t;
  bookAnalysis : option BookAnalysis.t;
  courseId : option string;
  coursePlan : option CoursePlan.t;
  currentPlan : option CoursePlan.t;
  editInstruction : option string
}.
End AgentRequestBody.

(** The responses of the handler; those without a status have the
    status 200.  A stream carries the promise of the next question. *)
Inductive Response :=
| ErrorResponse (status : Z) (error : string)
| EditPlanResponse (mode : string) (plan : CoursePlan.t)
    (bookAnalysis : option BookAnalysis.t) (explanation : string)
| PlanResponse (mode : string) (plan : CoursePlan.t)
| FinalizeResponse (mode courseId : string) (plan : CoursePlan.t) (savedAt : string)
| NextResponse (mode : string) (assistantMessage : option string)
    (readyToGenerate : bool) (knownGaps : list string) (requestingUpload : bool)
| StreamResponse (next : Result NextQuestionPayload.t).

(** The files of a course: [readExtractedText], which answers [null]
    when it cannot read, and the writing of the plan, which answers with
    the time of saving. *)
Record CourseFiles := mkCourseFiles {
  readExtractedText : string -> string -> option (list string);
  writeCoursePlan : string -> string -> CoursePlan.t -> Result string
}.

Definition isValidMessage (value : ConversationMessage.t) : bool :=
  (String.eqb (ConversationMessage.role value) "assistant"
   || String.eqb (ConversationMessage.role value) "user")
  && (0 <? Js.strlen (Js.trim (ConversationMessage.content value))).

(** [typeof x === "string" ? x.trim() : empty] *)
Definition trimmedOrEmpty (x : option string) : string :=
  match x with
  | Some s => Js.trim s
  | None => EmptyString
  end.

Section Route.
Context (env : Env) (models : CourseModels) (files : CourseFiles).

(** [finalizeCoursePlan], that is [saveCoursePlan]. *)
Definition finalizeCoursePlan (userId courseId : string) (plan : CoursePlan.t)
  : M (string * CoursePlan.t * string) :=
  savedAt <- await (writeCoursePlan files userId courseId plan) ;;
  ret (courseId, plan, savedAt).

(** The body of the [try]. *)
Definition handle (body : option AgentRequestBody.t) : M Response :=
  match body with
  | None => ret (ErrorResponse 400 "Body must be a JSON object.")
  | Some body =>
      let mode := default "next" (AgentRequestBody.mode body) in
      let stream := AgentRequestBody.stream body in
      let userId := trimmedOrEmpty (AgentRequestBody.userId body) in
      let messages := List.filter isValidMessage (AgentRequestBody.messages body) in
      let bookAnalysis := AgentRequestBody.bookAnalysis body in
      if negb (truthy userId) then ret (ErrorResponse 400 "userId is required.")
      else if String.eqb mode "edit-plan" then
        let editInstruction := trimmedOrEmpty (AgentRequestBody.editInstruction body) in
        let courseId := trimmedOrEmpty (AgentRequestBody.courseId body) in
        match AgentRequestBody.currentPlan body, bookAnalysis with
        | Some currentPlan, Some analysis =>
            if negb (truthy editInstruction)
            then ret (ErrorResponse 400
                        "currentPlan, editInstruction, and bookAnalysis are required for edit-plan.")
            else
              let extractedPages :=
                if truthy courseId then readExtractedText files userId courseId
                else None in
              result <- editCoursePlan env
                          (EditOpts.mk currentPlan editInstruction analysis messages
                             userId extractedPages) ;;
              ret (EditPlanResponse mode (EditPlanResult.updatedPlan result)
                     (EditPlanResult.updatedBookAnalysis result)
                     (EditPlanResult.explanation result))
        | _, _ =>
            ret (ErrorResponse 400
                   "currentPlan, editInstruction, and bookAnalysis are required for edit-plan.")
        end
      else if String.eqb mode "generate-plan" then
        match bookAnalysis with
        | None => ret (ErrorResponse 400 "bookAnalysis is required for plan generation.")
        | Some analysis =>
            plan <- generateCoursePlan env models messages analysis userId ;;
            ret (PlanResponse mode plan)
        end
      else if String.eqb mode "finalize" then
        let courseId := trimmedOrEmpty (AgentRequestBody.courseId body) in
        match AgentRequestBody.coursePlan body with
        | Some coursePlan =>
            if negb (truthy courseId)
            then ret (ErrorResponse 400
                        "courseId and coursePlan are required for finalization.")
            else
              result <- finalizeCoursePlan userId courseId coursePlan ;;
              let '(savedCourse, savedPlan, savedAt) := result in
              ret (FinalizeResponse mode savedCourse savedPlan savedAt)
        | None =>
            ret (ErrorResponse 400 "courseId and coursePlan are required for finalization.")
        end
      else if String.eqb mode "next" && stream then
        next <- spawn (generateNextCourseQuestion env models messages bookAnalysis userId) ;;
        ret (StreamResponse next)
      else
        next <- generateNextCourseQuestion env models messages bookAnalysis userId ;;
        ret (NextResponse mode (NextQuestionPayload.question next)
               (NextQuestionPayload.readyToGenerate next)
               (NextQuestionPayload.knownGaps next)
               (NextQuestionPayload.requestingUpload next))
  end.

(** [try { ... } catch (error) { ... status: 500 }]; an error carries its
    message. *)
Definition POST (body : option AgentRequestBody.t) : M Response :=
  fun log =>
    match handle body log with
    | (Ok response, log') => (Ok response, log')
    | (Throw message, log') => (Ok (ErrorResponse 500 message), log')
    end.

End Route.

(* ------------------------------------------------------------------ *)
(** ** The upload route: [POST] *)

(** An entry of [formData.getAll("files")]: a [File] with its name, its
    size and what [arrayBuffer()] gives, or a string. *)
Inductive FormEntry :=
| FileEntry (name : string) (size : Z) (arrayBuffer : Result Buffer)
| StringEntry (value : string).

(** The form: [userId] is [None] when [formData.get("userId")] is not a
    string. *)
Module UploadForm.
Record t := mk { userId : option string; files : list FormEntry }.
End UploadForm.

Module UploadedFile.
Record t := mk { originalFilename : string; sizeBytes : Z; totalPages : Z }.
End UploadedFile.

(** The responses of the handler; [UploadOk] has the status 200. *)
Inductive UploadResponse :=
| UploadError (status : Z) (error : string)
| UploadOk (courseId : string) (uploadedFiles : list UploadedFile.t)
    (bookAnalysis : AnalyzedBook.t).

(** The writing of the files of a course. *)
Record UploadStore := mkUploadStore {
  savePdfUpload : string -> string -> Buffer -> Result unit;
  saveExtractedText : string -> string -> list string -> Result unit;
  saveBookAnalysis : string -> string -> AnalyzedBook.t -> Result unit
}.

Definition MAX_FILE_SIZE : Z := 64 * 1024 * 1024.
Definition MAX_FILES : Z := 5.

(** [s.endsWith(suffix)] *)
Fixpoint endsWith (s suffix : string) : bool :=
  String.eqb s suffix
  || match s with
     | EmptyString => false
     | String _ r => endsWith r suffix
     end.

(** What the loop over the files carries along: [uploadedFiles],
    [combinedPages] and [primaryBuffer]. *)
Definition UploadState : Type := list UploadedFile.t * list string * option Buffer.

Section Upload.
Context (env : Env) (store : UploadStore).
Context (getTextContent : PdfDocument.t -> Z -> Result (list (option string))).

(** The loop over the files: a response when the loop returns one, the
    state at its end otherwise. *)
Fixpoint processFiles (userId : string) (files : list FormEntry) (state : UploadState)
  : M (UploadResponse + UploadState) :=
  match files with
  | [] => ret (inr state)
  | StringEntry _ :: rest => processFiles userId rest state
  | FileEntry name size arrayBuffer :: rest =>
      if negb (endsWith (Js.toLowerCase name) ".pdf")
      then ret (inl (UploadError 400 (dquote +:+ name +:+ dquote +:+ " is not a PDF file.")))
      else if MAX_FILE_SIZE <? size
      then ret (inl (UploadError 400
                       (dquote +:+ name +:+ dquote +:+ " exceeds the 32 MB limit.")))
      else
        buffer <- await arrayBuffer ;;
        saved <- await (savePdfUpload store (Js.trim userId) name buffer) ;;
        extraction <- extractPdfText env getTextContent buffer ;;
        let '(uploadedFiles, combinedPages, primaryBuffer) := state in
        let uploadedFiles' :=
          uploadedFiles
          ++ [UploadedFile.mk name size (PdfExtraction.totalPages extraction)] in
        match primaryBuffer with
        | None =>
            processFiles userId rest
              (uploadedFiles', PdfExtraction.pages extraction, Some buffer)
        | Some _ =>
            processFiles userId rest
              (uploadedFiles', combinedPages ++ PdfExtraction.pages extraction,
               primaryBuffer)
        end
  end.

(** The body of the [try]; [now] is [Date.now()]. *)
Definition handleUpload (formData : Result UploadForm.t) (now : Z) : M UploadResponse :=
  form <- await formData ;;
  match UploadForm.userId form with
  | None => ret (UploadError 400 "userId is required.")
  | Some userId =>
      if negb (truthy (Js.trim userId)) then ret (UploadError 400 "userId is required.")
      else
        let files := UploadForm.files form in
        if Js.len files =? 0
        then ret (UploadError 400 "At least one PDF file is required.")
        else if MAX_FILES <? Js.len files
        then ret (UploadError 400
                    ("Maximum " +:+ Js.show MAX_FILES +:+ " files allowed per upload."))
        else
          let courseId := "course_" +:+ Js.show now in
          outcome <- processFiles userId files ([], [], None) ;;
          match outcome with
          | inl response => ret response
          | inr (uploadedFiles, combinedPages, primaryBuffer) =>
              match primaryBuffer with
              | Some buffer =>
                  if Js.len combinedPages =? 0
                  then ret (UploadError 400 "No readable PDF content found.")
                  else
                    savedText <- await (saveExtractedText store (Js.trim userId) courseId
                                          combinedPages) ;;
                    bookAnalysis <- analyzeBook env buffer combinedPages ;;
                    savedAnalysis <- await (saveBookAnalysis store (Js.trim userId)
                                              courseId bookAnalysis) ;;
                    ret (UploadOk courseId uploadedFiles bookAnalysis)
              | None => ret (UploadError 400 "No readable PDF content found.")
              end
          end
  end.

(** [try { ... } catch (error) { ... status: 500 }] *)
Definition uploadPOST (formData : Result UploadForm.t) (now : Z) : M UploadResponse :=
  fun log =>
    match handleUpload formData now log with
    | (Ok response, log') => (Ok response, log')
    | (Throw message, log') => (Ok (UploadError 500 message), log')
    end.

End Upload.

(** *** Further vocabulary: uploads *)

(** A [File] of the form is a PDF by its name and within the size that
    the handler accepts. *)
Definition acceptedEntry (entry : FormEntry) : Prop :=
  match entry with
  | FileEntry name size _ =>
      endsWith (Js.toLowerCase name) ".pdf" = true /\ size <= 67108864
  | StringEntry _ => True
  end.

(** The name and the size of the [File]s of the form. *)
Definition fileNamesAndSizes (files : list FormEntry) : list (string * Z) :=
  omap (fun entry =>
          match entry with
          | FileEntry name size _ => Some (name, size)
          | StringEntry _ => None
          end) files.

(** The pages of the uploaded files, counted: the loop of [extractPdfText]
    gives no page for a document whose [numPages] is below one. *)
Definition pagesUploaded (uploadedFiles : list UploadedFile.t) : Z :=
  fold_right (fun file sum => Z.max 0 (UploadedFile.totalPages file) + sum) 0
    uploadedFiles.

(* ------------------------------------------------------------------ *)
(** ** The JavaScript helpers on examples *)

Example splitWs_ex1 : Js.splitWs "a  b c" = ["a"; "b"; "c"].
Proof. reflexivity. Qed.
Example splitWs_ex2 : Js.splitWs EmptyString = [EmptyString].
Proof. reflexivity. Qed.
Example splitWs_ex3 : Js.splitWs " a " = [EmptyString; "a"; EmptyString].
Proof. reflexivity. Qed.
Example slice_ex1 : Js.slice 1 3 [10; 20; 30; 40] = [20; 30].
Proof. reflexivity. Qed.
Example slice_ex2 : Js.slice 2 1 [10; 20; 30; 40] = [].
Proof. reflexivity. Qed.
Example slice_ex3 : Js.slice (-1) 9 [10; 20; 30; 40] = [40].
Proof. reflexivity. Qed.
Example round_ex1 : Js.round (5 # 2) = 3.
Proof. reflexivity. Qed.
Example round_ex2 : Js.round (-5 # 2) = -2.
Proof. reflexivity. Qed.
Example sort_ex1 :
  Js.sortBy fst [(3, "a"); (1, "b"); (3, "c"); (1, "d")]
  = [(1, "b"); (1, "d"); (3, "a"); (3, "c")].
Proof. reflexivity. Qed.
Example show_ex1 : Js.show 12 = "12".
Proof. reflexivity. Qed.
Example trim_ex1 : Js.trim "  a b  " = "a b".
Proof. reflexivity. Qed.

(* ------------------------------------------------------------------ *)
(** ** Reasoning about computations *)

Lemma Returns_ret {A} (a : A) : Returns (ret a).
Proof. intros log. exists a, log. reflexivity. Qed.

Lemma Returns_bind {A B} (m : M A) (k : A -> M B) :
  Returns m -> (forall a, Returns (k a)) -> Returns (bind m k).
Proof.
  intros Hm Hk log. destruct (Hm log) as (a & log' & Ha).
  unfold bind. rewrite Ha. apply Hk.
Qed.

Lemma Returns_tryCatch {A} (m h : M A) : Returns h -> Returns (tryCatch m h).
Proof.
  intros Hh log. unfold tryCatch.
  destruct (m log) as [[a|e] log'].
  - exists a, log'. reflexivity.
  - apply Hh.
Qed.

Lemma Returns_spawn {A} (m : M A) : Returns (spawn m).
Proof.
  intros log. unfold spawn. destruct (m log) as [r log'].
  exists r, log'. reflexivity.
Qed.

Lemma Returns_if {A} (b : bool) (m1 m2 : M A) :
  Returns m1 -> Returns m2 -> Returns (if b then m1 else m2).
Proof. destruct b; auto. Qed.

Lemma Returns_option {A B} (o : option A) (f : A -> M B) (d : M B) :
  (forall a, Returns (f a)) -> Returns d ->
  Returns (match o with Some a => f a | None => d end).
Proof. destruct o; auto. Qed.

Create HintDb returns.
#[local] Hint Resolve Returns_ret Returns_tryCatch Returns_spawn Returns_if : returns.

(** Goals of the form [Returns m], for [m] built from the constructs above
    and computations already known to return. *)
Ltac returns :=
  repeat first
    [ apply Returns_ret
    | apply Returns_tryCatch
    | apply Returns_spawn
    | apply Returns_bind
    | apply Returns_if
    | apply Returns_option
    | solve [auto with returns]
    | intro ].

Lemma Ensures_ret {A} (a : A) (P : A -> Prop) : P a -> Ensures (ret a) P.
Proof. intros Ha log a' log' [= <- _]. exact Ha. Qed.

Lemma Ensures_bind {A B} (m : M A) (k : A -> M B) (P : B -> Prop) :
  (forall a, Ensures (k a) P) -> Ensures (bind m k) P.
Proof.
  intros Hk log b log'. unfold bind.
  destruct (m log) as [[a|e] log1]; [apply Hk|discriminate].
Qed.

Lemma Ensures_bind_post {A B} (m : M A) (k : A -> M B) (Q : A -> Prop) (P : B -> Prop) :
  Ensures m Q -> (forall a, Q a -> Ensures (k a) P) -> Ensures (bind m k) P.
Proof.
  intros Hm Hk log b log'. unfold bind.
  destruct (m log) as [[a|e] log1] eqn:Hrun; [|discriminate].
  apply Hk. exact (Hm _ _ _ Hrun).
Qed.

Lemma Ensures_tryCatch {A} (m h : M A) (P : A -> Prop) :
  Ensures m P -> Ensures h P -> Ensures (tryCatch m h) P.
Proof.
  intros Hm Hh log a log'. unfold tryCatch.
  destruct (m log) as [[a1|e] log1] eqn:Hrun.
  - intros [= <- _]. exact (Hm _ _ _ Hrun).
  - apply Hh.
Qed.

Lemma Ensures_if {A} (b : bool) (m1 m2 : M A) (P : A -> Prop) :
  Ensures m1 P -> Ensures m2 P -> Ensures (if b then m1 else m2) P.
Proof. destruct b; auto. Qed.

Lemma Ensures_option {A B} (o : option A) (f : A -> M B) (d : M B) (P : B -> Prop) :
  (forall a, o = Some a -> Ensures (f a) P) -> Ensures d P ->
  Ensures (match o with Some a => f a | None => d end) P.
Proof. destruct o; auto. Qed.

(* ------------------------------------------------------------------ *)
(** ** Sorting *)

Section SortFacts.
Context {A : Type} (key : A -> Z).

Lemma insertBy_perm (x : A) (l : list A) : Permutation (Js.insertBy key x l) (x :: l).
Proof.
  induction l as [|y r IH]; simpl; [reflexivity|].
  destruct (key x <=? key y); [reflexivity|].
  rewrite IH. apply perm_swap.
Qed.

Lemma sortBy_perm (l : list A) : Permutation (Js.sortBy key l) l.
Proof.
  induction l as [|x r IH]; simpl; [reflexivity|].
  rewrite insertBy_perm. constructor. exact IH.
Qed.

Lemma insertBy_sorted (x : A) (l : list A) :
  StronglySorted (keyLe key) l -> StronglySorted (keyLe key) (Js.insertBy key x l).
Proof.
  induction 1 as [|y r Hr IH Hy]; simpl.
  - repeat constructor.
  - destruct (Z.leb_spec (key x) (key y)) as [Hle|Hgt].
    + constructor; [constructor; assumption|].
      constructor; [exact Hle|].
      eapply Forall_impl; [exact Hy|]. unfold keyLe. intros; simpl in *; lia.
    + constructor; [exact IH|].
      eapply Permutation_Forall; [symmetry; apply insertBy_perm|].
      constructor; [unfold keyLe; lia|exact Hy].
Qed.

Lemma sortBy_sorted (l : list A) : StronglySorted (keyLe key) (Js.sortBy key l).
Proof.
  induction l as [|x r IH]; simpl; [constructor|].
  apply insertBy_sorted. exact IH.
Qed.
End SortFacts.

Lemma sorted_map_key {A B} (f : A -> B) (key : B -> Z) (l : list A) :
  StronglySorted (keyLe (fun a => key (f a))) l -> StronglySorted (keyLe key) (map f l).
Proof.
  induction 1 as [|a l Hl IH Ha]; simpl; constructor; [exact IH|].
  apply Forall_map. exact Ha.
Qed.

Lemma strictly_sorted_weaken {A} (key : A -> Z) (l : list A) :
  StronglySorted (fun a b => key a < key b) l -> StronglySorted (keyLe key) l.
Proof.
  induction 1 as [|a l Hl IH Ha]; constructor; [exact IH|].
  eapply Forall_impl; [exact Ha|]. unfold keyLe. intros; simpl in *; lia.
Qed.

Lemma StronglySorted_snoc {A} (R : A -> A -> Prop) (l : list A) (x : A) :
  StronglySorted R l -> Forall (fun a => R a x) l -> StronglySorted R (l ++ [x]).
Proof.
  induction 1 as [|a l Hl IH Ha]; intros Hx; simpl.
  - repeat constructor.
  - apply Forall_cons in Hx. destruct Hx as [Hax Hx].
    constructor; [apply IH; exact Hx|].
    apply Forall_app. split; [exact Ha|]. constructor; [exact Hax|constructor].
Qed.

Lemma ForallOrdPairs_snoc {A} (R : A -> A -> Prop) (l : list A) (x : A) :
  ForallOrdPairs R l -> Forall (fun a => R a x) l -> ForallOrdPairs R (l ++ [x]).
Proof.
  induction 1 as [|a l Ha Hl IH]; intros Hx; simpl.
  - repeat constructor.
  - apply Forall_cons in Hx. destruct Hx as [Hax Hx].
    constructor; [|apply IH; exact Hx].
    apply Forall_app. split; [exact Ha|]. constructor; [exact Hax|constructor].
Qed.

(* ------------------------------------------------------------------ *)
(** ** Structure detection never fails *)

Section DetectStructureFacts.
Context (env : Env).

Lemma detectFromPdfLinks_returns buffer : Returns (detectFromPdfLinks env buffer).
Proof. unfold detectFromPdfLinks. auto with returns. Qed.

Lemma detectFromTitleMatching_returns pages key :
  Returns (detectFromTitleMatching env pages key).
Proof. unfold detectFromTitleMatching. auto with returns. Qed.

Lemma detectFromLlmSampling_returns pages key :
  Returns (detectFromLlmSampling env pages key).
Proof. unfold detectFromLlmSampling. auto with returns. Qed.

Lemma extractBookMetadata_returns pages key :
  Returns (extractBookMetadata env pages key).
Proof. unfold extractBookMetadata. auto with returns. Qed.

Lemma withMetadata_returns pages key chapters method :
  Returns (withMetadata env pages key chapters method).
Proof.
  unfold withMetadata. apply Returns_bind.
  - apply extractBookMetadata_returns.
  - intros meta. apply Returns_ret.
Qed.

End DetectStructureFacts.

(** C8. [detectBookStructure] never fails: for every environment (whatever
    the PDF parser, the model and the pattern compiler do, failures
    included), every buffer and every page list, started from any log, it
    returns a [BookStructure]. *)
Theorem detectBookStructure_never_fails (env : Env) (buffer : Buffer)
    (pages : list string) (log : list Request) :
  exists (structure : BookStructure.t) (log' : list Request),
    detectBookStructure env buffer pages log = (Ok structure, log').
Proof.
  revert log. change (Returns (detectBookStructure env buffer pages)).
  pose proof (withMetadata_returns env pages (hasApiKey env)).
  pose proof (detectFromPdfLinks_returns env buffer).
  pose proof (detectFromTitleMatching_returns env pages (hasApiKey env)).
  pose proof (detectFromLlmSampling_returns env pages (hasApiKey env)).
  unfold detectBookStructure. cbv zeta. returns.
Qed.

(* ------------------------------------------------------------------ *)
(** ** The fixed-chunks tier *)

Lemma len_app {A} (l1 l2 : list A) : Js.len (l1 ++ l2) = Js.len l1 + Js.len l2.
Proof. unfold Js.len. rewrite length_app. lia. Qed.

Lemma len_nonneg {A} (l : list A) : 0 <= Js.len l.
Proof. unfold Js.len. lia. Qed.

(** With enough fuel the loop adds one chunk per started window of 30
    pages. *)
Lemma fixedChunksFrom_len (fuel : nat) (i len : Z) (chapters : list ChapterBoundary.t) :
  len - i <= 30 * Z.of_nat fuel ->
  Js.len (fixedChunksFrom fuel i len chapters)
  = Js.len chapters + Z.max 0 (ceilDiv (len - i) 30).
Proof.
  revert i chapters. unfold ceilDiv.
  induction fuel as [|fuel IH]; intros i chapters Hfuel; simpl fixedChunksFrom.
  - assert ((len - i + 30 - 1) / 30 <= 0) by (Z.div_mod_to_equations; lia). lia.
  - destruct (Z.ltb_spec i len) as [Hlt|Hge].
    + rewrite IH by lia. rewrite len_app. unfold Js.len at 2. simpl length.
      assert ((len - (i + 30) + 30 - 1) / 30 = (len - i + 30 - 1) / 30 - 1)
        by (Z.div_mod_to_equations; lia).
      assert (1 <= (len - i + 30 - 1) / 30) by (Z.div_mod_to_equations; lia).
      lia.
    + assert ((len - i + 30 - 1) / 30 <= 0) by (Z.div_mod_to_equations; lia). lia.
Qed.

Lemma fixedChunks_len (pages : list string) :
  Js.len (fixedChunks pages) = ceilDiv (Js.len pages) 30.
Proof.
  unfold fixedChunks. rewrite fixedChunksFrom_len by (unfold Js.len; lia).
  rewrite Z.sub_0_r. pose proof (len_nonneg pages).
  assert (0 <= ceilDiv (Js.len pages) 30)
    by (unfold ceilDiv; Z.div_mod_to_equations; lia).
  unfold Js.len at 1. simpl. lia.
Qed.

Lemma WellFormed_snoc (chapters : list ChapterBoundary.t) (c : ChapterBoundary.t) :
  WellFormed chapters ->
  Forall (fun a => endsBefore a c) chapters ->
  rangeOk c ->
  WellFormed (chapters ++ [c]).
Proof.
  intros (Hsorted & Hapart & Hranges) Hbefore Hc. split; [|split].
  - apply StronglySorted_snoc; [exact Hsorted|].
    rewrite Forall_forall in Hbefore, Hranges. apply Forall_forall. intros a Ha.
    specialize (Hbefore a Ha). specialize (Hranges a Ha).
    unfold startsBefore, endsBefore, rangeOk in *. lia.
  - apply ForallOrdPairs_snoc; assumption.
  - apply Forall_app. split; [exact Hranges|]. constructor; [exact Hc|constructor].
Qed.

Lemma fixedChunksFrom_wellFormed (fuel : nat) (i len : Z)
    (chapters : list ChapterBoundary.t) :
  WellFormed chapters ->
  Forall (fun a => ChapterBoundary.endPage a < i) chapters ->
  WellFormed (fixedChunksFrom fuel i len chapters).
Proof.
  revert i chapters. induction fuel as [|fuel IH]; intros i chapters Hwf Hbefore;
    simpl; [exact Hwf|].
  destruct (Z.ltb_spec i len) as [Hlt|Hge]; [|exact Hwf].
  apply IH.
  - apply WellFormed_snoc; [exact Hwf|exact Hbefore|].
    unfold rangeOk. simpl. lia.
  - apply Forall_app. split.
    + eapply Forall_impl; [exact Hbefore|]. simpl. intros; lia.
    + constructor; [simpl; lia|constructor].
Qed.

(** The fixed chunks are sorted, do not overlap, and none is empty. *)
Lemma fixedChunks_wellFormed (pages : list string) : WellFormed (fixedChunks pages).
Proof.
  apply fixedChunksFrom_wellFormed; [|constructor].
  split; [constructor|]. split; constructor.
Qed.

Example fixedChunks_61_pages :
  fixedChunks (replicate 61 "Text of a page.")
  = [ChapterBoundary.mk "Section 1" 0 29; ChapterBoundary.mk "Section 2" 30 59;
     ChapterBoundary.mk "Section 3" 60 60].
Proof. vm_compute. reflexivity. Qed.

(** *** Falling through to the last tier *)

Lemma linkOfAnnotation_not_link (annot : Annotation.t) :
  Annotation.subtype annot <> "Link" -> linkOfAnnotation annot = None.
Proof.
  intros Hne. unfold linkOfAnnotation.
  destruct (String.eqb_spec (Annotation.subtype annot) "Link"); [contradiction|reflexivity].
Qed.

Lemma omap_linkOfAnnotation_nil (annotations : list Annotation.t) :
  Forall (fun annot => Annotation.subtype annot <> "Link") annotations ->
  omap linkOfAnnotation annotations = [].
Proof.
  induction 1 as [|annot rest Hne _ IH]; [reflexivity|].
  simpl. rewrite (linkOfAnnotation_not_link _ Hne). exact IH.
Qed.

(** Without link annotations the loop over the first pages leaves [links]
    as it was, unless reading a page fails. *)
Lemma collectLinks_noLinks (pdf : PdfDocument.t) (nums : list Z) (links : list Link.t)
    (log : list Request) :
  noLinkAnnotations pdf ->
  collectLinks pdf nums links log = (Ok links, log)
  \/ exists e, collectLinks pdf nums links log = (Throw e, log).
Proof.
  intros Hno. revert links. induction nums as [|i rest IH]; intros links.
  - left. reflexivity.
  - simpl. unfold bind at 1. unfold pageLinks, bind, await, ret.
    destruct (PdfDocument.getPage pdf i) as [page|e] eqn:Hpage; [|right; eauto].
    destruct (PdfPage.getAnnotations page) as [annotations|e] eqn:Hannots; [|right; eauto].
    rewrite (omap_linkOfAnnotation_nil _ (Hno _ _ _ Hpage Hannots)).
    rewrite app_nil_r. apply IH.
Qed.

Lemma detectFromPdfLinks_noLinks (env : Env) (buffer : Buffer) (log : list Request) :
  (forall pdf, getDocumentProxy env buffer = Ok pdf -> noLinkAnnotations pdf) ->
  detectFromPdfLinks env buffer log = (Ok None, log).
Proof.
  intros Hno. unfold detectFromPdfLinks, tryCatch, bind at 1, await.
  destruct (getDocumentProxy env buffer) as [pdf|e] eqn:Hpdf; [|reflexivity].
  unfold bind.
  destruct (collectLinks_noLinks pdf (pageNumbers (Z.min 15 (PdfDocument.numPages pdf)))
              [] log (Hno _ eq_refl)) as [Hok|[e Hthrow]].
  - rewrite Hok. reflexivity.
  - rewrite Hthrow. reflexivity.
Qed.

(** C9. When the PDF has no link annotations and no API key is
    configured, [detectBookStructure] returns the fixed chunks with
    detection method [fixed-chunks] (and sends no generation request); the
    number of chapters is [ceil(totalPages / 30)]; for three pages the
    chapters are the single [Section 1] from page 0 to page 2. *)
Theorem detectBookStructure_fixed_chunks (env : Env) (buffer : Buffer)
    (pages : list string) (log : list Request) :
  hasApiKey env = false ->
  (forall pdf, getDocumentProxy env buffer = Ok pdf -> noLinkAnnotations pdf) ->
  detectBookStructure env buffer pages log
  = (Ok (BookStructure.mk "Untitled Book" None (fixedChunks pages) fixed_chunks), log)
  /\ Js.len (fixedChunks pages) = ceilDiv (Js.len pages) 30
  /\ (length pages = 3%nat ->
      fixedChunks pages = [ChapterBoundary.mk "Section 1" 0 2]).
Proof.
  intros Hkey Hno. split; [|split].
  - unfold detectBookStructure. cbv zeta. unfold bind at 1.
    rewrite (detectFromPdfLinks_noLinks env buffer log Hno).
    rewrite Hkey. reflexivity.
  - apply fixedChunks_len.
  - intros Hlen. destruct pages as [|p1 [|p2 [|p3 [|p4 rest]]]]; try discriminate.
    reflexivity.
Qed.

(** The three lorem pages, without an API key. *)
Lemma detectBookStructure_fixed_chunks_witness :
  detectBookStructure noKeyEnv [] loremPages []
  = (Ok (BookStructure.mk "Untitled Book" None (fixedChunks loremPages) fixed_chunks), [])
  /\ Js.len (fixedChunks loremPages) = ceilDiv (Js.len loremPages) 30
  /\ (length loremPages = 3%nat ->
      fixedChunks loremPages = [ChapterBoundary.mk "Section 1" 0 2]).
Proof.
  apply (detectBookStructure_fixed_chunks noKeyEnv [] loremPages []).
  - reflexivity.
  - intros pdf Hpdf i page annotations Hpage Hannots.
    simpl in Hpdf. injection Hpdf as <-. simpl in Hpage. injection Hpage as <-.
    simpl in Hannots. injection Hannots as <-. constructor.
Defined.

(* ------------------------------------------------------------------ *)
(** ** The boundaries of a detected structure *)

Lemma fillEndPages_sorted (lastEnd : Z) (starts : list (string * Z)) :
  StronglySorted (keyLe snd) starts -> SortedByStart (fillEndPages lastEnd starts).
Proof.
  induction 1 as [|[title start] rest Hrest IH Hhead]; simpl; [constructor|].
  constructor; [exact IH|].
  clear IH Hrest. induction Hhead as [|[t s] r Hts _ IHr]; simpl; constructor.
  - exact Hts.
  - exact IHr.
Qed.

(** Where the start pages are strictly increasing and none lies beyond
    [lastEnd], filling the end pages gives well-formed boundaries. *)
Lemma fillEndPages_wellFormed (lastEnd : Z) (starts : list (string * Z)) :
  StronglySorted (fun a b => snd a < snd b) starts ->
  Forall (fun a => snd a <= lastEnd) starts ->
  WellFormed (fillEndPages lastEnd starts)
  /\ Forall (fun c => exists a, a ∈ starts /\ ChapterBoundary.startPage c = snd a)
       (fillEndPages lastEnd starts).
Proof.
  induction 1 as [|[title start] rest Hrest IH Hhead]; intros Hle; simpl.
  - split; [|constructor]. split; [constructor|]. split; constructor.
  - apply Forall_cons in Hle. destruct Hle as [Hstart Hle].
    destruct (IH Hle) as [(Hsorted & Hapart & Hranges) Hfrom].
    assert (Hlater : Forall (fun c => start < ChapterBoundary.startPage c)
                       (fillEndPages lastEnd rest)).
    { eapply Forall_impl; [exact Hfrom|]. intros c (a & Ha & ->).
      rewrite Forall_forall in Hhead. exact (Hhead a Ha). }
    split.
    + split; [|split].
      * constructor; [exact Hsorted|].
        eapply Forall_impl; [exact Hlater|]. unfold startsBefore. simpl. intros; lia.
      * constructor; [|exact Hapart].
        destruct rest as [|[t s] r]; simpl in *.
        -- constructor.
        -- apply Forall_cons in Hlater. destruct Hlater as [Hnext Hlater].
           simpl in Hnext.
           constructor; [unfold endsBefore; simpl; lia|].
           apply StronglySorted_inv in Hsorted. destruct Hsorted as [_ Hafter].
           eapply Forall_impl; [exact Hafter|].
           unfold endsBefore, startsBefore. simpl. intros; lia.
      * constructor; [|exact Hranges]. unfold rangeOk. simpl.
        destruct rest as [|[t s] r]; simpl in *; [lia|].
        apply Forall_cons in Hhead. destruct Hhead as [Hnext _]. simpl in Hnext. lia.
    + constructor; [exists (title, start); split; [left|reflexivity]|].
      eapply Forall_impl; [exact Hfrom|]. intros c (a & Ha & Hc).
      exists a. split; [right; exact Ha|exact Hc].
Qed.

Lemma dedupByDest_Forall (P : Link.t -> Prop) (seen : list Z) (links : list Link.t) :
  Forall P links -> Forall P (dedupByDest seen links).
Proof.
  intros Hall. revert seen. induction Hall as [|link rest Hlink _ IH]; intros seen; simpl.
  - constructor.
  - destruct (existsb (Z.eqb (Link.destPage link)) seen); [apply IH|].
    constructor; [exact Hlink|apply IH].
Qed.

Lemma dedupByDest_sorted (R : Link.t -> Link.t -> Prop) (seen : list Z)
    (links : list Link.t) :
  StronglySorted R links -> StronglySorted R (dedupByDest seen links).
Proof.
  intros Hsorted. revert seen.
  induction Hsorted as [|link rest Hrest IH Hhead]; intros seen; simpl.
  - constructor.
  - destruct (existsb (Z.eqb (Link.destPage link)) seen); [apply IH|].
    constructor; [apply IH|apply dedupByDest_Forall; exact Hhead].
Qed.

(** The pages on which the pattern matches come in strictly increasing
    order, within the page list. *)
Lemma scanPattern_sorted (regex : string -> option string) (p : Z) (pages : list string) :
  StronglySorted (fun a b => snd a < snd b) (scanPattern regex p pages)
  /\ Forall (fun a => p <= snd a <= p + Js.len pages - 1) (scanPattern regex p pages).
Proof.
  revert p. induction pages as [|page rest IH]; intros p; simpl.
  - split; constructor.
  - destruct (IH (p + 1)) as [Hsorted Hrange].
    assert (Hshift : Forall (fun a => p + 1 <= snd a <= p + Js.len (page :: rest) - 1)
                       (scanPattern regex (p + 1) rest)).
    { eapply Forall_impl; [exact Hrange|]. unfold Js.len. simpl length. intros; lia. }
    destruct (regex page) as [match0|].
    + split.
      * constructor; [exact Hsorted|].
        eapply Forall_impl; [exact Hshift|]. simpl. intros; lia.
      * constructor; [simpl; unfold Js.len; simpl length; lia|].
        eapply Forall_impl; [exact Hshift|]. simpl. intros; lia.
    + split; [exact Hsorted|].
      eapply Forall_impl; [exact Hshift|]. simpl. intros; lia.
Qed.

(** The chapters tier 3 builds from the pages its pattern matches are
    well formed. *)
Lemma scanned_chapters_wellFormed (regex : string -> option string) (pages : list string) :
  WellFormed (fillEndPages (Js.len pages - 1) (scanPattern regex 0 pages)).
Proof.
  destruct (scanPattern_sorted regex 0 pages) as [Hsorted Hrange].
  apply fillEndPages_wellFormed; [exact Hsorted|].
  eapply Forall_impl; [exact Hrange|]. simpl. intros; lia.
Qed.

Lemma sampledChapters_sorted (boundaries : list SampledBoundary.t) (pages : list string) :
  SortedByStart (sampledChapters boundaries pages).
Proof.
  unfold sampledChapters. apply fillEndPages_sorted.
  apply (sorted_map_key (fun b => (SampledBoundary.title b, SampledBoundary.pageNumber b - 1))
           snd).
  pose proof (sortBy_sorted SampledBoundary.pageNumber boundaries) as Hsorted.
  induction Hsorted as [|b l Hl IH Hb]; constructor; [exact IH|].
  eapply Forall_impl; [exact Hb|]. unfold keyLe. simpl. intros; lia.
Qed.

Section SortedStructures.
Context (env : Env).

Lemma sortedIfSome_None : sortedIfSome None.
Proof. intros chapters [=]. Qed.

Lemma sortedIfSome_Some chapters : SortedByStart chapters -> sortedIfSome (Some chapters).
Proof. intros H cs [= <-]. exact H. Qed.

Lemma detectFromPdfLinks_sorted buffer :
  Ensures (detectFromPdfLinks env buffer) sortedIfSome.
Proof.
  unfold detectFromPdfLinks.
  apply Ensures_tryCatch; [|apply Ensures_ret, sortedIfSome_None].
  apply Ensures_bind. intros pdf. cbv zeta. apply Ensures_bind. intros links.
  apply Ensures_if; [apply Ensures_ret, sortedIfSome_None|].
  apply Ensures_if; [apply Ensures_ret, sortedIfSome_None|].
  apply Ensures_ret, sortedIfSome_Some, fillEndPages_sorted.
  apply (sorted_map_key (fun link => (Link.text link, Link.destPage link)) snd).
  apply dedupByDest_sorted. apply (sortBy_sorted Link.destPage).
Qed.

Lemma detectFromTitleMatching_sorted pages key :
  Ensures (detectFromTitleMatching env pages key)
    (fun r => forall t, r = Some t -> SortedByStart (TitleResult.chapters t)).
Proof.
  unfold detectFromTitleMatching.
  apply Ensures_if; [apply Ensures_ret; intros t [=]|]. cbv zeta.
  apply Ensures_if; [apply Ensures_ret; intros t [=]|].
  apply Ensures_tryCatch; [|apply Ensures_ret; intros t [=]].
  apply Ensures_bind. intros toc.
  apply Ensures_if; [apply Ensures_ret; intros t [=]|].
  apply Ensures_if; [apply Ensures_ret; intros t [=]|].
  apply Ensures_ret. intros t [= <-]. simpl. apply fillEndPages_sorted.
  apply (sorted_map_key
           (fun c => (ChapterBoundary.title c, ChapterBoundary.startPage c)) snd).
  apply (sortBy_sorted ChapterBoundary.startPage).
Qed.

Lemma detectFromLlmSampling_sorted pages key :
  Ensures (detectFromLlmSampling env pages key) sortedIfSome.
Proof.
  unfold detectFromLlmSampling.
  apply Ensures_if; [apply Ensures_ret, sortedIfSome_None|].
  apply Ensures_if; [apply Ensures_ret, sortedIfSome_None|].
  apply Ensures_tryCatch; [|apply Ensures_ret, sortedIfSome_None].
  apply Ensures_bind. intros result.
  apply Ensures_if; [apply Ensures_ret, sortedIfSome_None|].
  apply Ensures_option.
  - intros regex _. cbv zeta. apply Ensures_if.
    + apply Ensures_ret, sortedIfSome_Some, fillEndPages_sorted.
      apply strictly_sorted_weaken. apply scanPattern_sorted.
    + apply Ensures_ret, sortedIfSome_Some, sampledChapters_sorted.
  - apply Ensures_ret, sortedIfSome_Some, sampledChapters_sorted.
Qed.

Lemma withMetadata_chapters pages key chapters method (P : BookStructure.t -> Prop) :
  (forall title author, P (BookStructure.mk title author chapters method)) ->
  Ensures (withMetadata env pages key chapters method) P.
Proof.
  intros HP. unfold withMetadata. apply Ensures_bind. intros meta.
  apply Ensures_ret. apply HP.
Qed.

(** Whatever tier produced it, the chapters of the structure
    [detectBookStructure] returns are sorted ascending by [startPage]; when
    the tier is the fixed chunks they are moreover pairwise disjoint with
    [endPage >= startPage]. *)
Lemma detectBookStructure_sorted (buffer : Buffer) (pages : list string) :
  Ensures (detectBookStructure env buffer pages)
    (fun structure =>
       SortedByStart (BookStructure.chapters structure)
       /\ (BookStructure.detectionMethod structure = fixed_chunks ->
           WellFormed (BookStructure.chapters structure))).
Proof.
  pose proof (fixedChunks_wellFormed pages) as Hchunks.
  assert (Hsorted4 : SortedByStart (fixedChunks pages)) by apply Hchunks.
  unfold detectBookStructure. cbv zeta.
  eapply Ensures_bind_post; [apply detectFromPdfLinks_sorted|].
  intros linkChapters Hlinks.
  assert (forall chapters method,
             SortedByStart chapters ->
             (method = fixed_chunks -> WellFormed chapters) ->
             Ensures (withMetadata env pages (hasApiKey env) chapters method)
               (fun structure =>
                  SortedByStart (BookStructure.chapters structure)
                  /\ (BookStructure.detectionMethod structure = fixed_chunks ->
                      WellFormed (BookStructure.chapters structure)))) as Hmeta.
  { intros chapters method Hsorted Hwf. apply withMetadata_chapters.
    intros title author. simpl. split; assumption. }
  repeat first
    [ apply Ensures_option; [intros ? ->|]
    | apply Ensures_if
    | apply Hmeta; [first [assumption | apply Hlinks; reflexivity]
                   | first [intros _; assumption | discriminate]]
    | eapply Ensures_bind_post;
      [first [apply detectFromTitleMatching_sorted | apply detectFromLlmSampling_sorted]
      | intros ? ?] ].
  all: try (apply Hmeta;
            [match goal with H : sortedIfSome _ |- _ => apply H; reflexivity end
            | discriminate]).
  all: apply Ensures_ret; simpl;
    (split; [match goal with H : forall t, _ = Some t -> _ |- _ => apply H; reflexivity end
            | discriminate]).
Qed.

End SortedStructures.

(** *** Empty ranges *)

(** C1 (the code departs from it). On the three pages of [algebraPages]
    both titles are first found on the contents page, page 0: the title
    tier gives both chapters start page 0 and ends the first one at page
    -1.  The structure [detectBookStructure] returns has
    [endPage < startPage] for its first chapter, so it is not well formed. *)
Theorem detectBookStructure_title_match_ill_formed :
  fst (detectBookStructure algebraEnv [] algebraPages [])
  = Ok (BookStructure.mk "Algebra Basics" None
          [ChapterBoundary.mk "Linear Equations" 0 (-1);
           ChapterBoundary.mk "Quadratic Equations" 0 2]
          title_match)
  /\ ~ WellFormed [ChapterBoundary.mk "Linear Equations" 0 (-1);
                   ChapterBoundary.mk "Quadratic Equations" 0 2].
Proof.
  split.
  - vm_compute. reflexivity.
  - intros (_ & _ & Hrange). inversion Hrange as [|c rest Hc _]; subst.
    unfold rangeOk in Hc. simpl in Hc. lia.
Qed.

(** Two sampled boundaries on the same page: the first chapter ends before
    it starts. *)
Example sampledChapters_same_page :
  sampledChapters [SampledBoundary.mk "Part I" 3; SampledBoundary.mk "Chapter 1" 3]
    (replicate 10 "Text of a page.")
  = [ChapterBoundary.mk "Part I" 2 1; ChapterBoundary.mk "Chapter 1" 2 9].
Proof. vm_compute. reflexivity. Qed.

(** A link whose destination lies beyond the last page: the last chapter
    ends at the last page, before it starts. *)
Example detectFromPdfLinks_stray_link :
  fst (detectFromPdfLinks
         (mkEnv false (fun _ => Ok strayLinkPdf) (fun _ => None)
            (fun _ => Throw "no API key") (fun _ => Throw "no API key")
            (fun _ => Throw "no API key") (fun _ => Throw "no API key")
            (fun _ => Throw "no API key") (fun _ => Throw "no API key")
            (fun _ => Throw "no state directory") (fun i => i))
         [] [])
  = Ok (Some [ChapterBoundary.mk "One" 2 4; ChapterBoundary.mk "Two" 5 39;
              ChapterBoundary.mk "Three" 40 9]).
Proof. vm_compute. reflexivity. Qed.

(* ------------------------------------------------------------------ *)
(** ** The chapter analyzer *)

Lemma analyzeChapter_returns (env : Env) (chapterNumber : Z) (title chapterText : string)
    (previousChapterContext : option string) :
  Returns (analyzeChapter env chapterNumber title chapterText previousChapterContext).
Proof. unfold analyzeChapter. returns. Qed.

Lemma fallbackMinutes_ge_5 (chapterText : string) : 5 <= fallbackMinutes chapterText.
Proof. unfold fallbackMinutes. lia. Qed.

Example fallbackMinutes_ex1 : fallbackMinutes EmptyString = 5.
Proof. reflexivity. Qed.
Example fallbackMinutes_ex2 : fallbackMinutes (wordsText 1374) = 6.
Proof. vm_compute. reflexivity. Qed.
Example fallbackMinutes_ex3 : fallbackMinutes (wordsText 1373) = 5.
Proof. vm_compute. reflexivity. Qed.

(** What the chapter analyzer returns is positive: the model's number is
    kept only when it is, the fallback is at least 5. *)
Lemma analyzeChapter_minutes_positive (env : Env) (chapterNumber : Z)
    (title chapterText : string) (previousChapterContext : option string)
    (log log' : list Request) (fields : AnalysisFields.t) :
  analyzeChapter env chapterNumber title chapterText previousChapterContext log
  = (Ok fields, log') ->
  (0 < AnalysisFields.estimatedReadingMinutes fields)%Q.
Proof.
  assert (Hfallback : (0 < inject_Z (fallbackMinutes chapterText))%Q).
  { pose proof (fallbackMinutes_ge_5 chapterText).
    unfold Qlt, inject_Z. simpl. lia. }
  unfold analyzeChapter. destruct (hasApiKey env); simpl.
  - unfold tryCatch, bind, generateObject, ret.
    destruct (genChapter env _) as [object|e].
    + intros [= <- _]. simpl.
      destruct (positive (AnalysisFields.estimatedReadingMinutes object)) eqn:Hpos;
        [|exact Hfallback].
      unfold positive in Hpos. apply negb_true_iff in Hpos.
      destruct (Qlt_le_dec 0 (AnalysisFields.estimatedReadingMinutes object)) as [Hlt|Hle];
        [exact Hlt|].
      apply Qle_bool_iff in Hle. congruence.
    + intros [= <- _]. exact Hfallback.
  - intros [= <- _]. exact Hfallback.
Qed.

(** The model's number is not rounded. *)
Example analyzeChapter_keeps_fraction :
  fst (analyzeChapter
         (mkEnv true (fun _ => Ok (blankPdf 1)) (fun _ => None)
            (fun _ => Throw "not reached") (fun _ => Throw "not reached")
            (fun _ => Throw "not reached")
            (fun _ => Ok (AnalysisFields.mk "Summary" [] [] [] (5 # 2)))
            (fun _ => Throw "not reached") (fun _ => Throw "not reached")
            (fun _ => Throw "not reached") (fun i => i))
         1 "Limits" "Some text." None [])
  = Ok (AnalysisFields.mk "Summary" [] [] [] (5 # 2)).
Proof. vm_compute. reflexivity. Qed.

(** C7 (as stated, refuted). A chapter of 1400 words, no API key:
    [analyzeChapter] returns the fallback with 6 minutes, the rounded
    quotient, whereas [max(5, 1400 / 250)] is 5.6, or 5 with a truncating
    division. *)
Lemma analyzeChapter_minutes_not_plain_quotient :
  Js.len (Js.splitWs (wordsText 1399)) = 1400
  /\ fst (analyzeChapter noKeyEnv 1 "Limits" (wordsText 1399) None [])
     = Ok (AnalysisFields.mk (templatedSummary "Limits") [] [] [] (inject_Z 6))
  /\ ~ (inject_Z 6 == statedMinutesExact 1400)
  /\ 6 <> statedMinutesTruncated 1400.
Proof.
  split; [vm_compute; reflexivity|].
  split; [vm_compute; reflexivity|].
  split; [|vm_compute; discriminate].
  vm_compute. discriminate.
Qed.

(** C7 (amended). [analyzeChapter] never raises.  When no API key is
    configured, or the generation call for the chapter fails, it returns
    the deterministic fallback: the templated summary, empty key concepts,
    learning objectives and prerequisites, and
    [max(5, round(n / 250))] minutes, [n] being the number of pieces
    [chapterText.split(/\s+/)] has; this is at least 5. *)
Theorem analyzeChapter_fallback (env : Env) (chapterNumber : Z)
    (title chapterText : string) (previousChapterContext : option string)
    (log : list Request) :
  (exists fields log',
     analyzeChapter env chapterNumber title chapterText previousChapterContext log
     = (Ok fields, log'))
  /\ (hasApiKey env = false
      \/ (exists e, genChapter env (chapterRequest chapterNumber title chapterText
                                      previousChapterContext) = Throw e) ->
      fst (analyzeChapter env chapterNumber title chapterText previousChapterContext log)
      = Ok (AnalysisFields.mk
              ("Content from " +:+ dquote +:+ title +:+ dquote +:+ ".")
              [] [] []
              (inject_Z (Z.max 5 (Js.round (inject_Z (Js.len (Js.splitWs chapterText))
                                            / inject_Z 250)))))
      /\ 5 <= Z.max 5 (Js.round (inject_Z (Js.len (Js.splitWs chapterText))
                                 / inject_Z 250))).
Proof.
  split; [apply analyzeChapter_returns|].
  intros Hunavailable. split; [|lia].
  unfold analyzeChapter.
  destruct (hasApiKey env) eqn:Hkey; simpl; [|reflexivity].
  destruct Hunavailable as [Hno|[e He]]; [discriminate|].
  unfold tryCatch, bind, generateObject. rewrite He. reflexivity.
Qed.

(** The fallback for the 1400-word chapter when no API key is configured. *)
Lemma analyzeChapter_fallback_witness :
  hasApiKey noKeyEnv = false
  /\ fst (analyzeChapter noKeyEnv 3 "Limits" (wordsText 1399) (Some "sets, maps") [])
     = Ok (AnalysisFields.mk
             ("Content from " +:+ dquote +:+ "Limits" +:+ dquote +:+ ".")
             [] [] []
             (inject_Z (Z.max 5 (Js.round (inject_Z (Js.len (Js.splitWs (wordsText 1399)))
                                           / inject_Z 250))))).
Proof.
  split; [reflexivity|].
  apply (analyzeChapter_fallback noKeyEnv 3 "Limits" (wordsText 1399)
           (Some "sets, maps") []).
  left. reflexivity.
Defined.

(* ------------------------------------------------------------------ *)
(** ** The orchestrator *)

(** Quotients and remainders by constants are left to [lia]. *)
Ltac Zify.zify_post_hook ::= Z.div_mod_to_equations.

Section OrchestratorFacts.
Context (env : Env).

Lemma createTask_spec chapters pages results (i : nat) log :
  (i < length chapters)%nat ->
  exists task log',
    createTask env chapters pages results i log = (Ok task, log')
    /\ Task.index task = i
    /\ createdFrom chapters results task.
Proof.
  intros Hi. unfold createTask.
  destruct (lookup_lt_is_Some_2 chapters i Hi) as [chapter Hchapter].
  rewrite Hchapter. unfold bind, spawn.
  match goal with
  | |- context [analyzeChapter env ?n ?t ?x ?c log] =>
      destruct (analyzeChapter_returns env n t x c log) as (fields & log' & Hrun);
      rewrite Hrun
  end.
  eexists _, log'. split; [reflexivity|]. split; [reflexivity|].
  split; [exists fields; reflexivity|]. split; [reflexivity|exact Hchapter].
Qed.

Lemma createTasks_spec chapters pages results (indices : list nat) log :
  Forall (fun i => (i < length chapters)%nat) indices ->
  exists tasks log',
    createTasks env chapters pages results indices log = (Ok tasks, log')
    /\ map Task.index tasks = indices
    /\ Forall (createdFrom chapters results) tasks.
Proof.
  intros Hin. revert log. induction Hin as [|i rest Hi _ IH]; intros log.
  - exists [], log. repeat split; constructor.
  - destruct (createTask_spec chapters pages results i log Hi)
      as (task & log1 & Hrun & Hidx & Hcreated).
    destruct (IH log1) as (tasks & log2 & Hrest & Hidxs & Hall).
    exists (task :: tasks), log2. simpl. unfold bind. rewrite Hrun, Hrest.
    split; [reflexivity|]. split; [simpl; congruence|]. constructor; assumption.
Qed.

(** When every promise of the batch is fulfilled, awaiting them writes
    the slot of each, and no other. *)
Lemma settle_spec (tasks : list Task.t) (results : list (option ChapterAnalysis.t)) :
  Forall fulfilled tasks ->
  exists results',
    settle tasks results = Ok results'
    /\ length results' = length results
    /\ (forall i, i ∉ map Task.index tasks -> results' !! i = results !! i)
    /\ (forall i, i ∈ map Task.index tasks -> (i < length results)%nat ->
        exists task analysis,
          task ∈ tasks /\ Task.index task = i
          /\ Task.outcome task = Ok analysis
          /\ results' !! i = Some (Some (resultOf task analysis))).
Proof.
  intros Hall. revert results.
  induction Hall as [|task rest [analysis Hok] _ IH]; intros results.
  - exists results. split; [reflexivity|]. split; [reflexivity|].
    split; [intros; reflexivity|]. intros i Hi. simpl in Hi. inversion Hi.
  - simpl. rewrite Hok.
    destruct (IH (<[Task.index task := Some (resultOf task analysis)]> results))
      as (results' & Hrun & Hlen & Hother & Hset).
    exists results'. split; [exact Hrun|].
    split; [rewrite Hlen; apply length_insert|].
    split.
    + intros i Hi. rewrite not_elem_of_cons in Hi. destruct Hi as [Hne Hrest].
      rewrite (Hother i Hrest). apply list_lookup_insert_ne. congruence.
    + intros i Hi Hlt.
      destruct (decide (i ∈ map Task.index rest)) as [Hrest|Hrest].
      * destruct (Hset i Hrest) as (t & a & Ht & Hidx & Hout & Hlook);
          [rewrite length_insert; exact Hlt|].
        exists t, a. split; [right; exact Ht|]. auto.
      * apply elem_of_cons in Hi. destruct Hi as [->|Hi]; [|contradiction].
        exists task, analysis. split; [left|]. split; [reflexivity|].
        split; [exact Hok|]. rewrite (Hother _ Hrest).
        apply list_lookup_insert_eq. exact Hlt.
Qed.

(** The same, for the tasks taken in the order in which they settle. *)
Lemma settle_inCompletionOrder (tasks : list Task.t)
    (results : list (option ChapterAnalysis.t)) :
  Forall fulfilled tasks ->
  exists results',
    settle (inCompletionOrder env tasks) results = Ok results'
    /\ length results' = length results
    /\ (forall i, i ∉ map Task.index tasks -> results' !! i = results !! i)
    /\ (forall i, i ∈ map Task.index tasks -> (i < length results)%nat ->
        exists task analysis,
          task ∈ tasks /\ Task.index task = i
          /\ Task.outcome task = Ok analysis
          /\ results' !! i = Some (Some (resultOf task analysis))).
Proof.
  intros Hall.
  pose proof (sortBy_perm (fun task => Z.of_nat (completionTime env (Task.index task)))
                tasks) as Hperm.
  fold (inCompletionOrder env tasks) in Hperm.
  destruct (settle_spec (inCompletionOrder env tasks) results)
    as (results' & Hrun & Hlen & Hother & Hset).
  { eapply Permutation_Forall; [symmetry; exact Hperm|exact Hall]. }
  exists results'. split; [exact Hrun|]. split; [exact Hlen|].
  assert (Hmap : Permutation (map Task.index (inCompletionOrder env tasks))
                   (map Task.index tasks)) by (apply Permutation_map; exact Hperm).
  split.
  - intros i Hi. apply Hother. rewrite Hmap. exact Hi.
  - intros i Hi Hlt. destruct (Hset i) as (t & a & Ht & Hrest); [rewrite Hmap; exact Hi|exact Hlt|].
    exists t, a. split; [rewrite <- Hperm; exact Ht|exact Hrest].
Qed.

Lemma runBatches_spec (fuel : nat) (chapters : list ChapterBoundary.t)
    (pages : list string) :
  forall (batchStart : nat) (results : list (option ChapterAnalysis.t))
         (trace : list Task.t) (log : list Request),
    length results = length chapters ->
    (batchStart mod concurrencyLimit = 0)%nat ->
    (length chapters - batchStart <= concurrencyLimit * fuel)%nat ->
    (forall i, (i < batchStart)%nat -> (i < length chapters)%nat -> numbered results i) ->
    (forall i, (batchStart <= i)%nat -> (i < length chapters)%nat ->
               results !! i = Some None) ->
    exists results' tasks log',
      runBatches env fuel chapters pages batchStart results trace log
      = (Ok (results', trace ++ tasks), log')
      /\ length results' = length chapters
      /\ (forall i, (i < length chapters)%nat -> numbered results' i)
      /\ (forall i, (i < batchStart)%nat -> results' !! i = results !! i)
      /\ map Task.index tasks = seq batchStart (length chapters - batchStart)
      /\ Forall (contextRule results') tasks.
Proof.
  unfold concurrencyLimit.
  induction fuel as [|fuel IH]; intros b results trace log Hlen Hmod Hfuel Hdone Htodo.
  - exists results, [], log. simpl. rewrite app_nil_r.
    split; [reflexivity|]. split; [exact Hlen|].
    split; [intros i Hi; apply Hdone; lia|].
    split; [reflexivity|].
    split; [replace (length chapters - b)%nat with 0%nat by lia; reflexivity|].
    constructor.
  - simpl runBatches. destruct (Nat.ltb_spec b (length chapters)) as [Hlt|Hge].
    + set (k := (Nat.min (b + 5) (length chapters) - b)%nat).
      destruct (createTasks_spec chapters pages results (seq b k) log)
        as (tasks & log1 & Hcreate & Hidx & Hcreated).
      { apply Forall_forall. intros i Hi. apply elem_of_seq in Hi. lia. }
      destruct (settle_inCompletionOrder tasks results)
        as (results1 & Hsettle & Hlen1 & Hother & Hset).
      { eapply Forall_impl; [exact Hcreated|]. intros t Ht. apply Ht. }
      rewrite Hidx in Hother, Hset.
      assert (Hbatch : runBatch env chapters pages b results log
                       = (Ok (results1, tasks), log1)).
      { unfold runBatch, bind, await, ret, concurrencyLimit. fold k.
        rewrite Hcreate, Hsettle. reflexivity. }
      unfold bind at 1. rewrite Hbatch. simpl fst. simpl snd.
      unfold concurrencyLimit.
      destruct (IH (b + 5)%nat results1 (trace ++ tasks) log1)
        as (results' & tasks' & log2 & Hrun & Hlen' & Hnum & Hkeep & Hidx' & Hrule).
      { congruence. }
      { lia. }
      { lia. }
      { intros i Hi Hin. destruct (decide (i < b)%nat) as [Hold|Hnew].
        - destruct (Hdone i Hold Hin) as (a & Ha & Hnumber).
          exists a. split; [|exact Hnumber]. rewrite Hother; [exact Ha|].
          rewrite elem_of_seq. lia.
        - destruct (Hset i) as (t & a & _ & Hti & _ & Hlook).
          { rewrite elem_of_seq. lia. }
          { lia. }
          exists (resultOf t a). split; [exact Hlook|]. simpl. rewrite Hti. reflexivity. }
      { intros i Hi Hin. rewrite Hother; [apply Htodo; lia|].
        rewrite elem_of_seq. lia. }
      exists results', (tasks ++ tasks'), log2.
      split; [rewrite Hrun, app_assoc; reflexivity|].
      split; [exact Hlen'|]. split; [exact Hnum|].
      split.
      { intros i Hi. rewrite Hkeep by lia. apply Hother. rewrite elem_of_seq. lia. }
      split.
      { rewrite map_app, Hidx, Hidx'. subst k.
        destruct (Nat.le_gt_cases (b + 5) (length chapters)) as [Hfull|Hpart].
        - rewrite Nat.min_l by lia.
          replace (length chapters - b)%nat with (5 + (length chapters - (b + 5)))%nat by lia.
          rewrite seq_app. replace (b + 5 - b)%nat with 5%nat by lia. reflexivity.
        - rewrite Nat.min_r by lia.
          replace (length chapters - (b + 5))%nat with 0%nat by lia.
          apply app_nil_r. }
      apply Forall_app. split; [|exact Hrule].
      apply Forall_forall. intros t Ht.
      assert (Hti : Task.index t ∈ seq b k).
      { rewrite <- Hidx. apply list_elem_of_fmap. exists t. split; [reflexivity|exact Ht]. }
      apply elem_of_seq in Hti.
      rewrite Forall_forall in Hcreated.
      destruct (Hcreated t Ht) as (_ & Hctx & _).
      unfold contextRule, concurrencyLimit. cbv zeta. rewrite Hctx.
      unfold previousContextOf. split.
      * intros Hfirst. destruct (Nat.ltb_spec 0 (Task.index t)) as [Hpos|Hzero];
          [|reflexivity].
        rewrite Htodo by lia. reflexivity.
      * intros Hpos Hmult. assert (Task.index t = b) as -> by lia.
        destruct (Hdone (b - 1)%nat) as (a & Ha & _); [lia|lia|].
        exists a. split.
        -- rewrite Hkeep by lia. rewrite Hother; [exact Ha|]. rewrite elem_of_seq. lia.
        -- destruct (Nat.ltb_spec 0 b) as [_|Hzero]; [|lia]. rewrite Ha. reflexivity.
    + exists results, [], log. rewrite app_nil_r.
      split; [reflexivity|]. split; [exact Hlen|].
      split; [intros i Hi; apply Hdone; lia|].
      split; [reflexivity|].
      split; [replace (length chapters - b)%nat with 0%nat by lia; reflexivity|].
      constructor.
Qed.

(** The orchestrator on a whole structure. *)
Lemma analyzeChaptersTraced_spec (structure : BookStructure.t) (pages : list string)
    (log : list Request) :
  exists results trace log',
    analyzeChaptersTraced env structure pages log = (Ok (results, trace), log')
    /\ length results = length (BookStructure.chapters structure)
    /\ (forall i, (i < length (BookStructure.chapters structure))%nat ->
                  numbered results i)
    /\ map Task.index trace = seq 0 (length (BookStructure.chapters structure))
    /\ Forall (contextRule results) trace.
Proof.
  unfold analyzeChaptersTraced.
  destruct (runBatches_spec (length (BookStructure.chapters structure))
              (BookStructure.chapters structure) pages 0
              (newArray (length (BookStructure.chapters structure))) [] log)
    as (results & tasks & log' & Hrun & Hlen & Hnum & _ & Hidx & Hrule).
  - unfold newArray. apply length_replicate.
  - reflexivity.
  - unfold concurrencyLimit. lia.
  - intros i Hi. lia.
  - intros i _ Hi. unfold newArray. apply lookup_replicate_2. exact Hi.
  - exists results, tasks, log'. rewrite Nat.sub_0_r in Hidx. auto.
Qed.

End OrchestratorFacts.

Lemma lookup_by_index {A} (f : A -> nat) (l : list A) (n i : nat) :
  map f l = seq 0 n -> (i < n)%nat -> exists x, l !! i = Some x /\ f x = i.
Proof.
  intros Hmap Hi.
  assert (Hlook : map f l !! i = Some i).
  { rewrite Hmap. apply lookup_seq. split; [reflexivity|exact Hi]. }
  change (map f l) with (f <$> l) in Hlook.
  rewrite list_lookup_fmap in Hlook.
  destruct (l !! i) as [x|]; [|discriminate].
  exists x. split; [reflexivity|]. simpl in Hlook. congruence.
Qed.

(** C3. For every structure and page list, whatever the model answers and
    in whatever order the analyses of a batch complete,
    [analyzeChaptersWithContext] returns an array with one slot per chapter
    boundary, and the slot at index [i] holds an analysis whose
    [chapterNumber] is [i + 1]. *)
Theorem analyzeChaptersWithContext_numbering (env : Env) (structure : BookStructure.t)
    (pages : list string) (log : list Request) :
  exists results log',
    analyzeChaptersWithContext env structure pages log = (Ok results, log')
    /\ length results = length (BookStructure.chapters structure)
    /\ forall i, (i < length (BookStructure.chapters structure))%nat ->
         exists analysis,
           results !! i = Some (Some analysis)
           /\ ChapterAnalysis.chapterNumber analysis = Z.of_nat i + 1.
Proof.
  destruct (analyzeChaptersTraced_spec env structure pages log)
    as (results & trace & log' & Hrun & Hlen & Hnum & _).
  exists results, log'. unfold analyzeChaptersWithContext, bind.
  rewrite Hrun. split; [reflexivity|]. split; [exact Hlen|exact Hnum].
Qed.

Example twelveChapters_numbers :
  (let (r, _) := analyzeChaptersWithContext conceptEnv twelveChapters twelvePages [] in
   match r with
   | Ok results => map (option_map ChapterAnalysis.chapterNumber) results
   | Throw _ => []
   end)
  = map (fun i => Some (Z.of_nat i + 1)) (seq 0 12).
Proof. vm_compute. reflexivity. Qed.

(* ------------------------------------------------------------------ *)
(** ** Editing a course plan *)

Lemma prefix_toLowerCase (needle hay : string) :
  String.prefix needle hay = true ->
  String.prefix (Js.toLowerCase needle) (Js.toLowerCase hay) = true.
Proof.
  revert hay. induction needle as [|a needle IH]; intros hay Hpre;
    [destruct hay; reflexivity|].
  destruct hay as [|b hay]; [discriminate|]. simpl in *.
  destruct (ascii_dec a b) as [->|Hne]; [|discriminate].
  destruct (ascii_dec (Js.lowerChar b) (Js.lowerChar b)); [|contradiction].
  apply IH. exact Hpre.
Qed.

Lemma includes_nil (needle : string) :
  Js.includes EmptyString needle = String.prefix needle EmptyString || false.
Proof. reflexivity. Qed.

Lemma includes_cons (c : ascii) (hay needle : string) :
  Js.includes (String c hay) needle
  = String.prefix needle (String c hay) || Js.includes hay needle.
Proof. reflexivity. Qed.

Lemma includes_toLowerCase (hay needle : string) :
  Js.includes hay needle = true ->
  Js.includes (Js.toLowerCase hay) (Js.toLowerCase needle) = true.
Proof.
  induction hay as [|c hay IH]; intros Hinc.
  - rewrite includes_nil, orb_false_r in Hinc.
    apply prefix_toLowerCase in Hinc.
    change (Js.toLowerCase EmptyString) with EmptyString in *.
    rewrite includes_nil, Hinc. reflexivity.
  - rewrite includes_cons in Hinc.
    change (Js.toLowerCase (String c hay))
      with (String (Js.lowerChar c) (Js.toLowerCase hay)).
    rewrite includes_cons.
    apply orb_true_iff in Hinc. destruct Hinc as [Hpre|Hrest].
    + apply prefix_toLowerCase in Hpre.
      change (Js.toLowerCase (String c hay))
        with (String (Js.lowerChar c) (Js.toLowerCase hay)) in Hpre.
      rewrite Hpre. reflexivity.
    + rewrite (IH Hrest). apply orb_true_r.
Qed.

(** An instruction that contains the word [missing] matches the
    missing-content pattern. *)
Lemma looksLikeMissingContent_missing (userInstruction : string) :
  Js.includes userInstruction "missing" = true ->
  looksLikeMissingContent userInstruction = true.
Proof.
  intros Hinc. apply includes_toLowerCase in Hinc.
  change (Js.toLowerCase "missing") with "missing" in Hinc.
  unfold looksLikeMissingContent, missingContentWords. simpl existsb.
  rewrite Hinc. repeat rewrite orb_true_r. reflexivity.
Qed.

Lemma discoveredAnalyses_length (known totalPages i : Z) (found : list DiscoveredChapter.t) :
  length (discoveredAnalyses known totalPages i found) = length found.
Proof.
  revert i. induction found as [|ch rest IH]; intros i; simpl; [reflexivity|].
  rewrite IH. reflexivity.
Qed.

Lemma discoveredAnalyses_lookup (known totalPages i : Z) (found : list DiscoveredChapter.t)
    (k : nat) :
  discoveredAnalyses known totalPages i found !! k
  = (fun ch =>
       ChapterAnalysis.mk (known + i + Z.of_nat k + 1)
         (DiscoveredChapter.title ch) (DiscoveredChapter.startPage ch)
         (DiscoveredChapter.endPage ch) (DiscoveredChapter.summary ch)
         (DiscoveredChapter.keyConcepts ch) (DiscoveredChapter.learningObjectives ch) []
         (inject_Z (proportionalMinutes (DiscoveredChapter.startPage ch)
                      (DiscoveredChapter.endPage ch) totalPages)))
    <$> found !! k.
Proof.
  revert i k. induction found as [|ch rest IH]; intros i [|k]; simpl; try reflexivity.
  - f_equal. f_equal. lia.
  - rewrite IH. destruct (rest !! k); simpl; [|reflexivity]. f_equal. f_equal. lia.
Qed.

Example discoveryTarget_opts120 :
  discoveryTarget opts120 = Some (pages120, 99, 120).
Proof. vm_compute. reflexivity. Qed.

(** C2 (as stated, refuted). With an API key configured, the edit of the
    120-page book enters the discovery flow; when the discovery call fails,
    [editCoursePlan] does not return the original plan with a message: the
    error reaches its caller. *)
Lemma editCoursePlan_discovery_failure_propagates :
  fst (editCoursePlan (editEnv (Throw "model unavailable") (Ok mergedPlan)) opts120 [])
  = Throw "model unavailable"
  /\ ~ (exists result log',
          editCoursePlan (editEnv (Throw "model unavailable") (Ok mergedPlan)) opts120 []
          = (Ok result, log')).
Proof.
  assert (H : fst (editCoursePlan (editEnv (Throw "model unavailable") (Ok mergedPlan))
                     opts120 [])
              = Throw "model unavailable") by (vm_compute; reflexivity).
  split; [exact H|].
  intros (result & log' & Hrun). rewrite Hrun in H. discriminate.
Qed.

(** C2 (amended). Without an API key [editCoursePlan] returns the input
    plan unchanged, no updated book analysis, and the explanation that the
    plan cannot be edited automatically; it sends no request and does not
    raise.  With an API key nothing is caught: a failure of the read of the
    state documents, of the discovery call, of the merge call or of the
    standard edit call reaches the caller as the error it is. *)
Theorem editCoursePlan_failure_modes (env : Env) (opts : EditOpts.t) (log : list Request) :
  (hasApiKey env = false ->
   editCoursePlan env opts log
   = (Ok (EditPlanResult.mk (EditOpts.currentPlan opts) None
            "No API key configured — unable to edit the plan automatically."),
      log))
  /\ (hasApiKey env = true ->
      (forall e,
         loadUserStateDocs env (EditOpts.userId opts) = Throw e ->
         fst (editCoursePlan env opts log) = Throw e)
      /\ (forall docs pages lastDetectedPage totalPages e,
            loadUserStateDocs env (EditOpts.userId opts) = Ok docs ->
            discoveryTarget opts = Some (pages, lastDetectedPage, totalPages) ->
            genDiscovery env (ReqDiscovery totalPages lastDetectedPage
                                (uncoveredText pages lastDetectedPage)) = Throw e ->
            fst (editCoursePlan env opts log) = Throw e)
      /\ (forall docs pages lastDetectedPage totalPages found e,
            loadUserStateDocs env (EditOpts.userId opts) = Ok docs ->
            discoveryTarget opts = Some (pages, lastDetectedPage, totalPages) ->
            genDiscovery env (ReqDiscovery totalPages lastDetectedPage
                                (uncoveredText pages lastDetectedPage)) = Ok found ->
            genPlan env (ReqMerge docs (EditOpts.userInstruction opts)
                           (EditOpts.currentPlan opts) found) = Throw e ->
            fst (editCoursePlan env opts log) = Throw e)
      /\ (forall docs e,
            loadUserStateDocs env (EditOpts.userId opts) = Ok docs ->
            discoveryTarget opts = None ->
            genPlan env (ReqEdit docs (EditOpts.userInstruction opts)
                           (EditOpts.currentPlan opts)
                           (compactBookSummary (EditOpts.bookAnalysis opts))) = Throw e ->
            fst (editCoursePlan env opts log) = Throw e)).
Proof.
  unfold editCoursePlan. split.
  - intros ->. reflexivity.
  - intros ->. change (negb true) with false. cbv iota. unfold bind at 1, await.
    split; [|split; [|split]].
    + intros e ->. reflexivity.
    + intros docs pages lastDetectedPage totalPages e -> -> Hfail.
      unfold discoveryEdit, bind, generateObject. rewrite Hfail. reflexivity.
    + intros docs pages lastDetectedPage totalPages found e -> -> Hfound Hfail.
      unfold discoveryEdit, bind, generateObject. rewrite Hfound, Hfail. reflexivity.
    + intros docs e -> -> Hfail.
      unfold standardEdit, bind, generateObject. rewrite Hfail. reflexivity.
Qed.

(** The edit of the 120-page book without an API key, and with a merge
    call that fails. *)
Lemma editCoursePlan_failure_modes_witness :
  (hasApiKey noKeyEnv = false
   /\ editCoursePlan noKeyEnv opts120 []
      = (Ok (EditPlanResult.mk samplePlan None
               "No API key configured — unable to edit the plan automatically."),
         []))
  /\ (hasApiKey (editEnv (Ok []) (Throw "merge failed")) = true
      /\ fst (editCoursePlan (editEnv (Ok []) (Throw "merge failed")) opts120 [])
         = Throw "merge failed").
Proof.
  split.
  - split; [reflexivity|].
    apply (editCoursePlan_failure_modes noKeyEnv opts120 []). reflexivity.
  - split; [reflexivity|].
    destruct (editCoursePlan_failure_modes (editEnv (Ok []) (Throw "merge failed"))
                opts120 []) as [_ Hkey].
    destruct (Hkey eq_refl) as (_ & _ & Hmerge & _).
    apply (Hmerge sampleDocs pages120 99 120 [] "merge failed").
    + reflexivity.
    + vm_compute. reflexivity.
    + reflexivity.
    + reflexivity.
Defined.

(** C5. Let the last chapter of the book analysis end before the last
    page ([endPage < totalPages - 1], as for page 99 of a book of 120
    pages), the instruction contain [missing] and raw pages be available;
    and let the generation capability be there and answer as the
    specification has it: an API key is configured, the state documents
    are read, the discovery call returns one or more chapters and the
    merge call succeeds.  Then [editCoursePlan] goes through the two-step
    flow, sending the discovery request for the uncovered pages and then
    the merge request, and the updated book analysis it returns has
    strictly more chapters than the input: the chapters of the input,
    unchanged and in their places, followed by one analysis per
    discovered chapter, in order, numbered on from the input's, with the
    discovered title, pages, summary, concepts and objectives, no
    prerequisites and the proportional reading minutes.  The other fields
    of the book analysis are those of the input. *)
Theorem editCoursePlan_gap_reconciliation (env : Env) (opts : EditOpts.t)
    (log : list Request) (lastChapter : ChapterAnalysis.t) (pages : list string)
    (docs : StateDocs.t) (found : list DiscoveredChapter.t) (edited : EditedPlan.t) :
  let input := EditOpts.bookAnalysis opts in
  let known := length (BookAnalysis.chapters input) in
  let lastDetectedPage := ChapterAnalysis.endPage lastChapter in
  let totalPages := BookAnalysis.totalPages input in
  let discoveryRequest :=
    ReqDiscovery totalPages lastDetectedPage (uncoveredText pages lastDetectedPage) in
  let mergeRequest :=
    ReqMerge docs (EditOpts.userInstruction opts) (EditOpts.currentPlan opts) found in
  last (BookAnalysis.chapters input) = Some lastChapter ->
  0 < totalPages ->
  lastDetectedPage < totalPages - 1 ->
  Js.includes (EditOpts.userInstruction opts) "missing" = true ->
  EditOpts.extractedPages opts = Some pages ->
  pages <> [] ->
  hasApiKey env = true ->
  loadUserStateDocs env (EditOpts.userId opts) = Ok docs ->
  genDiscovery env discoveryRequest = Ok found ->
  found <> [] ->
  genPlan env mergeRequest = Ok edited ->
  exists updated,
    editCoursePlan env opts log
    = (Ok (EditPlanResult.mk (planOf edited) (Some updated) (EditedPlan.explanation edited)),
       log ++ [discoveryRequest; mergeRequest])
    /\ (known < length (BookAnalysis.chapters updated))%nat
    /\ length (BookAnalysis.chapters updated) = (known + length found)%nat
    /\ (forall i, (i < known)%nat ->
          BookAnalysis.chapters updated !! i = BookAnalysis.chapters input !! i)
    /\ (forall i ch,
          found !! i = Some ch ->
          BookAnalysis.chapters updated !! (known + i)%nat
          = Some (ChapterAnalysis.mk (Z.of_nat (known + i) + 1)
                    (DiscoveredChapter.title ch)
                    (DiscoveredChapter.startPage ch) (DiscoveredChapter.endPage ch)
                    (DiscoveredChapter.summary ch) (DiscoveredChapter.keyConcepts ch)
                    (DiscoveredChapter.learningObjectives ch) []
                    (inject_Z (proportionalMinutes (DiscoveredChapter.startPage ch)
                                 (DiscoveredChapter.endPage ch) totalPages))))
    /\ BookAnalysis.title updated = BookAnalysis.title input
    /\ BookAnalysis.author updated = BookAnalysis.author input
    /\ BookAnalysis.totalPages updated = totalPages
    /\ BookAnalysis.detectionMethod updated = BookAnalysis.detectionMethod input.
Proof.
  intros input known lastDetectedPage totalPages discoveryRequest mergeRequest
    Hlast Hbook Hgap Hword Hpages Hsome Hkey Hdocs Hfound Hmore Hedited.
  exists (withDiscovered input totalPages found).
  assert (Htarget : discoveryTarget opts = Some (pages, lastDetectedPage, totalPages)).
  { unfold discoveryTarget. rewrite Hpages.
    destruct pages as [|page morePages]; [contradiction|].
    rewrite (looksLikeMissingContent_missing _ Hword).
    fold input. rewrite Hlast. fold lastDetectedPage totalPages.
    destruct (Z.ltb_spec lastDetectedPage (totalPages - 1)); [reflexivity|lia]. }
  assert (Hlen : length (BookAnalysis.chapters (withDiscovered input totalPages found))
                 = (known + length found)%nat).
  { simpl. rewrite length_app, discoveredAnalyses_length. reflexivity. }
  split.
  { unfold editCoursePlan. rewrite Hkey. change (negb true) with false. cbv iota.
    unfold bind at 1, await. rewrite Hdocs, Htarget.
    unfold discoveryEdit, bind, generateObject, ret.
    fold discoveryRequest. rewrite Hfound. fold mergeRequest. rewrite Hedited.
    rewrite <- app_assoc. reflexivity. }
  split.
  { rewrite Hlen. destruct found; [contradiction|]. simpl. lia. }
  split; [exact Hlen|].
  split.
  { intros i Hi. simpl. apply lookup_app_l. exact Hi. }
  split; [|repeat split].
  intros i ch Hch. simpl. rewrite lookup_app_r by (fold known; lia).
  fold known. replace (known + i - known)%nat with i by lia.
  rewrite discoveredAnalyses_lookup, Hch. simpl. unfold Js.len. fold known.
  f_equal. f_equal. lia.
Qed.

(** The edit of the 120-page book whose chapters stop at page 99, when
    discovery finds the appendix. *)
Lemma editCoursePlan_gap_reconciliation_witness :
  (ChapterAnalysis.endPage <$> last (BookAnalysis.chapters analysis120)) = Some 99
  /\ BookAnalysis.totalPages analysis120 = 120
  /\ exists updated,
       editCoursePlan (editEnv (Ok [appendix]) (Ok mergedPlan)) opts120 []
       = (Ok (EditPlanResult.mk (planOf mergedPlan) (Some updated)
                "Added a unit for the appendix."),
          [ReqDiscovery 120 99 (uncoveredText pages120 99);
           ReqMerge sampleDocs "The last chapter is missing" samplePlan [appendix]])
       /\ (2 < length (BookAnalysis.chapters updated))%nat
       /\ length (BookAnalysis.chapters updated) = 3%nat.
Proof.
  split; [reflexivity|]. split; [reflexivity|].
  destruct (editCoursePlan_gap_reconciliation (editEnv (Ok [appendix]) (Ok mergedPlan))
              opts120 []
              (ChapterAnalysis.mk 2 "Quadratic Equations" 50 99 "Parabolas." ["roots"] [] []
                 (inject_Z 50))
              pages120 sampleDocs [appendix] mergedPlan)
    as (updated & Hrun & Hlonger & Hlength & _).
  - reflexivity.
  - reflexivity.
  - simpl. lia.
  - vm_compute. reflexivity.
  - reflexivity.
  - discriminate.
  - reflexivity.
  - reflexivity.
  - reflexivity.
  - discriminate.
  - reflexivity.
  - exists updated. split; [exact Hrun|]. split; [exact Hlonger|exact Hlength].
Defined.

(** The discovery call has to find a chapter for the list to grow: the
    schema of the call admits an empty list, and the chapters of the
    updated book analysis are then those of the input. *)
Example editCoursePlan_discovery_of_nothing :
  exists result updated,
    fst (editCoursePlan (editEnv (Ok []) (Ok mergedPlan)) opts120 []) = Ok result
    /\ EditPlanResult.updatedBookAnalysis result = Some updated
    /\ BookAnalysis.chapters updated = BookAnalysis.chapters analysis120.
Proof.
  eexists _, _. split; [vm_compute; reflexivity|]. split; reflexivity.
Qed.

(** The reading minutes of discovered chapters.  The appendix covers 20 of
    120 pages.  For 41 of 80 pages the quotient times 120 is
    61.49999999999999 in doubles, and [Math.round] gives 61, where the
    exact quotient gives 62. *)
Example appendix_minutes :
  map ChapterAnalysis.estimatedReadingMinutes (discoveredAnalyses 2 120 0 [appendix])
  = [inject_Z 20].
Proof. vm_compute. reflexivity. Qed.

Example proportionalMinutes_in_doubles :
  proportionalMinutes 0 40 80 = 61
  /\ Js.round ((inject_Z (40 - 0 + 1) / inject_Z 80) * inject_Z 120) = 62.
Proof. split; vm_compute; reflexivity. Qed.

(** C6 (the code departs from it). The discovery flow finds the two-page
    index of the 600-page book; the chapter it appends to the book analysis
    has [round(2 / 600 * 120) = 0] estimated reading minutes, which is not
    greater than 0. *)
Theorem discovered_chapter_zero_minutes :
  exists result updated chapter,
    fst (editCoursePlan (editEnv (Ok [indexChapter]) (Ok mergedPlan)) opts600 [])
    = Ok result
    /\ EditPlanResult.updatedBookAnalysis result = Some updated
    /\ last (BookAnalysis.chapters updated) = Some chapter
    /\ ChapterAnalysis.chapterNumber chapter = 3
    /\ ChapterAnalysis.title chapter = "Index"
    /\ ChapterAnalysis.estimatedReadingMinutes chapter = inject_Z 0
    /\ ~ (0 < ChapterAnalysis.estimatedReadingMinutes chapter)%Q.
Proof.
  eexists _, _, _.
  split; [vm_compute; reflexivity|].
  split; [reflexivity|]. split; [reflexivity|].
  split; [reflexivity|]. split; [reflexivity|].
  split; [vm_compute; reflexivity|].
  vm_compute. discriminate.
Qed.

(* ------------------------------------------------------------------ *)
(** ** More on structure detection *)

Lemma bind_inv {A B} (m : M A) (k : A -> M B) (log : list Request) (b : B)
    (log' : list Request) :
  bind m k log = (Ok b, log') ->
  exists a log1, m log = (Ok a, log1) /\ k a log1 = (Ok b, log').
Proof.
  unfold bind. destruct (m log) as [[a|e] log1]; [|discriminate].
  intros H. exists a, log1. split; [reflexivity|exact H].
Qed.

Lemma withMetadata_inv (env : Env) (pages : list string) (key : bool)
    (chapters : list ChapterBoundary.t) (method : DetectionMethod)
    (log : list Request) (structure : BookStructure.t) (log' : list Request) :
  withMetadata env pages key chapters method log = (Ok structure, log') ->
  exists meta,
    extractBookMetadata env pages key log = (Ok meta, log')
    /\ structure = BookStructure.mk (MetadataObject.title meta)
                     (MetadataObject.author meta) chapters method.
Proof.
  unfold withMetadata. intros H. apply bind_inv in H as (meta & log1 & Hmeta & H).
  injection H as <- <-. exists meta. split; [exact Hmeta|reflexivity].
Qed.

(** The entry point read backwards: a result comes from one of the four
    tiers. *)
Lemma detectBookStructure_inv (env : Env) (buffer : Buffer) (pages : list string)
    (log : list Request) (structure : BookStructure.t) (log' : list Request) :
  detectBookStructure env buffer pages log = (Ok structure, log') ->
  DetectedBy env buffer pages log structure log'.
Proof.
  unfold detectBookStructure. cbv zeta. intros H.
  apply bind_inv in H as (links & log1 & Hlinks & H).
  assert (Hrest :
            forall (rest : M BookStructure.t),
              rest log1 = (Ok structure, log') ->
              rest = (titleResult <- detectFromTitleMatching env pages (hasApiKey env) ;;
                      match titleResult with
                      | Some r =>
                          if 2 <=? Js.len (TitleResult.chapters r)
                          then ret (BookStructure.mk (TitleResult.title r)
                                      (TitleResult.author r) (TitleResult.chapters r)
                                      title_match)
                          else
                            llmChapters <- detectFromLlmSampling env pages (hasApiKey env) ;;
                            match llmChapters with
                            | Some chapters =>
                                if 2 <=? Js.len chapters
                                then withMetadata env pages (hasApiKey env) chapters
                                       llm_detection
                                else withMetadata env pages (hasApiKey env)
                                       (fixedChunks pages) fixed_chunks
                            | None => withMetadata env pages (hasApiKey env)
                                        (fixedChunks pages) fixed_chunks
                            end
                      | None =>
                          llmChapters <- detectFromLlmSampling env pages (hasApiKey env) ;;
                          match llmChapters with
                          | Some chapters =>
                              if 2 <=? Js.len chapters
                              then withMetadata env pages (hasApiKey env) chapters
                                     llm_detection
                              else withMetadata env pages (hasApiKey env)
                                     (fixedChunks pages) fixed_chunks
                          | None => withMetadata env pages (hasApiKey env)
                                      (fixedChunks pages) fixed_chunks
                          end
                      end) ->
              DetectedBy env buffer pages log structure log').
  { intros rest Hrun ->.
    apply bind_inv in Hrun as (titles & log2 & Htitles & Hrun).
    assert (Hlater :
              (llmChapters <- detectFromLlmSampling env pages (hasApiKey env) ;;
               match llmChapters with
               | Some chapters =>
                   if 2 <=? Js.len chapters
                   then withMetadata env pages (hasApiKey env) chapters llm_detection
                   else withMetadata env pages (hasApiKey env) (fixedChunks pages)
                          fixed_chunks
               | None => withMetadata env pages (hasApiKey env) (fixedChunks pages)
                           fixed_chunks
               end) log2 = (Ok structure, log') ->
              DetectedBy env buffer pages log structure log').
    { intros Hthird.
      apply bind_inv in Hthird as (sampled & log3 & Hsampled & Hthird).
      assert (Hchunks :
                withMetadata env pages (hasApiKey env) (fixedChunks pages) fixed_chunks log3
                = (Ok structure, log') ->
                DetectedBy env buffer pages log structure log').
      { intros Hfourth. apply withMetadata_inv in Hfourth as (meta & Hmeta & ->).
        eapply by_chunks; eassumption. }
      destruct sampled as [chapters|]; [|exact (Hchunks Hthird)].
      destruct (Z.leb_spec 2 (Js.len chapters)) as [Hmany|Hfew];
        [|exact (Hchunks Hthird)].
      apply withMetadata_inv in Hthird as (meta & Hmeta & ->).
      eapply by_sampling; eassumption. }
    destruct titles as [r|]; [|exact (Hlater Hrun)].
    destruct (Z.leb_spec 2 (Js.len (TitleResult.chapters r))) as [Hmany|Hfew];
      [|exact (Hlater Hrun)].
    injection Hrun as <- <-. eapply by_titles; eassumption. }
  destruct links as [chapters|]; [|eapply Hrest; [exact H|reflexivity]].
  destruct (Z.leb_spec 3 (Js.len chapters)) as [Hmany|Hfew];
    [|eapply Hrest; [exact H|reflexivity]].
  apply withMetadata_inv in H as (meta & Hmeta & ->).
  eapply by_links; eassumption.
Qed.

Lemma truthy_nonempty (x : string) : truthy x = true <-> x <> EmptyString.
Proof.
  unfold truthy. destruct (String.eqb_spec x EmptyString) as [->|Hne]; simpl.
  - split; [discriminate|intros H; contradiction].
  - split; [intros _; exact Hne|reflexivity].
Qed.

Lemma orElse_nonempty (x fallback : string) :
  fallback <> EmptyString -> orElse x fallback <> EmptyString.
Proof.
  intros Hfb. unfold orElse. destruct (truthy x) eqn:Hx; [|exact Hfb].
  apply truthy_nonempty. exact Hx.
Qed.

Lemma collectLinks_log (pdf : PdfDocument.t) (nums : list Z) (links : list Link.t)
    (log : list Request) (r : Result (list Link.t)) (log' : list Request) :
  collectLinks pdf nums links log = (r, log') -> log' = log.
Proof.
  revert links. induction nums as [|i rest IH]; intros links; simpl.
  - intros [= _ <-]. reflexivity.
  - unfold bind at 1. unfold pageLinks, bind, await, ret.
    destruct (PdfDocument.getPage pdf i) as [page|e]; [|intros [= _ <-]; reflexivity].
    destruct (PdfPage.getAnnotations page) as [annotations|e];
      [|intros [= _ <-]; reflexivity].
    apply IH.
Qed.

(** Tier 1 sends no generation request. *)
Lemma detectFromPdfLinks_log (env : Env) (buffer : Buffer) (log : list Request)
    (r : Result (option (list ChapterBoundary.t))) (log' : list Request) :
  detectFromPdfLinks env buffer log = (r, log') -> log' = log.
Proof.
  unfold detectFromPdfLinks, tryCatch, bind at 1, await.
  destruct (getDocumentProxy env buffer) as [pdf|e]; [|intros [= _ <-]; reflexivity].
  cbv zeta. unfold bind.
  destruct (collectLinks pdf (pageNumbers (Z.min 15 (PdfDocument.numPages pdf))) [] log)
    as [[links|e] log1] eqn:Hcollect; apply collectLinks_log in Hcollect; subst log1.
  - destruct (Js.len links <? 3); [intros [= _ <-]; reflexivity|].
    destruct (Js.len (dedupByDest [] (Js.sortBy Link.destPage links)) <? 3);
      intros [= _ <-]; reflexivity.
  - intros [= _ <-]. reflexivity.
Qed.

Lemma extractBookMetadata_inv (env : Env) (pages : list string) (key : bool)
    (log : list Request) (meta : MetadataObject.t) (log' : list Request) :
  extractBookMetadata env pages key log = (Ok meta, log') ->
  MetadataObject.title meta <> EmptyString
  /\ (key = false -> meta = untitledBook /\ log' = log).
Proof.
  unfold extractBookMetadata. destruct key; simpl.
  - unfold tryCatch, bind, generateObject, ret.
    destruct (genMetadata env _) as [object|e]; intros [= <- _].
    + split; [|discriminate]. simpl. apply orElse_nonempty. discriminate.
    + split; [discriminate|discriminate].
  - intros [= <- <-]. split; [discriminate|]. intros _. split; reflexivity.
Qed.

Lemma detectFromTitleMatching_inv (env : Env) (pages : list string) (key : bool)
    (log : list Request) (r : TitleResult.t) (log' : list Request) :
  detectFromTitleMatching env pages key log = (Ok (Some r), log') ->
  let tocText := Js.join pageBreak (Js.slice 0 (Z.min 15 (Js.len pages)) pages) in
  key = true
  /\ log' = log ++ [ReqToc tocText]
  /\ exists toc,
       genToc env (ReqToc tocText) = Ok toc
       /\ r = TitleResult.mk
                (fillEndPages (Js.len pages - 1)
                   (map (fun c => (ChapterBoundary.title c, ChapterBoundary.startPage c))
                      (Js.sortBy ChapterBoundary.startPage
                         (scanTitles (TocObject.chapterTitles toc) pages []))))
                (orElse (TocObject.bookTitle toc) "Untitled")
                (TocObject.author toc).
Proof.
  unfold detectFromTitleMatching. destruct key; simpl; [|discriminate]. cbv zeta.
  destruct (Js.strlen _ <? 100); [discriminate|].
  unfold tryCatch, bind, generateObject, ret.
  destruct (genToc env _) as [toc|e] eqn:Htoc; [|discriminate].
  destruct (Js.len (TocObject.chapterTitles toc) <? 2); [discriminate|].
  destruct (Js.len (scanTitles _ _ _) <? 2); [discriminate|].
  intros [= <- <-]. split; [reflexivity|]. split; [reflexivity|].
  exists toc. split; reflexivity.
Qed.

Lemma detectFromLlmSampling_inv (env : Env) (pages : list string) (key : bool)
    (log : list Request) (chapters : list ChapterBoundary.t) (log' : list Request) :
  detectFromLlmSampling env pages key log = (Ok (Some chapters), log') ->
  let request := ReqSampling (Js.len pages) (sampledText pages) in
  key = true
  /\ 10 <= Js.len pages
  /\ log' = log ++ [request]
  /\ exists result,
       genSampling env request = Ok result
       /\ 2 <= Js.len (SamplingObject.boundaries result)
       /\ chapters
          = match newRegExp env (SamplingObject.pattern result) with
            | Some regex =>
                if 2 <=? Js.len (scanPattern regex 0 pages)
                then fillEndPages (Js.len pages - 1) (scanPattern regex 0 pages)
                else sampledChapters (SamplingObject.boundaries result) pages
            | None => sampledChapters (SamplingObject.boundaries result) pages
            end.
Proof.
  unfold detectFromLlmSampling. destruct key; simpl; [|discriminate]. cbv zeta.
  destruct (Z.ltb_spec (Js.len pages) 10) as [Hfew|Hmany]; [discriminate|].
  unfold tryCatch, bind, generateObject, ret.
  destruct (genSampling env _) as [result|e] eqn:Hresult; [|discriminate].
  destruct (Z.ltb_spec (Js.len (SamplingObject.boundaries result)) 2) as [Hb|Hb];
    [discriminate|].
  intros Hrun. split; [reflexivity|]. split; [exact Hmany|].
  assert (log' = log ++ [ReqSampling (Js.len pages) (sampledText pages)]) as ->.
  { destruct (newRegExp env _) as [regex|];
      [destruct (2 <=? Js.len _)|]; injection Hrun as _ <-; reflexivity. }
  split; [reflexivity|]. exists result. split; [reflexivity|]. split; [exact Hb|].
  destruct (newRegExp env _) as [regex|];
    [destruct (2 <=? Js.len _)|]; injection Hrun as <-; reflexivity.
Qed.

(** X1. Whatever tier produced it, the chapters of the structure
    [detectBookStructure] returns come in ascending order of [startPage];
    when the detection method is the fixed chunks they are moreover
    pairwise disjoint, each with [endPage >= startPage]. *)
Theorem detected_chapters_sorted (env : Env) (buffer : Buffer) (pages : list string)
    (log : list Request) (structure : BookStructure.t) (log' : list Request) :
  detectBookStructure env buffer pages log = (Ok structure, log') ->
  SortedByStart (BookStructure.chapters structure)
  /\ (BookStructure.detectionMethod structure = fixed_chunks ->
      WellFormed (BookStructure.chapters structure)).
Proof. intros Hrun. exact (detectBookStructure_sorted env buffer pages _ _ _ Hrun). Qed.

(** The chapters found for the algebra book, ill formed as they are, are
    sorted by start page. *)
Lemma detected_chapters_sorted_witness :
  SortedByStart [ChapterBoundary.mk "Linear Equations" 0 (-1);
                 ChapterBoundary.mk "Quadratic Equations" 0 2].
Proof.
  refine (proj1 (detected_chapters_sorted algebraEnv [] algebraPages []
                   (BookStructure.mk "Algebra Basics" None
                      [ChapterBoundary.mk "Linear Equations" 0 (-1);
                       ChapterBoundary.mk "Quadratic Equations" 0 2] title_match)
                   (snd (detectBookStructure algebraEnv [] algebraPages [])) _)).
  vm_compute. reflexivity.
Defined.

(** X2. What each detection method vouches for: [pdf-links] for at least
    three chapters; [title-match] for an API key and at least two chapters;
    [llm-detection] for an API key, at least ten pages and at least two
    chapters; [fixed-chunks] for the fixed chunks of the pages.  A book
    with pages never gets an empty chapter list. *)
Theorem detected_method_conditions (env : Env) (buffer : Buffer) (pages : list string)
    (log : list Request) (structure : BookStructure.t) (log' : list Request) :
  detectBookStructure env buffer pages log = (Ok structure, log') ->
  match BookStructure.detectionMethod structure with
  | pdf_links => 3 <= Js.len (BookStructure.chapters structure)
  | title_match =>
      hasApiKey env = true /\ 2 <= Js.len (BookStructure.chapters structure)
  | llm_detection =>
      hasApiKey env = true /\ 10 <= Js.len pages
      /\ 2 <= Js.len (BookStructure.chapters structure)
  | fixed_chunks => BookStructure.chapters structure = fixedChunks pages
  end
  /\ (pages <> [] -> BookStructure.chapters structure <> []).
Proof.
  intros Hrun. apply detectBookStructure_inv in Hrun.
  assert (Hlen : forall chapters : list ChapterBoundary.t,
             2 <= Js.len chapters -> chapters <> []).
  { intros [|c chapters]; [unfold Js.len; simpl; lia|discriminate]. }
  destruct Hrun as [chapters log1 meta log' Hlinks Hmany Hmeta
                   |links log1 r log' Hlinks Htitles Hmany
                   |links log1 titles log2 chapters log3 meta log' Hlinks Htitles Hsampled
                      Hmany Hmeta
                   |links log1 titles log2 sampled log3 meta log' Hlinks Htitles Hsampled
                      Hmeta]; simpl.
  - split; [exact Hmany|]. intros _. apply Hlen. lia.
  - apply detectFromTitleMatching_inv in Htitles as (Hkey & _).
    split; [split; assumption|]. intros _. apply Hlen. exact Hmany.
  - apply detectFromLlmSampling_inv in Hsampled as (Hkey & Hpages & _).
    split; [repeat split; assumption|]. intros _. apply Hlen. exact Hmany.
  - split; [reflexivity|]. intros Hpages Hnil.
    pose proof (fixedChunks_len pages) as Hcount. rewrite Hnil in Hcount.
    assert (1 <= Js.len pages) by (destruct pages; [contradiction|unfold Js.len; simpl; lia]).
    unfold ceilDiv, Js.len in Hcount. simpl length in Hcount.
    change (Z.of_nat 0) with 0 in Hcount. fold (Js.len pages) in Hcount. lia.
Qed.

(** The algebra book: detected by title match, with an API key, two
    chapters. *)
Lemma detected_method_conditions_witness :
  (hasApiKey algebraEnv = true
   /\ 2 <= Js.len [ChapterBoundary.mk "Linear Equations" 0 (-1);
                   ChapterBoundary.mk "Quadratic Equations" 0 2])
  /\ (algebraPages <> [] ->
      [ChapterBoundary.mk "Linear Equations" 0 (-1);
       ChapterBoundary.mk "Quadratic Equations" 0 2] <> []).
Proof.
  refine (detected_method_conditions algebraEnv [] algebraPages []
            (BookStructure.mk "Algebra Basics" None
               [ChapterBoundary.mk "Linear Equations" 0 (-1);
                ChapterBoundary.mk "Quadratic Equations" 0 2] title_match)
            (snd (detectBookStructure algebraEnv [] algebraPages [])) _).
  vm_compute. reflexivity.
Defined.

(** X3. The structure [detectBookStructure] returns always has a title:
    an empty title from the model is replaced by a placeholder. *)
Theorem detected_title_nonempty (env : Env) (buffer : Buffer) (pages : list string)
    (log : list Request) (structure : BookStructure.t) (log' : list Request) :
  detectBookStructure env buffer pages log = (Ok structure, log') ->
  BookStructure.title structure <> EmptyString.
Proof.
  intros Hrun. apply detectBookStructure_inv in Hrun.
  destruct Hrun as [chapters log1 meta log' Hlinks Hmany Hmeta
                   |links log1 r log' Hlinks Htitles Hmany
                   |links log1 titles log2 chapters log3 meta log' Hlinks Htitles Hsampled
                      Hmany Hmeta
                   |links log1 titles log2 sampled log3 meta log' Hlinks Htitles Hsampled
                      Hmeta]; simpl;
    try (apply extractBookMetadata_inv in Hmeta; apply Hmeta).
  apply detectFromTitleMatching_inv in Htitles as (_ & _ & toc & _ & ->). simpl.
  apply orElse_nonempty. discriminate.
Qed.

(** The algebra book gets the title the model read. *)
Lemma detected_title_nonempty_witness : "Algebra Basics" <> EmptyString.
Proof.
  refine (detected_title_nonempty algebraEnv [] algebraPages []
            (BookStructure.mk "Algebra Basics" None
               [ChapterBoundary.mk "Linear Equations" 0 (-1);
                ChapterBoundary.mk "Quadratic Equations" 0 2] title_match)
            (snd (detectBookStructure algebraEnv [] algebraPages [])) _).
  vm_compute. reflexivity.
Defined.

(** *** The fixed chunks in closed form *)

Lemma fixedChunksFrom_closed (fuel j : nat) (n : Z) :
  n - 30 * Z.of_nat j <= 30 * Z.of_nat fuel ->
  fixedChunksFrom fuel (30 * Z.of_nat j) n
    (map (fun k => fixedChunk n (Z.of_nat k)) (seq 0 j))
  = map (fun k => fixedChunk n (Z.of_nat k))
      (seq 0 (Nat.max j (Z.to_nat (ceilDiv n 30)))).
Proof.
  revert j. unfold ceilDiv.
  induction fuel as [|fuel IH]; intros j Hfuel; simpl fixedChunksFrom.
  - replace (Nat.max j (Z.to_nat ((n + 30 - 1) / 30))) with j by lia. reflexivity.
  - destruct (Z.ltb_spec (30 * Z.of_nat j) n) as [Hlt|Hge].
    + replace (30 * Z.of_nat j + 30) with (30 * Z.of_nat (S j)) by lia.
      replace (Nat.max j (Z.to_nat ((n + 30 - 1) / 30)))
        with (Nat.max (S j) (Z.to_nat ((n + 30 - 1) / 30))) by lia.
      rewrite <- IH by lia. f_equal.
      rewrite seq_S, map_app. simpl. f_equal. f_equal. unfold fixedChunk.
      unfold Js.len. rewrite length_map, length_seq.
      f_equal. lia.
    + replace (Nat.max j (Z.to_nat ((n + 30 - 1) / 30))) with j by lia. reflexivity.
Qed.

(** X4. The fixed chunks are exactly the windows of 30 pages: chunk [k]
    (from 0) is called [Section k+1], starts at page [30 k] and ends at
    page [30 k + 29], or at the last page if that comes first.  So every
    page [p] of the book lies in the chunk of index [p / 30]. *)
Theorem fixedChunks_cover (pages : list string) :
  fixedChunks pages
  = map (fun k => fixedChunk (Js.len pages) (Z.of_nat k))
      (seq 0 (Z.to_nat (ceilDiv (Js.len pages) 30)))
  /\ forall p, 0 <= p < Js.len pages ->
       exists c,
         fixedChunks pages !! Z.to_nat (p / 30) = Some c
         /\ c = fixedChunk (Js.len pages) (p / 30)
         /\ ChapterBoundary.startPage c <= p <= ChapterBoundary.endPage c.
Proof.
  assert (Hclosed : fixedChunks pages
                    = map (fun k => fixedChunk (Js.len pages) (Z.of_nat k))
                        (seq 0 (Z.to_nat (ceilDiv (Js.len pages) 30)))).
  { unfold fixedChunks.
    pose proof (fixedChunksFrom_closed (length pages) 0 (Js.len pages)) as H.
    change (30 * Z.of_nat 0) with 0 in H. simpl map in H. simpl Nat.max in H.
    apply H. unfold Js.len. lia. }
  split; [exact Hclosed|].
  intros p Hp. exists (fixedChunk (Js.len pages) (p / 30)).
  split; [|split; [reflexivity|]].
  - rewrite Hclosed.
    change (map ?f ?l) with (f <$> l). rewrite list_lookup_fmap.
    rewrite lookup_seq_lt by (unfold ceilDiv; lia).
    simpl. f_equal. f_equal. lia.
  - unfold fixedChunk. simpl. lia.
Qed.

(** *** The chapters of the link tier *)

Lemma linkOfAnnotation_Some (annot : Annotation.t) (link : Link.t) :
  linkOfAnnotation annot = Some link ->
  0 <= Link.destPage link /\ Link.text link <> EmptyString.
Proof.
  unfold linkOfAnnotation.
  destruct (String.eqb (Annotation.subtype annot) "Link"); [|discriminate].
  destruct (Annotation.dest annot) as [|name|[destPage|]]; try discriminate.
  destruct (truthy _) eqn:Htext; [|discriminate].
  destruct (Z.leb_spec 0 destPage) as [Hpos|Hneg]; [|discriminate].
  intros [= <-]. simpl. split; [exact Hpos|]. apply truthy_nonempty. exact Htext.
Qed.

Lemma collectLinks_Forall (P : Link.t -> Prop) (pdf : PdfDocument.t) (nums : list Z)
    (links : list Link.t) (log : list Request) (found : list Link.t)
    (log' : list Request) :
  (forall annot link, linkOfAnnotation annot = Some link -> P link) ->
  Forall P links ->
  collectLinks pdf nums links log = (Ok found, log') ->
  Forall P found.
Proof.
  intros HP. revert links. induction nums as [|i rest IH]; intros links Hlinks; simpl.
  - intros [= <- _]. exact Hlinks.
  - unfold bind at 1. unfold pageLinks, bind, await, ret.
    destruct (PdfDocument.getPage pdf i) as [page|e]; [|discriminate].
    destruct (PdfPage.getAnnotations page) as [annotations|e]; [|discriminate].
    apply IH. apply Forall_app. split; [exact Hlinks|].
    apply Forall_forall. intros link Hin.
    apply list_elem_of_omap in Hin as (annot & _ & Hlink). exact (HP annot link Hlink).
Qed.

Lemma dedupByDest_unseen (seen : list Z) (links : list Link.t) :
  Forall (fun link => existsb (Z.eqb (Link.destPage link)) seen = false)
    (dedupByDest seen links).
Proof.
  revert seen. induction links as [|link rest IH]; intros seen; simpl; [constructor|].
  destruct (existsb (Z.eqb (Link.destPage link)) seen) eqn:Hseen; [apply IH|].
  constructor; [exact Hseen|].
  eapply Forall_impl; [apply (IH (Link.destPage link :: seen))|].
  simpl. intros x Hx. apply orb_false_iff in Hx. apply Hx.
Qed.

(** After the sort, dropping the links to a page already seen leaves the
    destination pages strictly increasing. *)
Lemma dedupByDest_increasing (seen : list Z) (links : list Link.t) :
  StronglySorted (keyLe Link.destPage) links ->
  StronglySorted (fun a b => Link.destPage a < Link.destPage b) (dedupByDest seen links).
Proof.
  intros Hsorted. revert seen.
  induction Hsorted as [|link rest Hrest IH Hhead]; intros seen; simpl; [constructor|].
  destruct (existsb (Z.eqb (Link.destPage link)) seen); [apply IH|].
  constructor; [apply IH|].
  pose proof (dedupByDest_Forall _ (Link.destPage link :: seen) rest Hhead) as Hle.
  pose proof (dedupByDest_unseen (Link.destPage link :: seen) rest) as Hne.
  rewrite Forall_forall in Hle, Hne. apply Forall_forall. intros x Hx.
  specialize (Hle x Hx). specialize (Hne x Hx). unfold keyLe in Hle. simpl in Hne.
  apply orb_false_iff in Hne as [Hne _]. apply Z.eqb_neq in Hne. lia.
Qed.

Lemma increasing_map {A B} (f : A -> B) (key : B -> Z) (l : list A) :
  StronglySorted (fun a b => key (f a) < key (f b)) l ->
  StronglySorted (fun a b => key a < key b) (map f l).
Proof.
  induction 1 as [|a l Hl IH Ha]; simpl; constructor; [exact IH|].
  apply Forall_map. exact Ha.
Qed.

(** *** What filling the end pages gives *)

Lemma fillEndPages_lookup (lastEnd : Z) (starts : list (string * Z)) (i : nat) :
  fillEndPages lastEnd starts !! i
  = (fun a => ChapterBoundary.mk (fst a) (snd a)
                (match starts !! S i with
                 | Some next => snd next - 1
                 | None => lastEnd
                 end)) <$> starts !! i.
Proof.
  revert i. induction starts as [|[title start] rest IH]; intros [|i]; simpl;
    try reflexivity.
  - destruct rest as [|[t s] r]; reflexivity.
  - apply IH.
Qed.

Lemma fillEndPages_length (lastEnd : Z) (starts : list (string * Z)) :
  length (fillEndPages lastEnd starts) = length starts.
Proof.
  induction starts as [|[title start] rest IH]; simpl; [reflexivity|].
  rewrite IH. reflexivity.
Qed.

Lemma fillEndPages_Forall (P : string -> Z -> Prop) (lastEnd : Z)
    (starts : list (string * Z)) :
  Forall (fun a => P (fst a) (snd a)) starts ->
  Forall (fun c => P (ChapterBoundary.title c) (ChapterBoundary.startPage c))
    (fillEndPages lastEnd starts).
Proof.
  induction 1 as [|[title start] rest Hhead _ IH]; simpl; constructor; assumption.
Qed.

Lemma fillEndPages_increasing (lastEnd : Z) (starts : list (string * Z)) :
  StronglySorted (fun a b => snd a < snd b) starts ->
  IncreasingStarts (fillEndPages lastEnd starts).
Proof.
  induction 1 as [|[title start] rest Hrest IH Hhead]; simpl; [constructor|].
  constructor; [exact IH|].
  apply (fillEndPages_Forall (fun _ s => start < s)). exact Hhead.
Qed.

Lemma fillEndPages_adjacent (lastEnd : Z) (starts : list (string * Z)) :
  Adjacent (fillEndPages lastEnd starts).
Proof.
  intros i a b. rewrite !fillEndPages_lookup.
  destruct (starts !! i) as [x|]; [|discriminate].
  destruct (starts !! S i) as [y|]; [|discriminate].
  simpl. intros [= <-] [= <-]. reflexivity.
Qed.

Lemma fillEndPages_last (lastEnd : Z) (starts : list (string * Z)) (c : ChapterBoundary.t) :
  last (fillEndPages lastEnd starts) = Some c ->
  ChapterBoundary.endPage c = lastEnd
  /\ exists a, last starts = Some a /\ ChapterBoundary.startPage c = snd a.
Proof.
  rewrite !last_lookup, fillEndPages_lookup, fillEndPages_length.
  destruct (starts !! Nat.pred (length starts)) as [a|] eqn:Ha; [|discriminate].
  simpl. intros [= <-]. simpl.
  rewrite (lookup_ge_None_2 starts (S (Nat.pred (length starts)))) by lia.
  split; [reflexivity|]. exists a. split; reflexivity.
Qed.

Lemma increasing_last_greatest {A} (key : A -> Z) (l : list A) (x : A) :
  StronglySorted (fun a b => key a < key b) l -> last l = Some x ->
  Forall (fun a => key a <= key x) l.
Proof.
  intros Hsorted Hlast. apply last_Some in Hlast as [l' ->].
  apply Forall_app. split; [|constructor; [lia|constructor]].
  induction l' as [|a l' IH]; [constructor|].
  simpl in Hsorted. apply StronglySorted_inv in Hsorted as [Hl' Ha].
  constructor; [|exact (IH Hl')].
  apply Forall_app in Ha as [_ Ha]. apply Forall_cons in Ha as [Ha _]. lia.
Qed.

(** With strictly increasing start pages, the filled chapters are well
    formed exactly when the last one starts no later than [lastEnd]. *)
Lemma fillEndPages_wellFormed_iff (lastEnd : Z) (starts : list (string * Z)) :
  StronglySorted (fun a b => snd a < snd b) starts ->
  WellFormed (fillEndPages lastEnd starts)
  <-> (forall c, last (fillEndPages lastEnd starts) = Some c ->
                 ChapterBoundary.startPage c <= lastEnd).
Proof.
  intros Hsorted. split.
  - intros (_ & _ & Hranges) c Hlast.
    pose proof (fillEndPages_last _ _ _ Hlast) as [Hend _].
    apply last_Some_elem_of in Hlast. rewrite Forall_forall in Hranges.
    specialize (Hranges c Hlast). unfold rangeOk in Hranges. lia.
  - intros Hlast. apply fillEndPages_wellFormed; [exact Hsorted|].
    destruct (last (fillEndPages lastEnd starts)) as [c|] eqn:Hc.
    + pose proof (fillEndPages_last _ _ _ Hc) as [_ (a & Ha & Hstart)].
      specialize (Hlast c eq_refl).
      eapply Forall_impl; [exact (increasing_last_greatest snd starts a Hsorted Ha)|].
      simpl. intros; lia.
    + apply last_None in Hc. destruct starts as [|[t s] r]; [constructor|discriminate].
Qed.

(** X5. The chapters of the link tier.  When [detectFromPdfLinks] returns
    chapters, it has sent no generation request, and the chapters (three
    at least) have non-empty titles and non-negative start pages that
    strictly increase; each chapter ends one page before the next one
    starts, and the last one on the last page of the document.  They are
    sorted, disjoint ranges with [endPage >= startPage] exactly when the
    last chapter starts within the document. *)
Theorem pdf_links_chapters (env : Env) (buffer : Buffer) (log : list Request)
    (chapters : list ChapterBoundary.t) (log' : list Request) :
  detectFromPdfLinks env buffer log = (Ok (Some chapters), log') ->
  log' = log
  /\ exists pdf,
       getDocumentProxy env buffer = Ok pdf
       /\ 3 <= Js.len chapters
       /\ Forall (fun c => ChapterBoundary.title c <> EmptyString
                           /\ 0 <= ChapterBoundary.startPage c) chapters
       /\ IncreasingStarts chapters
       /\ Adjacent chapters
       /\ (forall c, last chapters = Some c ->
                     ChapterBoundary.endPage c = PdfDocument.numPages pdf - 1)
       /\ (WellFormed chapters
           <-> forall c, last chapters = Some c ->
                         ChapterBoundary.startPage c < PdfDocument.numPages pdf).
Proof.
  intros Hrun. split; [exact (detectFromPdfLinks_log _ _ _ _ _ Hrun)|].
  revert Hrun. unfold detectFromPdfLinks, tryCatch, bind at 1, await.
  destruct (getDocumentProxy env buffer) as [pdf|e]; [|discriminate].
  cbv zeta. unfold bind.
  destruct (collectLinks pdf (pageNumbers (Z.min 15 (PdfDocument.numPages pdf))) [] log)
    as [[links|e] log1] eqn:Hcollect; [|discriminate].
  destruct (Js.len links <? 3); [discriminate|].
  destruct (Z.ltb_spec (Js.len (dedupByDest [] (Js.sortBy Link.destPage links))) 3)
    as [Hfew|Hmany]; [discriminate|].
  intros [= <- _]. exists pdf. split; [reflexivity|].
  set (unique := dedupByDest [] (Js.sortBy Link.destPage links)) in *.
  set (starts := map (fun link => (Link.text link, Link.destPage link)) unique).
  assert (Hlinks : Forall (fun link => Link.text link <> EmptyString
                                       /\ 0 <= Link.destPage link) unique).
  { apply dedupByDest_Forall.
    eapply Permutation_Forall; [symmetry; apply sortBy_perm|].
    eapply collectLinks_Forall; [|constructor|exact Hcollect].
    intros annot link Hlink. apply linkOfAnnotation_Some in Hlink. tauto. }
  assert (Hsorted : StronglySorted (fun a b => snd a < snd b) starts).
  { apply (increasing_map (fun link => (Link.text link, Link.destPage link)) snd).
    apply dedupByDest_increasing, sortBy_sorted. }
  split; [unfold Js.len in *; rewrite fillEndPages_length; subst starts;
          rewrite length_map; exact Hmany|].
  split; [apply (fillEndPages_Forall (fun t s => t <> EmptyString /\ 0 <= s));
          subst starts; apply Forall_map; exact Hlinks|].
  split; [apply fillEndPages_increasing; exact Hsorted|].
  split; [apply fillEndPages_adjacent|].
  split; [intros c Hc; apply fillEndPages_last in Hc; apply Hc|].
  rewrite (fillEndPages_wellFormed_iff _ _ Hsorted).
  split; intros H c Hc; specialize (H c Hc); lia.
Qed.

(** A document of ten pages whose first page links to pages 5, 2, 8 and 2
    again: three chapters, in page order, well formed. *)
Lemma pdf_links_chapters_witness :
  exists pdf,
    getDocumentProxy linkedEnv [] = Ok pdf
    /\ WellFormed [ChapterBoundary.mk "One" 2 4; ChapterBoundary.mk "Two" 5 7;
                   ChapterBoundary.mk "Three" 8 9].
Proof.
  destruct (pdf_links_chapters linkedEnv [] []
              [ChapterBoundary.mk "One" 2 4; ChapterBoundary.mk "Two" 5 7;
               ChapterBoundary.mk "Three" 8 9] [])
    as (_ & pdf & Hpdf & _ & _ & _ & _ & _ & Hwell).
  - vm_compute. reflexivity.
  - exists pdf. split; [exact Hpdf|]. apply Hwell.
    injection Hpdf as <-. intros c [= <-]. simpl. lia.
Defined.

(** *** The chapters of the title tier *)

Lemma findTitlePage_Some (title : string) (p : Z) (pages : list string) (q : Z) :
  findTitlePage (normalize title) p pages = Some q ->
  5 < Js.strlen (normalize title)
  /\ exists k, q = p + Z.of_nat k /\ firstPageWith pages title k.
Proof.
  revert p. induction pages as [|page rest IH]; intros p; simpl; [discriminate|].
  destruct (Js.includes (normalize page) (normalize title)) eqn:Hpage; simpl.
  - destruct (Z.ltb_spec 5 (Js.strlen (normalize title))) as [Hlong|Hshort].
    + intros [= <-]. split; [exact Hlong|]. exists 0%nat. split; [lia|]. split.
      * exists page. split; [reflexivity|exact Hpage].
      * intros j earlier Hj. lia.
    + intros H. apply IH in H as [Hlong _]. lia.
  - intros H. apply IH in H as (Hlong & k & -> & (found & Hfound) & Hearlier).
    split; [exact Hlong|]. exists (S k). split; [lia|]. split.
    + exists found. exact Hfound.
    + intros [|j] earlier Hj; simpl.
      * intros [= <-]. exact Hpage.
      * apply Hearlier. lia.
Qed.

Lemma findTitlePage_None (title : string) (p : Z) (pages : list string) :
  findTitlePage (normalize title) p pages = None ->
  5 < Js.strlen (normalize title) ->
  Forall (fun page => Js.includes (normalize page) (normalize title) = false) pages.
Proof.
  intros Hnone Hlong. revert p Hnone.
  induction pages as [|page rest IH]; intros p; simpl; [constructor|].
  destruct (Z.ltb_spec 5 (Js.strlen (normalize title))) as [_|Hshort]; [|lia].
  destruct (Js.includes (normalize page) (normalize title)) eqn:Hpage; simpl;
    [discriminate|].
  intros H. constructor; [exact Hpage|exact (IH _ H)].
Qed.

(** The outer loop pushes, title by title, the first page found for it. *)
Lemma scanTitles_spec (titles pages : list string) (chapters : list ChapterBoundary.t) :
  scanTitles titles pages chapters
  = chapters
    ++ omap (fun title => (fun p => ChapterBoundary.mk title p p)
                          <$> findTitlePage (normalize title) 0 pages) titles.
Proof.
  revert chapters. induction titles as [|title rest IH]; intros chapters; simpl.
  - rewrite app_nil_r. reflexivity.
  - destruct (findTitlePage (normalize title) 0 pages) as [p|]; simpl; rewrite IH.
    + rewrite <- app_assoc. reflexivity.
    + reflexivity.
Qed.

Lemma fillEndPages_starts (lastEnd : Z) (starts : list (string * Z)) :
  map ChapterBoundary.startPage (fillEndPages lastEnd starts) = map snd starts.
Proof.
  induction starts as [|[title start] rest IH]; simpl; [reflexivity|].
  rewrite IH. reflexivity.
Qed.

Lemma fillEndPages_titles (lastEnd : Z) (starts : list (string * Z)) :
  map ChapterBoundary.title (fillEndPages lastEnd starts) = map fst starts.
Proof.
  induction starts as [|[title start] rest IH]; simpl; [reflexivity|].
  rewrite IH. reflexivity.
Qed.

Lemma increasing_NoDup {A} (key : A -> Z) (l : list A) :
  StronglySorted (fun a b => key a < key b) l -> NoDup (map key l).
Proof.
  induction 1 as [|a l Hl IH Ha]; simpl; [constructor|].
  constructor; [|exact IH].
  intros Hin. apply list_elem_of_fmap in Hin as (b & Hkey & Hb).
  rewrite Forall_forall in Ha. specialize (Ha b Hb). lia.
Qed.

Lemma sorted_NoDup_increasing {A} (key : A -> Z) (l : list A) :
  StronglySorted (keyLe key) l -> NoDup (map key l) ->
  StronglySorted (fun a b => key a < key b) l.
Proof.
  induction 1 as [|a l Hl IH Ha]; simpl; [constructor|].
  intros Hnodup. apply NoDup_cons in Hnodup as [Hnotin Hnodup].
  constructor; [exact (IH Hnodup)|].
  rewrite Forall_forall in Ha. apply Forall_forall. intros b Hb.
  specialize (Ha b Hb). unfold keyLe in Ha.
  assert (key a <> key b); [|lia].
  intros Heq. apply Hnotin. rewrite Heq.
  change (map key l) with (key <$> l). apply list_elem_of_fmap_2. exact Hb.
Qed.

Lemma wellFormed_increasing (chapters : list ChapterBoundary.t) :
  WellFormed chapters -> IncreasingStarts chapters.
Proof.
  intros (_ & Hapart & Hranges). unfold IncreasingStarts.
  induction Hapart as [|a l Ha Hl IH]; [constructor|].
  apply Forall_cons in Hranges as [Hrange Hranges].
  constructor; [exact (IH Hranges)|].
  eapply Forall_impl; [exact Ha|]. unfold endsBefore, rangeOk in *. intros; simpl in *; lia.
Qed.

(** With sorted start pages none of which lies beyond [lastEnd], the
    filled chapters are well formed exactly when no two start on the same
    page. *)
Lemma fillEndPages_wellFormed_NoDup (lastEnd : Z) (starts : list (string * Z)) :
  StronglySorted (keyLe snd) starts ->
  Forall (fun a => snd a <= lastEnd) starts ->
  WellFormed (fillEndPages lastEnd starts)
  <-> NoDup (map ChapterBoundary.startPage (fillEndPages lastEnd starts)).
Proof.
  intros Hsorted Hwithin. split.
  - intros Hwell. apply increasing_NoDup, wellFormed_increasing. exact Hwell.
  - rewrite fillEndPages_starts. intros Hnodup.
    apply fillEndPages_wellFormed; [|exact Hwithin].
    apply sorted_NoDup_increasing; assumption.
Qed.

(** X6. The chapters of the title tier.  When [detectFromTitleMatching]
    returns a result, each of its chapters bears a title of the table of
    contents whose normalised form is longer than five characters, and
    starts on the first page whose normalised text contains that form; a
    title of the table of contents is among the chapters exactly when it is
    that long and some page contains it.  Each chapter ends one page
    before the next one starts, the last one on the last page.  The
    chapters are sorted, disjoint ranges with [endPage >= startPage]
    exactly when no two of them start on the same page. *)
Theorem title_match_chapters (env : Env) (pages : list string) (key : bool)
    (log : list Request) (r : TitleResult.t) (log' : list Request) :
  detectFromTitleMatching env pages key log = (Ok (Some r), log') ->
  exists toc,
    genToc env (ReqToc (Js.join pageBreak (Js.slice 0 (Z.min 15 (Js.len pages)) pages)))
    = Ok toc
    /\ Forall (fun c =>
                 ChapterBoundary.title c ∈ TocObject.chapterTitles toc
                 /\ 5 < Js.strlen (normalize (ChapterBoundary.title c))
                 /\ exists k,
                      ChapterBoundary.startPage c = Z.of_nat k
                      /\ firstPageWith pages (ChapterBoundary.title c) k)
         (TitleResult.chapters r)
    /\ (forall title,
          title ∈ map ChapterBoundary.title (TitleResult.chapters r)
          <-> title ∈ TocObject.chapterTitles toc
              /\ 5 < Js.strlen (normalize title)
              /\ exists page,
                   page ∈ pages
                   /\ Js.includes (normalize page) (normalize title) = true)
    /\ Adjacent (TitleResult.chapters r)
    /\ (forall c, last (TitleResult.chapters r) = Some c ->
                  ChapterBoundary.endPage c = Js.len pages - 1)
    /\ (WellFormed (TitleResult.chapters r)
        <-> NoDup (map ChapterBoundary.startPage (TitleResult.chapters r))).
Proof.
  intros Hrun. apply detectFromTitleMatching_inv in Hrun as (_ & _ & toc & Htoc & ->).
  exists toc. split; [exact Htoc|]. simpl TitleResult.chapters.
  set (titles := TocObject.chapterTitles toc).
  set (scanned := scanTitles titles pages []).
  assert (Hscanned :
            forall c, c ∈ scanned <->
              exists p, ChapterBoundary.title c ∈ titles
                        /\ findTitlePage (normalize (ChapterBoundary.title c)) 0 pages
                           = Some p
                        /\ c = ChapterBoundary.mk (ChapterBoundary.title c) p p).
  { intros c. subst scanned. rewrite scanTitles_spec. simpl. rewrite list_elem_of_omap.
    split.
    - intros (title & Hin & Hc).
      destruct (findTitlePage (normalize title) 0 pages) as [p|] eqn:Hp; [|discriminate].
      injection Hc as <-. simpl. exists p. repeat split; assumption.
    - intros (p & Hin & Hp & Hc). exists (ChapterBoundary.title c).
      split; [exact Hin|]. rewrite Hp. simpl. rewrite <- Hc. reflexivity. }
  set (sorted := Js.sortBy ChapterBoundary.startPage scanned).
  set (starts := map (fun c => (ChapterBoundary.title c, ChapterBoundary.startPage c)) sorted).
  assert (Hperm : Permutation sorted scanned) by apply sortBy_perm.
  assert (Hfound : Forall (fun a =>
                             fst a ∈ titles
                             /\ 5 < Js.strlen (normalize (fst a))
                             /\ exists k, snd a = Z.of_nat k
                                          /\ firstPageWith pages (fst a) k) starts).
  { subst starts. apply Forall_map. eapply Permutation_Forall; [symmetry; exact Hperm|].
    apply Forall_forall. intros c Hc. apply Hscanned in Hc as (p & Hin & Hp & ->). simpl.
    apply findTitlePage_Some in Hp as (Hlong & k & -> & Hfirst).
    split; [exact Hin|]. split; [exact Hlong|]. exists k. split; [lia|exact Hfirst]. }
  split; [exact (fillEndPages_Forall
                   (fun t s => t ∈ titles /\ 5 < Js.strlen (normalize t)
                               /\ exists k, s = Z.of_nat k /\ firstPageWith pages t k)
                   _ _ Hfound)|].
  split.
  { intros title. rewrite fillEndPages_titles. subst starts. rewrite map_map. simpl.
    change (map ChapterBoundary.title sorted) with (ChapterBoundary.title <$> sorted).
    rewrite list_elem_of_fmap. split.
    - intros (c & -> & Hc). rewrite Hperm in Hc.
      apply Hscanned in Hc as (p & Hin & Hp & _).
      apply findTitlePage_Some in Hp as (Hlong & k & _ & (page & Hpage & Hincl) & _).
      split; [exact Hin|]. split; [exact Hlong|]. exists page.
      split; [eapply list_elem_of_lookup_2; exact Hpage|exact Hincl].
    - intros (Hin & Hlong & page & Hpage & Hincl).
      destruct (findTitlePage (normalize title) 0 pages) as [p|] eqn:Hp.
      + exists (ChapterBoundary.mk title p p). split; [reflexivity|].
        rewrite Hperm. apply Hscanned. exists p. simpl. repeat split; assumption.
      + pose proof (findTitlePage_None _ _ _ Hp Hlong) as Hnone.
        rewrite Forall_forall in Hnone. rewrite (Hnone page Hpage) in Hincl.
        discriminate. }
  split; [apply fillEndPages_adjacent|].
  split; [intros c Hc; apply fillEndPages_last in Hc; apply Hc|].
  apply fillEndPages_wellFormed_NoDup.
  - subst starts.
    apply (sorted_map_key (fun c => (ChapterBoundary.title c, ChapterBoundary.startPage c))
             snd).
    apply (sortBy_sorted ChapterBoundary.startPage).
  - eapply Forall_impl; [exact Hfound|]. intros [t s] (_ & _ & k & Hs & (page & Hpage & _) & _).
    simpl in *. apply lookup_lt_Some in Hpage. unfold Js.len. lia.
Qed.

(** The algebra book: both titles are first found on the contents page, so
    the two chapters start on the same page. *)
Lemma title_match_chapters_witness :
  WellFormed [ChapterBoundary.mk "Linear Equations" 0 (-1);
              ChapterBoundary.mk "Quadratic Equations" 0 2]
  <-> NoDup [0; 0].
Proof.
  destruct (title_match_chapters algebraEnv algebraPages true []
              (TitleResult.mk [ChapterBoundary.mk "Linear Equations" 0 (-1);
                               ChapterBoundary.mk "Quadratic Equations" 0 2]
                 "Algebra Basics" None)
              (snd (detectFromTitleMatching algebraEnv algebraPages true [])))
    as (toc & _ & _ & _ & _ & _ & Hiff).
  - vm_compute. reflexivity.
  - exact Hiff.
Defined.

(** *** The pages sampled for the model *)

Lemma ceilDiv_le (a b k : Z) : 0 < b -> a <= k * b -> ceilDiv a b <= k.
Proof.
  intros Hb Ha. unfold ceilDiv.
  assert ((a + b - 1) / b < k + 1); [|lia].
  apply Z.div_lt_upper_bound; [exact Hb|]. nia.
Qed.

Lemma ceilDiv_gt (a b k : Z) : 0 < b -> k * b < a -> k < ceilDiv a b.
Proof.
  intros Hb Ha. unfold ceilDiv.
  assert (k + 1 <= (a + b - 1) / b); [|lia].
  apply Z.div_le_lower_bound; [exact Hb|]. nia.
Qed.

Lemma sampleIndicesFrom_closed (fuel j : nat) (step n : Z) :
  0 < step ->
  n - Z.of_nat j * step <= Z.of_nat fuel * step ->
  sampleIndicesFrom fuel (Z.of_nat j * step) step n
  = map (fun k => Z.of_nat k * step) (seq j (Z.to_nat (ceilDiv n step) - j)).
Proof.
  intros Hstep. revert j. induction fuel as [|fuel IH]; intros j Hfuel; simpl.
  - pose proof (ceilDiv_le n step (Z.of_nat j) Hstep ltac:(lia)).
    replace (Z.to_nat (ceilDiv n step) - j)%nat with 0%nat by lia. reflexivity.
  - destruct (Z.ltb_spec (Z.of_nat j * step) n) as [Hlt|Hge].
    + pose proof (ceilDiv_gt n step (Z.of_nat j) Hstep Hlt).
      replace (Z.to_nat (ceilDiv n step) - j)%nat
        with (S (Z.to_nat (ceilDiv n step) - S j))%nat by lia.
      simpl. f_equal.
      replace (Z.of_nat j * step + step) with (Z.of_nat (S j) * step) by lia.
      apply IH. lia.
    + pose proof (ceilDiv_le n step (Z.of_nat j) Hstep Hge).
      replace (Z.to_nat (ceilDiv n step) - j)%nat with 0%nat by lia. reflexivity.
Qed.

(** X7. The pages tier 3 shows the model.  The sampled pages are the pages
    [0, step, 2 step, ...] below the page count, with
    [step = max(1, floor(pages.length / 30))]: all of them pages of the
    book, never more than 59 of them however long the book is, and at
    least 30 once the book has 30 pages. *)
Theorem sampled_pages_bound (pages : list string) :
  let step := Z.max 1 (Js.len pages / 30) in
  let sampleIndices := sampleIndicesFrom (length pages) 0 step (Js.len pages) in
  sampledText pages
  = Js.join (nl +:+ nl)
      (map (fun i => "--- PAGE " +:+ Js.show (i + 1) +:+ " ---" +:+ nl
                     +:+ Js.sliceTo 500 (pageAt pages i)) sampleIndices)
  /\ sampleIndices
     = map (fun k => Z.of_nat k * step)
         (seq 0 (Z.to_nat (ceilDiv (Js.len pages) step)))
  /\ Js.len sampleIndices <= 59
  /\ (30 <= Js.len pages -> 30 <= Js.len sampleIndices)
  /\ Forall (fun i => 0 <= i < Js.len pages) sampleIndices.
Proof.
  intros step sampleIndices. split; [reflexivity|].
  assert (Hstep : 0 < step) by (subst step; lia).
  assert (Hn : 0 <= Js.len pages) by apply len_nonneg.
  assert (Hclosed : sampleIndices
                    = map (fun k => Z.of_nat k * step)
                        (seq 0 (Z.to_nat (ceilDiv (Js.len pages) step)))).
  { pose proof (sampleIndicesFrom_closed (length pages) 0 step (Js.len pages) Hstep) as H.
    change (Z.of_nat 0 * step) with 0 in H. rewrite Nat.sub_0_r in H.
    apply H. unfold Js.len. nia. }
  split; [exact Hclosed|].
  assert (Hcount : Js.len sampleIndices = ceilDiv (Js.len pages) step).
  { rewrite Hclosed. unfold Js.len at 1. rewrite length_map, length_seq.
    assert (0 <= ceilDiv (Js.len pages) step); [|lia].
    unfold ceilDiv. apply Z.div_pos; lia. }
  split; [|split].
  - rewrite Hcount. apply ceilDiv_le; [exact Hstep|]. subst step. lia.
  - intros Hlong. rewrite Hcount.
    assert (29 < ceilDiv (Js.len pages) step); [|lia].
    apply ceilDiv_gt; [exact Hstep|]. subst step. lia.
  - rewrite Hclosed. apply Forall_map. apply Forall_forall. intros k Hk.
    apply list_elem_of_In, in_seq in Hk. simpl. split; [lia|].
    destruct (Z_lt_le_dec (Z.of_nat k * step) (Js.len pages)) as [Hlt|Hge]; [exact Hlt|].
    pose proof (ceilDiv_le _ _ _ Hstep Hge). lia.
Qed.

(** *** The chapters of the sampling tier *)

Lemma fillEndPages_pairs (lastEnd : Z) (starts : list (string * Z)) :
  map (fun c => (ChapterBoundary.title c, ChapterBoundary.startPage c))
    (fillEndPages lastEnd starts)
  = starts.
Proof.
  induction starts as [|[title start] rest IH]; simpl; [reflexivity|].
  rewrite IH. reflexivity.
Qed.

(** The scan with the pattern finds exactly the pages the pattern matches,
    and titles each with the trimmed match cut to 100 characters. *)
Lemma scanPattern_elem (regex : string -> option string) (p : Z) (pages : list string)
    (title : string) (q : Z) :
  (title, q) ∈ scanPattern regex p pages
  <-> exists k page match0,
        q = p + Z.of_nat k /\ pages !! k = Some page /\ regex page = Some match0
        /\ title = Js.sliceTo 100 (Js.trim match0).
Proof.
  revert p. induction pages as [|page rest IH]; intros p; simpl.
  - split; [intros H; inversion H|intros (k & x & m & _ & H & _); discriminate].
  - assert (Hrest :
              (title, q) ∈ scanPattern regex (p + 1) rest
              <-> exists k x m,
                    q = p + Z.of_nat (S k) /\ (page :: rest) !! S k = Some x
                    /\ regex x = Some m /\ title = Js.sliceTo 100 (Js.trim m)).
    { rewrite IH. split; intros (k & x & m & Hq & H); exists k, x, m;
        (split; [lia|exact H]). }
    destruct (regex page) as [match0|] eqn:Hpage.
    + rewrite elem_of_cons, Hrest. split.
      * intros [[= -> ->]|(k & H)]; [|exists (S k); exact H].
        exists 0%nat, page, match0. repeat split; [lia|exact Hpage].
      * intros ([|k] & x & m & Hq & Hx & Hm & Ht).
        -- left. injection Hx as <-. rewrite Hpage in Hm. injection Hm as <-.
           rewrite Ht. f_equal. lia.
        -- right. exists k, x, m. repeat split; assumption.
    + rewrite Hrest. split.
      * intros (k & H). exists (S k). exact H.
      * intros ([|k] & x & m & Hq & Hx & Hm & Ht).
        -- injection Hx as <-. rewrite Hpage in Hm. discriminate.
        -- exists k, x, m. repeat split; assumption.
Qed.

(** The scan finds one entry per page the pattern matches. *)
Lemma scanPattern_length (regex : string -> option string) (p : Z) (pages : list string) :
  length (scanPattern regex p pages) = length (matchingPages regex pages).
Proof.
  revert p. induction pages as [|page rest IH]; intros p; simpl; [reflexivity|].
  destruct (regex page); simpl; rewrite IH; reflexivity.
Qed.

(** X8. The chapters of the sampling tier.  When [detectFromLlmSampling]
    returns chapters it has sent the one sampling request and each chapter
    ends one page before the next one starts, the last one on the last
    page.  If the model's pattern compiles and matches at least two pages,
    the chapters start on exactly the pages the pattern matches, each
    titled with the trimmed match cut to 100 characters, and they are
    sorted, disjoint ranges with [endPage >= startPage].  If the pattern
    does not compile or matches fewer than two pages, the chapters are
    the model's boundaries sorted by page number, page number [n]
    becoming start page [n - 1]. *)
Theorem llm_sampling_chapters (env : Env) (pages : list string) (key : bool)
    (log : list Request) (chapters : list ChapterBoundary.t) (log' : list Request) :
  detectFromLlmSampling env pages key log = (Ok (Some chapters), log') ->
  exists result,
    genSampling env (ReqSampling (Js.len pages) (sampledText pages)) = Ok result
    /\ log' = log ++ [ReqSampling (Js.len pages) (sampledText pages)]
    /\ Adjacent chapters
    /\ (forall c, last chapters = Some c -> ChapterBoundary.endPage c = Js.len pages - 1)
    /\ (forall regex,
          newRegExp env (SamplingObject.pattern result) = Some regex ->
          2 <= Js.len (matchingPages regex pages) ->
          Js.len chapters = Js.len (matchingPages regex pages)
          /\ WellFormed chapters
          /\ forall title k,
               (title, Z.of_nat k)
                 ∈ map (fun c => (ChapterBoundary.title c, ChapterBoundary.startPage c))
                     chapters
               <-> exists page match0,
                     pages !! k = Some page /\ regex page = Some match0
                     /\ title = Js.sliceTo 100 (Js.trim match0))
    /\ (match newRegExp env (SamplingObject.pattern result) with
        | Some regex => Js.len (matchingPages regex pages) < 2
        | None => True
        end ->
        SortedByStart chapters
        /\ Permutation
             (map (fun c => (ChapterBoundary.title c, ChapterBoundary.startPage c))
                chapters)
             (map (fun b => (SampledBoundary.title b, SampledBoundary.pageNumber b - 1))
                (SamplingObject.boundaries result))).
Proof.
  intros Hrun.
  apply detectFromLlmSampling_inv in Hrun as (_ & _ & -> & result & Hresult & _ & ->).
  exists result. split; [exact Hresult|]. split; [reflexivity|].
  assert (Hsampled :
            let chapters := sampledChapters (SamplingObject.boundaries result) pages in
            Adjacent chapters
            /\ (forall c, last chapters = Some c ->
                          ChapterBoundary.endPage c = Js.len pages - 1)
            /\ SortedByStart chapters
            /\ Permutation
                 (map (fun c => (ChapterBoundary.title c, ChapterBoundary.startPage c))
                    chapters)
                 (map (fun b => (SampledBoundary.title b, SampledBoundary.pageNumber b - 1))
                    (SamplingObject.boundaries result))).
  { split; [apply fillEndPages_adjacent|].
    split; [intros c Hc; apply fillEndPages_last in Hc; apply Hc|].
    split; [apply sampledChapters_sorted|].
    unfold sampledChapters. rewrite fillEndPages_pairs.
    apply Permutation_map, sortBy_perm. }
  destruct Hsampled as (Hadjacent & Hlast & Hsorted & Hperm).
  destruct (newRegExp env (SamplingObject.pattern result)) as [regex|].
  2:{ split; [exact Hadjacent|]. split; [exact Hlast|].
      split; [intros regex Hregex; discriminate|].
      intros _. split; assumption. }
  assert (Hcount : Js.len (scanPattern regex 0 pages) = Js.len (matchingPages regex pages)).
  { unfold Js.len. rewrite scanPattern_length. reflexivity. }
  destruct (Z.leb_spec 2 (Js.len (scanPattern regex 0 pages))) as [Hmany|Hfew].
  - split; [apply fillEndPages_adjacent|].
    split; [intros c Hc; apply fillEndPages_last in Hc; apply Hc|].
    split; [|intros Hless; lia].
    intros regex' [= <-] _.
    split; [rewrite <- Hcount; unfold Js.len; rewrite fillEndPages_length; reflexivity|].
    split; [apply scanned_chapters_wellFormed|].
    intros title k. rewrite fillEndPages_pairs, scanPattern_elem. split.
    + intros (j & page & match0 & Hk & H). replace k with j by lia.
      exists page, match0. exact H.
    + intros (page & match0 & H). exists k, page, match0. split; [lia|exact H].
  - split; [exact Hadjacent|]. split; [exact Hlast|].
    split; [intros regex' [= <-] Htwo; lia|].
    intros _. split; assumption.
Qed.

(** A book of ten pages with chapter headings on pages 0 and 5: the
    pattern compiles and finds both, and the chapters are well formed. *)
Lemma llm_sampling_chapters_witness :
  exists result,
    genSampling headingEnv (ReqSampling 10 (sampledText headingPages)) = Ok result
    /\ Js.len (matchingPages startsWithChapter headingPages) = 2
    /\ WellFormed [ChapterBoundary.mk "Chapter" 0 4; ChapterBoundary.mk "Chapter" 5 9].
Proof.
  destruct (llm_sampling_chapters headingEnv headingPages true []
              [ChapterBoundary.mk "Chapter" 0 4; ChapterBoundary.mk "Chapter" 5 9]
              (snd (detectFromLlmSampling headingEnv headingPages true [])))
    as (result & Hresult & _ & _ & _ & Hpattern & _).
  - vm_compute. reflexivity.
  - exists result. split; [exact Hresult|]. split; [vm_compute; reflexivity|].
    assert (Hsame : result = SamplingObject.mk "^Chapter"
                               [SampledBoundary.mk "Chapter 1" 1;
                                SampledBoundary.mk "Chapter 2" 6]).
    { vm_compute in Hresult. injection Hresult as <-. reflexivity. }
    destruct (Hpattern startsWithChapter) as (_ & Hwell & _).
    + rewrite Hsame. reflexivity.
    + vm_compute. discriminate.
    + exact Hwell.
Defined.

(** *** The generation requests of a detection *)

Lemma detectFromTitleMatching_log (env : Env) (pages : list string) (key : bool)
    (log : list Request) (r : Result (option TitleResult.t)) (log' : list Request) :
  detectFromTitleMatching env pages key log = (r, log') ->
  log' = log
  \/ key = true
     /\ log' = log ++ [ReqToc (Js.join pageBreak
                                 (Js.slice 0 (Z.min 15 (Js.len pages)) pages))].
Proof.
  unfold detectFromTitleMatching. destruct key; simpl; [|intros [= _ <-]; left; reflexivity].
  cbv zeta. destruct (Js.strlen _ <? 100); [intros [= _ <-]; left; reflexivity|].
  unfold tryCatch, bind, generateObject, ret.
  destruct (genToc env _) as [toc|e]; [|intros [= _ <-]; right; split; reflexivity].
  destruct (Js.len (TocObject.chapterTitles toc) <? 2);
    [intros [= _ <-]; right; split; reflexivity|].
  destruct (Js.len (scanTitles _ _ _) <? 2); intros [= _ <-]; right; split; reflexivity.
Qed.

Lemma detectFromLlmSampling_log (env : Env) (pages : list string) (key : bool)
    (log : list Request) (r : Result (option (list ChapterBoundary.t)))
    (log' : list Request) :
  detectFromLlmSampling env pages key log = (r, log') ->
  log' = log
  \/ key = true /\ log' = log ++ [ReqSampling (Js.len pages) (sampledText pages)].
Proof.
  unfold detectFromLlmSampling. destruct key; simpl; [|intros [= _ <-]; left; reflexivity].
  destruct (Js.len pages <? 10); [intros [= _ <-]; left; reflexivity|].
  unfold tryCatch, bind, generateObject, ret.
  destruct (genSampling env _) as [result|e]; [|intros [= _ <-]; right; split; reflexivity].
  destruct (Js.len (SamplingObject.boundaries result) <? 2);
    [intros [= _ <-]; right; split; reflexivity|].
  destruct (newRegExp env _) as [regex|]; [destruct (2 <=? Js.len _)|];
    intros [= _ <-]; right; split; reflexivity.
Qed.

Lemma extractBookMetadata_log (env : Env) (pages : list string) (key : bool)
    (log : list Request) (r : Result MetadataObject.t) (log' : list Request) :
  extractBookMetadata env pages key log = (r, log') ->
  if key then log' = log ++ [ReqMetadata (Js.join pageBreak (Js.slice 0 5 pages))]
  else log' = log /\ r = Ok untitledBook.
Proof.
  unfold extractBookMetadata. destruct key; simpl.
  - unfold tryCatch, bind, generateObject, ret.
    destruct (genMetadata env _) as [object|e]; intros [= _ <-]; reflexivity.
  - intros [= <- <-]. split; reflexivity.
Qed.

(** X9. One detection sends at most three generation requests, whatever
    the size of the book: the table-of-contents request, the sampling
    request and the metadata request, each at most once and in this
    order.  A structure detected by title match came without a sampling
    or metadata request; every other structure came, when an API key is
    configured, with the metadata request. *)
Theorem detectBookStructure_requests (env : Env) (buffer : Buffer) (pages : list string)
    (log : list Request) (structure : BookStructure.t) (log' : list Request) :
  detectBookStructure env buffer pages log = (Ok structure, log') ->
  exists toc sampling meta,
    log' = log ++ toc ++ sampling ++ meta
    /\ (toc = []
        \/ toc = [ReqToc (Js.join pageBreak (Js.slice 0 (Z.min 15 (Js.len pages)) pages))])
    /\ (sampling = [] \/ sampling = [ReqSampling (Js.len pages) (sampledText pages)])
    /\ (meta = [] \/ meta = [ReqMetadata (Js.join pageBreak (Js.slice 0 5 pages))])
    /\ (BookStructure.detectionMethod structure = title_match ->
        sampling = [] /\ meta = [])
    /\ (BookStructure.detectionMethod structure <> title_match ->
        hasApiKey env = true ->
        meta = [ReqMetadata (Js.join pageBreak (Js.slice 0 5 pages))]).
Proof.
  intros Hrun. apply detectBookStructure_inv in Hrun.
  set (reqToc := ReqToc (Js.join pageBreak (Js.slice 0 (Z.min 15 (Js.len pages)) pages))).
  set (reqSampling := ReqSampling (Js.len pages) (sampledText pages)).
  set (reqMeta := ReqMetadata (Js.join pageBreak (Js.slice 0 5 pages))).
  assert (Hmeta_log :
            forall log3 meta log4,
              extractBookMetadata env pages (hasApiKey env) log3 = (Ok meta, log4) ->
              exists reqs, log4 = log3 ++ reqs
                           /\ (reqs = [] \/ reqs = [reqMeta])
                           /\ (hasApiKey env = true -> reqs = [reqMeta])).
  { intros log3 meta log4 H. apply extractBookMetadata_log in H.
    destruct (hasApiKey env).
    - exists [reqMeta]. split; [exact H|]. split; [right; reflexivity|reflexivity].
    - exists []. destruct H as [-> _]. rewrite app_nil_r.
      split; [reflexivity|]. split; [left; reflexivity|discriminate]. }
  assert (Htoc_log :
            forall log1 r log2,
              detectFromTitleMatching env pages (hasApiKey env) log1 = (Ok r, log2) ->
              exists reqs, log2 = log1 ++ reqs /\ (reqs = [] \/ reqs = [reqToc])).
  { intros log1 r log2 H. apply detectFromTitleMatching_log in H as [->|[_ ->]].
    - exists []. rewrite app_nil_r. split; [reflexivity|left; reflexivity].
    - exists [reqToc]. split; [reflexivity|right; reflexivity]. }
  assert (Hsampling_log :
            forall log2 r log3,
              detectFromLlmSampling env pages (hasApiKey env) log2 = (Ok r, log3) ->
              exists reqs, log3 = log2 ++ reqs /\ (reqs = [] \/ reqs = [reqSampling])).
  { intros log2 r log3 H. apply detectFromLlmSampling_log in H as [->|[_ ->]].
    - exists []. rewrite app_nil_r. split; [reflexivity|left; reflexivity].
    - exists [reqSampling]. split; [reflexivity|right; reflexivity]. }
  destruct Hrun as [chapters log1 meta log' Hlinks Hmany Hmeta
                   |links log1 r log' Hlinks Htitles Hmany
                   |links log1 titles log2 chapters log3 meta log' Hlinks Htitles Hsampled
                      Hmany Hmeta
                   |links log1 titles log2 sampled log3 meta log' Hlinks Htitles Hsampled
                      Hmeta]; simpl;
    apply detectFromPdfLinks_log in Hlinks; subst log1.
  - apply Hmeta_log in Hmeta as (ms & -> & Hms & Hkey).
    exists [], [], ms. simpl. repeat split; auto; discriminate.
  - apply Htoc_log in Htitles as (ts & -> & Hts).
    exists ts, [], []. rewrite !app_nil_r. repeat split; auto; contradiction.
  - destruct (Htoc_log _ _ _ Htitles) as (ts & Hlog2 & Hts).
    destruct (Hsampling_log _ _ _ Hsampled) as (ss & Hlog3 & Hss).
    destruct (Hmeta_log _ _ _ Hmeta) as (ms & Hlog' & Hms & Hkey).
    exists ts, ss, ms. rewrite Hlog', Hlog3, Hlog2, <- !app_assoc.
    repeat split; auto; discriminate.
  - destruct (Htoc_log _ _ _ Htitles) as (ts & Hlog2 & Hts).
    destruct (Hsampling_log _ _ _ Hsampled) as (ss & Hlog3 & Hss).
    destruct (Hmeta_log _ _ _ Hmeta) as (ms & Hlog' & Hms & Hkey).
    exists ts, ss, ms. rewrite Hlog', Hlog3, Hlog2, <- !app_assoc.
    repeat split; auto; discriminate.
Qed.

(** The algebra book is detected with the one table-of-contents request. *)
Lemma detectBookStructure_requests_witness :
  exists toc sampling meta,
    snd (detectBookStructure algebraEnv [] algebraPages []) = [] ++ toc ++ sampling ++ meta
    /\ sampling = [] /\ meta = [].
Proof.
  destruct (detectBookStructure_requests algebraEnv [] algebraPages []
              (BookStructure.mk "Algebra Basics" None
                 [ChapterBoundary.mk "Linear Equations" 0 (-1);
                  ChapterBoundary.mk "Quadratic Equations" 0 2] title_match)
              (snd (detectBookStructure algebraEnv [] algebraPages [])))
    as (toc & sampling & meta & Hlog & _ & _ & _ & Htitle & _).
  - vm_compute. reflexivity.
  - exists toc, sampling, meta. split; [exact Hlog|]. apply Htitle. reflexivity.
Defined.

(** X10. Without an API key a detection sends no generation request and
    its result is titled [Untitled Book], without an author; its chapters
    are those of the link annotations or, failing that, the fixed
    chunks. *)
Theorem detectBookStructure_without_key (env : Env) (buffer : Buffer)
    (pages : list string) (log : list Request) (structure : BookStructure.t)
    (log' : list Request) :
  hasApiKey env = false ->
  detectBookStructure env buffer pages log = (Ok structure, log') ->
  log' = log
  /\ BookStructure.title structure = "Untitled Book"
  /\ BookStructure.author structure = None
  /\ (BookStructure.detectionMethod structure = pdf_links
      /\ detectFromPdfLinks env buffer log
         = (Ok (Some (BookStructure.chapters structure)), log)
      \/ BookStructure.detectionMethod structure = fixed_chunks
         /\ BookStructure.chapters structure = fixedChunks pages).
Proof.
  intros Hkey Hrun. apply detectBookStructure_inv in Hrun.
  destruct Hrun as [chapters log1 meta log' Hlinks Hmany Hmeta
                   |links log1 r log' Hlinks Htitles Hmany
                   |links log1 titles log2 chapters log3 meta log' Hlinks Htitles Hsampled
                      Hmany Hmeta
                   |links log1 titles log2 sampled log3 meta log' Hlinks Htitles Hsampled
                      Hmeta]; simpl;
    pose proof (detectFromPdfLinks_log _ _ _ _ _ Hlinks); subst log1.
  - apply extractBookMetadata_log in Hmeta. rewrite Hkey in Hmeta.
    destruct Hmeta as [-> [= ->]]. simpl.
    repeat split. left. split; [reflexivity|exact Hlinks].
  - apply detectFromTitleMatching_inv in Htitles as (Hyes & _). congruence.
  - apply detectFromLlmSampling_inv in Hsampled as (Hyes & _). congruence.
  - apply detectFromTitleMatching_log in Htitles as [->|[Hyes _]]; [|congruence].
    apply detectFromLlmSampling_log in Hsampled as [->|[Hyes _]]; [|congruence].
    apply extractBookMetadata_log in Hmeta. rewrite Hkey in Hmeta.
    destruct Hmeta as [-> [= ->]]. simpl.
    repeat split. right. split; reflexivity.
Qed.

(** Without a key, the document with links on its first page is
    structured by its links and called [Untitled Book]. *)
Lemma detectBookStructure_without_key_witness :
  snd (detectBookStructure linkedEnv [] (replicate 10 "Text of a page.") []) = []
  /\ BookStructure.title
       (BookStructure.mk "Untitled Book" None
          [ChapterBoundary.mk "One" 2 4; ChapterBoundary.mk "Two" 5 7;
           ChapterBoundary.mk "Three" 8 9] pdf_links)
     = "Untitled Book".
Proof.
  destruct (detectBookStructure_without_key linkedEnv []
              (replicate 10 "Text of a page.") []
              (BookStructure.mk "Untitled Book" None
                 [ChapterBoundary.mk "One" 2 4; ChapterBoundary.mk "Two" 5 7;
                  ChapterBoundary.mk "Three" 8 9] pdf_links)
              (snd (detectBookStructure linkedEnv [] (replicate 10 "Text of a page.") [])))
    as (Hlog & Htitle & _).
  - reflexivity.
  - vm_compute. reflexivity.
  - split; [exact Hlog|exact Htitle].
Defined.

(* ------------------------------------------------------------------ *)
(** ** More on the chapter analyzer *)

Lemma strlen_append (a b : string) : Js.strlen (a +:+ b) = Js.strlen a + Js.strlen b.
Proof.
  unfold Js.strlen.
  assert (String.length (a +:+ b) = (String.length a + String.length b)%nat) as ->; [|lia].
  induction a as [|c a IH]; simpl; [reflexivity|]. rewrite IH. reflexivity.
Qed.

Lemma substring_0_length (m : nat) (s : string) :
  String.length (String.substring 0 m s) = Nat.min m (String.length s).
Proof.
  revert m. induction s as [|c s IH]; intros [|m]; simpl; try reflexivity.
  rewrite IH. reflexivity.
Qed.

Lemma strlen_sliceTo (n : Z) (s : string) :
  0 <= n -> Js.strlen (Js.sliceTo n s) = Z.min n (Js.strlen s).
Proof.
  intros Hn. unfold Js.strlen, Js.sliceTo. rewrite substring_0_length. lia.
Qed.

Lemma sliceTo_prefix (n : Z) (s : string) : String.prefix (Js.sliceTo n s) s = true.
Proof.
  unfold Js.sliceTo. generalize (Z.to_nat n) as m.
  induction s as [|c s IH]; intros [|m]; simpl; try reflexivity.
  rewrite IH. destruct (ascii_dec c c); [reflexivity|contradiction].
Qed.

(** X11. The chapter text that goes into the request is never longer
    than 80,015 characters: a text of 80,000 characters at most is sent
    as it is, a longer one is cut to its first 80,000 characters, followed
    by a line feed and the mark [[...truncated]]. *)
Theorem truncatedText_cap (chapterText : string) :
  Js.strlen (truncatedText chapterText) <= 80015
  /\ (Js.strlen chapterText <= 80000 -> truncatedText chapterText = chapterText)
  /\ (80000 < Js.strlen chapterText ->
      exists kept,
        truncatedText chapterText = kept +:+ nl +:+ "[...truncated]"
        /\ Js.strlen kept = 80000
        /\ String.prefix kept chapterText = true).
Proof.
  unfold truncatedText. cbv zeta.
  destruct (Z.ltb_spec 80000 (Js.strlen chapterText)) as [Hlong|Hshort].
  - assert (Hkept : Js.strlen (Js.sliceTo 80000 chapterText) = 80000).
    { rewrite strlen_sliceTo by lia. lia. }
    split; [|split; [lia|]].
    + rewrite !strlen_append, Hkept.
      change (Js.strlen nl) with 1. change (Js.strlen "[...truncated]") with 14. lia.
    + intros _. exists (Js.sliceTo 80000 chapterText).
      split; [reflexivity|]. split; [exact Hkept|apply sliceTo_prefix].
  - split; [lia|]. split; [reflexivity|lia].
Qed.

Lemma templatedSummary_nonempty (title : string) : templatedSummary title <> EmptyString.
Proof. unfold templatedSummary. simpl. discriminate. Qed.

Lemma positive_true (q : Q) : positive q = true <-> (0 < q)%Q.
Proof.
  unfold positive. rewrite negb_true_iff. split.
  - intros Hle. destruct (Qlt_le_dec 0 q) as [Hlt|Hge]; [exact Hlt|].
    apply Qle_bool_iff in Hge. congruence.
  - intros Hlt. destruct (Qle_bool q 0) eqn:Hle; [|reflexivity].
    apply Qle_bool_iff in Hle. exfalso. exact (Qlt_not_le _ _ Hlt Hle).
Qed.

Lemma fallbackMinutes_positive (chapterText : string) :
  (0 < inject_Z (fallbackMinutes chapterText))%Q.
Proof.
  pose proof (fallbackMinutes_ge_5 chapterText). unfold Qlt, inject_Z. simpl. lia.
Qed.

(** X12. What [analyzeChapter] gives back.  It always returns, from any
    log the same fields, after one generation request when an API key is
    configured and none otherwise.  The summary is never empty and the
    reading minutes are positive.  When the model answers, its key
    concepts, learning objectives and prerequisites are passed on as they
    are, its summary unless it is empty, and its reading minutes exactly
    when they are positive. *)
Theorem analyzeChapter_result (env : Env) (chapterNumber : Z) (title chapterText : string)
    (previousChapterContext : option string) :
  exists fields,
    (forall log,
        analyzeChapter env chapterNumber title chapterText previousChapterContext log
        = (Ok fields,
           log ++ (if hasApiKey env
                   then [chapterRequest chapterNumber title chapterText
                           previousChapterContext]
                   else [])))
    /\ AnalysisFields.summary fields <> EmptyString
    /\ (0 < AnalysisFields.estimatedReadingMinutes fields)%Q
    /\ (forall object,
          hasApiKey env = true ->
          genChapter env (chapterRequest chapterNumber title chapterText
                            previousChapterContext) = Ok object ->
          AnalysisFields.keyConcepts fields = AnalysisFields.keyConcepts object
          /\ AnalysisFields.learningObjectives fields
             = AnalysisFields.learningObjectives object
          /\ AnalysisFields.prerequisites fields = AnalysisFields.prerequisites object
          /\ (AnalysisFields.summary object <> EmptyString ->
              AnalysisFields.summary fields = AnalysisFields.summary object)
          /\ ((0 < AnalysisFields.estimatedReadingMinutes object)%Q <->
              AnalysisFields.estimatedReadingMinutes fields
              = AnalysisFields.estimatedReadingMinutes object)).
Proof.
  unfold analyzeChapter.
  destruct (hasApiKey env) eqn:Hkey; simpl.
  - unfold tryCatch, bind, generateObject, ret.
    destruct (genChapter env (chapterRequest chapterNumber title chapterText
                                previousChapterContext)) as [object|e] eqn:Hanswer.
    + eexists. split; [intros log; reflexivity|]. simpl.
      split; [apply orElse_nonempty, templatedSummary_nonempty|].
      split.
      { destruct (positive (AnalysisFields.estimatedReadingMinutes object)) eqn:Hpos;
          [apply positive_true; exact Hpos|apply fallbackMinutes_positive]. }
      intros object' _ [= <-]. repeat split.
      * intros Hsummary. unfold orElse.
        apply truthy_nonempty in Hsummary. rewrite Hsummary. reflexivity.
      * intros Hpos. apply positive_true in Hpos. rewrite Hpos. reflexivity.
      * destruct (positive (AnalysisFields.estimatedReadingMinutes object)) eqn:Hpos;
          [intros _; apply positive_true; exact Hpos|].
        intros Heq. rewrite <- Heq. apply fallbackMinutes_positive.
    + exists (fallbackFields title chapterText). split; [intros log; reflexivity|].
      split; [apply templatedSummary_nonempty|].
      split; [apply fallbackMinutes_positive|]. intros object _ [=].
  - exists (fallbackFields title chapterText).
    split; [intros log; rewrite app_nil_r; reflexivity|].
    split; [apply templatedSummary_nonempty|].
    split; [apply fallbackMinutes_positive|]. intros object [=].
Qed.

(* ------------------------------------------------------------------ *)
(** ** More on the orchestrator *)

Section OrchestratorSlots.
Context (env : Env).

Lemma analyzeChapter_run (chapterNumber : Z) (title chapterText : string)
    (previousChapterContext : option string) :
  exists fields,
    (forall log,
        analyzeChapter env chapterNumber title chapterText previousChapterContext log
        = (Ok fields,
           log ++ (if hasApiKey env
                   then [chapterRequest chapterNumber title chapterText
                           previousChapterContext]
                   else [])))
    /\ AnalysisFields.summary fields <> EmptyString
    /\ (0 < AnalysisFields.estimatedReadingMinutes fields)%Q.
Proof.
  unfold analyzeChapter. destruct (hasApiKey env); simpl.
  - unfold tryCatch, bind, generateObject, ret.
    destruct (genChapter env _) as [object|e].
    + eexists. split; [intros log; reflexivity|]. simpl.
      split; [apply orElse_nonempty, templatedSummary_nonempty|].
      destruct (positive (AnalysisFields.estimatedReadingMinutes object)) eqn:Hpos;
        [apply positive_true; exact Hpos|apply fallbackMinutes_positive].
    + exists (fallbackFields title chapterText). split; [intros log; reflexivity|].
      split; [apply templatedSummary_nonempty|apply fallbackMinutes_positive].
  - exists (fallbackFields title chapterText).
    split; [intros log; rewrite app_nil_r; reflexivity|].
    split; [apply templatedSummary_nonempty|apply fallbackMinutes_positive].
Qed.

Lemma createTask_created chapters pages results (i : nat) log :
  (i < length chapters)%nat ->
  exists task,
    createTask env chapters pages results i log = (Ok task, log ++ taskRequests env task)
    /\ Task.index task = i
    /\ created env chapters pages results task.
Proof.
  intros Hi. unfold createTask.
  destruct (lookup_lt_is_Some_2 chapters i Hi) as [chapter Hchapter].
  rewrite Hchapter. cbv zeta. fold (chapterTextOf pages chapter).
  destruct (analyzeChapter_run (Z.of_nat i + 1) (ChapterBoundary.title chapter)
              (chapterTextOf pages chapter) (previousContextOf results i))
    as (fields & Hrun & Hsummary & Hminutes).
  exists (Task.mk i chapter (chapterTextOf pages chapter) (previousContextOf results i)
            (Ok fields)).
  split; [|split; [reflexivity|]].
  - unfold bind, spawn. rewrite Hrun. reflexivity.
  - split; [exact Hchapter|]. split; [reflexivity|]. split; [reflexivity|].
    exists fields. split; [reflexivity|]. split; [exact Hrun|]. split; assumption.
Qed.

Lemma createTasks_created chapters pages results (indices : list nat) log :
  Forall (fun i => (i < length chapters)%nat) indices ->
  exists tasks,
    createTasks env chapters pages results indices log
    = (Ok tasks, log ++ concat (map (taskRequests env) tasks))
    /\ map Task.index tasks = indices
    /\ Forall (created env chapters pages results) tasks.
Proof.
  intros Hin. revert log. induction Hin as [|i rest Hi _ IH]; intros log.
  - exists []. simpl. rewrite app_nil_r. repeat split; constructor.
  - destruct (createTask_created chapters pages results i log Hi)
      as (task & Hrun & Hidx & Hcreated).
    destruct (IH (log ++ taskRequests env task)) as (tasks & Hrest & Hidxs & Hall).
    exists (task :: tasks). simpl. unfold bind. rewrite Hrun, Hrest.
    split; [rewrite <- app_assoc; reflexivity|].
    split; [simpl; congruence|]. constructor; assumption.
Qed.

Lemma NoDup_map_eq {A B} (f : A -> B) (l : list A) (x y : A) :
  NoDup (map f l) -> x ∈ l -> y ∈ l -> f x = f y -> x = y.
Proof.
  induction l as [|a l IH]; simpl; intros Hnodup Hx Hy Heq; [inversion Hx|].
  apply NoDup_cons in Hnodup as [Hnotin Hnodup].
  assert (Hin : forall z, z ∈ l -> f z ∈ map f l).
  { intros z Hz. change (map f l) with (f <$> l). apply list_elem_of_fmap_2. exact Hz. }
  apply elem_of_cons in Hx as [->|Hx]; apply elem_of_cons in Hy as [->|Hy].
  - reflexivity.
  - exfalso. apply Hnotin. rewrite Heq. exact (Hin _ Hy).
  - exfalso. apply Hnotin. rewrite <- Heq. exact (Hin _ Hx).
  - exact (IH Hnodup Hx Hy Heq).
Qed.

(** The outer loop: every task it creates is the analysis of the chapter
    at its index, with its result in the slot of that index, and the
    requests are those of the tasks in the order of their creation. *)
Lemma runBatches_slots (fuel : nat) (chapters : list ChapterBoundary.t)
    (pages : list string) :
  forall (batchStart : nat) (results : list (option ChapterAnalysis.t))
         (trace : list Task.t) (log : list Request),
    length results = length chapters ->
    (length chapters - batchStart <= concurrencyLimit * fuel)%nat ->
    exists results' tasks,
      runBatches env fuel chapters pages batchStart results trace log
      = (Ok (results', trace ++ tasks), log ++ concat (map (taskRequests env) tasks))
      /\ length results' = length chapters
      /\ (forall i, (i < batchStart)%nat -> results' !! i = results !! i)
      /\ map Task.index tasks = seq batchStart (length chapters - batchStart)
      /\ Forall (slotOf env chapters pages results') tasks.
Proof.
  unfold concurrencyLimit.
  induction fuel as [|fuel IH]; intros b results trace log Hlen Hfuel.
  - exists results, []. simpl. rewrite !app_nil_r.
    split; [reflexivity|]. split; [exact Hlen|]. split; [reflexivity|].
    split; [replace (length chapters - b)%nat with 0%nat by lia; reflexivity|constructor].
  - simpl runBatches. destruct (Nat.ltb_spec b (length chapters)) as [Hlt|Hge].
    + set (k := (Nat.min (b + 5) (length chapters) - b)%nat).
      destruct (createTasks_created chapters pages results (seq b k) log)
        as (tasks & Hcreate & Hidx & Hcreated).
      { apply Forall_forall. intros i Hi. apply elem_of_seq in Hi. lia. }
      destruct (settle_inCompletionOrder env tasks results)
        as (results1 & Hsettle & Hlen1 & Hother & Hset).
      { eapply Forall_impl; [exact Hcreated|].
        intros t (_ & _ & _ & fields & Hok & _). exists fields. exact Hok. }
      rewrite Hidx in Hother, Hset.
      assert (Hbatch : runBatch env chapters pages b results log
                       = (Ok (results1, tasks),
                          log ++ concat (map (taskRequests env) tasks))).
      { unfold runBatch, bind, await, ret, concurrencyLimit. fold k.
        rewrite Hcreate, Hsettle. reflexivity. }
      unfold bind at 1. rewrite Hbatch. simpl fst. simpl snd.
      unfold concurrencyLimit.
      destruct (IH (b + 5)%nat results1 (trace ++ tasks)
                  (log ++ concat (map (taskRequests env) tasks)))
        as (results' & tasks' & Hrun & Hlen' & Hkeep & Hidx' & Hslots);
        [congruence|lia|].
      exists results', (tasks ++ tasks').
      split; [rewrite Hrun, map_app, concat_app, !app_assoc; reflexivity|].
      split; [exact Hlen'|].
      split.
      { intros i Hi. rewrite Hkeep by lia. apply Hother. rewrite elem_of_seq. lia. }
      split.
      { rewrite map_app, Hidx, Hidx'. subst k.
        destruct (Nat.le_gt_cases (b + 5) (length chapters)) as [Hfull|Hpart].
        - rewrite Nat.min_l by lia.
          replace (length chapters - b)%nat with (5 + (length chapters - (b + 5)))%nat by lia.
          rewrite seq_app. replace (b + 5 - b)%nat with 5%nat by lia. reflexivity.
        - rewrite Nat.min_r by lia.
          replace (length chapters - (b + 5))%nat with 0%nat by lia.
          apply app_nil_r. }
      apply Forall_app. split; [|exact Hslots].
      apply Forall_forall. intros t Ht.
      assert (Hti : Task.index t ∈ seq b k).
      { rewrite <- Hidx. apply list_elem_of_fmap. exists t. split; [reflexivity|exact Ht]. }
      pose proof Hti as Hrange. apply elem_of_seq in Hrange.
      rewrite Forall_forall in Hcreated.
      destruct (Hcreated t Ht) as (Hchapter & Htext & _ & fields & Hok & Hrun' & Hsum & Hmin).
      split; [exact Hchapter|]. split; [exact Htext|].
      exists fields. split; [exact Hok|]. split; [exact Hrun'|].
      split; [exact Hsum|]. split; [exact Hmin|].
      destruct (Hset (Task.index t) Hti) as (t' & a & Ht' & Hidx_t' & Hok' & Hlook); [lia|].
      assert (t' = t) as ->.
      { apply (NoDup_map_eq Task.index tasks); [|exact Ht'|exact Ht|exact Hidx_t'].
        rewrite Hidx. apply NoDup_seq. }
      rewrite Hkeep by lia. rewrite Hlook. congruence.
    + exists results, []. rewrite !app_nil_r.
      split; [reflexivity|]. split; [exact Hlen|]. split; [reflexivity|].
      split; [replace (length chapters - b)%nat with 0%nat by lia; reflexivity|constructor].
Qed.

Lemma analyzeChaptersTraced_slots (structure : BookStructure.t) (pages : list string)
    (log : list Request) :
  exists results trace,
    analyzeChaptersTraced env structure pages log
    = (Ok (results, trace), log ++ concat (map (taskRequests env) trace))
    /\ length results = length (BookStructure.chapters structure)
    /\ map Task.index trace = seq 0 (length (BookStructure.chapters structure))
    /\ Forall (slotOf env (BookStructure.chapters structure) pages results) trace.
Proof.
  unfold analyzeChaptersTraced.
  destruct (runBatches_slots (length (BookStructure.chapters structure))
              (BookStructure.chapters structure) pages 0
              (newArray (length (BookStructure.chapters structure))) [] log)
    as (results & tasks & Hrun & Hlen & _ & Hidx & Hslots).
  - unfold newArray. apply length_replicate.
  - unfold concurrencyLimit. lia.
  - exists results, tasks. rewrite Nat.sub_0_r in Hidx. auto.
Qed.

End OrchestratorSlots.

(** *** What a chapter is analyzed with *)

(** The two descriptions of a run, of the same run. *)
Lemma analyzeChaptersTraced_run (env : Env) (structure : BookStructure.t)
    (pages : list string) (log : list Request) :
  exists results trace,
    analyzeChaptersTraced env structure pages log
    = (Ok (results, trace), log ++ concat (map (taskRequests env) trace))
    /\ map Task.index trace = seq 0 (length (BookStructure.chapters structure))
    /\ Forall (contextRule results) trace
    /\ Forall (slotOf env (BookStructure.chapters structure) pages results) trace.
Proof.
  destruct (analyzeChaptersTraced_slots env structure pages log)
    as (results & trace & Hrun & _ & Hidx & Hslots).
  destruct (analyzeChaptersTraced_spec env structure pages log)
    as (results' & trace' & log' & Hrun' & _ & _ & _ & Hrule).
  rewrite Hrun in Hrun'. injection Hrun' as <- <- _.
  exists results, trace. auto.
Qed.

Lemma taskRequests_count (env : Env) (trace : list Task.t) :
  length (concat (map (taskRequests env) trace))
  = if hasApiKey env then length trace else 0%nat.
Proof.
  unfold taskRequests. induction trace as [|task rest IH]; simpl.
  - destruct (hasApiKey env); reflexivity.
  - rewrite length_app, IH. destruct (hasApiKey env); reflexivity.
Qed.

Lemma taskRequests_lookup (env : Env) (trace : list Task.t) (i : nat) (task : Task.t) :
  hasApiKey env = true ->
  trace !! i = Some task ->
  concat (map (taskRequests env) trace) !! i
  = Some (ReqChapter (Z.of_nat (Task.index task) + 1)
            (ChapterBoundary.title (Task.chapter task))
            (contextBlock (Task.previousContext task))
            (truncatedText (Task.chapterText task))).
Proof.
  intros Hkey. revert i. unfold taskRequests. rewrite Hkey.
  induction trace as [|t rest IH]; intros [|i] Hlook; simpl in *; try discriminate.
  - injection Hlook as ->. reflexivity.
  - apply IH. exact Hlook.
Qed.

(** The run, call by call: for every chapter there is the context it is
    analyzed with. *)
Lemma analyzeChapters_calls (env : Env) (structure : BookStructure.t)
    (pages : list string) (log : list Request) :
  exists results requests,
    analyzeChaptersWithContext env structure pages log = (Ok results, log ++ requests)
    /\ length requests
       = (if hasApiKey env then length (BookStructure.chapters structure) else 0%nat)
    /\ forall i chapter,
         BookStructure.chapters structure !! i = Some chapter ->
         exists context analysis,
           results !! i = Some (Some analysis)
           /\ analyzedWith env pages i chapter context analysis
           /\ (hasApiKey env = true ->
               requests !! i
               = Some (ReqChapter (Z.of_nat i + 1) (ChapterBoundary.title chapter)
                         (contextBlock context)
                         (truncatedText (chapterTextOf pages chapter))))
           /\ ((i = 0 \/ i mod 5 <> 0)%nat -> context = None)
           /\ ((0 < i)%nat -> (i mod 5 = 0)%nat ->
               exists previous,
                 results !! (i - 1)%nat = Some (Some previous)
                 /\ context = Some (Js.join ", " (ChapterAnalysis.keyConcepts previous))).
Proof.
  destruct (analyzeChaptersTraced_run env structure pages log)
    as (results & trace & Hrun & Hidx & Hrule & Hslots).
  exists results, (concat (map (taskRequests env) trace)).
  split; [unfold analyzeChaptersWithContext, bind; rewrite Hrun; reflexivity|].
  split.
  { rewrite taskRequests_count, <- (length_map Task.index), Hidx, length_seq.
    reflexivity. }
  intros i chapter Hchapter.
  pose proof (lookup_lt_Some _ _ _ Hchapter) as Hi.
  destruct (lookup_by_index Task.index trace _ i Hidx Hi) as (task & Htask & Hti).
  rewrite Forall_forall in Hrule, Hslots.
  pose proof (list_elem_of_lookup_2 _ _ _ Htask) as Hin.
  destruct (Hslots task Hin)
    as (Hch & Htext & fields & _ & Hcall & _ & _ & Hslot).
  destruct (Hrule task Hin) as [Hnone Hsome].
  unfold concurrencyLimit in Hnone, Hsome. cbv zeta in Hnone, Hsome.
  rewrite Hti in Hch, Hslot, Hnone, Hsome. rewrite Hchapter in Hch. injection Hch as Hch.
  exists (Task.previousContext task), (resultOf task fields).
  split; [exact Hslot|]. split.
  { exists fields. split.
    - intros log0. specialize (Hcall log0).
      unfold taskRequests, chapterRequest in Hcall.
      rewrite Hti, Htext, <- Hch in Hcall. exact Hcall.
    - unfold resultOf. rewrite Hti, <- Hch. reflexivity. }
  split.
  { intros Hkey. rewrite (taskRequests_lookup env trace i task Hkey Htask).
    rewrite Hti, Htext, <- Hch. reflexivity. }
  split; [exact Hnone|exact Hsome].
Qed.

(** C4. Every chapter is analyzed by one call of [analyzeChapter], in
    index order: the analysis in the slot of the chapter is what that
    call returns for the chapter's number, title and text and for a
    previous-chapter context, and with an API key the request of the
    call, which carries the context block, is in the log at the chapter's
    place.  That context is not null only for the first chapter of a
    batch after the first, that is, only if the predecessor was analyzed
    in an earlier batch, and it is then the key concepts of the
    predecessor's analysis, joined; whenever the predecessor was in an
    earlier batch the chapter does get that context.  For twelve
    chapters: the chapter at index 0 is analyzed without context and its
    request has no context block; the chapter at index 5 is analyzed with
    the key concepts of the analysis of the chapter at index 4, and its
    request carries the context block made of them (no block when that
    analysis has no key concepts: [analyzeChapter] treats the empty
    string like [null]). *)
Theorem batch_order_context (env : Env) (structure : BookStructure.t)
    (pages : list string) (log : list Request) :
  exists results requests,
    analyzeChaptersWithContext env structure pages log = (Ok results, log ++ requests)
    /\ length requests
       = (if hasApiKey env then length (BookStructure.chapters structure) else 0%nat)
    /\ (forall i chapter,
          BookStructure.chapters structure !! i = Some chapter ->
          exists context analysis,
            results !! i = Some (Some analysis)
            /\ analyzedWith env pages i chapter context analysis
            /\ (hasApiKey env = true ->
                requests !! i
                = Some (ReqChapter (Z.of_nat i + 1) (ChapterBoundary.title chapter)
                          (contextBlock context)
                          (truncatedText (chapterTextOf pages chapter))))
            /\ (forall concepts,
                  context = Some concepts ->
                  (0 < i)%nat
                  /\ ((i - 1) / concurrencyLimit < i / concurrencyLimit)%nat
                  /\ exists previous,
                       results !! (i - 1)%nat = Some (Some previous)
                       /\ concepts = Js.join ", " (ChapterAnalysis.keyConcepts previous))
            /\ ((0 < i)%nat ->
                ((i - 1) / concurrencyLimit < i / concurrencyLimit)%nat ->
                exists previous,
                  results !! (i - 1)%nat = Some (Some previous)
                  /\ context
                     = Some (Js.join ", " (ChapterAnalysis.keyConcepts previous))))
    /\ (length (BookStructure.chapters structure) = 12%nat ->
        exists chapter0 chapter5 first fifth sixth,
          BookStructure.chapters structure !! 0%nat = Some chapter0
          /\ BookStructure.chapters structure !! 5%nat = Some chapter5
          /\ results !! 0%nat = Some (Some first)
          /\ results !! 4%nat = Some (Some fifth)
          /\ results !! 5%nat = Some (Some sixth)
          /\ analyzedWith env pages 0 chapter0 None first
          /\ analyzedWith env pages 5 chapter5
               (Some (Js.join ", " (ChapterAnalysis.keyConcepts fifth))) sixth
          /\ (hasApiKey env = true ->
              requests !! 0%nat
              = Some (ReqChapter 1 (ChapterBoundary.title chapter0) EmptyString
                        (truncatedText (chapterTextOf pages chapter0)))
              /\ requests !! 5%nat
                 = Some (ReqChapter 6 (ChapterBoundary.title chapter5)
                           (contextBlock
                              (Some (Js.join ", " (ChapterAnalysis.keyConcepts fifth))))
                           (truncatedText (chapterTextOf pages chapter5))))).
Proof.
  destruct (analyzeChapters_calls env structure pages log)
    as (results & requests & Hrun & Hcount & Hcalls).
  exists results, requests. split; [exact Hrun|]. split; [exact Hcount|].
  unfold concurrencyLimit. split.
  - intros i chapter Hchapter.
    destruct (Hcalls i chapter Hchapter)
      as (context & analysis & Hslot & Hcall & Hrequest & Hnone & Hsome).
    exists context, analysis. split; [exact Hslot|]. split; [exact Hcall|].
    split; [exact Hrequest|]. split.
    + intros concepts Hctx.
      assert (Hfirst : (0 < i /\ i mod 5 = 0)%nat).
      { destruct (decide (i = 0 \/ i mod 5 <> 0)%nat) as [Hno|Hyes]; [|lia].
        rewrite (Hnone Hno) in Hctx. discriminate. }
      destruct Hfirst as [Hpos Hmult]. split; [exact Hpos|]. split; [lia|].
      destruct (Hsome Hpos Hmult) as (previous & Hprev & Hjoin).
      exists previous. split; [exact Hprev|congruence].
    + intros Hpos Hearlier. apply Hsome; lia.
  - intros Htwelve.
    destruct (lookup_lt_is_Some_2 (BookStructure.chapters structure) 0) as [chapter0 H0];
      [lia|].
    destruct (lookup_lt_is_Some_2 (BookStructure.chapters structure) 5) as [chapter5 H5];
      [lia|].
    destruct (Hcalls 0%nat chapter0 H0)
      as (context0 & first & Hslot0 & Hcall0 & Hrequest0 & Hnone0 & _).
    destruct (Hcalls 5%nat chapter5 H5)
      as (context5 & sixth & Hslot5 & Hcall5 & Hrequest5 & _ & Hsome5).
    rewrite Hnone0 in Hcall0, Hrequest0 by (left; reflexivity).
    destruct Hsome5 as (fifth & Hslot4 & ->); [lia|reflexivity|].
    exists chapter0, chapter5, first, fifth, sixth.
    split; [exact H0|]. split; [exact H5|]. split; [exact Hslot0|].
    split; [exact Hslot4|]. split; [exact Hslot5|]. split; [exact Hcall0|].
    split; [exact Hcall5|].
    intros Hkey. split; [apply Hrequest0|apply Hrequest5]; exact Hkey.
Qed.

(** The twelve chapters of [twelveChapters], analyzed by [conceptEnv]: the
    request for the sixth chapter names the key concept of the fifth. *)
Lemma batch_order_context_witness :
  length (BookStructure.chapters twelveChapters) = 12%nat
  /\ hasApiKey conceptEnv = true
  /\ exists results requests fifth,
       analyzeChaptersWithContext conceptEnv twelveChapters twelvePages []
       = (Ok results, [] ++ requests)
       /\ results !! 4%nat = Some (Some fifth)
       /\ ChapterAnalysis.keyConcepts fifth = ["topic 5"]
       /\ requests !! 0%nat
          = Some (ReqChapter 1 "Chapter 1" EmptyString "Some text of the page.")
       /\ requests !! 5%nat
          = Some (ReqChapter 6 "Chapter 6"
                    (nl +:+ "The previous chapter covered these key concepts: topic 5"
                     +:+ nl)
                    "Some text of the page.").
Proof.
  split; [reflexivity|]. split; [reflexivity|].
  destruct (batch_order_context conceptEnv twelveChapters twelvePages [])
    as (results & requests & Hrun & _ & _ & Htwelve).
  destruct (Htwelve eq_refl)
    as (chapter0 & chapter5 & first & fifth & sixth & H0 & H5 & _ & Hfifth & _ & _ & _
        & Hrequests).
  destruct (Hrequests eq_refl) as [Hrequest0 Hrequest5].
  injection H0 as <-. injection H5 as <-.
  exists results, requests, fifth.
  split; [exact Hrun|]. split; [exact Hfifth|].
  assert (Hconcepts : ChapterAnalysis.keyConcepts fifth = ["topic 5"]).
  { assert (Hcomputed :
              exists results0,
                fst (analyzeChaptersWithContext conceptEnv twelveChapters twelvePages [])
                = Ok results0
                /\ (ChapterAnalysis.keyConcepts <$> default None (results0 !! 4%nat))
                   = Some ["topic 5"]).
    { eexists. split; [vm_compute; reflexivity|reflexivity]. }
    destruct Hcomputed as (results0 & Hrun0 & Hkc).
    rewrite Hrun in Hrun0. simpl in Hrun0. injection Hrun0 as <-.
    rewrite Hfifth in Hkc. simpl in Hkc. injection Hkc as Hkc. exact Hkc. }
  split; [exact Hconcepts|].
  rewrite Hrequest0, Hrequest5, Hconcepts. split; reflexivity.
Defined.

(** C10. In every run of the orchestrator one call of [analyzeChapter] is
    made per chapter, in index order, and the chapter at index [i] is
    analyzed with previous-chapter context (the key concepts of the
    analysis of its predecessor) if and only if [i > 0] and [i] is a
    multiple of the batch size 5.  In particular every chapter of a batch
    but the first is analyzed with no context: the analysis in its slot
    is what [analyzeChapter] returns for [null], and with an API key its
    request carries no context block.  This holds whatever the order in
    which the analyses of a batch complete. *)
Theorem in_batch_context (env : Env) (structure : BookStructure.t)
    (pages : list string) (log : list Request) :
  exists results requests,
    analyzeChaptersWithContext env structure pages log = (Ok results, log ++ requests)
    /\ length requests
       = (if hasApiKey env then length (BookStructure.chapters structure) else 0%nat)
    /\ forall i chapter,
         BookStructure.chapters structure !! i = Some chapter ->
         exists context analysis,
           results !! i = Some (Some analysis)
           /\ analyzedWith env pages i chapter context analysis
           /\ (hasApiKey env = true ->
               requests !! i
               = Some (ReqChapter (Z.of_nat i + 1) (ChapterBoundary.title chapter)
                         (contextBlock context)
                         (truncatedText (chapterTextOf pages chapter))))
           /\ (is_Some context <-> (0 < i)%nat /\ (i mod 5 = 0)%nat)
           /\ (forall concepts,
                 context = Some concepts ->
                 exists previous,
                   results !! (i - 1)%nat = Some (Some previous)
                   /\ concepts = Js.join ", " (ChapterAnalysis.keyConcepts previous))
           /\ ((i mod 5 <> 0)%nat ->
               analyzedWith env pages i chapter None analysis
               /\ (hasApiKey env = true ->
                   requests !! i
                   = Some (ReqChapter (Z.of_nat i + 1) (ChapterBoundary.title chapter)
                             EmptyString
                             (truncatedText (chapterTextOf pages chapter))))).
Proof.
  destruct (analyzeChapters_calls env structure pages log)
    as (results & requests & Hrun & Hcount & Hcalls).
  exists results, requests. split; [exact Hrun|]. split; [exact Hcount|].
  intros i chapter Hchapter.
  destruct (Hcalls i chapter Hchapter)
    as (context & analysis & Hslot & Hcall & Hrequest & Hnone & Hsome).
  exists context, analysis. split; [exact Hslot|]. split; [exact Hcall|].
  split; [exact Hrequest|].
  assert (Hiff : is_Some context <-> (0 < i)%nat /\ (i mod 5 = 0)%nat).
  { split.
    - intros [concepts Hctx].
      destruct (decide (i = 0 \/ i mod 5 <> 0)%nat) as [Hno|Hyes]; [|lia].
      rewrite (Hnone Hno) in Hctx. discriminate.
    - intros [Hpos Hmult]. destruct (Hsome Hpos Hmult) as (previous & _ & ->).
      eexists. reflexivity. }
  split; [exact Hiff|]. split.
  - intros concepts Hctx.
    assert (Hfirst : (0 < i)%nat /\ (i mod 5 = 0)%nat).
    { apply Hiff. exists concepts. exact Hctx. }
    destruct Hfirst as [Hpos Hmult].
    destruct (Hsome Hpos Hmult) as (previous & Hprev & Hjoin).
    exists previous. split; [exact Hprev|congruence].
  - intros Hnot.
    assert (Hctx : context = None) by (apply Hnone; right; exact Hnot).
    rewrite Hctx in Hcall, Hrequest. split; [exact Hcall|exact Hrequest].
Qed.

Example twelveChapters_contexts :
  (let (r, _) := analyzeChaptersTraced conceptEnv twelveChapters twelvePages [] in
   match r with
   | Ok (_, trace) => map Task.previousContext trace
   | Throw _ => []
   end)
  = [None; None; None; None; None; Some "topic 5";
     None; None; None; None; Some "topic 10"; None].
Proof. vm_compute. reflexivity. Qed.

(** The context blocks of the requests the run sends, by chapter number. *)
Example twelveChapters_requests :
  omap (fun req =>
          match req with
          | ReqChapter chapterNumber _ block _ =>
              if truthy block then Some (chapterNumber, block) else None
          | _ => None
          end)
    (snd (analyzeChaptersWithContext conceptEnv twelveChapters twelvePages []))
  = [(6, nl +:+ "The previous chapter covered these key concepts: topic 5" +:+ nl);
     (11, nl +:+ "The previous chapter covered these key concepts: topic 10" +:+ nl)].
Proof. vm_compute. reflexivity. Qed.

(** X13. Analyses are not mixed up.  The orchestrator returns, whatever
    the model answers and in whatever order the analyses of a batch
    complete, an array in which the slot of index [i] holds the number
    [i + 1], the title and the page range of the chapter at index [i], and
    the fields [analyzeChapter] returned for the text of the pages of that
    very chapter (with a summary that is not empty and positive reading
    minutes).  The generation requests it sends are those of the chapters
    in index order: one per chapter with an API key, none without. *)
Theorem analyzeChapters_slots (env : Env) (structure : BookStructure.t)
    (pages : list string) (log : list Request) :
  exists results trace,
    analyzeChaptersTraced env structure pages log
    = (Ok (results, trace), log ++ concat (map (taskRequests env) trace))
    /\ length results = length (BookStructure.chapters structure)
    /\ length trace = length (BookStructure.chapters structure)
    /\ forall i chapter,
         BookStructure.chapters structure !! i = Some chapter ->
         exists task fields,
           trace !! i = Some task
           /\ Task.index task = i
           /\ Task.chapter task = chapter
           /\ Task.chapterText task = chapterTextOf pages chapter
           /\ analyzes env task fields
           /\ AnalysisFields.summary fields <> EmptyString
           /\ (0 < AnalysisFields.estimatedReadingMinutes fields)%Q
           /\ results !! i
              = Some (Some (ChapterAnalysis.mk (Z.of_nat i + 1)
                              (ChapterBoundary.title chapter)
                              (ChapterBoundary.startPage chapter)
                              (ChapterBoundary.endPage chapter)
                              (AnalysisFields.summary fields)
                              (AnalysisFields.keyConcepts fields)
                              (AnalysisFields.learningObjectives fields)
                              (AnalysisFields.prerequisites fields)
                              (AnalysisFields.estimatedReadingMinutes fields))).
Proof.
  destruct (analyzeChaptersTraced_slots env structure pages log)
    as (results & trace & Hrun & Hlen & Hidx & Hslots).
  exists results, trace. split; [exact Hrun|]. split; [exact Hlen|].
  split.
  { rewrite <- (length_map Task.index), Hidx. apply length_seq. }
  intros i chapter Hchapter.
  pose proof (lookup_lt_Some _ _ _ Hchapter) as Hi.
  destruct (lookup_by_index Task.index trace _ i Hidx Hi) as (task & Htask & Hti).
  rewrite Forall_forall in Hslots.
  destruct (Hslots task (list_elem_of_lookup_2 _ _ _ Htask))
    as (Hch & Htext & fields & Hok & Hanalyzes & Hsum & Hmin & Hslot).
  rewrite Hti in Hch, Hslot. rewrite Hchapter in Hch. injection Hch as Hch.
  exists task, fields. split; [exact Htask|]. split; [exact Hti|].
  split; [symmetry; exact Hch|]. split; [rewrite <- Hch in Htext; exact Htext|].
  split; [exact Hanalyzes|]. split; [exact Hsum|]. split; [exact Hmin|].
  rewrite Hslot. unfold resultOf. rewrite Hti, <- Hch. reflexivity.
Qed.

(** *** The order of completion *)

(** Promises that are all fulfilled and write different slots may settle
    in any order. *)
Lemma settle_Permutation (tasks1 tasks2 : list Task.t) :
  Permutation tasks1 tasks2 ->
  forall results,
    NoDup (map Task.index tasks1) -> Forall fulfilled tasks1 ->
    settle tasks1 results = settle tasks2 results.
Proof.
  induction 1 as [|task l1 l2 Hperm IH|x y l|l1 l2 l3 H12 IH12 H23 IH23];
    intros results Hnodup Hall.
  - reflexivity.
  - simpl. simpl in Hnodup. apply NoDup_cons in Hnodup as [_ Hnodup].
    apply Forall_cons in Hall as [_ Hall].
    destruct (Task.outcome task); [apply IH; assumption|reflexivity].
  - simpl in Hnodup. apply NoDup_cons in Hnodup as [Hne _].
    apply not_elem_of_cons in Hne as [Hne _].
    apply Forall_cons in Hall as [[fy Hy] Hall].
    apply Forall_cons in Hall as [[fx Hx] _].
    simpl. rewrite Hx, Hy. rewrite list_insert_insert_ne by congruence. reflexivity.
  - rewrite IH12 by assumption. apply IH23.
    + rewrite <- (Permutation_map Task.index H12). exact Hnodup.
    + eapply Permutation_Forall; [exact H12|exact Hall].
Qed.

Lemma createTasks_withCompletionTime (env : Env) (time : nat -> nat)
    chapters pages results (indices : list nat) :
  createTasks (withCompletionTime env time) chapters pages results indices
  = createTasks env chapters pages results indices.
Proof.
  induction indices as [|i rest IH]; simpl; [reflexivity|]. rewrite IH. reflexivity.
Qed.

Lemma runBatch_withCompletionTime (env : Env) (time : nat -> nat)
    chapters pages (batchStart : nat) results log :
  runBatch (withCompletionTime env time) chapters pages batchStart results log
  = runBatch env chapters pages batchStart results log.
Proof.
  unfold runBatch. cbv zeta. rewrite createTasks_withCompletionTime.
  set (indices := seq batchStart
                    (Nat.min (batchStart + concurrencyLimit) (length chapters)
                     - batchStart)).
  destruct (createTasks_created env chapters pages results indices log)
    as (tasks & Hcreate & Hidx & Hcreated).
  { apply Forall_forall. intros i Hi. apply elem_of_seq in Hi. lia. }
  unfold bind at 1 3. rewrite Hcreate.
  assert (Hsame : settle (inCompletionOrder (withCompletionTime env time) tasks) results
                  = settle (inCompletionOrder env tasks) results).
  { assert (Hnodup : NoDup (map Task.index tasks)) by (rewrite Hidx; apply NoDup_seq).
    assert (Hall : Forall fulfilled tasks).
    { eapply Forall_impl; [exact Hcreated|].
      intros t (_ & _ & _ & fields & Hok & _). exists fields. exact Hok. }
    transitivity (settle tasks results).
    - apply settle_Permutation.
      + apply sortBy_perm.
      + unfold inCompletionOrder.
        rewrite (Permutation_map Task.index (sortBy_perm _ tasks)). exact Hnodup.
      + eapply Permutation_Forall; [|exact Hall]. symmetry. apply sortBy_perm.
    - apply settle_Permutation; [symmetry; apply sortBy_perm|exact Hnodup|exact Hall]. }
  unfold bind, await. rewrite Hsame. reflexivity.
Qed.

(** X14. The order in which the analyses of a batch complete changes
    nothing: the orchestrator returns the same array, after the same
    calls of [analyzeChapter] and the same generation requests, for every
    order of completion. *)
Theorem completion_order_irrelevant (env : Env) (time : nat -> nat)
    (structure : BookStructure.t) (pages : list string) (log : list Request) :
  analyzeChaptersTraced (withCompletionTime env time) structure pages log
  = analyzeChaptersTraced env structure pages log
  /\ analyzeChaptersWithContext (withCompletionTime env time) structure pages log
     = analyzeChaptersWithContext env structure pages log.
Proof.
  assert (Hloop : forall fuel chapters batchStart results trace log0,
             runBatches (withCompletionTime env time) fuel chapters pages batchStart
               results trace log0
             = runBatches env fuel chapters pages batchStart results trace log0).
  { induction fuel as [|fuel IH]; intros chapters b results trace log0; simpl;
      [reflexivity|].
    destruct (b <? length chapters)%nat; [|reflexivity].
    unfold bind. rewrite runBatch_withCompletionTime.
    destruct (runBatch env chapters pages b results log0) as [[batch|e] log1];
      [apply IH|reflexivity]. }
  assert (Htraced : analyzeChaptersTraced (withCompletionTime env time) structure pages log
                    = analyzeChaptersTraced env structure pages log).
  { unfold analyzeChaptersTraced. apply Hloop. }
  split; [exact Htraced|].
  unfold analyzeChaptersWithContext, bind. rewrite Htraced. reflexivity.
Qed.

(* ------------------------------------------------------------------ *)
(** ** The whole analysis *)

Lemma detectBookStructure_returns (env : Env) (buffer : Buffer) (pages : list string) :
  Returns (detectBookStructure env buffer pages).
Proof.
  pose proof (withMetadata_returns env pages (hasApiKey env)).
  pose proof (detectFromPdfLinks_returns env buffer).
  pose proof (detectFromTitleMatching_returns env pages (hasApiKey env)).
  pose proof (detectFromLlmSampling_returns env pages (hasApiKey env)).
  unfold detectBookStructure. cbv zeta. returns.
Qed.

Lemma detectBookStructure_log_without_key (env : Env) (buffer : Buffer)
    (pages : list string) (log : list Request) (structure : BookStructure.t)
    (log' : list Request) :
  hasApiKey env = false ->
  detectBookStructure env buffer pages log = (Ok structure, log') ->
  log' = log.
Proof.
  intros Hkey Hrun. apply detectBookStructure_inv in Hrun.
  assert (Hmeta_log : forall log3 meta log4,
             extractBookMetadata env pages (hasApiKey env) log3 = (Ok meta, log4) ->
             log4 = log3).
  { intros log3 meta log4 H. apply extractBookMetadata_log in H.
    rewrite Hkey in H. apply H. }
  destruct Hrun as [chapters log1 meta log' Hlinks Hmany Hmeta
                   |links log1 r log' Hlinks Htitles Hmany
                   |links log1 titles log2 chapters log3 meta log' Hlinks Htitles Hsampled
                      Hmany Hmeta
                   |links log1 titles log2 sampled log3 meta log' Hlinks Htitles Hsampled
                      Hmeta];
    pose proof (detectFromPdfLinks_log _ _ _ _ _ Hlinks); subst log1.
  - exact (Hmeta_log _ _ _ Hmeta).
  - apply detectFromTitleMatching_inv in Htitles as (Hyes & _). congruence.
  - apply detectFromLlmSampling_inv in Hsampled as (Hyes & _). congruence.
  - apply detectFromTitleMatching_log in Htitles as [->|[Hyes _]]; [|congruence].
    apply detectFromLlmSampling_log in Hsampled as [->|[Hyes _]]; [|congruence].
    exact (Hmeta_log _ _ _ Hmeta).
Qed.

(** X15. [analyzeBook] never fails.  It returns the title, author and
    detection method of the detected structure, [totalPages] equal to the
    number of pages, and a chapter array without holes: for every chapter
    of the structure, the slot of its index holds an analysis with the
    number [index + 1], the chapter's title and page range, a summary that
    is not empty and positive reading minutes.  After the detection it
    sends one generation request per chapter when an API key is
    configured; without a key it sends none at all. *)
Theorem analyzeBook_result (env : Env) (buffer : Buffer) (pages : list string)
    (log : list Request) :
  exists structure log1 book log',
    detectBookStructure env buffer pages log = (Ok structure, log1)
    /\ analyzeBook env buffer pages log = (Ok book, log')
    /\ AnalyzedBook.title book = BookStructure.title structure
    /\ AnalyzedBook.author book = BookStructure.author structure
    /\ AnalyzedBook.detectionMethod book = BookStructure.detectionMethod structure
    /\ AnalyzedBook.totalPages book = Js.len pages
    /\ length (AnalyzedBook.chapters book) = length (BookStructure.chapters structure)
    /\ (forall i chapter,
          BookStructure.chapters structure !! i = Some chapter ->
          exists analysis,
            AnalyzedBook.chapters book !! i = Some (Some analysis)
            /\ ChapterAnalysis.chapterNumber analysis = Z.of_nat i + 1
            /\ ChapterAnalysis.title analysis = ChapterBoundary.title chapter
            /\ ChapterAnalysis.startPage analysis = ChapterBoundary.startPage chapter
            /\ ChapterAnalysis.endPage analysis = ChapterBoundary.endPage chapter
            /\ ChapterAnalysis.summary analysis <> EmptyString
            /\ (0 < ChapterAnalysis.estimatedReadingMinutes analysis)%Q)
    /\ (hasApiKey env = true ->
        length log' = (length log1 + length (BookStructure.chapters structure))%nat)
    /\ (hasApiKey env = false -> log' = log).
Proof.
  destruct (detectBookStructure_returns env buffer pages log)
    as (structure & log1 & Hdetect).
  destruct (analyzeChaptersTraced_slots env structure pages log1)
    as (results & trace & Hrun & Hlen & Hidx & Hslots).
  exists structure, log1.
  exists (AnalyzedBook.mk (BookStructure.title structure) (BookStructure.author structure)
            (Js.len pages) results (BookStructure.detectionMethod structure)).
  exists (log1 ++ concat (map (taskRequests env) trace)).
  split; [exact Hdetect|].
  split.
  { unfold analyzeBook, bind at 1. rewrite Hdetect.
    unfold analyzeChaptersWithContext, bind. rewrite Hrun. reflexivity. }
  simpl. do 4 (split; [reflexivity|]). split; [exact Hlen|].
  assert (Htrace : length trace = length (BookStructure.chapters structure)).
  { rewrite <- (length_map Task.index), Hidx. apply length_seq. }
  split; [|split].
  - intros i chapter Hchapter.
    pose proof (lookup_lt_Some _ _ _ Hchapter) as Hi.
    destruct (lookup_by_index Task.index trace _ i Hidx Hi) as (task & Htask & Hti).
    rewrite Forall_forall in Hslots.
    destruct (Hslots task (list_elem_of_lookup_2 _ _ _ Htask))
      as (Hch & _ & fields & _ & _ & Hsum & Hmin & Hslot).
    rewrite Hti in Hch, Hslot. rewrite Hchapter in Hch. injection Hch as Hch.
    exists (resultOf task fields). split; [exact Hslot|].
    unfold resultOf. simpl. rewrite Hti, <- Hch. repeat split; assumption.
  - intros Hkey. rewrite length_app, taskRequests_count, Hkey, Htrace. reflexivity.
  - intros Hkey.
    rewrite (detectBookStructure_log_without_key _ _ _ _ _ _ Hkey Hdetect).
    pose proof (taskRequests_count env trace) as Hcount. rewrite Hkey in Hcount.
    apply length_zero_iff_nil in Hcount. rewrite Hcount. apply app_nil_r.
Qed.

(* ------------------------------------------------------------------ *)
(** ** The course agent: questions *)

(** X16. The scripted questions of the course agent.  The question is
    always one of the script, never [undefined] and never empty: before
    the upload the first question until the learner has answered once,
    then the request for the PDF; after the upload the first question up
    to two answers, the second at three, the third at four, and the offer
    to generate the plan from five answers on.  The agent is ready to
    generate exactly when there is a book and the learner has answered at
    least five times, asks for the upload exactly when there is no book
    and the learner has answered at least once, and names no open gap
    exactly when it is ready. *)
Theorem fallbackNextQuestion_script (messages : list ConversationMessage.t)
    (hasBook : bool) :
  let count := Js.len (List.filter isUser messages) in
  let next := fallbackNextQuestion messages hasBook in
  NextQuestionPayload.question next
  = (if hasBook
     then (if 5 <=? count then Some readyQuestion
           else postUploadSteps !! Z.to_nat (count - 2))
     else preUploadSteps !! (if count =? 0 then 0%nat else 1%nat))
  /\ (exists question,
        NextQuestionPayload.question next = Some question /\ question <> EmptyString)
  /\ (NextQuestionPayload.readyToGenerate next = true <-> hasBook = true /\ 5 <= count)
  /\ (NextQuestionPayload.requestingUpload next = true <-> hasBook = false /\ 1 <= count)
  /\ (NextQuestionPayload.knownGaps next = []
      <-> NextQuestionPayload.readyToGenerate next = true).
Proof.
  intros count next. subst next. unfold fallbackNextQuestion. cbv zeta. fold count.
  assert (Hcount : 0 <= count) by apply len_nonneg.
  destruct hasBook; simpl negb; cbv iota.
  - destruct (Z.leb_spec 5 count) as [Hready|Hnot]; simpl.
    + split; [reflexivity|].
      split; [exists readyQuestion; split; [reflexivity|discriminate]|].
      split; [tauto|]. split; [split; [discriminate|intros [[=] _]]|tauto].
    + assert (Hidx : Z.to_nat (count - 2) = 0%nat
                     /\ Z.max 0 (Z.min (count - 2) (Js.len postUploadSteps - 1)) = 0
                     \/ Z.to_nat (count - 2) = 1%nat
                        /\ Z.max 0 (Z.min (count - 2) (Js.len postUploadSteps - 1)) = 1
                     \/ Z.to_nat (count - 2) = 2%nat
                        /\ Z.max 0 (Z.min (count - 2) (Js.len postUploadSteps - 1)) = 2).
      { change (Js.len postUploadSteps) with 3. lia. }
      split; [|split].
      * destruct Hidx as [[-> ->]|[[-> ->]|[-> ->]]]; reflexivity.
      * destruct Hidx as [[_ ->]|[[_ ->]|[_ ->]]]; eexists;
          (split; [reflexivity|discriminate]).
      * split; [split; [discriminate|lia]|].
        split; [split; [discriminate|intros [[=] _]]|].
        split; discriminate.
  - assert (Hidx : count = 0 /\ Z.min count (Js.len preUploadSteps - 1) = 0
                   \/ 1 <= count /\ Z.min count (Js.len preUploadSteps - 1) = 1).
    { change (Js.len preUploadSteps) with 2. lia. }
    split; [|split].
    + destruct Hidx as [[Hc ->]|[Hc ->]].
      * rewrite Hc. reflexivity.
      * destruct (Z.eqb_spec count 0); [lia|reflexivity].
    + destruct Hidx as [[_ ->]|[_ ->]]; eexists; (split; [reflexivity|discriminate]).
    + simpl. split; [split; [discriminate|intros [[=] _]]|].
      split; [rewrite Z.leb_le; tauto|]. split; discriminate.
Qed.

Lemma filter_nonblank (gaps : list string) :
  Forall (fun g => Js.trim g <> EmptyString)
    (List.filter (fun g => 0 <? Js.strlen (Js.trim g)) gaps).
Proof.
  apply Forall_forall. intros g Hg.
  apply list_elem_of_In, filter_In in Hg as [_ Hg].
  intros Hempty. rewrite Hempty in Hg. discriminate.
Qed.

Lemma fallbackNextQuestion_defined (messages : list ConversationMessage.t)
    (hasBook : bool) :
  (exists question,
      NextQuestionPayload.question (fallbackNextQuestion messages hasBook) = Some question
      /\ question <> EmptyString)
  /\ Forall (fun g => Js.trim g <> EmptyString)
       (NextQuestionPayload.knownGaps (fallbackNextQuestion messages hasBook)).
Proof.
  unfold fallbackNextQuestion. cbv zeta.
  set (count := Js.len (List.filter isUser messages)).
  assert (Hcount : 0 <= count) by apply len_nonneg.
  destruct hasBook; simpl negb; cbv iota.
  - destruct (Z.leb_spec 5 count) as [Hready|Hnot]; simpl.
    + split; [exists readyQuestion; split; [reflexivity|discriminate]|constructor].
    + split; [|repeat constructor; discriminate].
      assert (Hidx : Z.max 0 (Z.min (count - 2) (Js.len postUploadSteps - 1)) = 0
                     \/ Z.max 0 (Z.min (count - 2) (Js.len postUploadSteps - 1)) = 1
                     \/ Z.max 0 (Z.min (count - 2) (Js.len postUploadSteps - 1)) = 2).
      { change (Js.len postUploadSteps) with 3. lia. }
      destruct Hidx as [->|[->| ->]]; eexists; (split; [reflexivity|discriminate]).
  - simpl. split; [|repeat constructor; discriminate].
    assert (Hidx : Z.min count (Js.len preUploadSteps - 1) = 0
                   \/ Z.min count (Js.len preUploadSteps - 1) = 1).
    { change (Js.len preUploadSteps) with 2. lia. }
    destruct Hidx as [->| ->]; eexists; (split; [reflexivity|discriminate]).
Qed.

(** X17. The next question of the course agent.  Without an API key
    [generateNextCourseQuestion] answers with the scripted question and
    does not read the documents of the learner.  With a key, a failure to
    read the documents is the only error it raises; a failure of the
    model is answered with the scripted question.  Whenever it returns,
    the question is defined and not empty (an empty question from the
    model is replaced by the scripted one), no known gap is blank, and
    the two flags are the model's. *)
Theorem generateNextCourseQuestion_result (env : Env) (models : CourseModels)
    (messages : list ConversationMessage.t) (bookAnalysis : option BookAnalysis.t)
    (userId : string) (log : list Request) :
  let hasBook := match bookAnalysis with Some _ => true | None => false end in
  let scripted := fallbackNextQuestion messages hasBook in
  let run := generateNextCourseQuestion env models messages bookAnalysis userId log in
  (hasApiKey env = false -> run = (Ok scripted, log))
  /\ (hasApiKey env = true ->
      forall e, loadUserStateDocs env userId = Throw e -> run = (Throw e, log))
  /\ (hasApiKey env = true ->
      forall docs, loadUserStateDocs env userId = Ok docs ->
        exists next,
          run = (Ok next, log)
          /\ match genQuestion models userId docs
                   (option_map compactBookSummary bookAnalysis)
                   (orElse (transcriptString messages) "(empty)") with
             | Ok response =>
                 NextQuestionPayload.readyToGenerate next
                 = QuestionObject.readyToGenerate response
                 /\ NextQuestionPayload.requestingUpload next
                    = QuestionObject.requestingUpload response
                 /\ (QuestionObject.question response <> EmptyString ->
                     NextQuestionPayload.question next
                     = Some (QuestionObject.question response))
                 /\ (QuestionObject.question response = EmptyString ->
                     NextQuestionPayload.question next
                     = NextQuestionPayload.question scripted)
                 /\ forall g, g ∈ NextQuestionPayload.knownGaps next
                              <-> g ∈ QuestionObject.knownGaps response
                                  /\ Js.trim g <> EmptyString
             | Throw _ => next = scripted
             end)
  /\ (forall next log',
        run = (Ok next, log') ->
        log' = log
        /\ (exists question,
              NextQuestionPayload.question next = Some question
              /\ question <> EmptyString)
        /\ Forall (fun g => Js.trim g <> EmptyString)
             (NextQuestionPayload.knownGaps next)).
Proof.
  intros hasBook scripted run. subst run. unfold generateNextCourseQuestion.
  fold hasBook. cbv zeta. fold scripted.
  destruct (fallbackNextQuestion_defined messages hasBook) as [Hquestion Hgaps].
  fold scripted in Hquestion, Hgaps.
  destruct (hasApiKey env); simpl negb; cbv iota.
  - split; [discriminate|].
    unfold bind at 1, await.
    destruct (loadUserStateDocs env userId) as [docs|e].
    + split; [intros _ e [=]|].
      unfold tryCatch, bind, ret.
      destruct (genQuestion models userId docs _ _) as [response|e] eqn:Hresponse.
      * split.
        { intros _ docs' [= <-]. eexists. split; [reflexivity|].
          rewrite Hresponse. simpl.
          split; [reflexivity|]. split; [reflexivity|].
          split; [intros Hq; apply truthy_nonempty in Hq; rewrite Hq; reflexivity|].
          split.
          - intros Hq. rewrite Hq. reflexivity.
          - intros g. rewrite !list_elem_of_In, filter_In. split.
            + intros [Hin Hg]. split; [exact Hin|].
              intros Hempty. rewrite Hempty in Hg. discriminate.
            + intros [Hin Hg]. split; [exact Hin|].
              unfold Js.strlen. destruct (Js.trim g); [contradiction|reflexivity]. }
        intros next log' [= <- <-]. split; [reflexivity|]. simpl.
        split; [|apply filter_nonblank].
        destruct (truthy (QuestionObject.question response)) eqn:Hq; [|exact Hquestion].
        eexists. split; [reflexivity|]. apply truthy_nonempty. exact Hq.
      * split.
        { intros _ docs' [= <-]. exists scripted. split; [reflexivity|].
          rewrite Hresponse. reflexivity. }
        intros next log' [= <- <-]. split; [reflexivity|]. split; assumption.
    + split; [intros _ e' [= <-]; reflexivity|].
      split; [intros _ docs [=]|]. intros next log' [=].
  - split; [reflexivity|]. split; [discriminate|]. split; [discriminate|].
    intros next log' [= <- <-]. split; [reflexivity|]. split; assumption.
Qed.

(* ------------------------------------------------------------------ *)
(** ** The course agent: the plan *)

From Stdlib Require Import Lqa.

(** [Math.round] gives the nearest integer. *)
Lemma round_nearest (q : Q) :
  (inject_Z (Js.round q) - (1 # 2) <= q /\ q < inject_Z (Js.round q) + (1 # 2))%Q.
Proof.
  unfold Js.round.
  pose proof (Qfloor_le (q + (1 # 2))) as Hle.
  pose proof (Qlt_floor (q + (1 # 2))) as Hlt.
  rewrite inject_Z_plus in Hlt. change (inject_Z 1) with 1%Q in Hlt.
  set (f := inject_Z (Qfloor (q + (1 # 2)))) in *.
  split; lra.
Qed.


(* ------------------------------------------------------------------ *)
(** ** The course agent: edits *)

(** The conditions under which the edit goes looking for chapters. *)
Lemma discoveryTarget_Some (opts : EditOpts.t) (pages : list string)
    (lastDetectedPage totalPages : Z) :
  discoveryTarget opts = Some (pages, lastDetectedPage, totalPages)
  <-> EditOpts.extractedPages opts = Some pages
      /\ pages <> []
      /\ looksLikeMissingContent (EditOpts.userInstruction opts) = true
      /\ lastDetectedPage = lastDetectedPageOf (EditOpts.bookAnalysis opts)
      /\ totalPages = BookAnalysis.totalPages (EditOpts.bookAnalysis opts)
      /\ lastDetectedPage < totalPages - 1.
Proof.
  unfold discoveryTarget, lastDetectedPageOf.
  destruct (EditOpts.extractedPages opts) as [[|page morePages]|].
  - split; [discriminate|]. intros ([= <-] & Hne & _). contradiction.
  - destruct (looksLikeMissingContent (EditOpts.userInstruction opts)).
    + cbv zeta.
      destruct (Z.ltb_spec
                  match last (BookAnalysis.chapters (EditOpts.bookAnalysis opts)) with
                  | Some lastChapter => ChapterAnalysis.endPage lastChapter
                  | None => 0
                  end
                  (BookAnalysis.totalPages (EditOpts.bookAnalysis opts) - 1)) as [Hgap|Hno].
      * split.
        -- intros [= <- <- <-]. repeat split; [discriminate|exact Hgap].
        -- intros ([= <-] & _ & _ & -> & -> & _). reflexivity.
      * split; [discriminate|]. intros (_ & _ & _ & -> & -> & Hgap). lia.
    + split; [discriminate|]. intros (_ & _ & [=] & _).
  - split; [discriminate|]. intros ([=] & _).
Qed.

Lemma discoveryTarget_None (opts : EditOpts.t) :
  discoveryTarget opts = None
  <-> (forall pages, EditOpts.extractedPages opts = Some pages -> pages = [])
      \/ looksLikeMissingContent (EditOpts.userInstruction opts) = false
      \/ BookAnalysis.totalPages (EditOpts.bookAnalysis opts) - 1
         <= lastDetectedPageOf (EditOpts.bookAnalysis opts).
Proof.
  destruct (discoveryTarget opts) as [[[pages lastDetectedPage] totalPages]|] eqn:Htarget.
  - apply discoveryTarget_Some in Htarget as (Hpages & Hne & Hwords & -> & -> & Hgap).
    split; [discriminate|].
    intros [Hnone|[Hnot|Hno]]; [|congruence|lia].
    specialize (Hnone pages Hpages). contradiction.
  - split; [|reflexivity]. intros _.
    destruct (EditOpts.extractedPages opts) as [[|page morePages]|] eqn:Hpages;
      [left; intros pages [= <-]; reflexivity| |left; intros pages [=]].
    destruct (looksLikeMissingContent (EditOpts.userInstruction opts)) eqn:Hwords;
      [|right; left; reflexivity].
    right. right.
    destruct (Z_lt_le_dec (lastDetectedPageOf (EditOpts.bookAnalysis opts))
                (BookAnalysis.totalPages (EditOpts.bookAnalysis opts) - 1)) as [Hgap|Hno];
      [|exact Hno].
    assert (Hsome : discoveryTarget opts
                    = Some (page :: morePages,
                            lastDetectedPageOf (EditOpts.bookAnalysis opts),
                            BookAnalysis.totalPages (EditOpts.bookAnalysis opts))).
    { apply discoveryTarget_Some. repeat split; try assumption. discriminate. }
    congruence.
Qed.

(** X19. The three ways of an edit.  When [editCoursePlan] returns, it
    has gone one of three ways.  With an updated book analysis: an API
    key is configured, the instruction reports missing content, there are
    extracted pages, the last chapter ends before the last page, and the
    discovery request and the merge request have been sent, in this order;
    the updated analysis keeps the title, author, page count, detection
    method and every chapter of the input, followed by one chapter per
    discovered chapter, numbered on from the number of chapters of the
    input and without prerequisites, so that consecutive numbering is
    preserved.  Without an updated analysis: either no key is configured,
    nothing was sent and the plan is the current one, or a key is
    configured, the conditions of the discovery were not met and the one
    edit request has been sent. *)
Theorem editCoursePlan_ways (env : Env) (opts : EditOpts.t) (log : list Request)
    (r : EditPlanResult.t) (log' : list Request) :
  editCoursePlan env opts log = (Ok r, log') ->
  let input := EditOpts.bookAnalysis opts in
  let known := BookAnalysis.chapters input in
  match EditPlanResult.updatedBookAnalysis r with
  | Some updated =>
      hasApiKey env = true
      /\ looksLikeMissingContent (EditOpts.userInstruction opts) = true
      /\ lastDetectedPageOf input < BookAnalysis.totalPages input - 1
      /\ BookAnalysis.title updated = BookAnalysis.title input
      /\ BookAnalysis.author updated = BookAnalysis.author input
      /\ BookAnalysis.totalPages updated = BookAnalysis.totalPages input
      /\ BookAnalysis.detectionMethod updated = BookAnalysis.detectionMethod input
      /\ (exists pages docs found,
            EditOpts.extractedPages opts = Some pages
            /\ pages <> []
            /\ loadUserStateDocs env (EditOpts.userId opts) = Ok docs
            /\ log' = log
                      ++ [ReqDiscovery (BookAnalysis.totalPages input)
                            (lastDetectedPageOf input)
                            (uncoveredText pages (lastDetectedPageOf input));
                          ReqMerge docs (EditOpts.userInstruction opts)
                            (EditOpts.currentPlan opts) found]
            /\ length (BookAnalysis.chapters updated)
               = (length known + length found)%nat
            /\ (forall i ch, known !! i = Some ch ->
                             BookAnalysis.chapters updated !! i = Some ch)
            /\ (forall k d,
                  found !! k = Some d ->
                  exists ch,
                    BookAnalysis.chapters updated !! (length known + k)%nat = Some ch
                    /\ ChapterAnalysis.chapterNumber ch = Js.len known + Z.of_nat k + 1
                    /\ ChapterAnalysis.title ch = DiscoveredChapter.title d
                    /\ ChapterAnalysis.startPage ch = DiscoveredChapter.startPage d
                    /\ ChapterAnalysis.endPage ch = DiscoveredChapter.endPage d
                    /\ ChapterAnalysis.prerequisites ch = []))
      /\ (ConsecutivelyNumbered known ->
          ConsecutivelyNumbered (BookAnalysis.chapters updated))
  | None =>
      (hasApiKey env = false /\ log' = log
       /\ EditPlanResult.updatedPlan r = EditOpts.currentPlan opts)
      \/ (hasApiKey env = true
          /\ ((forall pages, EditOpts.extractedPages opts = Some pages -> pages = [])
              \/ looksLikeMissingContent (EditOpts.userInstruction opts) = false
              \/ BookAnalysis.totalPages input - 1 <= lastDetectedPageOf input)
          /\ exists docs,
               loadUserStateDocs env (EditOpts.userId opts) = Ok docs
               /\ log' = log ++ [ReqEdit docs (EditOpts.userInstruction opts)
                                   (EditOpts.currentPlan opts)
                                   (compactBookSummary input)])
  end.
Proof.
  intros Hrun input known. subst known input. unfold editCoursePlan in Hrun.
  destruct (hasApiKey env); simpl negb in Hrun; cbv iota in Hrun.
  - apply bind_inv in Hrun as (docs & log1 & Hdocs & Hrun).
    unfold await in Hdocs. injection Hdocs as Hdocs <-.
    destruct (discoveryTarget opts) as [[[pages lastDetectedPage] totalPages]|] eqn:Htarget.
    + apply discoveryTarget_Some in Htarget as (Hpages & Hne & Hwords & -> & -> & Hgap).
      unfold discoveryEdit, bind, generateObject, ret in Hrun.
      destruct (genDiscovery env _) as [found|e]; [|discriminate].
      destruct (genPlan env _) as [edited|e]; [|discriminate].
      injection Hrun as <- <-. simpl.
      split; [reflexivity|]. split; [exact Hwords|]. split; [exact Hgap|].
      do 4 (split; [reflexivity|]).
      set (known := BookAnalysis.chapters (EditOpts.bookAnalysis opts)).
      split.
      * exists pages, docs, found.
        split; [exact Hpages|]. split; [exact Hne|]. split; [exact Hdocs|].
        split; [rewrite <- app_assoc; reflexivity|].
        split; [rewrite length_app, discoveredAnalyses_length; reflexivity|].
        split; [intros i ch Hch; apply lookup_app_l_Some; exact Hch|].
        intros k d Hd. eexists.
        rewrite lookup_app_r by lia.
        replace (length known + k - length known)%nat with k by lia.
        rewrite discoveredAnalyses_lookup, Hd. simpl.
        split; [reflexivity|]. simpl. repeat split. lia.
      * intros Hnumbered i ch Hch.
        destruct (decide (i < length known)%nat) as [Hlt|Hge].
        -- rewrite lookup_app_l in Hch by exact Hlt. exact (Hnumbered i ch Hch).
        -- rewrite lookup_app_r in Hch by lia. rewrite discoveredAnalyses_lookup in Hch.
           destruct (found !! (i - length known)%nat) as [d|]; [|discriminate].
           injection Hch as <-. simpl. unfold Js.len. lia.
    + unfold standardEdit, bind, generateObject, ret in Hrun.
      destruct (genPlan env _) as [edited|e]; [|discriminate].
      injection Hrun as <- <-. simpl. right.
      split; [reflexivity|]. split; [apply discoveryTarget_None; exact Htarget|].
      exists docs. split; [exact Hdocs|reflexivity].
  - injection Hrun as <- <-. simpl. left. repeat split.
Qed.

(** The edit of the 120-page book whose chapters stop at page 99, when
    discovery finds the appendix. *)
Lemma editCoursePlan_ways_witness :
  looksLikeMissingContent "The last chapter is missing" = true
  /\ lastDetectedPageOf analysis120 < 120 - 1
  /\ BookAnalysis.totalPages (withDiscovered analysis120 120 [appendix]) = 120.
Proof.
  pose proof (editCoursePlan_ways (editEnv (Ok [appendix]) (Ok mergedPlan)) opts120 []
                (EditPlanResult.mk (planOf mergedPlan)
                   (Some (withDiscovered analysis120 120 [appendix]))
                   "Added a unit for the appendix.")
                (snd (editCoursePlan (editEnv (Ok [appendix]) (Ok mergedPlan)) opts120 [])))
    as Hways.
  destruct Hways as (_ & Hwords & Hgap & _ & _ & Htotal & _).
  - vm_compute. reflexivity.
  - split; [exact Hwords|]. split; [exact Hgap|exact Htotal].
Defined.

Lemma sliceFrom_drop {A} (start : Z) (l : list A) :
  0 <= start -> Js.sliceFrom start l = drop (Z.to_nat start) l.
Proof.
  intros Hstart. unfold Js.sliceFrom, Js.slice, Js.clampIndex. cbv zeta.
  destruct (Z.ltb_spec start 0) as [Hneg|_]; [lia|].
  destruct (Z.ltb_spec (Js.len l) 0) as [Hneg|_];
    [pose proof (len_nonneg l); lia|].
  rewrite Z.min_id. unfold Js.len.
  destruct (Z_le_gt_dec start (Z.of_nat (length l))) as [Hin|Hout].
  - rewrite Z.min_l by exact Hin. apply take_ge. rewrite length_drop. lia.
  - rewrite Z.min_r by lia. rewrite Nat2Z.id.
    rewrite !drop_ge by lia. apply take_nil.
Qed.

Lemma sliceTo_empty (n : Z) : Js.sliceTo n EmptyString = EmptyString.
Proof. unfold Js.sliceTo. destruct (Z.to_nat n); reflexivity. Qed.

(** X20. The text shown to the model for discovery.  It is never longer
    than 12,000 characters, and it is the beginning of the text of the
    pages after the last detected one, joined with page breaks; when the
    last detected page is the last page or lies beyond it, the text is
    empty. *)
Theorem uncoveredText_cap (pages : list string) (lastDetectedPage : Z) :
  Js.strlen (uncoveredText pages lastDetectedPage) <= 12000
  /\ (0 <= lastDetectedPage + 1 ->
      exists rest,
        rest = Js.join pageBreak (drop (Z.to_nat (lastDetectedPage + 1)) pages)
        /\ uncoveredText pages lastDetectedPage = Js.sliceTo 12000 rest
        /\ String.prefix (uncoveredText pages lastDetectedPage) rest = true
        /\ (Js.strlen rest <= 12000 -> uncoveredText pages lastDetectedPage = rest))
  /\ (Js.len pages - 1 <= lastDetectedPage ->
      uncoveredText pages lastDetectedPage = EmptyString).
Proof.
  unfold uncoveredText. split; [|split].
  - rewrite strlen_sliceTo by lia. lia.
  - intros Hstart. eexists. split; [reflexivity|].
    rewrite (sliceFrom_drop _ _ Hstart). fold pageBreak.
    split; [reflexivity|]. split; [apply sliceTo_prefix|].
    intros Hshort. unfold Js.sliceTo.
    generalize dependent (Js.join pageBreak (drop (Z.to_nat (lastDetectedPage + 1)) pages)).
    intros rest. unfold Js.strlen. intros Hshort.
    assert (Hlen : (String.length rest <= Z.to_nat 12000)%nat) by lia.
    revert Hlen. generalize (Z.to_nat 12000) as m. clear Hshort.
    induction rest as [|c rest IH]; intros [|m] Hlen; simpl in *; try reflexivity; [lia|].
    rewrite IH by lia. reflexivity.
  - intros Hlast. pose proof (len_nonneg pages) as Hlen.
    rewrite sliceFrom_drop by lia. rewrite drop_ge by (unfold Js.len in *; lia).
    apply sliceTo_empty.
Qed.

(* ------------------------------------------------------------------ *)
(** ** Streaming the question *)

Lemma append_assoc (a b c : string) : (a +:+ b) +:+ c = a +:+ (b +:+ c).
Proof.
  induction a as [|x a IH]; [reflexivity|].
  change (String x ((a +:+ b) +:+ c) = String x (a +:+ (b +:+ c))).
  f_equal. exact IH.
Qed.

Lemma append_empty_r (a : string) : a +:+ EmptyString = a.
Proof.
  induction a as [|x a IH]; [reflexivity|].
  change (String x (a +:+ EmptyString) = String x a). f_equal. exact IH.
Qed.

(** The matches, put together again, are the text from the first
    character that is not white space on. *)
Lemma matchTokens_concat (s : string) :
  (forall token trailing,
      String.concat EmptyString (matchTokens (Some (token, trailing)) s) = token +:+ s)
  /\ String.concat EmptyString (matchTokens None s) = Js.trimStart s.
Proof.
  assert (Hcons : forall token rest,
             rest <> [] ->
             String.concat EmptyString (token :: rest)
             = token +:+ String.concat EmptyString rest).
  { intros token [|x rest] Hne; [contradiction|reflexivity]. }
  assert (Hne : forall cur r, matchTokens (Some cur) r <> []).
  { intros cur r. revert cur. induction r as [|c r IH]; intros [token trailing]; simpl.
    - discriminate.
    - destruct (Js.isSpace c); [apply IH|].
      destruct trailing; [discriminate|apply IH]. }
  induction s as [|c s [IHsome IHnone]]; simpl.
  - split; [intros token _; rewrite append_empty_r; reflexivity|reflexivity].
  - destruct (Js.isSpace c).
    + split; [|exact IHnone].
      intros token _. rewrite IHsome, append_assoc. reflexivity.
    + split; [|apply IHsome].
      intros token [|].
      * rewrite Hcons by apply Hne. rewrite IHsome. reflexivity.
      * rewrite IHsome, append_assoc. reflexivity.
Qed.

Lemma matchTokens_nil (s : string) :
  matchTokens None s = [] <-> Js.trimStart s = EmptyString.
Proof.
  induction s as [|c s IH]; simpl; [tauto|].
  destruct (Js.isSpace c); [exact IH|].
  split; [|discriminate].
  intros Hnil. exfalso. revert Hnil.
  generalize (String c EmptyString, false) as cur. clear IH.
  induction s as [|d s IH]; intros [token trailing]; simpl; [discriminate|].
  destruct (Js.isSpace d); [apply IH|]. destruct trailing; [discriminate|apply IH].
Qed.

(** X21. The chunks in which the route streams a question.  There is
    always at least one chunk.  Put together again, the chunks are the
    question without its leading white space; a question that is empty or
    all white space is streamed as it is, in one chunk. *)
Theorem chunkMessageForStream_concat (message : string) :
  chunkMessageForStream message <> []
  /\ (Js.trimStart message <> EmptyString ->
      String.concat EmptyString (chunkMessageForStream message) = Js.trimStart message)
  /\ (Js.trimStart message = EmptyString -> chunkMessageForStream message = [message]).
Proof.
  unfold chunkMessageForStream. cbv zeta.
  destruct (matchTokens None message) as [|token rest] eqn:Htokens.
  - simpl. split; [discriminate|].
    apply matchTokens_nil in Htokens. split; [contradiction|reflexivity].
  - assert (Hsome : (0 <? Js.len (token :: rest)) = true).
    { apply Z.ltb_lt. unfold Js.len. simpl length. lia. }
    rewrite Hsome. split; [discriminate|].
    split.
    + intros _. rewrite <- Htokens. apply matchTokens_concat.
    + intros Hblank. apply matchTokens_nil in Hblank. congruence.
Qed.

(* ------------------------------------------------------------------ *)
(** ** The text of the pages *)

Lemma collapseWs_spacedOnce (inSpace : bool) (s : string) :
  spacedOnce inSpace (collapseWs inSpace s) = true.
Proof.
  revert inSpace. induction s as [|c s IH]; intros inSpace; simpl; [reflexivity|].
  destruct (Js.isSpace c) eqn:Hc.
  - destruct inSpace; [apply IH|]. simpl. apply IH.
  - simpl. rewrite Hc. apply IH.
Qed.

Lemma trimStart_spacedOnce (afterSpace : bool) (s : string) :
  spacedOnce afterSpace s = true -> spacedOnce true (Js.trimStart s) = true.
Proof.
  revert afterSpace. induction s as [|c s IH]; intros afterSpace; simpl; [reflexivity|].
  destruct (Js.isSpace c) eqn:Hc.
  - intros H. apply andb_true_iff in H as [_ H]. exact (IH true H).
  - intros H. simpl. rewrite Hc. exact H.
Qed.

Lemma trimEnd_spacedOnce (afterSpace : bool) (s : string) :
  spacedOnce afterSpace s = true -> spacedOnce afterSpace (Js.trimEnd s) = true.
Proof.
  revert afterSpace. induction s as [|c s IH]; intros afterSpace; simpl; [reflexivity|].
  destruct (Js.isSpace c) eqn:Hc.
  - intros H. apply andb_true_iff in H as [Hhead H]. specialize (IH true H).
    destruct (Js.trimEnd s) as [|d r]; [reflexivity|].
    change (spacedOnce afterSpace (String c (String d r)) = true).
    simpl spacedOnce at 1. rewrite Hc, Hhead. exact IH.
  - intros H. specialize (IH false H).
    destruct (Js.trimEnd s) as [|d r].
    + simpl. rewrite Hc. reflexivity.
    + change (spacedOnce afterSpace (String c (String d r)) = true).
      simpl spacedOnce at 1. rewrite Hc. exact IH.
Qed.

Lemma trimEnd_endsInSpace (s : string) : endsInSpace (Js.trimEnd s) = false.
Proof.
  induction s as [|c s IH]; simpl; [reflexivity|].
  destruct (Js.trimEnd s) as [|d r].
  - destruct (Js.isSpace c) eqn:Hc; simpl; [reflexivity|exact Hc].
  - exact IH.
Qed.

Lemma pageText_tidy (items : list (option string)) : tidy (pageText items).
Proof.
  unfold pageText, Js.trim. split; [|apply trimEnd_endsInSpace].
  apply trimEnd_spacedOnce. eapply trimStart_spacedOnce. apply collapseWs_spacedOnce.
Qed.

Lemma extractPages_spec (getTextContent : PdfDocument.t -> Z -> Result (list (option string)))
    (pdf : PdfDocument.t) (nums : list Z) (pages : list string) (log : list Request)
    (pages' : list string) (log' : list Request) :
  extractPages getTextContent pdf nums pages log = (Ok pages', log') ->
  log' = log
  /\ exists texts,
       pages' = pages ++ texts
       /\ Forall2 (fun i text =>
                     exists page items,
                       PdfDocument.getPage pdf i = Ok page
                       /\ getTextContent pdf i = Ok items
                       /\ text = pageText items) nums texts.
Proof.
  revert pages. induction nums as [|i rest IH]; intros pages; simpl.
  - intros [= <- <-]. split; [reflexivity|]. exists []. rewrite app_nil_r.
    split; [reflexivity|constructor].
  - unfold bind at 1, await.
    destruct (PdfDocument.getPage pdf i) as [page|e] eqn:Hpage; [|discriminate].
    unfold bind at 1.
    destruct (getTextContent pdf i) as [items|e] eqn:Hitems; [|discriminate].
    intros Hrest. apply IH in Hrest as (-> & texts & -> & Hall).
    split; [reflexivity|]. exists (pageText items :: texts).
    split; [rewrite <- app_assoc; reflexivity|].
    constructor; [exists page, items; auto|exact Hall].
Qed.

(** X22. The pages [extractPdfText] returns.  When it returns, it has
    sent no generation request, [totalPages] is the page count of the
    document and there is one text per page, in page order: the text of
    page [i] is made of the items of that page, joined, with no white
    space at either end and between words one space only. *)
Theorem extractPdfText_pages (env : Env)
    (getTextContent : PdfDocument.t -> Z -> Result (list (option string)))
    (buffer : Buffer) (log : list Request) (extraction : PdfExtraction.t)
    (log' : list Request) :
  extractPdfText env getTextContent buffer log = (Ok extraction, log') ->
  log' = log
  /\ exists pdf,
       getDocumentProxy env buffer = Ok pdf
       /\ PdfExtraction.totalPages extraction = PdfDocument.numPages pdf
       /\ Js.len (PdfExtraction.pages extraction) = Z.max 0 (PdfDocument.numPages pdf)
       /\ Forall tidy (PdfExtraction.pages extraction)
       /\ forall k text,
            PdfExtraction.pages extraction !! k = Some text ->
            exists page items,
              PdfDocument.getPage pdf (Z.of_nat k + 1) = Ok page
              /\ getTextContent pdf (Z.of_nat k + 1) = Ok items
              /\ text = pageText items.
Proof.
  unfold extractPdfText, bind at 1, await.
  destruct (getDocumentProxy env buffer) as [pdf|e]; [|discriminate].
  unfold bind, ret.
  destruct (extractPages getTextContent pdf (pageNumbers (PdfDocument.numPages pdf)) [] log)
    as [[pages|e] log1] eqn:Hpages; [|discriminate].
  intros [= <- <-]. apply extractPages_spec in Hpages as (-> & texts & -> & Hall).
  split; [reflexivity|]. exists pdf. split; [reflexivity|]. simpl.
  split; [reflexivity|].
  split.
  { unfold Js.len. rewrite <- (Forall2_length _ _ _ Hall). unfold pageNumbers.
    rewrite length_map, length_seq. lia. }
  split.
  { apply Forall_forall. intros text Htext.
    apply list_elem_of_lookup_1 in Htext as [k Hk].
    destruct (Forall2_lookup_r _ _ _ _ _ Hall Hk) as (i & _ & page & items & _ & _ & ->).
    apply pageText_tidy. }
  intros k text Hk.
  destruct (Forall2_lookup_r _ _ _ _ _ Hall Hk) as (i & Hi & page & items & Hpage & Hitems & ->).
  unfold pageNumbers in Hi. change (map Z.of_nat ?l) with (Z.of_nat <$> l) in Hi.
  rewrite list_lookup_fmap in Hi.
  destruct (seq 1 (Z.to_nat (PdfDocument.numPages pdf)) !! k) as [n|] eqn:Hn;
    [|discriminate].
  apply lookup_seq in Hn as [-> _]. injection Hi as <-.
  exists page, items. replace (Z.of_nat k + 1) with (Z.of_nat (1 + k)) by lia. auto.
Qed.

(** A document of two pages. *)
Lemma extractPdfText_pages_witness :
  exists pdf,
    getDocumentProxy (mkEnv false (fun _ => Ok (blankPdf 2)) (fun _ => None)
                        (fun _ => Throw "no API key") (fun _ => Throw "no API key")
                        (fun _ => Throw "no API key") (fun _ => Throw "no API key")
                        (fun _ => Throw "no API key") (fun _ => Throw "no API key")
                        (fun _ => Throw "no state directory") (fun i => i)) []
    = Ok pdf
    /\ Forall tidy ["Chapter 1"; "Sets and maps"].
Proof.
  destruct (extractPdfText_pages
              (mkEnv false (fun _ => Ok (blankPdf 2)) (fun _ => None)
                 (fun _ => Throw "no API key") (fun _ => Throw "no API key")
                 (fun _ => Throw "no API key") (fun _ => Throw "no API key")
                 (fun _ => Throw "no API key") (fun _ => Throw "no API key")
                 (fun _ => Throw "no state directory") (fun i => i))
              twoPageItems [] []
              (PdfExtraction.mk 2 ["Chapter 1"; "Sets and maps"]) [])
    as (_ & pdf & Hpdf & _ & _ & Htidy & _).
  - vm_compute. reflexivity.
  - exists pdf. split; [exact Hpdf|exact Htidy].
Defined.

(* ------------------------------------------------------------------ *)
(** ** The onboarding agent *)

Lemma trimStart_startsInSpace (s : string) :
  Onboarding.startsInSpace (Js.trimStart s) = false.
Proof.
  induction s as [|c s IH]; simpl; [reflexivity|].
  destruct (Js.isSpace c) eqn:Hc; [exact IH|]. simpl. exact Hc.
Qed.

Lemma trimEnd_startsInSpace (s : string) :
  Onboarding.startsInSpace s = false -> Onboarding.startsInSpace (Js.trimEnd s) = false.
Proof.
  destruct s as [|c s]; simpl; [reflexivity|]. intros Hc.
  destruct (Js.trimEnd s); [rewrite Hc|]; exact Hc.
Qed.

Lemma trim_trimmedText (s : string) :
  Js.trim s <> EmptyString -> Onboarding.trimmedText (Js.trim s).
Proof.
  intros Hne. split; [exact Hne|]. unfold Js.trim.
  split; [apply trimEnd_startsInSpace, trimStart_startsInSpace|apply trimEnd_endsInSpace].
Qed.

Lemma ensureString_nonempty (value fallback : string) :
  fallback <> EmptyString ->
  Onboarding.ensureString value fallback <> EmptyString
  /\ (Js.trim value <> EmptyString ->
      Onboarding.ensureString value fallback = Js.trim value).
Proof.
  intros Hfb. unfold Onboarding.ensureString.
  destruct (truthy (Js.trim value)) eqn:Hvalue; simpl.
  - apply truthy_nonempty in Hvalue. split; [exact Hvalue|reflexivity].
  - split; [exact Hfb|]. intros Hne. apply truthy_nonempty in Hne. congruence.
Qed.

Lemma ensureStringList_trimmed (value fallback : list string) :
  Forall Onboarding.trimmedText fallback ->
  Forall Onboarding.trimmedText (Onboarding.ensureStringList value fallback).
Proof.
  intros Hfb. unfold Onboarding.ensureStringList. cbv zeta.
  destruct (0 <? Js.len _); [|exact Hfb].
  apply Forall_forall. intros s Hs.
  apply list_elem_of_In, filter_In in Hs as [Hin Hs].
  apply in_map_iff in Hin as (v & <- & _).
  apply trim_trimmedText, truthy_nonempty. exact Hs.
Qed.

Lemma find_eqb_Some (normalized : string) (allowed : list string) (found : string) :
  List.find (fun item => String.eqb item normalized) allowed = Some found ->
  found = normalized /\ found ∈ allowed.
Proof.
  intros Hfind. apply find_some in Hfind as [Hin Heq].
  apply String.eqb_eq in Heq. split; [exact Heq|apply list_elem_of_In; exact Hin].
Qed.

Lemma normalizeEnum_allowed (value : string) (allowed : list string) (fallback : string) :
  fallback ∈ allowed ->
  Onboarding.normalizeEnum value allowed fallback ∈ allowed
  /\ (Js.toLowerCase (Js.trim value) ∈ allowed ->
      Onboarding.normalizeEnum value allowed fallback = Js.toLowerCase (Js.trim value)).
Proof.
  intros Hfb. unfold Onboarding.normalizeEnum. cbv zeta.
  destruct (List.find _ allowed) as [found|] eqn:Hfind.
  - apply find_eqb_Some in Hfind as [-> Hin]. split; [exact Hin|reflexivity].
  - split; [exact Hfb|]. intros Hin. exfalso.
    apply list_elem_of_In in Hin.
    pose proof (find_none _ _ Hfind _ Hin) as Hno. simpl in Hno.
    rewrite String.eqb_refl in Hno. discriminate.
Qed.

Lemma checkedHours_range (weeklyHours : Q) :
  exists hours, Onboarding.checkedHours weeklyHours = inject_Z hours /\ 1 <= hours <= 80.
Proof.
  unfold Onboarding.checkedHours.
  destruct (Qle_bool (inject_Z 1) weeklyHours) eqn:Hlow; simpl;
    [|exists 5; split; [reflexivity|lia]].
  destruct (Qle_bool weeklyHours (inject_Z 80)) eqn:Hhigh;
    [|exists 5; split; [reflexivity|lia]].
  exists (Js.round weeklyHours). split; [reflexivity|].
  apply Qle_bool_iff in Hlow, Hhigh.
  destruct (round_nearest weeklyHours) as [Hdown Hup].
  set (h := Js.round weeklyHours) in *.
  change (inject_Z 1) with 1%Q in Hlow. change (inject_Z 80) with (80 # 1)%Q in Hhigh.
  assert (H1 : ((1 # 2) < inject_Z h)%Q) by lra.
  assert (H2 : (inject_Z h <= (161 # 2))%Q) by lra.
  unfold Qlt, Qle, inject_Z in H1, H2. simpl in H1, H2. lia.
Qed.

Lemma checkedAnswers_valid (parsed : Onboarding.Answers.t) :
  Onboarding.validAnswers (Onboarding.checkedAnswers parsed).
Proof.
  unfold Onboarding.validAnswers, Onboarding.checkedAnswers. simpl.
  split; [apply ensureString_nonempty; discriminate|].
  split; [apply ensureString_nonempty; discriminate|].
  split; [apply ensureString_nonempty; discriminate|].
  split; [apply ensureString_nonempty; discriminate|].
  split; [apply checkedHours_range|].
  split; [apply ensureStringList_trimmed; constructor|].
  split; [apply ensureStringList_trimmed; constructor|].
  split; [apply ensureStringList_trimmed; constructor|].
  repeat split; apply normalizeEnum_allowed; apply list_elem_of_In; simpl; tauto.
Qed.

Lemma fallbackExtraction_valid (messages : list ConversationMessage.t) :
  Onboarding.validAnswers (Onboarding.fallbackExtraction messages).
Proof.
  unfold Onboarding.validAnswers, Onboarding.fallbackExtraction. simpl.
  split; [discriminate|]. split; [discriminate|].
  split; [apply orElse_nonempty; discriminate|]. split; [discriminate|].
  split; [exists 5; split; [reflexivity|lia]|].
  do 3 (split; [constructor|]).
  repeat split; apply list_elem_of_In; simpl; tauto.
Qed.

(** X23. The answers of the onboarding.  Whatever the model extracts
    from the conversation, the answers [finalizeOnboardingFromConversation]
    hands to [applyOnboardingAnswers] and returns are valid: name,
    education level, education background and goal are not empty; the
    weekly hours are a whole number from 1 to 80; the listed topics,
    interests and notes are not empty and have no white space at either
    end; and each of the four preferences is one of its allowed values.
    A preference that is an allowed value up to case and surrounding
    white space is kept.  The function raises an error only when
    [applyOnboardingAnswers] does. *)
Theorem onboarding_answers_valid (env : Onboarding.Env) (userId : string)
    (messages : list ConversationMessage.t) (log : list Request) :
  (forall parsed,
      Onboarding.validAnswers (Onboarding.checkedAnswers parsed)
      /\ (Js.toLowerCase (Js.trim (Onboarding.Answers.tutorCharacter parsed))
            ∈ Onboarding.TUTOR_CHARACTERS ->
          Onboarding.Answers.tutorCharacter (Onboarding.checkedAnswers parsed)
          = Js.toLowerCase (Js.trim (Onboarding.Answers.tutorCharacter parsed))))
  /\ exists answers,
       Onboarding.extractAnswers env messages log = (Ok answers, log)
       /\ Onboarding.validAnswers answers
       /\ (Onboarding.hasOpenAiKey env = false ->
           answers = Onboarding.fallbackExtraction (Onboarding.normalizeMessages messages))
       /\ match Onboarding.applyOnboardingAnswers env userId answers with
          | Ok docs =>
              Onboarding.finalizeOnboardingFromConversation env userId messages log
              = (Ok (Onboarding.Finalized.mk answers docs), log)
          | Throw e =>
              Onboarding.finalizeOnboardingFromConversation env userId messages log
              = (Throw e, log)
          end.
Proof.
  split.
  { intros parsed. split; [apply checkedAnswers_valid|].
    intros Hin. simpl.
    apply normalizeEnum_allowed; [apply list_elem_of_In; simpl; tauto|exact Hin]. }
  assert (Hextract :
            exists answers,
              Onboarding.extractAnswers env messages log = (Ok answers, log)
              /\ Onboarding.validAnswers answers
              /\ (Onboarding.hasOpenAiKey env = false ->
                  answers = Onboarding.fallbackExtraction
                              (Onboarding.normalizeMessages messages))).
  { unfold Onboarding.extractAnswers. cbv zeta.
    destruct (Onboarding.hasOpenAiKey env); simpl negb; cbv iota.
    - unfold tryCatch, bind, generateUnlogged, ret.
      destruct (Onboarding.genExtraction env _) as [parsed|e].
      + eexists. split; [reflexivity|]. split; [apply checkedAnswers_valid|discriminate].
      + eexists. split; [reflexivity|].
        split; [apply fallbackExtraction_valid|discriminate].
    - eexists. split; [reflexivity|]. split; [apply fallbackExtraction_valid|reflexivity]. }
  destruct Hextract as (answers & Hrun & Hvalid & Hnokey).
  exists answers. split; [exact Hrun|]. split; [exact Hvalid|]. split; [exact Hnokey|].
  destruct (Onboarding.applyOnboardingAnswers env userId answers) as [docs|e] eqn:Happly;
    unfold Onboarding.finalizeOnboardingFromConversation, bind at 1; rewrite Hrun;
    unfold bind, await, ret; rewrite Happly; reflexivity.
Qed.

(** X24. The next question of the onboarding.
    [generateNextOnboardingQuestion] never fails and sends nothing to the
    log.  Its question is always defined and not empty, and its known gaps
    are not empty and have no white space at either end.  Without the
    OpenAI key, or when the model fails, the answer is the scripted one:
    the step of index [n] for [n] user messages (with content) up to four,
    and from five on the closing question, with [readyToFinalize] set.
    When the model answers, its question is used, trimmed, unless it is
    blank. *)
Theorem onboarding_next_question (env : Onboarding.Env)
    (messages : list ConversationMessage.t) (log : list Request) :
  let clean := Onboarding.normalizeMessages messages in
  let count := Js.len (List.filter isUser clean) in
  let scripted := Onboarding.fallbackNextQuestion clean in
  Onboarding.NextQuestion.question scripted
  = (if 5 <=? count then Some Onboarding.readyQuestion
     else Onboarding.steps !! Z.to_nat count)
  /\ (Onboarding.NextQuestion.readyToFinalize scripted = true <-> 5 <= count)
  /\ exists next,
       Onboarding.generateNextOnboardingQuestion env messages log = (Ok next, log)
       /\ (exists question,
             Onboarding.NextQuestion.question next = Some question
             /\ question <> EmptyString)
       /\ Forall Onboarding.trimmedText (Onboarding.NextQuestion.knownGaps next)
       /\ (Onboarding.hasOpenAiKey env = false -> next = scripted)
       /\ (Onboarding.hasOpenAiKey env = true ->
           match Onboarding.genQuestion env
                   (orElse (Onboarding.transcriptString clean) "(empty)") with
           | Ok response =>
               Onboarding.NextQuestion.readyToFinalize next
               = Onboarding.QuestionObject.readyToFinalize response
               /\ (Js.trim (Onboarding.QuestionObject.question response) <> EmptyString ->
                   Onboarding.NextQuestion.question next
                   = Some (Js.trim (Onboarding.QuestionObject.question response)))
           | Throw _ => next = scripted
           end).
Proof.
  intros clean count scripted.
  assert (Hcount : 0 <= count) by apply len_nonneg.
  assert (Hscript : Onboarding.NextQuestion.question scripted
                    = (if 5 <=? count then Some Onboarding.readyQuestion
                       else Onboarding.steps !! Z.to_nat count)
                    /\ (Onboarding.NextQuestion.readyToFinalize scripted = true
                        <-> 5 <= count)).
  { subst scripted. unfold Onboarding.fallbackNextQuestion. cbv zeta. fold count.
    change (Js.len Onboarding.steps) with 5. simpl.
    destruct (Z.leb_spec 5 count) as [Hready|Hnot]; [split; [reflexivity|tauto]|].
    split; [|split; [discriminate|lia]].
    unfold arrayGet. rewrite Z.min_l by lia.
    destruct (Z.ltb_spec count 0); [lia|reflexivity]. }
  destruct Hscript as [Hquestion Hready].
  assert (Hdefined : exists question,
             Onboarding.NextQuestion.question scripted = Some question
             /\ question <> EmptyString).
  { rewrite Hquestion. destruct (Z.leb_spec 5 count) as [_|Hnot].
    - eexists. split; [reflexivity|discriminate].
    - assert (Hn : (Z.to_nat count < 5)%nat) by lia.
      destruct (Z.to_nat count) as [|[|[|[|[|n]]]]]; [| | | | |lia];
        eexists; (split; [reflexivity|discriminate]). }
  assert (Hgaps : Forall Onboarding.trimmedText
                    (Onboarding.NextQuestion.knownGaps scripted)).
  { subst scripted. unfold Onboarding.fallbackNextQuestion. cbv zeta. simpl.
    destruct (_ <=? _); [constructor|].
    repeat constructor. discriminate. }
  split; [exact Hquestion|]. split; [exact Hready|].
  unfold Onboarding.generateNextOnboardingQuestion. cbv zeta. fold clean. fold scripted.
  destruct (Onboarding.hasOpenAiKey env); simpl negb; cbv iota.
  - unfold tryCatch, bind, generateUnlogged, ret.
    destruct (Onboarding.genQuestion env _) as [response|e].
    + eexists. split; [reflexivity|]. simpl.
      split.
      { unfold Onboarding.ensureStringOr.
        destruct (truthy (Js.trim (Onboarding.QuestionObject.question response)))
          eqn:Hq; simpl; [|exact Hdefined].
        eexists. split; [reflexivity|]. apply truthy_nonempty. exact Hq. }
      split; [apply ensureStringList_trimmed; constructor|].
      split; [discriminate|]. intros _. split; [reflexivity|].
      intros Hq. unfold Onboarding.ensureStringOr.
      apply truthy_nonempty in Hq. rewrite Hq. reflexivity.
    + exists scripted. split; [reflexivity|]. split; [exact Hdefined|].
      split; [exact Hgaps|]. split; [discriminate|reflexivity].
  - exists scripted. split; [reflexivity|]. split; [exact Hdefined|].
    split; [exact Hgaps|]. split; [reflexivity|discriminate].
Qed.

(** *** Clean messages *)

(** Induction two characters at a time, as [replaceLineBreaks] reads. *)
Lemma string_pair_ind (P : string -> Prop) :
  P EmptyString ->
  (forall c, P (String c EmptyString)) ->
  (forall c d r, P r -> P (String d r) -> P (String c (String d r))) ->
  forall s, P s.
Proof.
  intros Hnil Hone Hstep s.
  assert (H : P s /\ forall c, P (String c s)); [|apply H].
  induction s as [|d r [IHr IHdr]]; [split; [exact Hnil|exact Hone]|].
  split; [apply IHdr|]. intros c. apply Hstep; [exact IHr|apply IHdr].
Qed.

Lemma replaceLineBreaks_cons (c d : ascii) (r : string) :
  Onboarding.replaceLineBreaks (String c (String d r))
  = if Ascii.eqb c Onboarding.LF
    then String " " (Onboarding.replaceLineBreaks (String d r))
    else if Ascii.eqb c Onboarding.CR && Ascii.eqb d Onboarding.LF
         then String " " (Onboarding.replaceLineBreaks r)
         else String c (Onboarding.replaceLineBreaks (String d r)).
Proof. reflexivity. Qed.

Lemma replaceLineBreaks_one (c : ascii) :
  Onboarding.replaceLineBreaks (String c EmptyString)
  = if Ascii.eqb c Onboarding.LF then " " else String c EmptyString.
Proof. reflexivity. Qed.

(** No line feed is left. *)
Lemma replaceLineBreaks_hasLineFeed (s : string) :
  Onboarding.hasLineFeed (Onboarding.replaceLineBreaks s) = false.
Proof.
  induction s as [|c|c d r IHr IHdr] using string_pair_ind.
  - reflexivity.
  - rewrite replaceLineBreaks_one.
    destruct (Ascii.eqb c Onboarding.LF) eqn:Hc; [reflexivity|].
    simpl. rewrite Hc. reflexivity.
  - rewrite replaceLineBreaks_cons.
    destruct (Ascii.eqb c Onboarding.LF) eqn:Hc.
    + change (Onboarding.hasLineFeed (String " " ?x))
        with (Onboarding.hasLineFeed x). exact IHdr.
    + destruct (Ascii.eqb c Onboarding.CR && Ascii.eqb d Onboarding.LF).
      * change (Onboarding.hasLineFeed (String " " ?x))
          with (Onboarding.hasLineFeed x). exact IHr.
      * change (Onboarding.hasLineFeed (String c ?x))
          with (Ascii.eqb c Onboarding.LF || Onboarding.hasLineFeed x).
        rewrite Hc. exact IHdr.
Qed.

(** A text without line feed is left as it is. *)
Lemma replaceLineBreaks_id (s : string) :
  Onboarding.hasLineFeed s = false -> Onboarding.replaceLineBreaks s = s.
Proof.
  induction s as [|c|c d r IHr IHdr] using string_pair_ind.
  - reflexivity.
  - rewrite replaceLineBreaks_one. simpl. intros H. apply orb_false_iff in H as [-> _].
    reflexivity.
  - rewrite replaceLineBreaks_cons.
    change (Onboarding.hasLineFeed (String c (String d r)))
      with (Ascii.eqb c Onboarding.LF
            || (Ascii.eqb d Onboarding.LF || Onboarding.hasLineFeed r)).
    intros H. apply orb_false_iff in H as [Hc H]. rewrite Hc.
    pose proof H as Hdr. apply orb_false_iff in H as [Hd Hr]. rewrite Hd, andb_false_r.
    f_equal. apply IHdr. exact Hdr.
Qed.

Lemma replaceLineBreaks_ends (s : string) :
  endsInSpace (Onboarding.replaceLineBreaks s) = endsInSpace s.
Proof.
  induction s as [|c|c d r IHr IHdr] using string_pair_ind.
  - reflexivity.
  - rewrite replaceLineBreaks_one.
    destruct (Ascii.eqb_spec c Onboarding.LF) as [->|_]; reflexivity.
  - rewrite replaceLineBreaks_cons.
    assert (Hcons : forall x y z, endsInSpace (String x (String y z))
                                  = endsInSpace (String y z)) by reflexivity.
    assert (Hne : forall x t, t <> EmptyString ->
                              endsInSpace (String x t) = endsInSpace t).
    { intros x [|y z] Ht; [contradiction|reflexivity]. }
    assert (Hout : Onboarding.replaceLineBreaks (String d r) <> EmptyString).
    { destruct r as [|e r'].
      - rewrite replaceLineBreaks_one. destruct (Ascii.eqb d Onboarding.LF); discriminate.
      - rewrite replaceLineBreaks_cons.
        destruct (Ascii.eqb d Onboarding.LF); [discriminate|].
        destruct (_ && _); discriminate. }
    rewrite Hcons.
    destruct (Ascii.eqb c Onboarding.LF); [rewrite (Hne _ _ Hout); exact IHdr|].
    destruct (Ascii.eqb_spec c Onboarding.CR) as [->|_]; simpl andb; cbv iota;
      [|rewrite (Hne _ _ Hout); exact IHdr].
    destruct (Ascii.eqb_spec d Onboarding.LF) as [->|_];
      [|rewrite (Hne _ _ Hout); exact IHdr].
    destruct r as [|e r'].
    + reflexivity.
    + assert (Hr : Onboarding.replaceLineBreaks (String e r') <> EmptyString).
      { destruct r' as [|f r''].
        - rewrite replaceLineBreaks_one.
          destruct (Ascii.eqb e Onboarding.LF); discriminate.
        - rewrite replaceLineBreaks_cons.
          destruct (Ascii.eqb e Onboarding.LF); [discriminate|].
          destruct (_ && _); discriminate. }
      rewrite (Hne _ _ Hr). rewrite IHr. reflexivity.
Qed.

Lemma replaceLineBreaks_starts (s : string) :
  Onboarding.startsInSpace s = false ->
  Onboarding.startsInSpace (Onboarding.replaceLineBreaks s) = false
  /\ (s <> EmptyString -> Onboarding.replaceLineBreaks s <> EmptyString).
Proof.
  destruct s as [|c [|d r]]; [split; [reflexivity|contradiction]| |].
  - rewrite replaceLineBreaks_one. simpl. intros Hc.
    destruct (Ascii.eqb_spec c Onboarding.LF) as [->|_]; [discriminate|].
    split; [exact Hc|discriminate].
  - rewrite replaceLineBreaks_cons. simpl Onboarding.startsInSpace. intros Hc.
    destruct (Ascii.eqb_spec c Onboarding.LF) as [->|_]; [discriminate|].
    destruct (Ascii.eqb_spec c Onboarding.CR) as [->|_]; [discriminate|].
    simpl. split; [exact Hc|discriminate].
Qed.

Lemma trimStart_id (s : string) : Onboarding.startsInSpace s = false -> Js.trimStart s = s.
Proof. destruct s as [|c r]; simpl; [reflexivity|]. intros ->. reflexivity. Qed.

Lemma trimEnd_id (s : string) : endsInSpace s = false -> Js.trimEnd s = s.
Proof.
  induction s as [|c r IH]; [reflexivity|].
  destruct r as [|d r'].
  - simpl. intros ->. reflexivity.
  - change (endsInSpace (String c (String d r'))) with (endsInSpace (String d r')).
    intros H. change (Js.trimEnd (String c (String d r')))
      with (match Js.trimEnd (String d r') with
            | EmptyString => if Js.isSpace c then EmptyString else String c EmptyString
            | r0 => String c r0
            end).
    rewrite (IH H). reflexivity.
Qed.

Lemma normalizeMessages_clean (messages : list ConversationMessage.t) :
  Forall Onboarding.cleanMessage (Onboarding.normalizeMessages messages).
Proof.
  unfold Onboarding.normalizeMessages. apply Forall_map, Forall_forall.
  intros message Hin. apply list_elem_of_In, filter_In in Hin as [_ Hcontent].
  unfold hasContent in Hcontent.
  assert (Hne : Js.trim (ConversationMessage.content message) <> EmptyString).
  { intros Hempty. rewrite Hempty in Hcontent. discriminate. }
  destruct (trim_trimmedText _ Hne) as (_ & Hstart & Hend).
  destruct (replaceLineBreaks_starts _ Hstart) as [Hstart' Hne'].
  split; [|apply replaceLineBreaks_hasLineFeed]. simpl.
  split; [exact (Hne' Hne)|]. split; [exact Hstart'|].
  rewrite replaceLineBreaks_ends. exact Hend.
Qed.

(** X25. The cleaning of the conversation.  [normalizeMessages] keeps, in
    their order and with their roles, the messages whose content is not
    blank, trims the content and puts a space for each line break; what
    is left is not empty, has no white space at either end and no line
    feed.  Cleaning what is clean changes nothing, so that the second
    cleaning the agent does when it writes the transcript of cleaned
    messages is harmless. *)
Theorem normalizeMessages_idempotent (messages : list ConversationMessage.t) :
  Forall Onboarding.cleanMessage (Onboarding.normalizeMessages messages)
  /\ map ConversationMessage.role (Onboarding.normalizeMessages messages)
     = map ConversationMessage.role (List.filter hasContent messages)
  /\ Onboarding.normalizeMessages (Onboarding.normalizeMessages messages)
     = Onboarding.normalizeMessages messages
  /\ Onboarding.transcriptString (Onboarding.normalizeMessages messages)
     = Onboarding.transcriptString messages.
Proof.
  assert (Hidem : Onboarding.normalizeMessages (Onboarding.normalizeMessages messages)
                  = Onboarding.normalizeMessages messages).
  { pose proof (normalizeMessages_clean messages) as Hclean.
    induction Hclean as [|m rest [(Hne & Hstart & Hend) Hlf] _ IH]; [reflexivity|].
    assert (Htrim : Js.trim (ConversationMessage.content m)
                    = ConversationMessage.content m).
    { unfold Js.trim. rewrite (trimStart_id _ Hstart). apply trimEnd_id. exact Hend. }
    unfold Onboarding.normalizeMessages. simpl List.filter.
    unfold hasContent at 1. rewrite Htrim.
    assert (Hpos : (0 <? Js.strlen (ConversationMessage.content m)) = true).
    { unfold Js.strlen. destruct (ConversationMessage.content m); [contradiction|reflexivity]. }
    rewrite Hpos. simpl map. rewrite Htrim, (replaceLineBreaks_id _ Hlf).
    f_equal; [destruct m; reflexivity|exact IH]. }
  split; [apply normalizeMessages_clean|].
  split; [unfold Onboarding.normalizeMessages; rewrite map_map; reflexivity|].
  split; [exact Hidem|].
  unfold Onboarding.transcriptString. rewrite Hidem. reflexivity.
Qed.

(* ------------------------------------------------------------------ *)
(** ** The link tier keeps the first link to a page *)

Section StableSort.
Context {A : Type} (key : A -> Z).

(** The sort is stable: elements of the same key stay in their order. *)
Lemma insertBy_filter (k : Z) (x : A) (l : list A) :
  List.filter (fun y => key y =? k) (Js.insertBy key x l)
  = List.filter (fun y => key y =? k) (x :: l).
Proof.
  induction l as [|y r IH]; simpl; [reflexivity|].
  destruct (Z.leb_spec (key x) (key y)) as [Hle|Hgt]; [reflexivity|].
  simpl. rewrite IH. simpl.
  destruct (Z.eqb_spec (key x) k) as [Hx|Hx]; [|reflexivity].
  destruct (Z.eqb_spec (key y) k) as [Hy|Hy]; [lia|reflexivity].
Qed.

Lemma sortBy_filter (k : Z) (l : list A) :
  List.filter (fun y => key y =? k) (Js.sortBy key l)
  = List.filter (fun y => key y =? k) l.
Proof.
  induction l as [|x r IH]; simpl; [reflexivity|].
  rewrite insertBy_filter. simpl. rewrite IH. reflexivity.
Qed.

End StableSort.

(** What is kept of sorted links is, for each destination page not seen
    before, the first link to it. *)
Lemma dedupByDest_first (seen : list Z) (links : list Link.t) (link : Link.t) :
  link ∈ dedupByDest seen links ->
  head (List.filter (fun l => Link.destPage l =? Link.destPage link) links) = Some link.
Proof.
  revert seen. induction links as [|x rest IH]; intros seen; simpl.
  - intros H. inversion H.
  - destruct (existsb (Z.eqb (Link.destPage x)) seen) eqn:Hseen.
    + intros Hin.
      pose proof (dedupByDest_unseen seen rest) as Hunseen.
      rewrite Forall_forall in Hunseen. specialize (Hunseen link Hin).
      destruct (Z.eqb_spec (Link.destPage x) (Link.destPage link)) as [Heq|Hne];
        [rewrite Heq in Hseen; congruence|].
      exact (IH seen Hin).
    + intros Hin. apply elem_of_cons in Hin as [->|Hin].
      * rewrite Z.eqb_refl. reflexivity.
      * pose proof (dedupByDest_unseen (Link.destPage x :: seen) rest) as Hunseen.
        rewrite Forall_forall in Hunseen. specialize (Hunseen link Hin).
        simpl in Hunseen. apply orb_false_iff in Hunseen as [Hne _].
        rewrite Z.eqb_sym in Hne. rewrite Hne. exact (IH _ Hin).
Qed.

Lemma dedupByDest_pages (seen : list Z) (links : list Link.t) (p : Z) :
  p ∈ map Link.destPage (dedupByDest seen links)
  <-> p ∈ map Link.destPage links /\ existsb (Z.eqb p) seen = false.
Proof.
  revert seen. induction links as [|x rest IH]; intros seen; simpl.
  - split; [intros H; inversion H|intros [H _]; inversion H].
  - destruct (existsb (Z.eqb (Link.destPage x)) seen) eqn:Hseen.
    + rewrite IH, elem_of_cons. split; [tauto|].
      intros [[->|Hin] Hp]; [congruence|tauto].
    + simpl. rewrite !elem_of_cons, IH. simpl. split.
      * intros [->|[Hin Hp]]; [tauto|].
        apply orb_false_iff in Hp as [_ Hp]. tauto.
      * intros [[->|Hin] Hp]; [tauto|].
        destruct (Z.eqb_spec p (Link.destPage x)) as [Heq|Hne]; [tauto|].
        right. split; [exact Hin|]. apply orb_false_iff. split; [reflexivity|exact Hp].
Qed.

(** X26. One chapter per linked page, titled by the first link.  When
    [detectFromPdfLinks] returns chapters, their start pages are exactly
    the destination pages of the links it collected on the first pages,
    each page once; and the title of the chapter that starts on a page is
    the text of the first collected link to that page. *)
Theorem pdf_links_first_link (env : Env) (buffer : Buffer) (log : list Request)
    (chapters : list ChapterBoundary.t) (log' : list Request) :
  detectFromPdfLinks env buffer log = (Ok (Some chapters), log') ->
  exists pdf links,
    getDocumentProxy env buffer = Ok pdf
    /\ collectLinks pdf (pageNumbers (Z.min 15 (PdfDocument.numPages pdf))) [] log
       = (Ok links, log)
    /\ NoDup (map ChapterBoundary.startPage chapters)
    /\ (forall p, p ∈ map ChapterBoundary.startPage chapters
                  <-> p ∈ map Link.destPage links)
    /\ Forall (fun c =>
                 exists link,
                   head (List.filter
                           (fun l => Link.destPage l =? ChapterBoundary.startPage c) links)
                   = Some link
                   /\ ChapterBoundary.title c = Link.text link) chapters.
Proof.
  unfold detectFromPdfLinks, tryCatch, bind at 1, await.
  destruct (getDocumentProxy env buffer) as [pdf|e]; [|discriminate].
  cbv zeta. unfold bind.
  destruct (collectLinks pdf (pageNumbers (Z.min 15 (PdfDocument.numPages pdf))) [] log)
    as [[links|e] log1] eqn:Hcollect; [|discriminate].
  pose proof (collectLinks_log _ _ _ _ _ _ Hcollect) as ->.
  destruct (Js.len links <? 3); [discriminate|].
  destruct (Js.len (dedupByDest [] (Js.sortBy Link.destPage links)) <? 3); [discriminate|].
  intros [= <- _]. exists pdf, links. split; [reflexivity|]. split; [exact Hcollect|].
  set (unique := dedupByDest [] (Js.sortBy Link.destPage links)).
  rewrite fillEndPages_starts, map_map. simpl.
  split; [|split].
  - apply increasing_NoDup. apply dedupByDest_increasing, sortBy_sorted.
  - intros p. unfold unique. rewrite dedupByDest_pages. simpl.
    rewrite (Permutation_map Link.destPage (sortBy_perm Link.destPage links)). tauto.
  - apply (fillEndPages_Forall
             (fun title start =>
                exists link,
                  head (List.filter (fun l => Link.destPage l =? start) links) = Some link
                  /\ title = Link.text link)).
    apply Forall_map, Forall_forall. intros link Hin. simpl.
    exists link. split; [|reflexivity].
    rewrite <- (sortBy_filter Link.destPage (Link.destPage link) links).
    exact (dedupByDest_first [] _ link Hin).
Qed.

(** The ten-page document whose first page links to pages 5, 2, 8 and 2
    again: page 2 is titled by the first of its two links. *)
Lemma pdf_links_first_link_witness :
  exists pdf links,
    getDocumentProxy linkedEnv [] = Ok pdf
    /\ collectLinks pdf (pageNumbers (Z.min 15 (PdfDocument.numPages pdf))) [] []
       = (Ok links, [])
    /\ NoDup [2; 5; 8].
Proof.
  destruct (pdf_links_first_link linkedEnv [] []
              [ChapterBoundary.mk "One" 2 4; ChapterBoundary.mk "Two" 5 7;
               ChapterBoundary.mk "Three" 8 9] [])
    as (pdf & links & Hpdf & Hlinks & Hnodup & _).
  - vm_compute. reflexivity.
  - exists pdf, links. split; [exact Hpdf|]. split; [exact Hlinks|exact Hnodup].
Defined.

(* ------------------------------------------------------------------ *)
(** ** The route of the course agent *)

Lemma generateNextCourseQuestion_without_key (env : Env) (models : CourseModels)
    (messages : list ConversationMessage.t) (bookAnalysis : option BookAnalysis.t)
    (userId : string) (log : list Request) :
  hasApiKey env = false ->
  exists next question,
    generateNextCourseQuestion env models messages bookAnalysis userId log = (Ok next, log)
    /\ NextQuestionPayload.question next = Some question
    /\ question <> EmptyString.
Proof.
  intros Hkey. unfold generateNextCourseQuestion. cbv zeta. rewrite Hkey. simpl negb.
  cbv iota.
  destruct (fallbackNextQuestion_defined messages
              match bookAnalysis with Some _ => true | None => false end)
    as [(question & Hquestion & Hne) _].
  eexists _, question. split; [reflexivity|]. split; assumption.
Qed.

(** Reduce the conditions that have been decided. *)
Ltac decided :=
  try change (negb true) with false; try change (negb false) with true; cbv beta iota.

Lemma POST_cases (env : Env) (models : CourseModels) (files : CourseFiles)
    (body : option AgentRequestBody.t) (log : list Request) :
  exists response log',
    POST env models files body log = (Ok response, log')
    /\ (body = None -> response = ErrorResponse 400 "Body must be a JSON object.")
    /\ (forall status error,
          response = ErrorResponse status error ->
          status = 400 /\ log' = log
          \/ status = 500 /\ handle env models files body log = (Throw error, log'))
    /\ (forall b currentPlan analysis,
          body = Some b ->
          AgentRequestBody.mode b = Some "edit-plan" ->
          trimmedOrEmpty (AgentRequestBody.userId b) <> EmptyString ->
          AgentRequestBody.currentPlan b = Some currentPlan ->
          AgentRequestBody.bookAnalysis b = Some analysis ->
          trimmedOrEmpty (AgentRequestBody.editInstruction b) <> EmptyString ->
          let courseId := trimmedOrEmpty (AgentRequestBody.courseId b) in
          let userId := trimmedOrEmpty (AgentRequestBody.userId b) in
          let opts :=
            EditOpts.mk currentPlan (trimmedOrEmpty (AgentRequestBody.editInstruction b))
              analysis (List.filter isValidMessage (AgentRequestBody.messages b)) userId
              (if truthy courseId then readExtractedText files userId courseId else None) in
          match editCoursePlan env opts log with
          | (Ok result, log1) =>
              response = EditPlanResponse "edit-plan" (EditPlanResult.updatedPlan result)
                           (EditPlanResult.updatedBookAnalysis result)
                           (EditPlanResult.explanation result)
              /\ log' = log1
          | (Throw message, log1) => response = ErrorResponse 500 message /\ log' = log1
          end)
    /\ (forall b,
          body = Some b -> hasApiKey env = false ->
          match response with
          | ErrorResponse status _ =>
              status = 400
              \/ AgentRequestBody.mode b = Some "generate-plan"
              \/ AgentRequestBody.mode b = Some "finalize"
          | EditPlanResponse _ plan analysis explanation =>
              AgentRequestBody.currentPlan b = Some plan
              /\ analysis = None
              /\ explanation = noApiKeyExplanation
              /\ log' = log
          | NextResponse mode (Some question) _ _ _ =>
              question <> EmptyString /\ mode = default "next" (AgentRequestBody.mode b)
          | NextResponse _ None _ _ _ => False
          | StreamResponse (Ok next) =>
              exists question,
                NextQuestionPayload.question next = Some question
                /\ question <> EmptyString
          | StreamResponse (Throw _) => False
          | _ => True
          end).
Proof.
  unfold POST.
  destruct body as [b|]; simpl handle.
  2:{ exists (ErrorResponse 400 "Body must be a JSON object."), log.
      split; [reflexivity|]. split; [reflexivity|].
      split; [intros status error [= <- <-]; left; split; reflexivity|].
      split; intros b; intros; discriminate. }
  set (mode := default "next" (AgentRequestBody.mode b)).
  set (userId := trimmedOrEmpty (AgentRequestBody.userId b)).
  set (messages := List.filter isValidMessage (AgentRequestBody.messages b)).
  destruct (truthy userId) eqn:Huser; decided.
  2:{ exists (ErrorResponse 400 "userId is required."), log.
      split; [reflexivity|]. split; [discriminate|].
      split; [intros status error [= <- <-]; left; split; reflexivity|].
      split.
      - intros b' currentPlan analysis [= <-] _ Hne. exfalso.
        apply truthy_nonempty in Hne. fold userId in Hne. congruence.
      - intros b' [= <-] _. left. reflexivity. }
  destruct (String.eqb_spec mode "edit-plan") as [Hedit|Hnot_edit]; decided.
  { (* edit-plan *)
    set (editInstruction := trimmedOrEmpty (AgentRequestBody.editInstruction b)).
    set (courseId := trimmedOrEmpty (AgentRequestBody.courseId b)).
    assert (Hbad : forall m : M Response,
               m = ret (ErrorResponse 400
                          "currentPlan, editInstruction, and bookAnalysis are required for edit-plan.") ->
               (AgentRequestBody.currentPlan b = None
                \/ AgentRequestBody.bookAnalysis b = None
                \/ editInstruction = EmptyString) ->
               exists response log',
                 match m log with
                 | (Ok response0, log0) => (Ok response0, log0)
                 | (Throw message, log0) => (Ok (ErrorResponse 500 message), log0)
                 end = (Ok response, log')
                 /\ (Some b = None -> response = ErrorResponse 400 "Body must be a JSON object.")
                 /\ (forall status error,
                       response = ErrorResponse status error ->
                       status = 400 /\ log' = log
                       \/ status = 500 /\ m log = (Throw error, log'))
                 /\ (forall b' currentPlan analysis,
                       Some b = Some b' ->
                       AgentRequestBody.mode b' = Some "edit-plan" ->
                       trimmedOrEmpty (AgentRequestBody.userId b') <> EmptyString ->
                       AgentRequestBody.currentPlan b' = Some currentPlan ->
                       AgentRequestBody.bookAnalysis b' = Some analysis ->
                       trimmedOrEmpty (AgentRequestBody.editInstruction b') <> EmptyString ->
                       False)
                 /\ (forall b', Some b = Some b' -> hasApiKey env = false ->
                                response = ErrorResponse 400
                                             "currentPlan, editInstruction, and bookAnalysis are required for edit-plan.")).
    { intros m -> Hmissing. eexists _, log. split; [reflexivity|].
      split; [discriminate|].
      split; [intros status error [= <- <-]; left; split; reflexivity|].
      split; [|intros; reflexivity].
      intros b' currentPlan analysis [= <-] _ _ Hplan Hanalysis Hinstr.
      destruct Hmissing as [H|[H|H]]; [congruence|congruence|exact (Hinstr H)]. }
    destruct (AgentRequestBody.currentPlan b) as [currentPlan|] eqn:Hplan; decided.
    2:{ destruct (Hbad _ eq_refl) as (response & log' & Hrun & Hnone & Herr & Hno & Hkey);
          [left; reflexivity|].
        exists response, log'. split; [exact Hrun|]. split; [exact Hnone|].
        split; [exact Herr|]. split.
        - intros b' cp an Hb Hm Hu Hp Ha Hi. exfalso. exact (Hno b' cp an Hb Hm Hu Hp Ha Hi).
        - intros b' Hb Hk. rewrite (Hkey b' Hb Hk). left. reflexivity. }
    destruct (AgentRequestBody.bookAnalysis b) as [analysis|] eqn:Hanalysis; decided.
    2:{ destruct (Hbad _ eq_refl) as (response & log' & Hrun & Hnone & Herr & Hno & Hkey);
          [right; left; reflexivity|].
        exists response, log'. split; [exact Hrun|]. split; [exact Hnone|].
        split; [exact Herr|]. split.
        - intros b' cp an Hb Hm Hu Hp Ha Hi. exfalso. exact (Hno b' cp an Hb Hm Hu Hp Ha Hi).
        - intros b' Hb Hk. rewrite (Hkey b' Hb Hk). left. reflexivity. }
    destruct (truthy editInstruction) eqn:Hinstr; decided.
    2:{ destruct (Hbad _ eq_refl) as (response & log' & Hrun & Hnone & Herr & Hno & Hkey).
        { right. right. destruct (String.eqb_spec editInstruction EmptyString) as [H|H];
            [exact H|]. apply truthy_nonempty in H. congruence. }
        exists response, log'. split; [exact Hrun|]. split; [exact Hnone|].
        split; [exact Herr|]. split.
        - intros b' cp an Hb Hm Hu Hp Ha Hi. exfalso. exact (Hno b' cp an Hb Hm Hu Hp Ha Hi).
        - intros b' Hb Hk. rewrite (Hkey b' Hb Hk). left. reflexivity. }
    set (opts := EditOpts.mk currentPlan editInstruction analysis messages userId
                   (if truthy courseId then readExtractedText files userId courseId
                    else None)).
    unfold bind.
    destruct (editCoursePlan env opts log) as [[result|message] log1] eqn:Hrun.
    - eexists _, log1. split; [reflexivity|]. split; [discriminate|].
      split; [intros status error [=]|].
      split.
      + intros b' cp an [= <-] _ _ Hp Ha _. rewrite Hplan in Hp. injection Hp as <-.
        rewrite Hanalysis in Ha. injection Ha as <-. cbv zeta. fold userId courseId editInstruction messages opts.
        rewrite Hrun. rewrite Hedit. split; reflexivity.
      + intros b' [= <-] Hkey. simpl.
        unfold editCoursePlan in Hrun. rewrite Hkey in Hrun.
        change (negb false) with true in Hrun. cbv iota in Hrun.
        injection Hrun as <- <-. simpl. split; [exact Hplan|]. repeat split.
    - eexists _, log1. split; [reflexivity|]. split; [discriminate|].
      split; [intros status error [= <- <-]; right; split; reflexivity|].
      split.
      + intros b' cp an [= <-] _ _ Hp Ha _. rewrite Hplan in Hp. injection Hp as <-.
        rewrite Hanalysis in Ha. injection Ha as <-. cbv zeta. fold userId courseId editInstruction messages opts.
        rewrite Hrun. split; reflexivity.
      + intros b' [= <-] Hkey. exfalso.
        unfold editCoursePlan in Hrun. rewrite Hkey in Hrun.
        change (negb false) with true in Hrun. cbv iota in Hrun. discriminate. }
  assert (Hmode_edit : AgentRequestBody.mode b <> Some "edit-plan").
  { intros H. apply Hnot_edit. unfold mode. rewrite H. reflexivity. }
  destruct (String.eqb_spec mode "generate-plan") as [Hgen|Hnot_gen]; decided.
  { assert (Hmode : AgentRequestBody.mode b = Some "generate-plan").
    { unfold mode in Hgen. destruct (AgentRequestBody.mode b); simpl in Hgen;
        [congruence|discriminate]. }
    destruct (AgentRequestBody.bookAnalysis b) as [analysis|].
    - unfold bind.
      destruct (generateCoursePlan env models messages analysis userId log)
        as [[plan|message] log1] eqn:Hrun.
      + eexists _, log1. split; [reflexivity|]. split; [discriminate|].
        split; [intros status error [=]|].
        split; [intros b' cp an [= <-] Hm; congruence|]. intros b' [= <-] _. exact I.
      + eexists _, log1. split; [reflexivity|]. split; [discriminate|].
        split; [intros status error [= <- <-]; right; split; reflexivity|].
        split; [intros b' cp an [= <-] Hm; congruence|].
        intros b' [= <-] _. right. left. exact Hmode.
    - eexists _, log. split; [reflexivity|]. split; [discriminate|].
      split; [intros status error [= <- <-]; left; split; reflexivity|].
      split; [intros b' cp an [= <-] Hm; congruence|].
      intros b' [= <-] _. left. reflexivity. }
  destruct (String.eqb_spec mode "finalize") as [Hfin|Hnot_fin]; decided.
  { assert (Hmode : AgentRequestBody.mode b = Some "finalize").
    { unfold mode in Hfin. destruct (AgentRequestBody.mode b); simpl in Hfin;
        [congruence|discriminate]. }
    set (courseId := trimmedOrEmpty (AgentRequestBody.courseId b)).
    destruct (AgentRequestBody.coursePlan b) as [coursePlan|].
    - destruct (truthy courseId); decided.
      + unfold bind at 1. unfold finalizeCoursePlan, bind, await, ret.
        destruct (writeCoursePlan files userId courseId coursePlan) as [savedAt|message].
        * eexists _, log. split; [reflexivity|]. split; [discriminate|].
          split; [intros status error [=]|].
          split; [intros b' cp an [= <-] Hm; congruence|]. intros b' [= <-] _. exact I.
        * eexists _, log. split; [reflexivity|]. split; [discriminate|].
          split; [intros status error [= <- <-]; right; split; reflexivity|].
          split; [intros b' cp an [= <-] Hm; congruence|].
          intros b' [= <-] _. right. right. exact Hmode.
      + eexists _, log. split; [reflexivity|]. split; [discriminate|].
        split; [intros status error [= <- <-]; left; split; reflexivity|].
        split; [intros b' cp an [= <-] Hm; congruence|].
        intros b' [= <-] _. left. reflexivity.
    - eexists _, log. split; [reflexivity|]. split; [discriminate|].
      split; [intros status error [= <- <-]; left; split; reflexivity|].
      split; [intros b' cp an [= <-] Hm; congruence|].
      intros b' [= <-] _. left. reflexivity. }
  destruct (String.eqb mode "next" && AgentRequestBody.stream b); decided.
  - unfold bind, spawn.
    destruct (generateNextCourseQuestion env models messages
                (AgentRequestBody.bookAnalysis b) userId log) as [next log1] eqn:Hrun.
    eexists _, log1. split; [reflexivity|]. split; [discriminate|].
    split; [intros status error [=]|].
    split; [intros b' cp an [= <-] Hm; congruence|].
    intros b' [= <-] Hkey. simpl.
    destruct (generateNextCourseQuestion_without_key env models messages
                (AgentRequestBody.bookAnalysis b) userId log Hkey)
      as (payload & question & Hpayload & Hquestion & Hne).
    rewrite Hpayload in Hrun. injection Hrun as <- <-.
    exists question. split; assumption.
  - unfold bind.
    destruct (generateNextCourseQuestion env models messages
                (AgentRequestBody.bookAnalysis b) userId log)
      as [[next|message] log1] eqn:Hrun.
    + eexists _, log1. split; [reflexivity|]. split; [discriminate|].
      split; [intros status error [=]|].
      split; [intros b' cp an [= <-] Hm; congruence|].
      intros b' [= <-] Hkey. simpl.
      destruct (generateNextCourseQuestion_without_key env models messages
                  (AgentRequestBody.bookAnalysis b) userId log Hkey)
        as (payload & question & Hpayload & Hquestion & Hne).
      rewrite Hpayload in Hrun. injection Hrun as <- <-.
      rewrite Hquestion. split; [exact Hne|reflexivity].
    + eexists _, log1. split; [reflexivity|]. split; [discriminate|].
      split; [intros status error [= <- <-]; right; split; reflexivity|].
      split; [intros b' cp an [= <-] Hm; congruence|].
      intros b' [= <-] Hkey. exfalso.
      destruct (generateNextCourseQuestion_without_key env models messages
                  (AgentRequestBody.bookAnalysis b) userId log Hkey)
        as (payload & question & Hpayload & _).
      congruence.
Qed.

Lemma POST_next (env : Env) (models : CourseModels) (files : CourseFiles)
    (b : AgentRequestBody.t) (log : list Request) :
  let mode := default "next" (AgentRequestBody.mode b) in
  let userId := trimmedOrEmpty (AgentRequestBody.userId b) in
  userId <> EmptyString ->
  mode <> "edit-plan" -> mode <> "generate-plan" -> mode <> "finalize" ->
  (mode <> "next" \/ AgentRequestBody.stream b = false) ->
  POST env models files (Some b) log
  = match generateNextCourseQuestion env models
            (List.filter isValidMessage (AgentRequestBody.messages b))
            (AgentRequestBody.bookAnalysis b) userId log with
    | (Ok next, log1) =>
        (Ok (NextResponse mode (NextQuestionPayload.question next)
               (NextQuestionPayload.readyToGenerate next)
               (NextQuestionPayload.knownGaps next)
               (NextQuestionPayload.requestingUpload next)), log1)
    | (Throw message, log1) => (Ok (ErrorResponse 500 message), log1)
    end.
Proof.
  intros mode userId Huser Hedit Hgen Hfin Hnext. unfold POST, handle. fold mode userId.
  apply truthy_nonempty in Huser. rewrite Huser. decided.
  destruct (String.eqb_spec mode "edit-plan") as [H|_]; [contradiction|]. decided.
  destruct (String.eqb_spec mode "generate-plan") as [H|_]; [contradiction|]. decided.
  destruct (String.eqb_spec mode "finalize") as [H|_]; [contradiction|]. decided.
  assert (Hstream : String.eqb mode "next" && AgentRequestBody.stream b = false).
  { destruct Hnext as [Hne| ->]; [|apply andb_false_r].
    destruct (String.eqb_spec mode "next"); [contradiction|reflexivity]. }
  rewrite Hstream. decided. unfold bind.
  destruct (generateNextCourseQuestion env models _ _ userId log) as [[next|message] log1];
    reflexivity.
Qed.

(** A response of status 400 is decided by the body: nothing outside
    the handler has been asked. *)
Lemma POST_bad_request (env : Env) (models : CourseModels) (files : CourseFiles)
    (body : option AgentRequestBody.t) (log : list Request) (error : string)
    (log' : list Request) :
  POST env models files body log = (Ok (ErrorResponse 400 error), log') ->
  log' = log
  /\ forall env' models' files' log2,
       POST env' models' files' body log2 = (Ok (ErrorResponse 400 error), log2).
Proof.
  unfold POST, handle. destruct body as [b|].
  2:{ intros [= <- <-]. split; [reflexivity|]. intros. reflexivity. }
  cbv zeta.
  destruct (truthy (trimmedOrEmpty (AgentRequestBody.userId b))); decided.
  2:{ intros [= <- <-]. split; [reflexivity|]. intros. reflexivity. }
  destruct (String.eqb (default "next" (AgentRequestBody.mode b)) "edit-plan"); decided.
  { destruct (AgentRequestBody.currentPlan b) as [currentPlan|].
    2:{ intros [= <- <-]. split; [reflexivity|]. intros. reflexivity. }
    destruct (AgentRequestBody.bookAnalysis b) as [analysis|].
    2:{ intros [= <- <-]. split; [reflexivity|]. intros. reflexivity. }
    destruct (truthy (trimmedOrEmpty (AgentRequestBody.editInstruction b))); decided.
    2:{ intros [= <- <-]. split; [reflexivity|]. intros. reflexivity. }
    unfold bind at 1. destruct (editCoursePlan env _ log) as [[result|message] log1];
      intros [=]. }
  destruct (String.eqb (default "next" (AgentRequestBody.mode b)) "generate-plan"); decided.
  { destruct (AgentRequestBody.bookAnalysis b) as [analysis|].
    2:{ intros [= <- <-]. split; [reflexivity|]. intros. reflexivity. }
    unfold bind at 1.
    destruct (generateCoursePlan env models _ analysis _ log) as [[plan|message] log1];
      intros [=]. }
  destruct (String.eqb (default "next" (AgentRequestBody.mode b)) "finalize"); decided.
  { destruct (AgentRequestBody.coursePlan b) as [coursePlan|].
    2:{ intros [= <- <-]. split; [reflexivity|]. intros. reflexivity. }
    destruct (truthy (trimmedOrEmpty (AgentRequestBody.courseId b))); decided.
    2:{ intros [= <- <-]. split; [reflexivity|]. intros. reflexivity. }
    unfold bind at 1. unfold finalizeCoursePlan, bind, await, ret.
    destruct (writeCoursePlan files _ _ coursePlan) as [savedAt|message]; intros [=]. }
  destruct (String.eqb (default "next" (AgentRequestBody.mode b)) "next"
            && AgentRequestBody.stream b); decided.
  - unfold bind at 1. unfold spawn.
    destruct (generateNextCourseQuestion env models _ _ _ log) as [next log1].
    intros [=].
  - unfold bind at 1.
    destruct (generateNextCourseQuestion env models _ _ _ log) as [[next|message] log1];
      intros [=].
Qed.

(** A streamed request for the next question: the response is the
    stream, whatever becomes of the question. *)
Lemma POST_stream (env : Env) (models : CourseModels) (files : CourseFiles)
    (b : AgentRequestBody.t) (log : list Request) :
  let userId := trimmedOrEmpty (AgentRequestBody.userId b) in
  userId <> EmptyString ->
  default "next" (AgentRequestBody.mode b) = "next" ->
  AgentRequestBody.stream b = true ->
  POST env models files (Some b) log
  = (Ok (StreamResponse
           (fst (generateNextCourseQuestion env models
                   (List.filter isValidMessage (AgentRequestBody.messages b))
                   (AgentRequestBody.bookAnalysis b) userId log))),
     snd (generateNextCourseQuestion env models
            (List.filter isValidMessage (AgentRequestBody.messages b))
            (AgentRequestBody.bookAnalysis b) userId log)).
Proof.
  intros userId Huser Hmode Hstream. unfold POST, handle. fold userId.
  apply truthy_nonempty in Huser. rewrite Huser, Hmode, Hstream. decided.
  simpl. unfold bind, spawn.
  destruct (generateNextCourseQuestion env models _ _ userId log) as [next log1].
  reflexivity.
Qed.

(** A request to generate the plan. *)
Lemma POST_generate (env : Env) (models : CourseModels) (files : CourseFiles)
    (b : AgentRequestBody.t) (analysis : BookAnalysis.t) (log : list Request) :
  let userId := trimmedOrEmpty (AgentRequestBody.userId b) in
  userId <> EmptyString ->
  AgentRequestBody.mode b = Some "generate-plan" ->
  AgentRequestBody.bookAnalysis b = Some analysis ->
  POST env models files (Some b) log
  = match generateCoursePlan env models
            (List.filter isValidMessage (AgentRequestBody.messages b)) analysis userId
            log with
    | (Ok plan, log1) => (Ok (PlanResponse "generate-plan" plan), log1)
    | (Throw message, log1) => (Ok (ErrorResponse 500 message), log1)
    end.
Proof.
  intros userId Huser Hmode Hanalysis. unfold POST, handle. fold userId.
  apply truthy_nonempty in Huser. rewrite Huser, Hmode, Hanalysis. decided.
  simpl. unfold bind.
  destruct (generateCoursePlan env models _ analysis userId log) as [[plan|message] log1];
    reflexivity.
Qed.

(** A request to save the plan. *)
Lemma POST_finalize (env : Env) (models : CourseModels) (files : CourseFiles)
    (b : AgentRequestBody.t) (coursePlan : CoursePlan.t) (log : list Request) :
  let userId := trimmedOrEmpty (AgentRequestBody.userId b) in
  let courseId := trimmedOrEmpty (AgentRequestBody.courseId b) in
  userId <> EmptyString ->
  AgentRequestBody.mode b = Some "finalize" ->
  courseId <> EmptyString ->
  AgentRequestBody.coursePlan b = Some coursePlan ->
  POST env models files (Some b) log
  = match writeCoursePlan files userId courseId coursePlan with
    | Ok savedAt => (Ok (FinalizeResponse "finalize" courseId coursePlan savedAt), log)
    | Throw message => (Ok (ErrorResponse 500 message), log)
    end.
Proof.
  intros userId courseId Huser Hmode Hcourse Hplan. unfold POST, handle.
  fold userId courseId.
  apply truthy_nonempty in Huser. apply truthy_nonempty in Hcourse.
  rewrite Huser, Hmode, Hplan, Hcourse. decided. simpl.
  unfold bind, finalizeCoursePlan, bind, await, ret.
  destruct (writeCoursePlan files userId courseId coursePlan); reflexivity.
Qed.

(** X27. The responses of the route.  The handler never fails.  A
    response of status 400 is decided by the body of the request alone:
    it is the same for every environment, model and file store, and
    nothing is logged.  A request to edit the plan (with a user, a plan,
    an instruction and a book analysis), to generate the plan (with a book
    analysis), to save it (with a course and a plan) or for the next
    question, not streamed, is answered with the result of
    [editCoursePlan] (for the trimmed instruction and the valid
    messages), [generateCoursePlan], [saveCoursePlan] or
    [generateNextCourseQuestion], and an error any of them raises becomes
    a response of status 500 that carries the message; every response of
    status 500 is such an error.  A streamed request for the next
    question is always answered with the stream, which carries the
    question or the error of [generateNextCourseQuestion].  Without an
    API key a request to edit is answered with the current plan and no
    analysis, and a request for the next question, streamed or not,
    always gets a question that is defined and not empty; a mode the
    handler does not know is treated as a request for the next
    question. *)
Theorem course_route_responses (env : Env) (models : CourseModels) (files : CourseFiles)
    (body : option AgentRequestBody.t) (log : list Request) :
  exists response log',
    POST env models files body log = (Ok response, log')
    /\ (body = None -> response = ErrorResponse 400 "Body must be a JSON object.")
    /\ (forall status error,
          response = ErrorResponse status error ->
          status = 400 /\ log' = log
          /\ (forall env' models' files' log2,
                POST env' models' files' body log2 = (Ok response, log2))
          \/ status = 500 /\ handle env models files body log = (Throw error, log'))
    /\ (forall b currentPlan analysis,
          body = Some b ->
          AgentRequestBody.mode b = Some "edit-plan" ->
          trimmedOrEmpty (AgentRequestBody.userId b) <> EmptyString ->
          AgentRequestBody.currentPlan b = Some currentPlan ->
          AgentRequestBody.bookAnalysis b = Some analysis ->
          trimmedOrEmpty (AgentRequestBody.editInstruction b) <> EmptyString ->
          let courseId := trimmedOrEmpty (AgentRequestBody.courseId b) in
          let userId := trimmedOrEmpty (AgentRequestBody.userId b) in
          let opts :=
            EditOpts.mk currentPlan (trimmedOrEmpty (AgentRequestBody.editInstruction b))
              analysis (List.filter isValidMessage (AgentRequestBody.messages b)) userId
              (if truthy courseId then readExtractedText files userId courseId else None) in
          match editCoursePlan env opts log with
          | (Ok result, log1) =>
              response = EditPlanResponse "edit-plan" (EditPlanResult.updatedPlan result)
                           (EditPlanResult.updatedBookAnalysis result)
                           (EditPlanResult.explanation result)
              /\ log' = log1
          | (Throw message, log1) => response = ErrorResponse 500 message /\ log' = log1
          end)
    /\ (forall b analysis,
          body = Some b ->
          AgentRequestBody.mode b = Some "generate-plan" ->
          trimmedOrEmpty (AgentRequestBody.userId b) <> EmptyString ->
          AgentRequestBody.bookAnalysis b = Some analysis ->
          match generateCoursePlan env models
                  (List.filter isValidMessage (AgentRequestBody.messages b)) analysis
                  (trimmedOrEmpty (AgentRequestBody.userId b)) log with
          | (Ok plan, log1) => response = PlanResponse "generate-plan" plan /\ log' = log1
          | (Throw message, log1) => response = ErrorResponse 500 message /\ log' = log1
          end)
    /\ (forall b coursePlan,
          body = Some b ->
          AgentRequestBody.mode b = Some "finalize" ->
          trimmedOrEmpty (AgentRequestBody.userId b) <> EmptyString ->
          trimmedOrEmpty (AgentRequestBody.courseId b) <> EmptyString ->
          AgentRequestBody.coursePlan b = Some coursePlan ->
          log' = log
          /\ match writeCoursePlan files (trimmedOrEmpty (AgentRequestBody.userId b))
                     (trimmedOrEmpty (AgentRequestBody.courseId b)) coursePlan with
             | Ok savedAt =>
                 response = FinalizeResponse "finalize"
                              (trimmedOrEmpty (AgentRequestBody.courseId b)) coursePlan
                              savedAt
             | Throw message => response = ErrorResponse 500 message
             end)
    /\ (forall b,
          body = Some b ->
          trimmedOrEmpty (AgentRequestBody.userId b) <> EmptyString ->
          default "next" (AgentRequestBody.mode b) = "next" ->
          AgentRequestBody.stream b = true ->
          (response, log')
          = (let (next, log1) :=
               generateNextCourseQuestion env models
                 (List.filter isValidMessage (AgentRequestBody.messages b))
                 (AgentRequestBody.bookAnalysis b)
                 (trimmedOrEmpty (AgentRequestBody.userId b)) log in
             (StreamResponse next, log1)))
    /\ (forall b,
          body = Some b -> hasApiKey env = false ->
          match response with
          | ErrorResponse status _ =>
              status = 400
              \/ AgentRequestBody.mode b = Some "generate-plan"
              \/ AgentRequestBody.mode b = Some "finalize"
          | EditPlanResponse _ plan analysis explanation =>
              AgentRequestBody.currentPlan b = Some plan
              /\ analysis = None
              /\ explanation = noApiKeyExplanation
              /\ log' = log
          | NextResponse mode (Some question) _ _ _ =>
              question <> EmptyString /\ mode = default "next" (AgentRequestBody.mode b)
          | NextResponse _ None _ _ _ => False
          | StreamResponse (Ok next) =>
              exists question,
                NextQuestionPayload.question next = Some question
                /\ question <> EmptyString
          | StreamResponse (Throw _) => False
          | _ => True
          end)
    /\ (forall b,
          body = Some b ->
          let mode := default "next" (AgentRequestBody.mode b) in
          let userId := trimmedOrEmpty (AgentRequestBody.userId b) in
          userId <> EmptyString ->
          mode <> "edit-plan" -> mode <> "generate-plan" -> mode <> "finalize" ->
          (mode <> "next" \/ AgentRequestBody.stream b = false) ->
          match generateNextCourseQuestion env models
                  (List.filter isValidMessage (AgentRequestBody.messages b))
                  (AgentRequestBody.bookAnalysis b) userId log with
          | (Ok next, log1) =>
              response = NextResponse mode (NextQuestionPayload.question next)
                           (NextQuestionPayload.readyToGenerate next)
                           (NextQuestionPayload.knownGaps next)
                           (NextQuestionPayload.requestingUpload next)
              /\ log' = log1
          | (Throw message, log1) => response = ErrorResponse 500 message /\ log' = log1
          end).
Proof.
  destruct (POST_cases env models files body log)
    as (response & log' & Hrun & Hnone & Herror & Hedit & Hkey).
  exists response, log'. split; [exact Hrun|]. split; [exact Hnone|].
  split.
  { intros status error ->. destruct (Herror status error eq_refl) as [[-> _]|Hfail].
    - left. split; [reflexivity|]. apply (POST_bad_request _ _ _ _ _ _ _ Hrun).
    - right. exact Hfail. }
  split; [exact Hedit|].
  split.
  { intros b analysis -> Hmode Huser Hanalysis.
    rewrite (POST_generate env models files b analysis log Huser Hmode Hanalysis) in Hrun.
    destruct (generateCoursePlan env models _ analysis _ log) as [[plan|message] log1];
      injection Hrun as <- <-; split; reflexivity. }
  split.
  { intros b coursePlan -> Hmode Huser Hcourse Hplan.
    rewrite (POST_finalize env models files b coursePlan log Huser Hmode Hcourse Hplan)
      in Hrun.
    destruct (writeCoursePlan files _ _ coursePlan) as [savedAt|message];
      injection Hrun as <- <-; split; reflexivity. }
  split.
  { intros b -> Huser Hmode Hstream.
    rewrite (POST_stream env models files b log Huser Hmode Hstream) in Hrun.
    destruct (generateNextCourseQuestion env models _ _ _ log) as [next log1].
    injection Hrun as <- <-. reflexivity. }
  split; [exact Hkey|].
  intros b -> mode userId Huser Hnot_edit Hnot_gen Hnot_fin Hnext.
  rewrite (POST_next env models files b log Huser Hnot_edit Hnot_gen Hnot_fin Hnext)
    in Hrun.
  fold mode userId in Hrun.
  destruct (generateNextCourseQuestion env models _ _ userId log) as [[next|message] log1];
    injection Hrun as <- <-; split; reflexivity.
Qed.

(* ------------------------------------------------------------------ *)
(** ** The upload route *)

Lemma extractPdfText_length (env : Env)
    (getTextContent : PdfDocument.t -> Z -> Result (list (option string)))
    (buffer : Buffer) (log : list Request) (extraction : PdfExtraction.t)
    (log' : list Request) :
  extractPdfText env getTextContent buffer log = (Ok extraction, log') ->
  log' = log
  /\ Js.len (PdfExtraction.pages extraction)
     = Z.max 0 (PdfExtraction.totalPages extraction).
Proof.
  unfold extractPdfText, bind at 1, await.
  destruct (getDocumentProxy env buffer) as [pdf|e]; [|discriminate].
  unfold bind, ret.
  destruct (extractPages getTextContent pdf (pageNumbers (PdfDocument.numPages pdf)) [] log)
    as [[pages|e] log1] eqn:Hpages; [|discriminate].
  intros [= <- <-]. apply extractPages_spec in Hpages as (-> & texts & -> & Hall).
  split; [reflexivity|]. simpl. unfold Js.len.
  rewrite <- (Forall2_length _ _ _ Hall). unfold pageNumbers.
  rewrite length_map, length_seq. lia.
Qed.

Lemma pagesUploaded_snoc (uploadedFiles : list UploadedFile.t) (file : UploadedFile.t) :
  pagesUploaded (uploadedFiles ++ [file])
  = pagesUploaded uploadedFiles + Z.max 0 (UploadedFile.totalPages file).
Proof.
  unfold pagesUploaded. induction uploadedFiles as [|u rest IH]; simpl; [lia|].
  rewrite IH. lia.
Qed.

(** The loop over the files. *)
Lemma processFiles_spec (env : Env) (store : UploadStore)
    (getTextContent : PdfDocument.t -> Z -> Result (list (option string)))
    (userId : string) (files : list FormEntry) :
  forall (uploadedFiles : list UploadedFile.t) (combinedPages : list string)
         (primaryBuffer : option Buffer) (log : list Request)
         (outcome : UploadResponse + UploadState) (log' : list Request),
    processFiles env store getTextContent userId files
      (uploadedFiles, combinedPages, primaryBuffer) log = (Ok outcome, log') ->
    (primaryBuffer = None -> uploadedFiles = []) ->
    Js.len combinedPages = pagesUploaded uploadedFiles ->
    log' = log
    /\ match outcome with
       | inl response => exists error, response = UploadError 400 error
       | inr (uploadedFiles', combinedPages', primaryBuffer') =>
           Forall acceptedEntry files
           /\ map (fun file => (UploadedFile.originalFilename file,
                                UploadedFile.sizeBytes file)) uploadedFiles'
              = map (fun file => (UploadedFile.originalFilename file,
                                  UploadedFile.sizeBytes file)) uploadedFiles
                ++ fileNamesAndSizes files
           /\ Js.len combinedPages' = pagesUploaded uploadedFiles'
           /\ (primaryBuffer' = None -> uploadedFiles' = [])
       end.
Proof.
  induction files as [|[name size arrayBuffer|value] rest IH];
    intros uploadedFiles combinedPages primaryBuffer log outcome log'; simpl.
  - intros [= <- <-] Hnone Hpages. split; [reflexivity|].
    split; [constructor|]. rewrite app_nil_r. auto.
  - destruct (endsWith (Js.toLowerCase name) ".pdf") eqn:Hname; decided.
    2:{ intros [= <- <-] _ _. split; [reflexivity|]. eexists. reflexivity. }
    destruct (Z.ltb_spec MAX_FILE_SIZE size) as [Hbig|Hsize].
    { intros [= <- <-] _ _. split; [reflexivity|]. eexists. reflexivity. }
    unfold bind at 1, await. destruct arrayBuffer as [buffer|e]; [|discriminate].
    unfold bind at 1.
    destruct (savePdfUpload store (Js.trim userId) name buffer) as [saved|e];
      [|discriminate].
    unfold bind at 1.
    destruct (extractPdfText env getTextContent buffer log) as [[extraction|e] log1]
      eqn:Hextract; [|discriminate].
    apply extractPdfText_length in Hextract as [-> Hlen].
    intros Hrun Hnone Hpages.
    assert (Hrest :
              exists combinedPages1 primaryBuffer1,
                processFiles env store getTextContent userId rest
                  (uploadedFiles
                   ++ [UploadedFile.mk name size (PdfExtraction.totalPages extraction)],
                   combinedPages1, primaryBuffer1) log = (Ok outcome, log')
                /\ primaryBuffer1 <> None
                /\ Js.len combinedPages1
                   = pagesUploaded
                       (uploadedFiles
                        ++ [UploadedFile.mk name size
                              (PdfExtraction.totalPages extraction)])).
    { rewrite pagesUploaded_snoc. simpl UploadedFile.totalPages.
      destruct primaryBuffer as [primary|].
      - exists (combinedPages ++ PdfExtraction.pages extraction), (Some primary).
        split; [exact Hrun|]. split; [discriminate|]. rewrite len_app. lia.
      - exists (PdfExtraction.pages extraction), (Some buffer).
        split; [exact Hrun|]. split; [discriminate|].
        rewrite (Hnone eq_refl). simpl. lia. }
    destruct Hrest as (combinedPages1 & primaryBuffer1 & Hrun1 & Hsome & Hpages1).
    apply IH in Hrun1 as [-> Hout]; [|intros H; contradiction|exact Hpages1].
    split; [reflexivity|].
    destruct outcome as [response|[[uploadedFiles' combinedPages'] primaryBuffer']];
      [exact Hout|].
    destruct Hout as (Hfiles & Hnames & Hcount & Hnone').
    split.
    { constructor; [|exact Hfiles]. simpl. split; [exact Hname|].
      unfold MAX_FILE_SIZE in Hsize. lia. }
    split; [|split; assumption].
    rewrite Hnames, map_app, <- app_assoc. reflexivity.
  - intros Hrun Hnone Hpages.
    apply IH in Hrun as [-> Hout]; [|exact Hnone|exact Hpages].
    split; [reflexivity|].
    destruct outcome as [response|[[uploadedFiles' combinedPages'] primaryBuffer']];
      [exact Hout|].
    destruct Hout as (Hfiles & Hnames & Hcount & Hnone').
    split; [constructor; [exact I|exact Hfiles]|]. split; [exact Hnames|]. split; assumption.
Qed.

Lemma detected_chapters_nonempty (env : Env) (buffer : Buffer) (pages : list string)
    (log : list Request) (structure : BookStructure.t) (log' : list Request) :
  detectBookStructure env buffer pages log = (Ok structure, log') ->
  pages <> [] -> BookStructure.chapters structure <> [].
Proof.
  intros Hrun Hpages. apply detectBookStructure_inv in Hrun.
  assert (Hlen : forall chapters : list ChapterBoundary.t,
             2 <= Js.len chapters -> chapters <> []).
  { intros [|c chapters]; [unfold Js.len; simpl; lia|discriminate]. }
  destruct Hrun as [chapters log1 meta log' Hlinks Hmany Hmeta
                   |links log1 r log' Hlinks Htitles Hmany
                   |links log1 titles log2 chapters log3 meta log' Hlinks Htitles Hsampled
                      Hmany Hmeta
                   |links log1 titles log2 sampled log3 meta log' Hlinks Htitles Hsampled
                      Hmeta]; simpl.
  - apply Hlen. lia.
  - apply Hlen. exact Hmany.
  - apply Hlen. exact Hmany.
  - intros Hnil. pose proof (fixedChunks_len pages) as Hcount. rewrite Hnil in Hcount.
    assert (1 <= Js.len pages) by (destruct pages; [contradiction|unfold Js.len; simpl; lia]).
    unfold ceilDiv, Js.len in Hcount. simpl length in Hcount.
    change (Z.of_nat 0) with 0 in Hcount. fold (Js.len pages) in Hcount. lia.
Qed.

Lemma analyzeBook_filled (env : Env) (buffer : Buffer) (pages : list string)
    (log : list Request) :
  exists book log',
    analyzeBook env buffer pages log = (Ok book, log')
    /\ AnalyzedBook.totalPages book = Js.len pages
    /\ (pages <> [] -> AnalyzedBook.chapters book <> [])
    /\ Forall is_Some (AnalyzedBook.chapters book).
Proof.
  destruct (detectBookStructure_returns env buffer pages log)
    as (structure & log1 & Hdetect).
  destruct (analyzeChaptersTraced_slots env structure pages log1)
    as (results & trace & Hrun & Hlen & Hidx & Hslots).
  eexists _, _. split.
  { unfold analyzeBook, bind at 1. rewrite Hdetect.
    unfold analyzeChaptersWithContext, bind. rewrite Hrun. reflexivity. }
  simpl. split; [reflexivity|]. split.
  - intros Hpages Hnil.
    apply (detected_chapters_nonempty _ _ _ _ _ _ Hdetect Hpages).
    apply length_zero_iff_nil. rewrite <- Hlen, Hnil. reflexivity.
  - apply Forall_lookup. intros i slot Hslot.
    pose proof (lookup_lt_Some _ _ _ Hslot) as Hi. rewrite Hlen in Hi.
    destruct (lookup_by_index Task.index trace _ i Hidx Hi) as (task & Htask & Hti).
    rewrite Forall_forall in Hslots.
    destruct (Hslots task (list_elem_of_lookup_2 _ _ _ Htask))
      as (_ & _ & fields & _ & _ & _ & _ & Hfilled).
    rewrite Hti, Hslot in Hfilled. injection Hfilled as ->. eexists. reflexivity.
Qed.

Lemma handleUpload_Ok (env : Env) (store : UploadStore)
    (getTextContent : PdfDocument.t -> Z -> Result (list (option string)))
    (formData : Result UploadForm.t) (now : Z) (log : list Request)
    (response : UploadResponse) (log' : list Request) :
  handleUpload env store getTextContent formData now log = (Ok response, log') ->
  match response with
  | UploadError status _ => status = 400 /\ log' = log
  | UploadOk courseId uploadedFiles book =>
      exists form userId,
        formData = Ok form
        /\ UploadForm.userId form = Some userId
        /\ Js.trim userId <> EmptyString
        /\ 1 <= Js.len (UploadForm.files form) <= 5
        /\ Forall acceptedEntry (UploadForm.files form)
        /\ courseId = "course_" +:+ Js.show now
        /\ map (fun file => (UploadedFile.originalFilename file,
                             UploadedFile.sizeBytes file)) uploadedFiles
           = fileNamesAndSizes (UploadForm.files form)
        /\ AnalyzedBook.totalPages book = pagesUploaded uploadedFiles
        /\ 0 < AnalyzedBook.totalPages book
        /\ AnalyzedBook.chapters book <> []
        /\ Forall is_Some (AnalyzedBook.chapters book)
  end.
Proof.
  unfold handleUpload, bind at 1, await.
  destruct formData as [form|e]; [|discriminate].
  destruct (UploadForm.userId form) as [userId|] eqn:Huser;
    [|intros [= <- <-]; split; reflexivity].
  destruct (truthy (Js.trim userId)) eqn:Htrim; decided;
    [|intros [= <- <-]; split; reflexivity].
  destruct (Z.eqb_spec (Js.len (UploadForm.files form)) 0) as [Hzero|Hfiles];
    [intros [= <- <-]; split; reflexivity|].
  destruct (Z.ltb_spec MAX_FILES (Js.len (UploadForm.files form))) as [Hmany|Hfew];
    [intros [= <- <-]; split; reflexivity|].
  cbv zeta. intros Hrun. apply bind_inv in Hrun as (outcome & log1 & Hloop & Hrun).
  apply processFiles_spec in Hloop as [-> Hout]; [|reflexivity|reflexivity].
  destruct outcome as [early|[[uploadedFiles combinedPages] primaryBuffer]].
  { destruct Hout as [error ->]. injection Hrun as <- <-. split; reflexivity. }
  destruct Hout as (Haccepted & Hnames & Hcount & _).
  destruct primaryBuffer as [buffer|]; [|injection Hrun as <- <-; split; reflexivity].
  destruct (Z.eqb_spec (Js.len combinedPages) 0) as [Hempty|Hpages];
    [injection Hrun as <- <-; split; reflexivity|].
  apply bind_inv in Hrun as (savedText & log2 & _ & Hrun).
  apply bind_inv in Hrun as (book & log3 & Hbook & Hrun).
  apply bind_inv in Hrun as (savedAnalysis & log4 & _ & Hrun).
  injection Hrun as <- <-.
  destruct (analyzeBook_filled env buffer combinedPages log2)
    as (book' & log3' & Hbook' & Htotal & Hchapters & Hfilled).
  rewrite Hbook' in Hbook. injection Hbook as -> ->.
  exists form, userId. split; [reflexivity|]. split; [exact Huser|].
  split; [apply truthy_nonempty; exact Htrim|].
  pose proof (len_nonneg (UploadForm.files form)) as Hnonneg.
  pose proof (len_nonneg combinedPages) as Hnonneg'.
  unfold MAX_FILES in Hfew.
  split; [lia|]. split; [exact Haccepted|]. split; [reflexivity|].
  split; [exact Hnames|]. split; [congruence|]. split; [lia|].
  split; [|exact Hfilled].
  apply Hchapters. intros ->. apply Hpages. reflexivity.
Qed.

(** X28. The responses of the upload.  The handler never fails: its
    error responses have the status 400 (nothing has then been asked of
    the model) or, for whatever was raised on the way, 500.  A successful
    upload means: a user id that is not blank, one to five form entries,
    every file among them named [.pdf] (in any case) and of at most
    67,108,864 bytes; one uploaded-file record per file, in order, with
    its name and size; and a book analysis whose [totalPages] is the
    number of pages of all uploaded files together and positive, with at
    least one chapter and no hole among its chapters.  A first file of
    more than 67,108,864 bytes is refused with the message that it
    exceeds the 32 MB limit. *)
Theorem upload_route_responses (env : Env) (store : UploadStore)
    (getTextContent : PdfDocument.t -> Z -> Result (list (option string)))
    (formData : Result UploadForm.t) (now : Z) (log : list Request) :
  exists response log',
    uploadPOST env store getTextContent formData now log = (Ok response, log')
    /\ match response with
       | UploadError status _ => status = 400 /\ log' = log \/ status = 500
       | UploadOk courseId uploadedFiles book =>
           exists form userId,
             formData = Ok form
             /\ UploadForm.userId form = Some userId
             /\ Js.trim userId <> EmptyString
             /\ 1 <= Js.len (UploadForm.files form) <= 5
             /\ Forall acceptedEntry (UploadForm.files form)
             /\ courseId = "course_" +:+ Js.show now
             /\ map (fun file => (UploadedFile.originalFilename file,
                                  UploadedFile.sizeBytes file)) uploadedFiles
                = fileNamesAndSizes (UploadForm.files form)
             /\ AnalyzedBook.totalPages book = pagesUploaded uploadedFiles
             /\ 0 < AnalyzedBook.totalPages book
             /\ AnalyzedBook.chapters book <> []
             /\ Forall is_Some (AnalyzedBook.chapters book)
       end
    /\ (forall form userId name size arrayBuffer rest,
          formData = Ok form ->
          UploadForm.userId form = Some userId ->
          Js.trim userId <> EmptyString ->
          UploadForm.files form = FileEntry name size arrayBuffer :: rest ->
          Js.len rest < 5 ->
          endsWith (Js.toLowerCase name) ".pdf" = true ->
          67108864 < size ->
          response = UploadError 400
                       (dquote +:+ name +:+ dquote +:+ " exceeds the 32 MB limit.")).
Proof.
  unfold uploadPOST.
  destruct (handleUpload env store getTextContent formData now log)
    as [[response|message] log1] eqn:Hrun.
  - exists response, log1. split; [reflexivity|].
    split.
    + pose proof (handleUpload_Ok _ _ _ _ _ _ _ _ Hrun) as Hok.
      destruct response as [status error|courseId uploadedFiles book];
        [left; exact Hok|exact Hok].
    + intros form userId name size arrayBuffer rest -> Huser Htrim Hfiles Hfew Hname Hbig.
      revert Hrun. unfold handleUpload, bind at 1, await. rewrite Huser.
      apply truthy_nonempty in Htrim. rewrite Htrim. decided. rewrite Hfiles.
      pose proof (len_nonneg rest) as Hrest.
      assert (Hlen : Js.len (FileEntry name size arrayBuffer :: rest) = Js.len rest + 1).
      { unfold Js.len. simpl length. lia. }
      rewrite Hlen.
      destruct (Z.eqb_spec (Js.len rest + 1) 0) as [Hzero|_]; [lia|].
      unfold MAX_FILES.
      destruct (Z.ltb_spec 5 (Js.len rest + 1)) as [Hmany|_]; [lia|].
      cbv zeta. unfold bind. simpl processFiles. rewrite Hname. decided.
      unfold MAX_FILE_SIZE.
      destruct (Z.ltb_spec (64 * 1024 * 1024) size) as [_|Hsmall]; [|lia].
      intros [= <- _]. reflexivity.
  - exists (UploadError 500 message), log1. split; [reflexivity|].
    split; [right; reflexivity|].
    intros form userId name size arrayBuffer rest -> Huser Htrim Hfiles Hfew Hname Hbig.
    exfalso. revert Hrun. unfold handleUpload, bind at 1, await. rewrite Huser.
    apply truthy_nonempty in Htrim. rewrite Htrim. decided. rewrite Hfiles.
    pose proof (len_nonneg rest) as Hrest.
    assert (Hlen : Js.len (FileEntry name size arrayBuffer :: rest) = Js.len rest + 1).
    { unfold Js.len. simpl length. lia. }
    rewrite Hlen.
    destruct (Z.eqb_spec (Js.len rest + 1) 0) as [Hzero|_]; [lia|].
    unfold MAX_FILES.
    destruct (Z.ltb_spec 5 (Js.len rest + 1)) as [Hmany|_]; [lia|].
    cbv zeta. unfold bind. simpl processFiles. rewrite Hname. decided.
    unfold MAX_FILE_SIZE.
    destruct (Z.ltb_spec (64 * 1024 * 1024) size) as [_|Hsmall]; [|lia].
    discriminate.
Qed.

(* ------------------------------------------------------------------ *)
(** ** The shape of every detected structure *)

(** Chapters made by filling the end pages of sorted start pages. *)
Lemma fillEndPages_shape (lastEnd : Z) (starts : list (string * Z)) :
  StronglySorted (keyLe snd) starts ->
  let chapters := fillEndPages lastEnd starts in
  (forall c, last chapters = Some c -> ChapterBoundary.endPage c = lastEnd)
  /\ Adjacent chapters
  /\ (WellFormed chapters
      <-> NoDup (map ChapterBoundary.startPage chapters)
          /\ forall c, last chapters = Some c -> ChapterBoundary.startPage c <= lastEnd).
Proof.
  intros Hsorted chapters. subst chapters.
  split; [intros c Hc; apply fillEndPages_last in Hc; apply Hc|].
  split; [apply fillEndPages_adjacent|].
  split.
  - intros Hwell. pose proof (wellFormed_increasing _ Hwell) as Hincreasing.
    split; [apply increasing_NoDup; exact Hincreasing|].
    assert (Hstrict : StronglySorted (fun a b => snd a < snd b) starts).
    { apply sorted_NoDup_increasing; [exact Hsorted|].
      rewrite <- (fillEndPages_starts lastEnd). apply increasing_NoDup. exact Hincreasing. }
    apply (fillEndPages_wellFormed_iff lastEnd starts Hstrict). exact Hwell.
  - intros [Hnodup Hlast].
    assert (Hstrict : StronglySorted (fun a b => snd a < snd b) starts).
    { apply sorted_NoDup_increasing; [exact Hsorted|].
      rewrite <- (fillEndPages_starts lastEnd). exact Hnodup. }
    apply (fillEndPages_wellFormed_iff lastEnd starts Hstrict). exact Hlast.
Qed.

Lemma fixedChunks_closed (pages : list string) :
  fixedChunks pages
  = map (fun k => fixedChunk (Js.len pages) (Z.of_nat k))
      (seq 0 (Z.to_nat (ceilDiv (Js.len pages) 30))).
Proof.
  unfold fixedChunks.
  pose proof (fixedChunksFrom_closed (length pages) 0 (Js.len pages)) as H.
  change (30 * Z.of_nat 0) with 0 in H. simpl map in H. simpl Nat.max in H.
  apply H. unfold Js.len. lia.
Qed.

Lemma fixedChunks_shape (pages : list string) :
  let chapters := fixedChunks pages in
  (forall c, last chapters = Some c -> ChapterBoundary.endPage c = Js.len pages - 1)
  /\ Adjacent chapters
  /\ (WellFormed chapters
      <-> NoDup (map ChapterBoundary.startPage chapters)
          /\ forall c, last chapters = Some c ->
                       ChapterBoundary.startPage c <= Js.len pages - 1).
Proof.
  intros chapters. subst chapters.
  pose proof (len_nonneg pages) as Hn.
  set (n := Js.len pages) in *.
  assert (Hlookup : forall i c,
             fixedChunks pages !! i = Some c ->
             c = fixedChunk n (Z.of_nat i) /\ 30 * Z.of_nat i < n).
  { intros i c. rewrite fixedChunks_closed. fold n.
    change (map ?f ?l) with (f <$> l). rewrite list_lookup_fmap.
    destruct (seq 0 (Z.to_nat (ceilDiv n 30)) !! i) as [k|] eqn:Hk; [|discriminate].
    apply lookup_seq in Hk as [-> Hk]. simpl. intros [= <-].
    split; [reflexivity|]. unfold ceilDiv in Hk. lia. }
  assert (Hcount : length (fixedChunks pages) = Z.to_nat (ceilDiv n 30)).
  { rewrite fixedChunks_closed. fold n. rewrite length_map, length_seq. reflexivity. }
  assert (Hlast : forall c, last (fixedChunks pages) = Some c ->
                            ChapterBoundary.endPage c = n - 1).
  { intros c. rewrite last_lookup. intros Hc.
    pose proof (lookup_lt_Some _ _ _ Hc) as Hlt.
    apply Hlookup in Hc as [-> Hi]. unfold fixedChunk. simpl.
    rewrite Hcount in *. unfold ceilDiv in *. lia. }
  split; [exact Hlast|].
  split.
  { intros i a b Ha Hb. apply Hlookup in Ha as [-> _]. apply Hlookup in Hb as [-> Hb].
    unfold fixedChunk. simpl. lia. }
  pose proof (fixedChunks_wellFormed pages) as Hwell.
  split; [|intros _; exact Hwell].
  intros _. split; [apply increasing_NoDup, wellFormed_increasing; exact Hwell|].
  intros c Hc. pose proof (Hlast c Hc) as Hend.
  destruct Hwell as (_ & _ & Hranges). rewrite Forall_forall in Hranges.
  specialize (Hranges c (last_Some_elem_of _ _ Hc)). unfold rangeOk in Hranges. lia.
Qed.

Lemma detectFromPdfLinks_inv (env : Env) (buffer : Buffer) (log : list Request)
    (chapters : list ChapterBoundary.t) (log' : list Request) :
  detectFromPdfLinks env buffer log = (Ok (Some chapters), log') ->
  exists pdf links,
    getDocumentProxy env buffer = Ok pdf
    /\ chapters
       = fillEndPages (PdfDocument.numPages pdf - 1)
           (map (fun link => (Link.text link, Link.destPage link))
              (dedupByDest [] (Js.sortBy Link.destPage links))).
Proof.
  unfold detectFromPdfLinks, tryCatch, bind at 1, await.
  destruct (getDocumentProxy env buffer) as [pdf|e]; [|discriminate].
  cbv zeta. unfold bind.
  destruct (collectLinks pdf (pageNumbers (Z.min 15 (PdfDocument.numPages pdf))) [] log)
    as [[links|e] log1]; [|discriminate].
  destruct (Js.len links <? 3); [discriminate|].
  destruct (Js.len (dedupByDest [] (Js.sortBy Link.destPage links)) <? 3); [discriminate|].
  intros [= <- _]. exists pdf, links. split; reflexivity.
Qed.

(** X29. The shape of every detected structure.  In the structure
    [detectBookStructure] returns, whatever the tier, each chapter ends
    one page before the next one starts and the last chapter ends on the
    last page: the last page of the document for the link tier, of the
    page list for the others.  For the link tier, the title tier and the
    fixed chunks, whose start pages are page indices of the document, the
    chapters are sorted, disjoint ranges with [endPage >= startPage]
    exactly when no two of them start on the same page and the last one
    starts no later than the last page. *)
Theorem detected_structure_shape (env : Env) (buffer : Buffer) (pages : list string)
    (log : list Request) (structure : BookStructure.t) (log' : list Request) :
  detectBookStructure env buffer pages log = (Ok structure, log') ->
  let chapters := BookStructure.chapters structure in
  exists lastPage,
    match BookStructure.detectionMethod structure with
    | pdf_links =>
        exists pdf,
          getDocumentProxy env buffer = Ok pdf /\ lastPage = PdfDocument.numPages pdf - 1
    | _ => lastPage = Js.len pages - 1
    end
    /\ (forall c, last chapters = Some c -> ChapterBoundary.endPage c = lastPage)
    /\ Adjacent chapters
    /\ (BookStructure.detectionMethod structure <> llm_detection ->
        (WellFormed chapters
         <-> NoDup (map ChapterBoundary.startPage chapters)
             /\ forall c, last chapters = Some c ->
                          ChapterBoundary.startPage c <= lastPage)).
Proof.
  intros Hrun chapters. subst chapters. apply detectBookStructure_inv in Hrun.
  assert (Hexcept : forall P Q R H : Prop, P /\ Q /\ R -> P /\ Q /\ (H -> R)).
  { intros P Q R H (HP & HQ & HR). auto. }
  destruct Hrun as [chapters log1 meta log' Hlinks Hmany Hmeta
                   |links log1 r log' Hlinks Htitles Hmany
                   |links log1 titles log2 chapters log3 meta log' Hlinks Htitles Hsampled
                      Hmany Hmeta
                   |links log1 titles log2 sampled log3 meta log' Hlinks Htitles Hsampled
                      Hmeta]; simpl.
  - apply detectFromPdfLinks_inv in Hlinks as (pdf & found & Hpdf & ->).
    exists (PdfDocument.numPages pdf - 1).
    split; [exists pdf; split; [exact Hpdf|reflexivity]|].
    apply Hexcept, fillEndPages_shape.
    apply (sorted_map_key (fun link => (Link.text link, Link.destPage link)) snd).
    apply dedupByDest_sorted. apply (sortBy_sorted Link.destPage).
  - apply detectFromTitleMatching_inv in Htitles as (_ & _ & toc & _ & ->).
    exists (Js.len pages - 1). split; [reflexivity|]. simpl.
    apply Hexcept, fillEndPages_shape.
    apply (sorted_map_key (fun c => (ChapterBoundary.title c, ChapterBoundary.startPage c))
             snd).
    apply (sortBy_sorted ChapterBoundary.startPage).
  - apply detectFromLlmSampling_inv in Hsampled as (_ & _ & _ & result & _ & _ & ->).
    exists (Js.len pages - 1). split; [reflexivity|].
    assert (Hfill :
              forall starts,
                let chapters := fillEndPages (Js.len pages - 1) starts in
                (forall c, last chapters = Some c ->
                           ChapterBoundary.endPage c = Js.len pages - 1)
                /\ Adjacent chapters
                /\ (llm_detection <> llm_detection ->
                    (WellFormed chapters
                     <-> NoDup (map ChapterBoundary.startPage chapters)
                         /\ forall c, last chapters = Some c ->
                                      ChapterBoundary.startPage c <= Js.len pages - 1))).
    { intros starts.
      split; [intros c Hc; apply fillEndPages_last in Hc; apply Hc|].
      split; [apply fillEndPages_adjacent|]. intros Hne. contradiction. }
    destruct (newRegExp env (SamplingObject.pattern result)) as [regex|];
      [|apply Hfill].
    destruct (2 <=? Js.len (scanPattern regex 0 pages)); apply Hfill.
  - exists (Js.len pages - 1). split; [reflexivity|]. apply Hexcept, fixedChunks_shape.
Qed.

(** The algebra book: its two chapters start on the same page, so they
    are not well formed. *)
Lemma detected_structure_shape_witness :
  exists lastPage,
    lastPage = Js.len algebraPages - 1
    /\ Adjacent [ChapterBoundary.mk "Linear Equations" 0 (-1);
                 ChapterBoundary.mk "Quadratic Equations" 0 2]
    /\ ~ WellFormed [ChapterBoundary.mk "Linear Equations" 0 (-1);
                     ChapterBoundary.mk "Quadratic Equations" 0 2].
Proof.
  destruct (detected_structure_shape algebraEnv [] algebraPages []
              (BookStructure.mk "Algebra Basics" None
                 [ChapterBoundary.mk "Linear Equations" 0 (-1);
                  ChapterBoundary.mk "Quadratic Equations" 0 2] title_match)
              (snd (detectBookStructure algebraEnv [] algebraPages [])))
    as (lastPage & Hlast & _ & Hadjacent & Hiff).
  - vm_compute. reflexivity.
  - exists lastPage. split; [exact Hlast|]. split; [exact Hadjacent|].
    intros Hwell. apply Hiff in Hwell as [Hnodup _]; [|discriminate].
    simpl in Hnodup. apply NoDup_cons in Hnodup as [Hnotin _].
    apply Hnotin. apply elem_of_cons. left. reflexivity.
Defined.
